(** * Newton-Krylov_OOC: spatial axis and tracer module state

    A shallow embedding of

    - [src/test_problem/spatial_axis.py]
      ([SpatialAxis], [_gen_edges], [spatial_axis_defn_dict]),
    - [src/test_problem/tracer_module_state.py] and
    - [src/cime_pop/tracer_module_state.py]
      ([TracerModuleState._read_vals], [dump], [hist_time_mean_weights],
      [write_hist_vars]).

    Numbers.  Python and numpy floats are read twice.  The definitions
    of the first part take them as exact rationals ([Q], compared with
    [==]): a theorem over them that equates or orders computed numbers is
    a statement of exact arithmetic, without rounding, overflow or nan,
    and says so.  Module [B64] reads the numeric code again with the
    binary64 operations of the machine, and module [Rounding] evaluates
    it where the two readings part.  Shapes, lengths, names and
    exceptions do not depend on the reading.  Division by zero keeps the
    two behaviours of the source: a Python scalar division raises
    [ZeroDivisionError], a numpy array division yields an infinity.

    Errors.  A Python function that may raise returns a [result]; a
    method that also acts on an open netCDF handle is a function from the
    handle to a [result] paired with the handle as the call left it. *)

From Stdlib Require Import List String Ascii ZArith QArith Qminmax.
From Stdlib Require Import DecimalString.
From Stdlib Require PrimFloat FloatOps SpecFloat.
From Stdlib Require Import Arith Lia Lra Psatz Bool Setoid Morphisms.
Import ListNotations.

Local Open Scope string_scope.
Local Open Scope Z_scope.
Local Open Scope Q_scope.
Local Open Scope list_scope.

(** String concatenation, Python's [+] on [str]. *)
Infix "+++" := String.append (at level 60, right associativity).

(** ** Python exceptions and results *)

Module Py.

(** The argument an exception was raised with: a message string, or the
    tuple the two [dump] methods build with [msg = "...", action]. *)
Inductive exn_arg : Type :=
| Msg (s : string)
| Tuple (items : list string).

Inductive exn : Type :=
| ValueError (a : exn_arg)
| KeyError (key : string)
| IndexError (a : exn_arg)
| AttributeError (name : string)
| ZeroDivisionError
| FileNotFoundError (fname : string)
| RuntimeError (a : exn_arg)
| NotImplementedError (a : exn_arg).

Inductive result (A : Type) : Type :=
| OK (a : A)
| Raise (e : exn).

Arguments OK {A} a.
Arguments Raise {A} e.

Definition bind {A B} (r : result A) (k : A -> result B) : result B :=
  match r with
  | OK a => k a
  | Raise e => Raise e
  end.

(** ["%s" % n] for an int *)
Definition str_of_int (n : Z) : string := NilZero.string_of_int (Z.to_int n).

(** [for x in xs: body(x)] for a body that returns a value or raises. *)
Fixpoint mapM {A B} (f : A -> result B) (xs : list A) : result (list B) :=
  match xs with
  | [] => OK []
  | x :: xs' =>
      bind (f x) (fun y => bind (mapM f xs') (fun ys => OK (y :: ys)))
  end.

(** [for x in xs: body(x)] for a body run for its checks only. *)
Fixpoint for_each {A} (xs : list A) (body : A -> result unit) : result unit :=
  match xs with
  | [] => OK tt
  | x :: xs' => bind (body x) (fun _ => for_each xs' body)
  end.

(** [enumerate(xs)] *)
Definition enumerate {A} (xs : list A) : list (nat * A) :=
  combine (seq 0 (List.length xs)) xs.

End Py.

Import Py.

Notation "'let*' x ':=' r 'in' k" := (Py.bind r (fun x => k))
  (at level 10, x name, r at level 100, k at level 200).


(** ** numpy on one-dimensional arrays of exact numbers *)

Module Np.

Definition of_nat (i : nat) : Q := inject_Z (Z.of_nat i).

(** [np.linspace(start, stop, num)] with the default [endpoint=True]:
    [div = num - 1], [step = (stop - start) / div] and
    [y = arange(num) * step + start] when [div > 0]; a single sample is
    [start]; a negative [num] raises [ValueError].  numpy then stores
    [stop] in the last slot, which in exact arithmetic is the value the
    formula gives already (lemma [linspace_last]). *)
Definition linspace (start stop : Q) (num : Z) : result (list Q) :=
  if (num <? 0)%Z then
    Raise (ValueError (Msg ("Number of samples, " +++ str_of_int num
                            +++ ", must be non-negative.")))
  else
    let div := (num - 1)%Z in
    let delta := stop - start in
    let arange := map of_nat (seq 0 (Z.to_nat num)) in
    if (0 <? div)%Z then
      let step := delta / inject_Z div in
      OK (map (fun i => i * step + start) arange)
    else
      OK (map (fun i => i * delta + start) arange).

(** [a.cumsum()] *)
Fixpoint cumsum_from (acc : Q) (a : list Q) : list Q :=
  match a with
  | [] => []
  | x :: a' => (acc + x) :: cumsum_from (acc + x) a'
  end.

Definition cumsum (a : list Q) : list Q :=
  match a with
  | [] => []
  | x :: a' => x :: cumsum_from x a'
  end.

(** [a.sum()] *)
Definition sum (a : list Q) : Q := fold_right Qplus 0 a.

(** [a.max()] and [a.min()]; numpy raises on an empty array. *)
Definition max (a : list Q) : result Q :=
  match a with
  | [] => Raise (ValueError (Msg "zero-size array to reduction operation maximum which has no identity"))
  | x :: a' => OK (fold_left Qmax a' x)
  end.

Definition min (a : list Q) : result Q :=
  match a with
  | [] => Raise (ValueError (Msg "zero-size array to reduction operation minimum which has no identity"))
  | x :: a' => OK (fold_left Qmin a' x)
  end.

(** [a[1:]] and [a[:-1]] *)
Definition drop_first (a : list Q) : list Q := tl a.
Definition drop_last (a : list Q) : list Q := removelast a.

(** Elementwise binary operation on arrays of one shape.  The uses below
    combine [a[1:]] with [a[:-1]], which always have one length. *)
Fixpoint zip_with (f : Q -> Q -> Q) (a b : list Q) : list Q :=
  match a, b with
  | x :: a', y :: b' => f x y :: zip_with f a' b'
  | _, _ => []
  end.

(** [np.ediff1d(a)]: [a[1:] - a[:-1]] *)
Definition ediff1d (a : list Q) : list Q :=
  zip_with Qminus (drop_first a) (drop_last a).

(** A numpy float that may have left the rationals: numpy divides by zero
    without raising and stores an infinity (or nan for [0/0]). *)
Inductive xfloat : Type :=
| Finite (q : Q)
| Inf
| NaN.

(** [1.0 / a], elementwise *)
Definition recip (x : Q) : xfloat :=
  if Qeq_bool x 0 then Inf else Finite (1 / x).

Definition is_finite (x : xfloat) : bool :=
  match x with Finite _ => true | _ => false end.

(** [np.interp(x, xp, fp)] for sample points [xp] that do not decrease.
    Left of the first sample point the value is the first of [fp].
    Otherwise numpy looks for the last sample point that is not greater
    than [x] (it moves on while [x >= xp[i]]): at or beyond the last one
    the value is the last of [fp], at a sample point it is the [fp] of
    that point (of the last of them when the point is repeated), and in
    between it is on the chord to the next point. *)
Fixpoint interp_from (x x0 f0 : Q) (xp fp : list Q) : Q :=
  match xp, fp with
  | x1 :: xp', f1 :: fp' =>
      if Qle_bool x1 x then interp_from x x1 f1 xp' fp'
      else if Qeq_bool x0 x then f0
      else (f1 - f0) / (x1 - x0) * (x - x0) + f0
  | _, _ => f0
  end.

Definition interp (x xp fp : list Q) : result (list Q) :=
  match xp, fp with
  | [], _ => Raise (ValueError (Msg "array of sample points is empty"))
  | x0 :: xp', f0 :: fp' =>
      if (List.length xp' =? List.length fp')%nat then
        OK (map (fun xi => if Qle_bool x0 xi
                           then interp_from xi x0 f0 xp' fp'
                           else f0) x)
      else Raise (ValueError (Msg "fp and xp are not of the same length."))
  | _ :: _, [] =>
      Raise (ValueError (Msg "fp and xp are not of the same length."))
  end.

End Np.

(** ** [spatial_axis.py]

    The numbers are exact rationals here; [B64._gen_edges] and
    [B64.derive] read the same lines in binary64. *)

(** The [defn_dict] that [SpatialAxis.__init__] documents: every required
    key present with its ["value"] set ([axisname], [units] strings,
    [nlevs] an int, the other three floats). *)
Record defn_dict : Type := {
  axisname : string;
  units : string;
  nlevs : Z;
  edge_start : Q;
  edge_end : Q;
  delta_ratio_max : Q
}.

(** The polynomial stretching function of [_gen_edges], at one sample. *)
Definition stretch_fcn (coord : Q) : Q :=
  (1 # 8) * coord * (15 + coord * coord * (3 * coord * coord - 10)).

(** [delta_avg = (1.0 / nlevs) * (edge_end - edge_start)]: a Python scalar
    division, which raises on [nlevs == 0]. *)
Definition gen_delta_avg (d : defn_dict) : result Q :=
  if (nlevs d =? 0)%Z then Raise ZeroDivisionError
  else OK ((1 / inject_Z (nlevs d)) * (edge_end d - edge_start d)).

(** The local [delta] of [_gen_edges], with the checks that precede it in
    program order. *)
Definition gen_delta (d : defn_dict) : result (list Q) :=
  let* coord := Np.linspace (-1) 1 (nlevs d) in
  let stretch := map stretch_fcn coord in
  let* delta_avg := gen_delta_avg d in
  if Qlt_le_dec (delta_ratio_max d) 1 then
    Raise (ValueError (Msg "delta_ratio_max must be >= 1.0"))
  else
    let stretch_factor :=
      delta_avg * (delta_ratio_max d - 1) / (delta_ratio_max d + 1) in
    OK (map (fun s => delta_avg + stretch_factor * s) stretch).

(** [_gen_edges(defn_dict)] *)
Definition _gen_edges (d : defn_dict) : result (list Q) :=
  let* delta := gen_delta d in
  OK (edge_start d :: map (fun c => edge_start d + c) (Np.cumsum delta)).

(** ** netCDF datasets

    What the source uses of a [netCDF4.Dataset]: file-level attributes,
    named dimensions with their lengths, and named variables, each with
    its dimension names, its string attributes and its values in row-major
    order.  The three mappings are Python dicts: ordered by insertion, one
    entry per key. *)

Module Nc.

Definition dict (V : Type) : Type := list (string * V).

Fixpoint get {V} (d : dict V) (key : string) : option V :=
  match d with
  | [] => None
  | (k, v) :: d' => if String.eqb k key then Some v else get d' key
  end.

Definition mem {V} (d : dict V) (key : string) : bool :=
  match get d key with Some _ => true | None => false end.

(** [d[key] = v]: an existing key keeps its place, a new one goes last. *)
Fixpoint set {V} (d : dict V) (key : string) (v : V) : dict V :=
  match d with
  | [] => [(key, v)]
  | (k, w) :: d' =>
      if String.eqb k key then (k, v) :: d' else (k, w) :: set d' key v
  end.

(** [d1 == d2] on dicts: the same keys with equal values, in any order. *)
Definition dict_eqb {V} (eqb : V -> V -> bool) (d1 d2 : dict V) : bool :=
  (List.length d1 =? List.length d2)%nat
  && forallb (fun kv => match get d2 (fst kv) with
                        | Some v => eqb (snd kv) v
                        | None => false
                        end) d1.

Definition keys {V} (d : dict V) : list string := map fst d.
Definition values {V} (d : dict V) : list V := map snd d.

Record variable : Type := {
  var_dimensions : list string;
  var_attrs : dict string;
  var_data : list Q
}.

Record dataset : Type := {
  ds_attrs : dict string;
  ds_dimensions : dict nat;
  ds_variables : dict variable
}.

(** [fptr.variables[name]] *)
Definition lookup_var (fptr : dataset) (name : string) : result variable :=
  match get (ds_variables fptr) name with
  | Some v => OK v
  | None => Raise (KeyError name)
  end.

(** [len(fptr.dimensions[name])] *)
Definition dim_len (fptr : dataset) (name : string) : result nat :=
  match get (ds_dimensions fptr) name with
  | Some n => OK n
  | None => Raise (KeyError name)
  end.

(** [var.<attr>] for a variable attribute *)
Definition var_attr (v : variable) (name : string) : result string :=
  match get (var_attrs v) name with
  | Some s => OK s
  | None => Raise (AttributeError name)
  end.

(** *** Acting on an open handle

    A method that is given an open handle returns its result, or the
    exception it raised, together with the handle as it stands then: what
    was defined or written before an exception stays. *)

Definition io (A : Type) : Type := dataset -> result A * dataset.

Definition ret {A} (a : A) : io A := fun fptr => (OK a, fptr).

Definition raise {A} (e : exn) : io A := fun fptr => (Raise e, fptr).

Definition bind_io {A B} (m : io A) (k : A -> io B) : io B :=
  fun fptr =>
    match m fptr with
    | (OK a, fptr') => k a fptr'
    | (Raise e, fptr') => (Raise e, fptr')
    end.

(** A computation that only reads the handle. *)
Definition reading {A} (f : dataset -> result A) : io A :=
  fun fptr => (f fptr, fptr).

(** [for x in xs: body(x)] *)
Fixpoint for_each {A} (xs : list A) (body : A -> io unit) : io unit :=
  match xs with
  | [] => ret tt
  | x :: xs' => bind_io (body x) (fun _ => for_each xs' body)
  end.

(** The value netCDF stores in a new double variable until it is written. *)
Definition default_fill : Q := inject_Z (9969209968386869 * 10 ^ 21).

(** [fptr.createDimension(name, len)]; netCDF refuses a name in use. *)
Definition createDimension (name : string) (len : nat) : io unit :=
  fun fptr =>
    if mem (ds_dimensions fptr) name then
      (Raise (RuntimeError (Msg "NetCDF: String match to name in use")), fptr)
    else
      (OK tt,
       {| ds_attrs := ds_attrs fptr;
          ds_dimensions := set (ds_dimensions fptr) name len;
          ds_variables := ds_variables fptr |}).

(** Lengths of the named dimensions, in order; an unknown name is a
    [KeyError]. *)
Definition dim_lens (fptr : dataset) (names : list string)
    : result (list nat) :=
  mapM (dim_len fptr) names.

(** [fptr.createVariable(name, "f8", dimensions=dims)], with attributes
    set afterwards. *)
Definition createVariable (name : string) (dims : list string)
    (attrs : dict string) : io unit :=
  fun fptr =>
    if mem (ds_variables fptr) name then
      (Raise (RuntimeError (Msg "NetCDF: String match to name in use")), fptr)
    else
      match dim_lens fptr dims with
      | Raise e => (Raise e, fptr)
      | OK lens =>
          (OK tt,
           {| ds_attrs := ds_attrs fptr;
              ds_dimensions := ds_dimensions fptr;
              ds_variables :=
                set (ds_variables fptr) name
                  {| var_dimensions := dims;
                     var_attrs := attrs;
                     var_data :=
                       repeat default_fill (fold_right Nat.mul 1%nat lens) |} |})
      end.

Definition with_data (v : variable) (vals : list Q) : variable :=
  {| var_dimensions := var_dimensions v;
     var_attrs := var_attrs v;
     var_data := vals |}.

(** The handle after [fptr.variables[name][:] = vals] on a variable that
    exists. *)
Definition store (fptr : dataset) (name : string) (vals : list Q) : dataset :=
  match get (ds_variables fptr) name with
  | Some v =>
      {| ds_attrs := ds_attrs fptr;
         ds_dimensions := ds_dimensions fptr;
         ds_variables := set (ds_variables fptr) name (with_data v vals) |}
  | None => fptr
  end.

(** [fptr.variables[name][:] = vals]: the values replace the variable's;
    an undefined variable is a [KeyError]. *)
Definition assign (name : string) (vals : list Q) : io unit :=
  fun fptr =>
    if mem (ds_variables fptr) name then (OK tt, store fptr name vals)
    else (Raise (KeyError name), fptr).

(** Replace every [ncols]-th value starting at [col] by the next of
    [vals]: column [col] of row-major data with [ncols] columns. *)
Fixpoint put_column (ncols col : nat) (vals data : list Q) (pos : nat)
    : list Q :=
  match data with
  | [] => []
  | x :: data' =>
      if (Nat.modulo pos ncols =? col)%nat then
        match vals with
        | v :: vals' => v :: put_column ncols col vals' data' (S pos)
        | [] => x :: put_column ncols col [] data' (S pos)
        end
      else x :: put_column ncols col vals data' (S pos)
  end.

(** [fptr.variables[name][:, col] = vals] on a two-column variable *)
Definition assign_column (name : string) (col : nat) (vals : list Q)
    : io unit :=
  fun fptr =>
    match get (ds_variables fptr) name with
    | Some v => (OK tt, store fptr name (put_column 2 col vals (var_data v) 0))
    | None => (Raise (KeyError name), fptr)
    end.

(** The files [Dataset(fname, mode="r")] can open. *)
Definition filesystem : Type := string -> option dataset.

Definition open_read (fs : filesystem) (fname : string) : result dataset :=
  match fs fname with
  | Some ds => OK ds
  | None => Raise (FileNotFoundError fname)
  end.

End Nc.

(** [spatial_axis_defn_dict(axisname)] as [SpatialAxis.__init__] calls it:
    no keyword overrides.  Only the ["depth"] axis has defaults; for any
    other name the first key whose value is still [None] is reported
    ([axisname] itself when the name is [None], [units] otherwise). *)
Definition spatial_axis_defn_dict (name : option string) : result defn_dict :=
  match name with
  | None => Raise (ValueError (Msg "value for key axisname not set"))
  | Some n =>
      if String.eqb n "depth" then
        OK {| axisname := n; units := "m"; nlevs := 30%Z;
              edge_start := 0; edge_end := 900; delta_ratio_max := 5 |}
      else Raise (ValueError (Msg "value for key units not set"))
  end.

Section SpatialAxisClass.

(** Python's ["%s" % x] for a float. *)
Variable str_of_float : Q -> string.

Record SpatialAxis : Type := {
  sa_axisname : string;
  sa_units : string;
  sa_edges : list Q;
  sa_defn_dict_values : option string;
  sa_nlevs : Z;
  sa_mid : list Q;
  sa_delta : list Q;
  sa_delta_r : list Np.xfloat;
  sa_delta_mid : list Q;
  sa_delta_mid_r : list Np.xfloat
}.

(** ["\n".join(key + "=" + "%s" % value["value"] for ...)] *)
Definition defn_dict_values_str (d : defn_dict) : string :=
  String.concat (String (ascii_of_nat 10) EmptyString)
    [ "axisname=" ++ axisname d;
      "units=" ++ units d;
      "nlevs=" ++ str_of_int (nlevs d);
      "edge_start=" ++ str_of_float (edge_start d);
      "edge_end=" ++ str_of_float (edge_end d);
      "delta_ratio_max=" ++ str_of_float (delta_ratio_max d) ]%string.

(** The part of [__init__] after the edges are known (lines 68-73), in
    exact arithmetic: a reciprocal is an infinity for a thickness of
    zero only. *)
Definition derive (name unit_s : string) (edges : list Q)
    (ddv : option string) : SpatialAxis :=
  let mid := map (fun s => (1 # 2) * s)
               (Np.zip_with Qplus (Np.drop_last edges) (Np.drop_first edges)) in
  let delta := Np.zip_with Qminus (Np.drop_first edges) (Np.drop_last edges) in
  let delta_mid := Np.ediff1d mid in
  {| sa_axisname := name;
     sa_units := unit_s;
     sa_edges := edges;
     sa_defn_dict_values := ddv;
     sa_nlevs := (Z.of_nat (List.length edges) - 1)%Z;
     sa_mid := mid;
     sa_delta := delta;
     sa_delta_r := map Np.recip delta;
     sa_delta_mid := delta_mid;
     sa_delta_mid_r := map Np.recip delta_mid |}.

(** [SpatialAxis(axisname, fname, defn_dict)].  The edges variable of a
    file is read as the one-dimensional array that [dump] writes. *)
Definition SpatialAxis_init (fs : Nc.filesystem)
    (name : option string) (fname : option string)
    (defn : option defn_dict) : result SpatialAxis :=
  match fname with
  | Some f =>
      match defn, name with
      | Some _, _ =>
          Raise (ValueError (Msg "fname and defn_dict cannot both be provided"))
      | None, None =>
          Raise (ValueError
                   (Msg "if fname is provided then axisname must be provided also"))
      | None, Some n =>
          let* fptr := Nc.open_read fs f in
          let* var := Nc.lookup_var fptr (n ++ "_edges")%string in
          let* unit_s := Nc.var_attr var "units" in
          OK (derive n unit_s (Nc.var_data var)
                (Nc.get (Nc.ds_attrs fptr) "defn_dict_values"))
      end
  | None =>
      let* d :=
        match defn, name with
        | Some _, Some _ =>
            Raise (ValueError
                     (Msg "defn_dict and axisname cannot both be provided"))
        | Some d, None => OK d
        | None, _ => spatial_axis_defn_dict name
        end in
      let* edges := _gen_edges d in
      OK (derive (axisname d) (units d) edges (Some (defn_dict_values_str d)))
  end.

(** [len(axis)]: Python refuses a negative [__len__]. *)
Definition SpatialAxis_len (self : SpatialAxis) : result nat :=
  if (sa_nlevs self <? 0)%Z then
    Raise (ValueError (Msg "__len__() should return >= 0"))
  else OK (Z.to_nat (sa_nlevs self)).

End SpatialAxisClass.

(** ** numpy arrays of any rank

    An array is its shape and its values in row-major order, as numpy
    holds them. *)

Module Nd.

Record ndarray : Type := {
  shape : list nat;
  data : list Q
}.

(** Number of values an array of a given shape holds. *)
Definition size (sh : list nat) : nat := fold_right Nat.mul 1%nat sh.

Definition well_formed (a : ndarray) : Prop :=
  List.length (data a) = size (shape a).

(** The [r]-th run of [m] consecutive values, and the first [n] runs:
    the rows of an array seen as [n] by [m]. *)
Definition chunk (m r : nat) (l : list Q) : list Q :=
  firstn m (skipn (r * m) l).

Definition rows (n m : nat) (l : list Q) : list (list Q) :=
  map (fun r => chunk m r l) (seq 0 n).

(** Position of a multi-index in the row-major data. *)
Fixpoint offset (sh idx : list nat) : nat :=
  match sh, idx with
  | _ :: sh', i :: idx' => (i * size sh' + offset sh' idx')%nat
  | _, _ => 0%nat
  end.

(** [a[idx]] for a full multi-index *)
Definition get (a : ndarray) (idx : list nat) : Q :=
  nth (offset (shape a) idx) (data a) 0.

Definition in_range (sh idx : list nat) : Prop :=
  Forall2 (fun i s => (i < s)%nat) idx sh.

(** Whether a one-dimensional operand of length [n] broadcasts against a
    last axis of length [l]: equal lengths, or one of them 1. *)
Definition broadcastable (n l : nat) : bool :=
  (n =? l)%nat || (l =? 1)%nat || (n =? 1)%nat.

(** [a * row] for a one-dimensional [a] and one row of the other operand,
    on lengths that broadcast. *)
Definition broadcast_mul (a row : list Q) : list Q :=
  if (List.length a =? List.length row)%nat then Np.zip_with Qmult a row
  else if (List.length row =? 1)%nat then map (fun x => x * hd 0 row) a
  else map (fun y => hd 0 a * y) row.

(** [a[i]]: the [i]-th slice along the first axis. *)
Definition index0 (a : ndarray) (i : nat) : result ndarray :=
  match shape a with
  | [] => Raise (IndexError (Msg "too many indices for array"))
  | n :: rest =>
      if (i <? n)%nat then
        OK {| shape := rest; data := chunk (size rest) i (data a) |}
      else Raise (IndexError (Msg "index is out of bounds for axis 0"))
  end.

(** [a[i, :]]: two indices, so numpy refuses an array of fewer than two
    axes; on the others it is [a[i]]. *)
Definition index0_all (a : ndarray) (i : nat) : result ndarray :=
  match shape a with
  | _ :: _ :: _ => index0 a i
  | _ => Raise (IndexError (Msg "too many indices for array"))
  end.

(** Drop up to [k] leading axes of length 1. *)
Fixpoint strip_ones (k : nat) (sh : list nat) : list nat :=
  match k, sh with
  | S k', 1%nat :: sh' => strip_ones k' sh'
  | _, _ => sh
  end.

Fixpoint fits (src tgt : list nat) : bool :=
  match src, tgt with
  | [], [] => true
  | s :: src', t :: tgt' => ((s =? t)%nat || (s =? 1)%nat) && fits src' tgt'
  | _, _ => false
  end.

(** Row-major values of an array of shape [src] repeated along its axes
    of length 1 to fill shape [tgt] (of the same rank, [fits src tgt]). *)
Fixpoint broadcast_data (src tgt : list nat) (l : list Q) : list Q :=
  match src, tgt with
  | s :: src', t :: tgt' =>
      if (s =? t)%nat then
        flat_map (fun r => broadcast_data src' tgt' (chunk (size src') r l))
          (seq 0 s)
      else
        List.concat (repeat (broadcast_data src' tgt' (chunk (size src') 0 l)) t)
  | _, _ => l
  end.

(** The values [vals[i, :] = src] stores when the slice has shape [tgt]:
    numpy drops leading axes of length 1 that [src] has in excess, pads
    the shape with 1 on the left and repeats along axes of length 1; any
    other difference of shape raises. *)
Definition broadcast_to (src : ndarray) (tgt : list nat) : result (list Q) :=
  let s1 := strip_ones (List.length (shape src) - List.length tgt) (shape src) in
  let s2 := repeat 1%nat (List.length tgt - List.length s1) ++ s1 in
  if fits s2 tgt then OK (broadcast_data s2 tgt (data src))
  else Raise (ValueError (Msg "could not broadcast input array")).

(** [np.einsum("i,i...", w, a)]: the first axis of [a] contracted with
    [w].  Lengths must agree or one of them be 1.  The sums are exact
    ([B64.einsum_i] has the rounded ones). *)
Definition einsum_i (w : list Q) (a : ndarray) : result ndarray :=
  match shape a with
  | [] =>
      Raise (ValueError
               (Msg "einstein sum subscripts string contains too many subscripts for operand 1"))
  | t :: rest =>
      let n := List.length w in
      if broadcastable n t then
        let wi := fun i => nth (if (n =? t)%nat then i else
                                if (n =? 1)%nat then 0%nat else i) w 0 in
        let row := fun i => chunk (size rest)
                              (if (n =? t)%nat then i else
                               if (t =? 1)%nat then 0%nat else i) (data a) in
        OK {| shape := rest;
              data := map (fun j =>
                             Np.sum (map (fun i => wi i * nth j (row i) 0)
                                       (seq 0 (Nat.max n t))))
                        (seq 0 (size rest)) |}
      else
        Raise (ValueError (Msg "operands could not be broadcast together"))
  end.

(** A three-dimensional array. *)
Record array3 : Type := {
  dim0 : nat;
  dim1 : nat;
  dim2 : nat;
  values : list Q
}.

(** [a[i, :, :].transpose()]: shape [(dim2, dim1)], entry [(t, d)] the
    entry [(i, d, t)] of [a]. *)
Definition slice_transposed (a : array3) (i : nat) : result ndarray :=
  if (i <? dim0 a)%nat then
    let sl := chunk (dim1 a * dim2 a) i (values a) in
    OK {| shape := [dim2 a; dim1 a];
          data := flat_map (fun t => map (fun d => nth (d * dim2 a + t) sl 0)
                                       (seq 0 (dim1 a)))
                    (seq 0 (dim2 a)) |}
  else Raise (IndexError (Msg "index is out of bounds for axis 0")).

End Nd.

(** [SpatialAxis.int_vals_mid(vals)]: [(self.delta * vals).sum(axis=-1)].
    The product broadcasts [delta] along the last axis of [vals] and
    raises when the lengths do not fit; the sum removes that axis.  A
    zero-dimensional [vals] scales [delta] before the sum.  Products and
    sums are exact. *)
Definition int_vals_mid (self : SpatialAxis) (vals : Nd.ndarray)
    : result Nd.ndarray :=
  let delta := sa_delta self in
  match rev (Nd.shape vals) with
  | [] =>
      OK {| Nd.shape := [];
            Nd.data := [Np.sum (map (fun x => x * hd 0 (Nd.data vals)) delta)] |}
  | l :: rlead =>
      let lead := rev rlead in
      if Nd.broadcastable (List.length delta) l then
        OK {| Nd.shape := lead;
              Nd.data :=
                map (fun row => Np.sum (Nd.broadcast_mul delta row))
                  (Nd.rows (Nd.size lead) l (Nd.data vals)) |}
      else
        Raise (ValueError (Msg "operands could not be broadcast together"))
  end.

(** ** [utils]: helpers of the repository whose source is not at hand *)

Module Utils.

(** What [create_vars] is told of one variable. *)
Record var_metadata : Type := {
  vm_dimensions : list string;
  vm_attrs : Nc.dict string
}.

(** Modelled from the spec: [utils.create_dimensions_verify] (and the
    [create_dimension_exist_okay] of the no-grid variant) is not among the
    sources.  The spec has it "create all dimensions (skipping ones that
    already exist with a matching length; fail if an existing dimension
    has a conflicting length)". *)
Definition create_dimension_exist_okay (name : string) (len : nat)
    : Nc.io unit :=
  fun fptr =>
    match Nc.get (Nc.ds_dimensions fptr) name with
    | None => Nc.createDimension name len fptr
    | Some l =>
        if (l =? len)%nat then (OK tt, fptr)
        else (Raise (RuntimeError
                       (Msg ("dimension " +++ name +++ " exists with another length"))),
              fptr)
    end.

(** Modelled from the spec: [utils.create_dimensions_verify], the same for
    every entry of a dict of dimensions, in order. *)
Definition create_dimensions_verify (dims : Nc.dict nat) : Nc.io unit :=
  Nc.for_each dims (fun kv => create_dimension_exist_okay (fst kv) (snd kv)).

(** Modelled from the spec: [utils.create_vars] is not among the sources.
    The spec has the define phase "declare one variable per tracer"; each
    entry becomes one [createVariable]. *)
Definition create_vars (vars : Nc.dict var_metadata) : Nc.io unit :=
  Nc.for_each vars
    (fun kv => Nc.createVariable (fst kv) (vm_dimensions (snd kv))
                 (vm_attrs (snd kv))).

(** Modelled from the spec: [utils.extract_dimensions] is not among the
    sources.  The spec has the reader "determine the shared dimension set
    from the first tracer's stored variable"; the callers use the result
    as a dict from dimension name to length ([.values()], [.keys()],
    [len]). *)
Definition extract_dimensions (fptr : Nc.dataset) (varname : string)
    : result (Nc.dict nat) :=
  let* var := Nc.lookup_var fptr varname in
  fold_left
    (fun acc dimname =>
       let* res := acc in
       let* len := Nc.dim_len fptr dimname in
       OK (Nc.set res dimname len))
    (Nc.var_dimensions var) (OK []).

End Utils.

Notation "x <- m ;; k" := (Nc.bind_io m (fun x => k))
  (at level 61, m at next level, right associativity).
Notation "m ;; k" := (Nc.bind_io m (fun _ => k))
  (at level 61, right associativity).

(** ** [SpatialAxis]: what it contributes to a dump *)

Definition dump_name_bounds (self : SpatialAxis) : string :=
  sa_axisname self +++ "_bounds".
Definition dump_name_edges (self : SpatialAxis) : string :=
  sa_axisname self +++ "_edges".
Definition dump_name_delta (self : SpatialAxis) : string :=
  sa_axisname self +++ "_delta".

(** [SpatialAxis.dump_dimensions()] *)
Definition dump_dimensions (self : SpatialAxis) : result (Nc.dict nat) :=
  let* n := SpatialAxis_len self in
  OK (Nc.set (Nc.set (Nc.set [] (sa_axisname self) n) "nbnds" 2%nat)
        (dump_name_edges self) (n + 1)%nat).

(** [SpatialAxis.dump_vars_metadata()] *)
Definition dump_vars_metadata (self : SpatialAxis)
    : Nc.dict Utils.var_metadata :=
  let name := sa_axisname self in
  let res := Nc.set [] name
    {| Utils.vm_dimensions := [name];
       Utils.vm_attrs := [("long_name", name +++ " layer midpoints");
                          ("units", sa_units self);
                          ("bounds", dump_name_bounds self)] |} in
  let res := Nc.set res (dump_name_bounds self)
    {| Utils.vm_dimensions := [name; "nbnds"];
       Utils.vm_attrs := [("long_name", name +++ " layer bounds")] |} in
  let res := Nc.set res (dump_name_edges self)
    {| Utils.vm_dimensions := [dump_name_edges self];
       Utils.vm_attrs := [("long_name", name +++ " layer edges");
                          ("units", sa_units self)] |} in
  Nc.set res (dump_name_delta self)
    {| Utils.vm_dimensions := [name];
       Utils.vm_attrs := [("long_name", name +++ " layer thickness");
                          ("units", sa_units self)] |}.

(** [SpatialAxis.dump_write(fptr)] *)
Definition dump_write (self : SpatialAxis) : Nc.io unit :=
  Nc.assign (sa_axisname self) (sa_mid self) ;;
  Nc.assign_column (dump_name_bounds self) 0 (Np.drop_last (sa_edges self)) ;;
  Nc.assign_column (dump_name_bounds self) 1 (Np.drop_first (sa_edges self)) ;;
  Nc.assign (dump_name_edges self) (sa_edges self) ;;
  Nc.assign (dump_name_delta self) (sa_delta self).

(** ** Tracer modules *)

(** Per-tracer metadata of a tracer module definition: display
    attributes, and optionally an initial profile or the name of the
    tracer whose profile to use. *)
Record tracer_metadata : Type := {
  tm_attrs : Nc.dict string;
  tm_init_iterate_vals : option (list Q);
  tm_init_iterate_val_depths : option (list Q);
  tm_shadows : option string
}.

(** [fptr.variables[name][:]]: the values of a variable, its shape the
    lengths of its dimensions. *)
Definition read_var (fptr : Nc.dataset) (name : string) : result Nd.ndarray :=
  let* var := Nc.lookup_var fptr name in
  let* sh := Nc.dim_lens fptr (Nc.var_dimensions var) in
  OK {| Nd.shape := sh; Nd.data := Nc.var_data var |}.

(** Reading the tracers of a file into one array (both variants):
    [vals[tracer_ind, :] = var[:]] for each tracer, [vals] of shape
    [(tracer_cnt,) + tgt].  The variable is read first; the target
    [vals[tracer_ind, :]] has two indices, which numpy refuses when [vals]
    has the tracer axis only ([tgt] empty). *)
Definition read_tracers (fptr : Nc.dataset) (varnames : list string)
    (tgt : list nat) : result Nd.ndarray :=
  let* slices :=
    mapM (fun name =>
            let* src := read_var fptr name in
            match tgt with
            | [] => Raise (IndexError (Msg "too many indices for array"))
            | _ :: _ => Nd.broadcast_to src tgt
            end)
      varnames in
  OK {| Nd.shape := List.length varnames :: tgt; Nd.data := List.concat slices |}.

Definition msg_not_same_dimensions (tracer_module_name fname : string)
    : string :=
  "not all vars have same dimensions, tracer_module_name="
  +++ tracer_module_name +++ ", fname=" +++ fname.

Definition msg_ndim_too_large (tracer_module_name fname : string)
    (ndim : nat) : string :=
  "ndim too large (for implementation of dot_prod)tracer_module_name="
  +++ tracer_module_name +++ ", fname=" +++ fname +++ ", ndim="
  +++ str_of_int (Z.of_nat ndim).

(** ** [test_problem/tracer_module_state.py] *)

Module TestProblem.

(** The object: the base class keeps the module's name, its tracer
    definitions ([_tracer_module_def["tracers"]]), the values and the
    dimensions [_read_vals] returned; this class adds the axis. *)
Record TracerModuleState : Type := {
  tracer_module_name : string;
  tracers : Nc.dict tracer_metadata;
  depth : SpatialAxis;
  _vals : Nd.ndarray;
  _dimensions : Nc.dict nat
}.

(** Modelled from the spec: [TracerModuleStateBase] is not among the
    sources.  Its bookkeeping is "naming, counting": [tracer_names()] are
    the keys of the module's tracer definitions in order and [tracer_cnt]
    their number. *)
Definition names_of (tracers : Nc.dict tracer_metadata) : list string :=
  Nc.keys tracers.

(** Modelled from the spec: [TracerModuleStateBase.tracer_names()]. *)
Definition tracer_names (self : TracerModuleState) : list string :=
  names_of (tracers self).

(** Modelled from the spec: [TracerModuleStateBase.tracer_cnt]. *)
Definition tracer_cnt (self : TracerModuleState) : nat :=
  List.length (tracers self).

(** One pass of the loop of the ["gen_init_iterate"] branch: the profile
    stored in [vals[tracer_ind, :]]. *)
Definition gen_init_iterate_profile (tracers : Nc.dict tracer_metadata)
    (depth : SpatialAxis) (n : nat) (tracer : string * tracer_metadata)
    : result (list Q) :=
  let store := fun prof =>
    Nd.broadcast_to {| Nd.shape := [List.length prof]; Nd.data := prof |} [n] in
  match tm_init_iterate_vals (snd tracer) with
  | Some vals =>
      match tm_init_iterate_val_depths (snd tracer) with
      | None => Raise (KeyError "init_iterate_val_depths")
      | Some depths =>
          let* prof := Np.interp (sa_mid depth) depths vals in store prof
      end
  | None =>
      match tm_shadows (snd tracer) with
      | Some shadowed_tracer =>
          match Nc.get tracers shadowed_tracer with
          | None => Raise (KeyError shadowed_tracer)
          | Some shadow =>
              match tm_init_iterate_val_depths shadow,
                    tm_init_iterate_vals shadow with
              | None, _ => Raise (KeyError "init_iterate_val_depths")
              | Some _, None => Raise (KeyError "init_iterate_vals")
              | Some depths, Some vals =>
                  let* prof := Np.interp (sa_mid depth) depths vals in
                  store prof
              end
          end
      | None =>
          Raise (ValueError
                   (Msg ("gen_init_iterate failure for " +++ fst tracer)))
      end
  end.

(** [TracerModuleState._read_vals(tracer_module_name, fname)], on the
    parts of [self] that exist when [__init__] calls it. *)
Definition _read_vals (tracers : Nc.dict tracer_metadata)
    (depth : SpatialAxis) (fs : Nc.filesystem)
    (tracer_module_name fname : string)
    : result (Nd.ndarray * Nc.dict nat) :=
  let cnt := List.length tracers in
  if String.eqb fname "zeros" then
    let* n := SpatialAxis_len depth in
    OK ({| Nd.shape := [cnt; n]; Nd.data := repeat 0 (cnt * n) |},
        [("depth", n)])
  else if String.eqb fname "gen_init_iterate" then
    let* n := SpatialAxis_len depth in
    let* profiles := mapM (gen_init_iterate_profile tracers depth n) tracers in
    OK ({| Nd.shape := [cnt; n]; Nd.data := List.concat profiles |},
        [("depth", n)])
  else
    let* fptr := Nc.open_read fs fname in
    let* varname :=
      match names_of tracers with
      | [] => Raise (IndexError (Msg "list index out of range"))
      | v :: _ => OK v
      end in
    let* dimensions := Utils.extract_dimensions fptr varname in
    let* checked :=
      for_each (names_of tracers)
        (fun tracer_name =>
           let* dims := Utils.extract_dimensions fptr tracer_name in
           if negb (Nc.dict_eqb Nat.eqb dims dimensions) then
             Raise (ValueError
                      (Msg (msg_not_same_dimensions tracer_module_name fname)))
           else OK tt) in
    if (3 <? List.length dimensions)%nat then
      Raise (ValueError
               (Msg (msg_ndim_too_large tracer_module_name fname
                       (List.length dimensions))))
    else
      let* vals := read_tracers fptr (names_of tracers) (Nc.values dimensions) in
      OK (vals, dimensions).

(** Modelled from the spec: the base class's [__init__], which
    [TracerModuleState(tracer_module_name, fname, depth)] runs after it
    has set [self.depth], is not among the sources; it looks the module's
    tracer definitions up (here [tracers]) and keeps what [_read_vals]
    returns. *)
Definition TracerModuleState_init (tracers : Nc.dict tracer_metadata)
    (fs : Nc.filesystem) (tracer_module_name fname : string)
    (depth : SpatialAxis) : result TracerModuleState :=
  let* r := _read_vals tracers depth fs tracer_module_name fname in
  OK {| tracer_module_name := tracer_module_name;
        tracers := tracers;
        depth := depth;
        _vals := fst r;
        _dimensions := snd r |}.

(** [TracerModuleState.dump(fptr, action)] *)
Definition dump (self : TracerModuleState) (action : string)
    : Nc.io TracerModuleState :=
  if String.eqb action "define" then
    Utils.create_dimensions_verify (_dimensions self) ;;
    dims <- Nc.reading (fun _ => dump_dimensions (depth self)) ;;
    Utils.create_dimensions_verify dims ;;
    present <- Nc.reading
                 (fun fptr => OK (Nc.mem (Nc.ds_variables fptr)
                                    (sa_axisname (depth self)))) ;;
    (if negb present then Utils.create_vars (dump_vars_metadata (depth self))
     else Nc.ret tt) ;;
    let dimnames := Nc.keys (_dimensions self) in
    let vars_metadata :=
      fold_left
        (fun acc tracer_name =>
           Nc.set acc tracer_name
             {| Utils.vm_dimensions := dimnames; Utils.vm_attrs := [] |})
        (tracer_names self) [] in
    Utils.create_vars vars_metadata ;;
    Nc.ret self
  else if String.eqb action "write" then
    dump_write (depth self) ;;
    Nc.for_each (enumerate (tracer_names self))
      (fun it =>
         row <- Nc.reading (fun _ => Nd.index0_all (_vals self) (fst it)) ;;
         Nc.assign (snd it) (Nd.data row)) ;;
    Nc.ret self
  else
    Nc.raise (ValueError (Tuple ["unknown action=%s"; action])).

(** [TracerModuleState.hist_time_mean_weights(fptr)].  [weights[0]] and
    [weights[-1]] are halved one after the other, in place.  The
    division is exact ([B64.hist_time_mean_weights] has the rounded
    one). *)
Fixpoint scale_at (a : list Q) (i : nat) (c : Q) : result (list Q) :=
  match a, i with
  | [], _ => Raise (IndexError (Msg "index is out of bounds for axis 0"))
  | x :: a', O => OK (x * c :: a')
  | x :: a', S i' => let* r := scale_at a' i' c in OK (x :: r)
  end.

Definition hist_time_mean_weights (fptr : Nc.dataset) : result (list Q) :=
  let* timelen := Nc.dim_len fptr "time" in
  let* weight :=
    if (timelen =? 1)%nat then Raise ZeroDivisionError
    else OK (1 / inject_Z (Z.of_nat timelen - 1)) in
  let weights := repeat weight timelen in
  let* weights := scale_at weights 0 (1 # 2) in
  scale_at weights (timelen - 1) (1 # 2).

(** [hist_vars_metadata_tracer_like()] as [write_hist_vars] iterates it:
    its keys, the tracer names. *)
Definition hist_vars_tracer_like (self : TracerModuleState) : list string :=
  Nc.keys (tracers self).

Section Hist.

(** [np.sqrt] on one value. *)
Variable np_sqrt : Q -> Q.

(** [tracer_vals - tracer_vals_mean]: the mean, one value per depth, is
    subtracted from every time sample. *)
Definition sub_rows (tracer_vals mean : Nd.ndarray) : Nd.ndarray :=
  match Nd.shape tracer_vals with
  | t :: rest =>
      {| Nd.shape := Nd.shape tracer_vals;
         Nd.data :=
           flat_map (fun i => Np.zip_with Qminus
                                (Nd.chunk (Nd.size rest) i (Nd.data tracer_vals))
                                (Nd.data mean))
             (seq 0 t) |}
  | [] => tracer_vals
  end.

(** [tracer_vals[-1, :] - tracer_vals[0, :]] *)
Definition last_minus_first (tracer_vals : Nd.ndarray) : result (list Q) :=
  match Nd.shape tracer_vals with
  | t :: rest =>
      if (t =? 0)%nat then
        Raise (IndexError (Msg "index -1 is out of bounds for axis 0 with size 0"))
      else
        OK (Np.zip_with Qminus
              (Nd.chunk (Nd.size rest) (t - 1) (Nd.data tracer_vals))
              (Nd.chunk (Nd.size rest) 0 (Nd.data tracer_vals)))
  | [] => Raise (IndexError (Msg "too many indices for array"))
  end.

(** The body of the loop of [write_hist_vars] for one tracer. *)
Definition write_hist_vars_tracer (self : TracerModuleState)
    (time_weights : list Q) (tracer_vals_all : Nd.array3)
    (it : nat * string) : Nc.io unit :=
  let tracer_like_name := snd it in
  tracer_vals <- Nc.reading
                   (fun _ => Nd.slice_transposed tracer_vals_all (fst it)) ;;
  Nc.assign tracer_like_name (Nd.data tracer_vals) ;;
  tracer_vals_mean <- Nc.reading
                        (fun _ => Nd.einsum_i time_weights tracer_vals) ;;
  Nc.assign (tracer_like_name +++ "_time_mean") (Nd.data tracer_vals_mean) ;;
  let tracer_vals_anom := sub_rows tracer_vals tracer_vals_mean in
  Nc.assign (tracer_like_name +++ "_time_anom") (Nd.data tracer_vals_anom) ;;
  tracer_vals_var <- Nc.reading
    (fun _ => Nd.einsum_i time_weights
                {| Nd.shape := Nd.shape tracer_vals_anom;
                   Nd.data := map (fun x => x * x) (Nd.data tracer_vals_anom) |}) ;;
  Nc.assign (tracer_like_name +++ "_time_std")
    (map np_sqrt (Nd.data tracer_vals_var)) ;;
  delta <- Nc.reading (fun _ => last_minus_first tracer_vals) ;;
  Nc.assign (tracer_like_name +++ "_time_delta") delta ;;
  depth_int <- Nc.reading (fun _ => int_vals_mid (depth self) tracer_vals) ;;
  Nc.assign (tracer_like_name +++ "_depth_int") (Nd.data depth_int).

(** [TracerModuleState.write_hist_vars(fptr, tracer_vals_all)] *)
Definition write_hist_vars (self : TracerModuleState)
    (tracer_vals_all : Nd.array3) : Nc.io unit :=
  time_weights <- Nc.reading hist_time_mean_weights ;;
  Nc.for_each (enumerate (hist_vars_tracer_like self))
    (write_hist_vars_tracer self time_weights tracer_vals_all).

End Hist.

(** Modelled from the spec: [TracerModuleStateBase.stats_vars_tracer_like()]
    is not among the sources; the stats record has "per tracer, a stats
    variable", named as the tracer. *)
Definition stats_vars_tracer_like (self : TracerModuleState) : list string :=
  Nc.keys (tracers self).

(** [TracerModuleState.stats_vars_vals(fptr_hist)].  The region count that
    [model_config.get_region_cnt()] returns is the first argument. *)
Definition stats_vars_vals (region_cnt : nat) (self : TracerModuleState)
    (fptr_hist : Nc.dataset) : result (Nc.dict Nd.ndarray) :=
  if negb (region_cnt =? 1)%nat then
    Raise (NotImplementedError (Msg "region_cnt > 1 not implemented"))
  else
    let* time_weights := hist_time_mean_weights fptr_hist in
    fold_left
      (fun acc tracer_name =>
         let* res := acc in
         let* tracer_vals := read_var fptr_hist tracer_name in
         let* mean := Nd.einsum_i time_weights tracer_vals in
         OK (Nc.set res tracer_name mean))
      (stats_vars_tracer_like self) (OK []).

End TestProblem.

(** ** [cime_pop/tracer_module_state.py] *)

Module CimePop.

Record TracerModuleState : Type := {
  tracer_module_name : string;
  tracers : Nc.dict tracer_metadata;
  _vals : Nd.ndarray;
  _dims : Nc.dict nat
}.

(** Modelled from the spec: the base class's [tracer_names()] and
    [tracer_cnt], as for the other variant. *)
Definition names_of (tracers : Nc.dict tracer_metadata) : list string :=
  Nc.keys tracers.

(** Modelled from the spec: [TracerModuleStateBase.tracer_names()]. *)
Definition tracer_names (self : TracerModuleState) : list string :=
  names_of (tracers self).

Definition suffix : string := "_CUR".

(** [{dim.name: dim.size for dim in var0.get_dims()}] *)
Definition dims_of (fptr : Nc.dataset) (var0 : Nc.variable)
    : result (Nc.dict nat) :=
  fold_left
    (fun acc dimname =>
       let* res := acc in
       let* len := Nc.dim_len fptr dimname in
       OK (Nc.set res dimname len))
    (Nc.var_dimensions var0) (OK []).

(** [TracerModuleState._read_vals(tracer_module_name, fname)] *)
Definition _read_vals (tracers : Nc.dict tracer_metadata)
    (fs : Nc.filesystem) (tracer_module_name fname : string)
    : result (Nd.ndarray * Nc.dict nat) :=
  let* fptr := Nc.open_read fs fname in
  let* name0 :=
    match names_of tracers with
    | [] => Raise (IndexError (Msg "list index out of range"))
    | v :: _ => OK v
    end in
  let* var0 := Nc.lookup_var fptr (name0 +++ suffix) in
  let* dims := dims_of fptr var0 in
  let* checked :=
    for_each (names_of tracers)
      (fun tracer_name =>
         let* var := Nc.lookup_var fptr (tracer_name +++ suffix) in
         if list_eq_dec string_dec
              (Nc.var_dimensions var) (Nc.var_dimensions var0) then OK tt
         else
           Raise (ValueError
                    (Msg (msg_not_same_dimensions tracer_module_name fname)))) in
  if (3 <? List.length dims)%nat then
    Raise (ValueError
             (Msg (msg_ndim_too_large tracer_module_name fname
                     (List.length dims))))
  else
    let* vals :=
      read_tracers fptr (map (fun n => n +++ suffix) (names_of tracers))
        (Nc.values dims) in
    OK (vals, dims).

(** Modelled from the spec: the base class's [__init__], which is all of
    [TracerModuleState(tracer_module_name, fname)] here, as for the other
    variant. *)
Definition TracerModuleState_init (tracers : Nc.dict tracer_metadata)
    (fs : Nc.filesystem) (tracer_module_name fname : string)
    : result TracerModuleState :=
  let* r := _read_vals tracers fs tracer_module_name fname in
  OK {| tracer_module_name := tracer_module_name;
        tracers := tracers;
        _vals := fst r;
        _dims := snd r |}.

(** [TracerModuleState.dump(fptr, action)] *)
Definition dump (self : TracerModuleState) (action : string)
    : Nc.io TracerModuleState :=
  if String.eqb action "define" then
    Nc.for_each (_dims self)
      (fun kv => Utils.create_dimension_exist_okay (fst kv) (snd kv)) ;;
    let dimnames := Nc.keys (_dims self) in
    Nc.for_each (tracer_names self)
      (fun tracer_name =>
         Nc.for_each ["_CUR"; "_OLD"]
           (fun sfx => Nc.createVariable (tracer_name +++ sfx) dimnames [])) ;;
    Nc.ret self
  else if String.eqb action "write" then
    Nc.for_each (enumerate (tracer_names self))
      (fun it =>
         Nc.for_each ["_CUR"; "_OLD"]
           (fun sfx =>
              row <- Nc.reading (fun _ => Nd.index0_all (_vals self) (fst it)) ;;
              Nc.assign (snd it +++ sfx) (Nd.data row))) ;;
    Nc.ret self
  else
    Nc.raise (ValueError (Tuple ["unknown action="; action])).

End CimePop.

(** ** Statement vocabulary *)

(** [Σ_{i<n} f i] *)
Definition sum_upto (f : nat -> Q) (n : nat) : Q :=
  Np.sum (map f (seq 0 n)).

(** Pointwise equality of arrays of exact numbers. *)
Definition arr_eq (a b : list Q) : Prop := Forall2 Qeq a b.

(** A parametric axis definition as the spec calls it valid. *)
Definition valid_defn (d : defn_dict) : Prop :=
  (1 <= nlevs d)%Z /\ 1 <= delta_ratio_max d.

(** The running example of the spec and its single-layer variant. *)
Definition defn_4 : defn_dict :=
  {| axisname := "depth"; units := "m"; nlevs := 4%Z;
     edge_start := 0; edge_end := 100; delta_ratio_max := 3 |}.

Definition defn_1 : defn_dict :=
  {| axisname := "depth"; units := "m"; nlevs := 1%Z;
     edge_start := 0; edge_end := 100; delta_ratio_max := 3 |}.

(** The running example with its edges given in decreasing order. *)
Definition defn_4_decreasing : defn_dict :=
  {| axisname := "depth"; units := "m"; nlevs := 4%Z;
     edge_start := 100; edge_end := 0; delta_ratio_max := 3 |}.

(** The quantities [_gen_edges] computes, named: [delta_avg],
    [stretch_factor], the [i]-th sample of [coord] when [nlevs >= 2], and
    the [i]-th thickness. *)
Definition delta_avg_of (d : defn_dict) : Q :=
  (1 / inject_Z (nlevs d)) * (edge_end d - edge_start d).

Definition stretch_factor_of (d : defn_dict) : Q :=
  delta_avg_of d * (delta_ratio_max d - 1) / (delta_ratio_max d + 1).

Definition coord_of (d : defn_dict) (i : nat) : Q :=
  Np.of_nat i * ((1 - -1) / inject_Z (nlevs d - 1)) + -1.

Definition delta_of (d : defn_dict) (i : nat) : Q :=
  delta_avg_of d + stretch_factor_of d * stretch_fcn (coord_of d i).

(** The three properties the spec states of the generated thicknesses,
    as predicates on an axis definition. *)

(** Final edge equals [edge_end]. *)
Definition ends_at_edge_end (d : defn_dict) : Prop :=
  exists edges, _gen_edges d = OK edges /\ last edges 0 == edge_end d.

(** [max(delta) / min(delta) == delta_ratio_max] *)
Definition ratio_is_delta_ratio_max (d : defn_dict) : Prop :=
  exists delta mx mn,
    gen_delta d = OK delta /\ Np.max delta = OK mx /\ Np.min delta = OK mn /\
    mx / mn == delta_ratio_max d.

(** [delta[i] == delta[N-1-i]] for every index [i] *)
Definition delta_symmetric (d : defn_dict) : Prop :=
  exists delta,
    gen_delta d = OK delta /\
    forall i, (i < List.length delta)%nat ->
      nth i delta 0 == nth (List.length delta - 1 - i) delta 0.

(** Edges strictly increasing. *)
Fixpoint strictly_increasing (e : list Q) : Prop :=
  match e with
  | x :: ((y :: _) as e') => x < y /\ strictly_increasing e'
  | _ => True
  end.

Definition all_positive (a : list Q) : Prop := Forall (fun x => 0 < x) a.

Definition all_finite (a : list Np.xfloat) : Prop :=
  Forall (fun x => Np.is_finite x = true) a.

(** The invariant the spec states of a constructed axis. *)
Definition axis_invariant (ax : SpatialAxis) : Prop :=
  SpatialAxis_len ax = OK (List.length (sa_edges ax) - 1)%nat /\
  List.length (sa_delta ax) = (List.length (sa_edges ax) - 1)%nat /\
  all_positive (sa_delta ax) /\
  all_finite (sa_delta_r ax) /\ all_finite (sa_delta_mid_r ax).

(** A grid file whose second layer has no thickness. *)
Definition flat_layer_file : Nc.dataset :=
  {| Nc.ds_attrs := [];
     Nc.ds_dimensions := [("depth_edges", 3%nat)];
     Nc.ds_variables :=
       [("depth_edges",
         {| Nc.var_dimensions := ["depth_edges"];
            Nc.var_attrs := [("units", "m")];
            Nc.var_data := [0; 10; 10] |})] |}.

(** A grid file whose edges variable has length zero. *)
Definition no_edges_file : Nc.dataset :=
  {| Nc.ds_attrs := [];
     Nc.ds_dimensions := [("depth_edges", 0%nat)];
     Nc.ds_variables :=
       [("depth_edges",
         {| Nc.var_dimensions := ["depth_edges"];
            Nc.var_attrs := [("units", "m")];
            Nc.var_data := [] |})] |}.

Definition flat_layer_fs : Nc.filesystem :=
  fun fname => if String.eqb fname "grid.nc" then Some flat_layer_file else None.

(** A stand-in for Python's float formatting where an example needs one. *)
Definition no_float_str (_ : Q) : string := EmptyString.

(** The sum the spec gives for the depth integral at a leading
    multi-index [idx]: [Σ_{i<N} delta[i] * vals[idx..., i]]. *)
Definition weighted_sum_last_axis (delta : list Q) (vals : Nd.ndarray)
    (idx : list nat) : Q :=
  sum_upto (fun i => nth i delta 0 * Nd.get vals (idx ++ [i]))
    (List.length delta).

(** A handle with nothing in it but a time dimension of a given length. *)
Definition time_only (timelen : nat) : Nc.dataset :=
  {| Nc.ds_attrs := []; Nc.ds_dimensions := [("time", timelen)];
     Nc.ds_variables := [] |}.

(** A two-layer axis with thicknesses 10 and 20, and a 2-by-2 array. *)
Definition axis_10_20 : SpatialAxis := derive "depth" "m" [0; 10; 30] None.

Definition vals_2x2 : Nd.ndarray :=
  {| Nd.shape := [2%nat; 2%nat]; Nd.data := [1; 2; 3; 4] |}.

(** Tracer modules with no values yet, for calls that do not read them. *)
Definition no_metadata : tracer_metadata :=
  {| tm_attrs := []; tm_init_iterate_vals := None;
     tm_init_iterate_val_depths := None; tm_shadows := None |}.

Definition empty_array : Nd.ndarray := {| Nd.shape := []; Nd.data := [] |}.

Definition tp_module (names : list string) : TestProblem.TracerModuleState :=
  {| TestProblem.tracer_module_name := "iage";
     TestProblem.tracers := map (fun n => (n, no_metadata)) names;
     TestProblem.depth := axis_10_20;
     TestProblem._vals := empty_array;
     TestProblem._dimensions := [] |}.

Definition pop_module (names : list string) : CimePop.TracerModuleState :=
  {| CimePop.tracer_module_name := "iage";
     CimePop.tracers := map (fun n => (n, no_metadata)) names;
     CimePop._vals := empty_array;
     CimePop._dims := [] |}.

(** *** Source files for the readers *)

Definition var_on (dims : list string) (vals : list Q) : Nc.variable :=
  {| Nc.var_dimensions := dims; Nc.var_attrs := []; Nc.var_data := vals |}.

Definition one_file (fname : string) (ds : Nc.dataset) : Nc.filesystem :=
  fun f => if String.eqb f fname then Some ds else None.

Definition tracers_ab : Nc.dict tracer_metadata :=
  [("a", no_metadata); ("b", no_metadata)].

Definition tracers_a : Nc.dict tracer_metadata := [("a", no_metadata)].

(** Two tracers stored on the same two dimensions in opposite orders. *)
Definition permuted_file : Nc.dataset :=
  {| Nc.ds_attrs := [];
     Nc.ds_dimensions := [("x", 2%nat); ("y", 2%nat)];
     Nc.ds_variables :=
       [("a", var_on ["x"; "y"] [1; 2; 3; 4]);
        ("b", var_on ["y"; "x"] [5; 6; 7; 8]);
        ("a_CUR", var_on ["x"; "y"] [1; 2; 3; 4]);
        ("b_CUR", var_on ["y"; "x"] [5; 6; 7; 8])] |}.

(** Two tracers on four dimensions each, in different orders. *)
Definition four_dims_permuted_file : Nc.dataset :=
  {| Nc.ds_attrs := [];
     Nc.ds_dimensions :=
       [("w", 1%nat); ("x", 1%nat); ("y", 1%nat); ("z", 1%nat)];
     Nc.ds_variables :=
       [("a_CUR", var_on ["w"; "x"; "y"; "z"] [1]);
        ("b_CUR", var_on ["x"; "w"; "y"; "z"] [2])] |}.

(** One tracer on four dimensions. *)
Definition four_dims_file : Nc.dataset :=
  {| Nc.ds_attrs := [];
     Nc.ds_dimensions :=
       [("w", 1%nat); ("x", 2%nat); ("y", 1%nat); ("z", 2%nat)];
     Nc.ds_variables :=
       [("a", var_on ["w"; "x"; "y"; "z"] [1; 2; 3; 4]);
        ("a_CUR", var_on ["w"; "x"; "y"; "z"] [1; 2; 3; 4])] |}.

(** One tracer stored four times on one dimension of length 1. *)
Definition repeated_dim_file : Nc.dataset :=
  {| Nc.ds_attrs := [];
     Nc.ds_dimensions := [("x", 1%nat)];
     Nc.ds_variables :=
       [("a", var_on ["x"; "x"; "x"; "x"] [7]);
        ("a_CUR", var_on ["x"; "x"; "x"; "x"] [7])] |}.

(** The length a file gives a dimension name (0 for an unknown name). *)
Definition dim_len_of (fptr : Nc.dataset) (name : string) : nat :=
  match Nc.get (Nc.ds_dimensions fptr) name with
  | Some n => n
  | None => 0%nat
  end.

(** Every name in [names] is a variable of the file, and [P] holds of it. *)
Definition all_stored (fptr : Nc.dataset) (names : list string)
    (P : Nc.variable -> Prop) : Prop :=
  forall name, In name names ->
    exists var, Nc.get (Nc.ds_variables fptr) name = Some var /\ P var.

(** The dimension names are dimensions of the file. *)
Definition dims_defined (fptr : Nc.dataset) (dims : list string) : Prop :=
  forall dimname, In dimname dims ->
    Nc.mem (Nc.ds_dimensions fptr) dimname = true.

(** *** The history variables of one tracer *)

(** The values [write_hist_vars] assigns for one tracer, in the order of
    the assignments. *)
Record hist_values : Type := {
  hv_tracer : list Q;
  hv_time_mean : list Q;
  hv_time_anom : list Q;
  hv_time_std : list Q;
  hv_time_delta : list Q;
  hv_depth_int : list Q
}.

Definition hist_assignments (name : string) (o : hist_values)
    : list (string * list Q) :=
  [ (name, hv_tracer o);
    (name +++ "_time_mean", hv_time_mean o);
    (name +++ "_time_anom", hv_time_anom o);
    (name +++ "_time_std", hv_time_std o);
    (name +++ "_time_delta", hv_time_delta o);
    (name +++ "_depth_int", hv_depth_int o) ].

(** The handle after a sequence of assignments [variables[name][:] = vals]. *)
Definition store_all (l : list (string * list Q)) (fptr : Nc.dataset)
    : Nc.dataset :=
  fold_left (fun f e => Nc.store f (fst e) (snd e)) l fptr.

(** The six history variables of a tracer are defined in the file. *)
Definition declared_for (fptr : Nc.dataset) (name : string) : Prop :=
  forall sfx,
    In sfx [EmptyString; "_time_mean"; "_time_anom"; "_time_std"; "_time_delta";
            "_depth_int"] ->
    Nc.mem (Nc.ds_variables fptr) (name +++ sfx) = true.

Definition hist_declared (fptr : Nc.dataset) (names : list string) : Prop :=
  forall name, In name names -> declared_for fptr name.

(** A series (tracer, depth, time) that holds, for tracer [i] and depth
    [d], the value [c i d] at every time. *)
Definition constant_in_time (a : Nd.array3) (c : nat -> nat -> Q) : Prop :=
  Nd.values a
  = flat_map (fun i => flat_map (fun d => repeat (c i d) (Nd.dim2 a))
                         (seq 0 (Nd.dim1 a)))
      (seq 0 (Nd.dim0 a)).

Definition all_zero (l : list Q) : Prop := Forall (fun x => x == 0) l.

(** A square root for examples: exact on quotients of perfect squares. *)
Definition sqrt_floor (x : Q) : Q :=
  inject_Z (Z.sqrt (Qnum (Qred x))) / inject_Z (Z.sqrt (QDen (Qred x))).

(** What the spec states of the history values of tracer [i] for a series
    that holds [c i d] at depth [d] at all [T] times, [D] depths. *)
Definition constant_hist_values (c : nat -> nat -> Q) (T D i : nat)
    (o : hist_values) : Prop :=
  hv_tracer o = flat_map (fun _ => map (c i) (seq 0 D)) (seq 0 T) /\
  arr_eq (hv_time_mean o) (map (c i) (seq 0 D)) /\
  (all_zero (hv_time_anom o) /\ List.length (hv_time_anom o) = (T * D)%nat) /\
  (all_zero (hv_time_std o) /\ List.length (hv_time_std o) = D) /\
  (all_zero (hv_time_delta o) /\ List.length (hv_time_delta o) = D).

(** The weights the spec describes for a time axis of length [T]:
    [1/(T-1)] throughout, halved at both ends. *)
Definition trapezoid_weights (T : nat) : list Q :=
  let c := 1 / inject_Z (Z.of_nat T - 1) in
  c * (1 # 2) :: repeat c (T - 2) ++ [c * (1 # 2)].

(** A history file for tracers [a] and [b] with three times, and a series
    over two depths that is constant in time. *)
Definition hist_file : Nc.dataset :=
  {| Nc.ds_attrs := [];
     Nc.ds_dimensions := [("time", 3%nat); ("depth", 2%nat)];
     Nc.ds_variables :=
       flat_map
         (fun name =>
            [ (name, var_on ["time"; "depth"] []);
              (name +++ "_time_mean", var_on ["depth"] []);
              (name +++ "_time_anom", var_on ["time"; "depth"] []);
              (name +++ "_time_std", var_on ["depth"] []);
              (name +++ "_time_delta", var_on ["depth"] []);
              (name +++ "_depth_int", var_on ["time"] []) ])
         ["a"; "b"] |}.

Definition constants_ab (i d : nat) : Q := nth (i * 2 + d) [5; 7; 1; 2] 0.

Definition series_ab : Nd.array3 :=
  {| Nd.dim0 := 2; Nd.dim1 := 2; Nd.dim2 := 3;
     Nd.values := [5; 5; 5; 7; 7; 7; 1; 1; 1; 2; 2; 2] |}.

(** ** Further statement vocabulary *)

(** [a * x + b * y], elementwise on two arrays of one shape. *)
Definition lincomb (a b : Q) (x y : Nd.ndarray) : Nd.ndarray :=
  {| Nd.shape := Nd.shape x;
     Nd.data := Np.zip_with (fun u v => a * u + b * v) (Nd.data x) (Nd.data y) |}.

(** Every value of an array is [c]. *)
Definition all_equal_to (c : Q) (l : list Q) : Prop :=
  Forall (fun x => x == c) l.

(** Every value of an array lies between [lo] and [hi]. *)
Definition within (lo hi : Q) (l : list Q) : Prop :=
  Forall (fun v => lo <= v /\ v <= hi) l.

(** A module of two tracers: the first has an initial profile, the
    second shadows the first. *)
Definition tracers_profile_shadow : Nc.dict tracer_metadata :=
  [("po4",
    {| tm_attrs := []; tm_init_iterate_vals := Some [1; 4];
       tm_init_iterate_val_depths := Some [0; 30]; tm_shadows := None |});
   ("po4_s",
    {| tm_attrs := []; tm_init_iterate_vals := None;
       tm_init_iterate_val_depths := None; tm_shadows := Some "po4" |})].

(** What ["gen_init_iterate"] gives for that module on the two-layer
    axis. *)
Definition vals_profile_shadow : Nd.ndarray :=
  Eval vm_compute in
    match TestProblem._read_vals tracers_profile_shadow axis_10_20
            (fun _ => None) "phosphorus" "gen_init_iterate" with
    | OK r => fst r
    | Raise _ => empty_array
    end.

(** ** [spatial_axis_defn_dict] with its keyword arguments

    The call [SpatialAxis.__init__] makes passes no keyword; the function
    itself takes any.  Here the returned dict is kept as Python has it:
    each key with the ["value"] stored under it, which may be any value
    a caller passed, or [None]. *)

Inductive pyval : Type :=
| PyNone
| PyStr (s : string)
| PyInt (n : Z)
| PyFloat (x : Q).

(** [value is None] *)
Definition is_none (v : pyval) : bool :=
  match v with PyNone => true | _ => false end.

(** [axisname == "depth"] *)
Definition is_depth (v : pyval) : bool :=
  match v with PyStr s => String.eqb s "depth" | _ => false end.

(** The framework of lines 197-208, by ["value"]. *)
Definition defn_dict_framework (axisname : pyval) : Nc.dict pyval :=
  [("axisname", axisname); ("units", PyNone); ("nlevs", PyNone);
   ("edge_start", PyNone); ("edge_end", PyNone);
   ("delta_ratio_max", PyNone)].

(** The defaults of lines 211-216. *)
Definition defn_dict_defaults (axisname : pyval) : Nc.dict pyval :=
  let d := defn_dict_framework axisname in
  if is_depth axisname then
    let d := Nc.set d "units" (PyStr "m") in
    let d := Nc.set d "nlevs" (PyInt 30) in
    let d := Nc.set d "edge_start" (PyFloat 0) in
    let d := Nc.set d "edge_end" (PyFloat 900) in
    Nc.set d "delta_ratio_max" (PyFloat 5)
  else d.

(** The loop of lines 219-224 over [kwargs.items()]. *)
Fixpoint populate (trap_unknown : bool) (kwargs : list (string * pyval))
    (d : Nc.dict pyval) : result (Nc.dict pyval) :=
  match kwargs with
  | [] => OK d
  | (key, value) :: kwargs' =>
      if Nc.mem d key then populate trap_unknown kwargs' (Nc.set d key value)
      else if trap_unknown then
        Raise (ValueError (Msg ("unknown key " +++ key)))
      else populate trap_unknown kwargs' d
  end.

(** The loop of lines 227-230: the first key left at [None] raises. *)
Fixpoint ensure_set (items : Nc.dict pyval) : result unit :=
  match items with
  | [] => OK tt
  | (key, value) :: items' =>
      if is_none value then
        Raise (ValueError (Msg ("value for key " +++ key +++ " not set")))
      else ensure_set items'
  end.

(** [spatial_axis_defn_dict(axisname, trap_unknown, **kwargs)] *)
Definition spatial_axis_defn_dict_kw (axisname : pyval) (trap_unknown : bool)
    (kwargs : list (string * pyval)) : result (Nc.dict pyval) :=
  let* d := populate trap_unknown kwargs (defn_dict_defaults axisname) in
  let* checked := ensure_set d in
  OK d.

(** The six keys of the dict, in its order. *)
Definition defn_dict_keys : list string :=
  ["axisname"; "units"; "nlevs"; "edge_start"; "edge_end"; "delta_ratio_max"].

(** The dict that holds the values of a definition. *)
Definition values_of_defn (d : defn_dict) : Nc.dict pyval :=
  [("axisname", PyStr (axisname d)); ("units", PyStr (units d));
   ("nlevs", PyInt (nlevs d)); ("edge_start", PyFloat (edge_start d));
   ("edge_end", PyFloat (edge_end d));
   ("delta_ratio_max", PyFloat (delta_ratio_max d))].

(** [axisname] as passed by [SpatialAxis.__init__]. *)
Definition pyval_of_name (name : option string) : pyval :=
  match name with Some n => PyStr n | None => PyNone end.

(** What [**kwargs] can hold: one value per name, and neither of the two
    names Python binds to the parameters of the function. *)
Definition kwargs_ok (kwargs : list (string * pyval)) : Prop :=
  NoDup (map fst kwargs) /\
  ~ In "axisname" (map fst kwargs) /\
  ~ In "trap_unknown" (map fst kwargs).

(** The keyword arguments whose key the dict has. *)
Definition known_kwargs (kwargs : list (string * pyval))
    : list (string * pyval) :=
  filter (fun kv => existsb (String.eqb (fst kv)) defn_dict_keys) kwargs.

(** ** [SpatialAxis.dump] *)

(** [fptr.<name> = value] for a global attribute *)
Definition set_global_attr (name value : string) : Nc.io unit :=
  fun fptr =>
    (OK tt,
     {| Nc.ds_attrs := Nc.set (Nc.ds_attrs fptr) name value;
        Nc.ds_dimensions := Nc.ds_dimensions fptr;
        Nc.ds_variables := Nc.ds_variables fptr |}).

(** What [Dataset(fname, mode="w")] opens: a file with nothing in it. *)
Definition new_dataset : Nc.dataset :=
  {| Nc.ds_attrs := []; Nc.ds_dimensions := []; Nc.ds_variables := [] |}.

(** The body of the [with] block of [SpatialAxis.dump(fname, caller)].
    [datestamp] is the string that [datetime.now().strftime(...)] gives
    and [generator] the one that [class_name(self)] gives. *)
Definition SpatialAxis_dump_body (datestamp generator : string)
    (self : SpatialAxis) (caller : string) : Nc.io unit :=
  let name := generator +++ ".dump" in
  let msg := ((datestamp +++ ": generated by ") +++ name)
             +++ " called from " +++ caller in
  set_global_attr "history" msg ;;
  (match sa_defn_dict_values self with
   | Some v => set_global_attr "defn_dict_values" v
   | None => Nc.ret tt
   end) ;;
  dims <- Nc.reading (fun _ => dump_dimensions self) ;;
  Utils.create_dimensions_verify dims ;;
  Utils.create_vars (dump_vars_metadata self) ;;
  dump_write self.

(** [SpatialAxis.dump(fname, caller)]: what it returns or raises, and the
    files afterwards.  The file is replaced by what the body wrote, also
    when the body raised. *)
Definition SpatialAxis_dump (datestamp generator : string)
    (self : SpatialAxis) (fname caller : string) (fs : Nc.filesystem)
    : result unit * Nc.filesystem :=
  let out := SpatialAxis_dump_body datestamp generator self caller new_dataset in
  (fst out, fun f => if String.eqb f fname then Some (snd out) else fs f).

(** ** Reading and dumping tracer modules: statement vocabulary *)

(** The lengths a file gives the dimensions [dims], in order. *)
Definition lens_of (fptr : Nc.dataset) (dims : list string) : list nat :=
  map (dim_len_of fptr) dims.

(** The values a file stores under a variable name (none if the variable
    is not there). *)
Definition data_of (fptr : Nc.dataset) (name : string) : list Q :=
  match Nc.get (Nc.ds_variables fptr) name with
  | Some var => Nc.var_data var
  | None => []
  end.

(** The variable [name] is stored on the dimensions [dims] and holds one
    value per point. *)
Definition stored_on (fptr : Nc.dataset) (dims : list string) (name : string)
    : Prop :=
  exists var,
    Nc.get (Nc.ds_variables fptr) name = Some var /\
    Nc.var_dimensions var = dims /\
    List.length (Nc.var_data var) = Nd.size (lens_of fptr dims).

(** A file that stores tracer [a] as a scalar, under both names. *)
Definition scalar_file : Nc.dataset :=
  {| Nc.ds_attrs := [];
     Nc.ds_dimensions := [];
     Nc.ds_variables := [("a", var_on [] [7]); ("a_CUR", var_on [] [7])] |}.

(** A file of the no-grid variant: two tracers on the same two
    dimensions, each with its [_CUR] and [_OLD] variable. *)
Definition cur_old_file : Nc.dataset :=
  {| Nc.ds_attrs := [];
     Nc.ds_dimensions := [("x", 2%nat); ("y", 2%nat)];
     Nc.ds_variables :=
       [("a_CUR", var_on ["x"; "y"] [1; 2; 3; 4]);
        ("a_OLD", var_on ["x"; "y"] [1; 2; 3; 4]);
        ("b_CUR", var_on ["x"; "y"] [5; 6; 7; 8]);
        ("b_OLD", var_on ["x"; "y"] [5; 6; 7; 8])] |}.

(** A file of the grid-aware variant: two tracers on the same two
    dimensions. *)
Definition two_tracer_file : Nc.dataset :=
  {| Nc.ds_attrs := [];
     Nc.ds_dimensions := [("x", 2%nat); ("y", 2%nat)];
     Nc.ds_variables :=
       [("a", var_on ["x"; "y"] [1; 2; 3; 4]);
        ("b", var_on ["x"; "y"] [5; 6; 7; 8])] |}.

(** The variables the no-grid [dump] declares for its tracers: two per
    tracer, on the dimensions of the module, without attributes. *)
Definition cur_old_vars (dimnames names : list string)
    : Nc.dict Utils.var_metadata :=
  flat_map
    (fun t =>
       [(t +++ "_CUR", {| Utils.vm_dimensions := dimnames; Utils.vm_attrs := [] |});
        (t +++ "_OLD", {| Utils.vm_dimensions := dimnames; Utils.vm_attrs := [] |})])
    names.

(** The assignments the no-grid [dump] makes in its write phase: row [i]
    of the values under both names of tracer [i]. *)
Definition cur_old_assignments (vals : Nd.ndarray)
    (its : list (nat * string)) : list (string * list Q) :=
  flat_map
    (fun it =>
       let row := Nd.chunk (Nd.size (tl (Nd.shape vals))) (fst it) (Nd.data vals) in
       [(snd it +++ "_CUR", row); (snd it +++ "_OLD", row)])
    its.

(** A module of the no-grid variant with two tracers on a 2-by-2 grid. *)
Definition pop_module_2x2 : CimePop.TracerModuleState :=
  {| CimePop.tracer_module_name := "abio";
     CimePop.tracers := tracers_ab;
     CimePop._vals :=
       {| Nd.shape := [2%nat; 2%nat; 2%nat];
          Nd.data := [1; 2; 3; 4; 5; 6; 7; 8] |};
     CimePop._dims := [("x", 2%nat); ("y", 2%nat)] |}.

(** A module object of the no-grid variant whose values have the tracer
    axis only. *)
Definition pop_module_flat : CimePop.TracerModuleState :=
  {| CimePop.tracer_module_name := "abio";
     CimePop.tracers := tracers_ab;
     CimePop._vals := {| Nd.shape := [2%nat]; Nd.data := [1; 2] |};
     CimePop._dims := [] |}.

(** That module's file after the define phase on a new file. *)
Definition pop_module_2x2_defined : Nc.dataset :=
  Eval vm_compute in snd (CimePop.dump pop_module_2x2 "define" new_dataset).

(** Two dicts of dimensions that can share a file: a name that both have
    has one length. *)
Definition dims_agree (present wanted : Nc.dict nat) : Prop :=
  forall k l, In (k, l) wanted ->
    Nc.get present k = None \/ Nc.get present k = Some l.

(** A module of the grid-aware variant: two tracers on the two-layer
    axis. *)
Definition tp_module_2x2 : TestProblem.TracerModuleState :=
  {| TestProblem.tracer_module_name := "abio";
     TestProblem.tracers := tracers_ab;
     TestProblem.depth := axis_10_20;
     TestProblem._vals :=
       {| Nd.shape := [2%nat; 2%nat]; Nd.data := [1; 2; 3; 4] |};
     TestProblem._dimensions := [("depth", 2%nat)] |}.

(** A series of [T] samples of [m] values each, row-major, that is linear
    in time: sample [i] holds [A j + i * B j] at point [j]. *)
Definition linear_in_time (T m : nat) (data : list Q) (A B : nat -> Q)
    : Prop :=
  forall i j, (i < T)%nat -> (j < m)%nat ->
    nth (i * m + j) data 0 == A j + Np.of_nat i * B j.

(** ** [TracerModuleState.hist_vars_metadata] *)

(** The ["dimensions"] entry of a variable's metadata as the method
    writes it: a tuple of names, or one name as a bare string (what
    [("depth")] is in Python). *)
Inductive dims_value : Type :=
| DimTuple (names : list string)
| DimString (name : string).

Record hist_var_metadata : Type := {
  hm_dimensions : dims_value;
  hm_attrs : Nc.dict string
}.

(** [attrs[key] += suffix] on a dict of strings *)
Definition append_attr (attrs : Nc.dict string) (key suffix : string)
    : result (Nc.dict string) :=
  match Nc.get attrs key with
  | Some v => OK (Nc.set attrs key (v +++ suffix))
  | None => Raise (KeyError key)
  end.

(** [hist_vars_metadata_tracer_like()]: the attributes of each tracer,
    under its name. *)
Definition hist_vars_metadata_tracer_like
    (self : TestProblem.TracerModuleState) : Nc.dict (Nc.dict string) :=
  fold_left (fun res kv => Nc.set res (fst kv) (tm_attrs (snd kv)))
    (TestProblem.tracers self) [].

Section HistMetadata.

(** [utils.units_str_format], whose source is not at hand: any function
    on strings. *)
Variable units_str_format : string -> string.

(** The body of the loop of [hist_vars_metadata] for one tracer-like
    variable.  [attrs.copy()] is the dict itself here: a dict is a
    value. *)
Definition hist_vars_metadata_tracer (depth_units : string)
    (res : Nc.dict hist_var_metadata) (item : string * Nc.dict string)
    : result (Nc.dict hist_var_metadata) :=
  let tracer_like_name := fst item in
  let attrs := snd item in
  let res := Nc.set res tracer_like_name
               {| hm_dimensions := DimTuple ["time"; "depth"];
                  hm_attrs := attrs |} in
  let* a := append_attr attrs "long_name" ", mean in time" in
  let res := Nc.set res (tracer_like_name +++ "_time_mean")
               {| hm_dimensions := DimString "depth"; hm_attrs := a |} in
  let* a := append_attr attrs "long_name" ", anomaly in time" in
  let res := Nc.set res (tracer_like_name +++ "_time_anom")
               {| hm_dimensions := DimTuple ["time"; "depth"];
                  hm_attrs := a |} in
  let* a := append_attr attrs "long_name" ", std dev in time" in
  let res := Nc.set res (tracer_like_name +++ "_time_std")
               {| hm_dimensions := DimString "depth"; hm_attrs := a |} in
  let* a := append_attr attrs "long_name" ", end state minus start state" in
  let res := Nc.set res (tracer_like_name +++ "_time_delta")
               {| hm_dimensions := DimString "depth"; hm_attrs := a |} in
  let* a := append_attr attrs "long_name" ", depth integral" in
  let* u := match Nc.get a "units" with
            | Some u => OK u
            | None => Raise (KeyError "units")
            end in
  let units_str :=
    String.concat " " ["("; u; ")"; "("; depth_units; ")"] in
  OK (Nc.set res (tracer_like_name +++ "_depth_int")
        {| hm_dimensions := DimString "time";
           hm_attrs := Nc.set a "units" (units_str_format units_str) |}).

(** [TracerModuleState.hist_vars_metadata()] *)
Definition hist_vars_metadata (self : TestProblem.TracerModuleState)
    : result (Nc.dict hist_var_metadata) :=
  fold_left
    (fun acc item =>
       let* res := acc in
       hist_vars_metadata_tracer (sa_units (TestProblem.depth self)) res item)
    (hist_vars_metadata_tracer_like self) (OK []).

End HistMetadata.

(** The names of the six history variables of a tracer, in the order
    [write_hist_vars] assigns to them, and the number of axes of what it
    assigns: the series and its anomaly over time and depth, the mean,
    the deviation and the difference over depth, the depth integral over
    time. *)
Definition hist_names (t : string) : list string :=
  [t; t +++ "_time_mean"; t +++ "_time_anom"; t +++ "_time_std";
   t +++ "_time_delta"; t +++ "_depth_int"].

Definition hist_ranks : list nat := [2; 1; 2; 1; 1; 1]%nat.

(** A tracer whose attributes have a long name and units. *)
Definition described (md : tracer_metadata) : Prop :=
  Nc.mem (tm_attrs md) "long_name" = true /\
  Nc.mem (tm_attrs md) "units" = true.

(** The number of axes a ["dimensions"] entry stands for. *)
Definition dims_rank (d : dims_value) : nat :=
  match d with
  | DimTuple names => List.length names
  | DimString _ => 1%nat
  end.

(** A module with one tracer that has a long name and units. *)
Definition tracers_described : Nc.dict tracer_metadata :=
  [("po4",
    {| tm_attrs := [("long_name", "phosphate"); ("units", "mmol / m^3")];
       tm_init_iterate_vals := None; tm_init_iterate_val_depths := None;
       tm_shadows := None |})].

Definition tp_module_described : TestProblem.TracerModuleState :=
  {| TestProblem.tracer_module_name := "phosphorus";
     TestProblem.tracers := tracers_described;
     TestProblem.depth := axis_10_20;
     TestProblem._vals := empty_array;
     TestProblem._dimensions := [] |}.

(** ** The history values of any series *)

(** The entry [a[i, d, t]] of a series (tracer, depth, time). *)
Definition at3 (a : Nd.array3) (i d t : nat) : Q :=
  nth (i * (Nd.dim1 a * Nd.dim2 a) + (d * Nd.dim2 a + t)) (Nd.values a) 0.

(** What [write_hist_vars] is to assign for tracer [i] of a series [a],
    with time weights [w] and layer thicknesses [delta], entry by entry:
    the series with time first; at each depth the weighted mean over
    time, the anomaly about it, the root of the weighted mean of its
    square and the last sample minus the first; at each time the sum over
    depth weighted by the thicknesses. *)
Definition series_hist_values (np_sqrt : Q -> Q) (delta w : list Q)
    (a : Nd.array3) (i : nat) (o : hist_values) : Prop :=
  let T := Nd.dim2 a in
  let D := Nd.dim1 a in
  let mean := fun d => sum_upto (fun t => nth t w 0 * at3 a i d t) T in
  let anom := fun d t => at3 a i d t - mean d in
  hv_tracer o
  = flat_map (fun t => map (fun d => at3 a i d t) (seq 0 D)) (seq 0 T) /\
  hv_time_mean o = map mean (seq 0 D) /\
  hv_time_anom o
  = flat_map (fun t => map (fun d => anom d t) (seq 0 D)) (seq 0 T) /\
  hv_time_std o
  = map (fun d =>
           np_sqrt (sum_upto (fun t => nth t w 0 * (anom d t * anom d t)) T))
      (seq 0 D) /\
  hv_time_delta o
  = map (fun d => at3 a i d (T - 1) - at3 a i d 0) (seq 0 D) /\
  arr_eq (hv_depth_int o)
    (map (fun t => sum_upto (fun d => nth d delta 0 * at3 a i d t) D)
       (seq 0 T)).

(** A series for one tracer over two depths and three times. *)
Definition series_po4 : Nd.array3 :=
  {| Nd.dim0 := 1; Nd.dim1 := 2; Nd.dim2 := 3;
     Nd.values := [1; 2; 4; 10; 20; 40] |}.

(** A history file with three times in which the history variables of
    the tracer [po4] are defined. *)
Definition hist_file_po4 : Nc.dataset :=
  {| Nc.ds_attrs := [];
     Nc.ds_dimensions := [("time", 3%nat); ("depth", 2%nat)];
     Nc.ds_variables :=
       [("po4", var_on ["time"; "depth"] []);
        ("po4_time_mean", var_on ["depth"] []);
        ("po4_time_anom", var_on ["time"; "depth"] []);
        ("po4_time_std", var_on ["depth"] []);
        ("po4_time_delta", var_on ["depth"] []);
        ("po4_depth_int", var_on ["time"] [])] |}.

(** An axis definition with both end edges moved by [c]. *)
Definition shifted (c : Q) (d : defn_dict) : defn_dict :=
  {| axisname := axisname d; units := units d; nlevs := nlevs d;
     edge_start := edge_start d + c; edge_end := edge_end d + c;
     delta_ratio_max := delta_ratio_max d |}.

(** ** The numeric code in binary64

    The definitions above read the arithmetic of the source over the
    rationals.  The code runs on binary64 numbers: every operation is
    rounded (to nearest, ties to even) and can overflow to an infinity or
    give a nan.  This module is the same code read with the binary64
    operations of the machine, for the places where the statements below
    equate numbers: [_gen_edges], the arrays [SpatialAxis.__init__]
    derives from the edges, [hist_time_mean_weights] and the time
    statistics of [write_hist_vars].  What decides which branch runs (the
    lengths, the integer [nlevs], the stored time length) is the same in
    both readings. *)

Module B64.

Import PrimFloat.
Local Open Scope float_scope.

(** Python's [float(n)] for an int [n]: the nearest binary64 number.
    (Python raises [OverflowError] where this is an infinity, for ints of
    more than 1024 bits.) *)
Definition of_int (n : Z) : float :=
  FloatOps.SF2Prim
    (SpecFloat.binary_normalize FloatOps.prec FloatOps.emax n 0 false).

(** The rational a finite binary64 number stands for. *)
Definition to_Q (x : float) : option Q :=
  match FloatOps.Prim2SF x with
  | SpecFloat.S754_zero _ => Some 0%Q
  | SpecFloat.S754_finite s m e =>
      let v := (inject_Z (Z.pos m) * Qpower 2 e)%Q in
      Some (Qred (if s then Qopp v else v))
  | _ => None
  end.

(** The sum of finite binary64 numbers as a rational, without rounding. *)
Definition exact_sum (a : list float) : option Q :=
  fold_left (fun acc x =>
               match acc, to_Q x with
               | Some s, Some q => Some (Qred (s + q))
               | _, _ => None
               end) a (Some 0%Q).

(** [x / y] on Python floats: a zero divisor raises. *)
Definition py_div (x y : float) : result float :=
  if y =? 0 then Raise ZeroDivisionError else OK (x / y).

(** Elementwise binary operation on arrays of one length. *)
Fixpoint zip_with (f : float -> float -> float) (a b : list float)
    : list float :=
  match a, b with
  | x :: a', y :: b' => f x y :: zip_with f a' b'
  | _, _ => []
  end.

(** [y[-1] = stop] *)
Definition set_last (y : list float) (stop : float) : list float :=
  match y with
  | [] => []
  | _ :: _ => removelast y ++ [stop]
  end.

(** [np.linspace(start, stop, num)], [endpoint=True]: with
    [div = num - 1] and [step = (stop - start) / div], the samples are
    [arange(num) * step + start] ([arange(num) / div * delta + start] if
    the step has rounded to zero); for [num > 1] numpy then stores [stop]
    in the last slot.  A single sample is [0 * delta + start]. *)
Definition linspace (start stop : float) (num : Z) : result (list float) :=
  if (num <? 0)%Z then
    Raise (ValueError (Msg ("Number of samples, " +++ str_of_int num
                            +++ ", must be non-negative.")))
  else
    let div := (num - 1)%Z in
    let delta := stop - start in
    let arange := map (fun i => of_int (Z.of_nat i)) (seq 0 (Z.to_nat num)) in
    if (0 <? div)%Z then
      let step := delta / of_int div in
      let y :=
        if step =? 0 then map (fun i => i / of_int div * delta + start) arange
        else map (fun i => i * step + start) arange in
      OK (set_last y stop)
    else
      OK (map (fun i => i * delta + start) arange).

(** [a.cumsum()]: each partial sum is the previous one plus the next
    value, rounded. *)
Fixpoint cumsum_from (acc : float) (a : list float) : list float :=
  match a with
  | [] => []
  | x :: a' => (acc + x) :: cumsum_from (acc + x) a'
  end.

Definition cumsum (a : list float) : list float :=
  match a with
  | [] => []
  | x :: a' => x :: cumsum_from x a'
  end.

(** The keys of a [defn_dict] that [_gen_edges] reads. *)
Record defn_dict : Type := {
  nlevs : Z;
  edge_start : float;
  edge_end : float;
  delta_ratio_max : float
}.

(** [0.125 * coord * (15 + coord * coord * (3 * coord * coord - 10))] *)
Definition stretch_fcn (coord : float) : float :=
  0.125 * coord * (15 + coord * coord * (3 * coord * coord - 10)).

(** [delta_avg = (1.0 / nlevs) * (edge_end - edge_start)] *)
Definition gen_delta_avg (d : defn_dict) : result float :=
  let* r := py_div 1 (of_int (nlevs d)) in
  OK (r * (edge_end d - edge_start d)).

(** The local [delta] of [_gen_edges], in program order. *)
Definition gen_delta (d : defn_dict) : result (list float) :=
  let* coord := linspace (-1) 1 (nlevs d) in
  let stretch := map stretch_fcn coord in
  let* delta_avg := gen_delta_avg d in
  if delta_ratio_max d <? 1 then
    Raise (ValueError (Msg "delta_ratio_max must be >= 1.0"))
  else
    let* stretch_factor :=
      py_div (delta_avg * (delta_ratio_max d - 1)) (delta_ratio_max d + 1) in
    OK (map (fun s => delta_avg + stretch_factor * s) stretch).

(** [_gen_edges(defn_dict)] *)
Definition _gen_edges (d : defn_dict) : result (list float) :=
  let* delta := gen_delta d in
  OK (edge_start d :: map (fun c => edge_start d + c) (cumsum delta)).

(** The arrays [SpatialAxis.__init__] derives from the edges (lines
    69-73); numpy divides by zero without raising. *)
Record derived : Type := {
  mid : list float;
  delta : list float;
  delta_r : list float;
  delta_mid : list float;
  delta_mid_r : list float
}.

Definition derive (edges : list float) : derived :=
  let mid := map (fun s => 0.5 * s)
               (zip_with add (removelast edges) (tl edges)) in
  let delta := zip_with sub (tl edges) (removelast edges) in
  let delta_mid := zip_with sub (tl mid) (removelast mid) in
  {| mid := mid;
     delta := delta;
     delta_r := map (fun x => 1 / x) delta;
     delta_mid := delta_mid;
     delta_mid_r := map (fun x => 1 / x) delta_mid |}.

(** [TracerModuleState.hist_time_mean_weights(fptr)] *)
Fixpoint scale_at (a : list float) (i : nat) (c : float)
    : result (list float) :=
  match a, i with
  | [], _ => Raise (IndexError (Msg "index is out of bounds for axis 0"))
  | x :: a', O => OK (x * c :: a')
  | x :: a', S i' => let* r := scale_at a' i' c in OK (x :: r)
  end.

Definition hist_time_mean_weights (fptr : Nc.dataset) : result (list float) :=
  let* timelen := Nc.dim_len fptr "time" in
  let* weight := py_div 1 (of_int (Z.of_nat timelen - 1)) in
  let weights := repeat weight timelen in
  let* weights := scale_at weights 0 0.5 in
  scale_at weights (timelen - 1) 0.5.

(** An array of any rank: its shape and its values in row-major order. *)
Record ndarray : Type := {
  shape : list nat;
  data : list float
}.

Definition chunk (m r : nat) (l : list float) : list float :=
  firstn m (skipn (r * m) l).

(** [np.einsum("i,i...", w, a)]: the first axis of [a] contracted with
    [w]; lengths must agree or one of them be 1.  Entry [j] is the sum
    over [i] of [w[i] * a[i][j]], each product rounded and added to the
    sum so far, in the order of [i]. *)
Definition einsum_i (w : list float) (a : ndarray) : result ndarray :=
  match shape a with
  | [] =>
      Raise (ValueError
               (Msg "einstein sum subscripts string contains too many subscripts for operand 1"))
  | t :: rest =>
      let n := List.length w in
      if Nd.broadcastable n t then
        let wi := fun i => nth (if (n =? t)%nat then i else
                                if (n =? 1)%nat then 0%nat else i) w 0 in
        let row := fun i => chunk (Nd.size rest)
                              (if (n =? t)%nat then i else
                               if (t =? 1)%nat then 0%nat else i) (data a) in
        OK {| shape := rest;
              data := map (fun j =>
                             fold_left (fun acc i => acc + wi i * nth j (row i) 0)
                               (seq 0 (Nat.max n t)) 0)
                        (seq 0 (Nd.size rest)) |}
      else
        Raise (ValueError (Msg "operands could not be broadcast together"))
  end.

(** [tracer_vals - tracer_vals_mean] *)
Definition sub_rows (tracer_vals mean : ndarray) : ndarray :=
  match shape tracer_vals with
  | t :: rest =>
      {| shape := shape tracer_vals;
         data :=
           flat_map (fun i => zip_with sub
                                (chunk (Nd.size rest) i (data tracer_vals))
                                (data mean))
             (seq 0 t) |}
  | [] => tracer_vals
  end.

(** [tracer_vals[-1, :] - tracer_vals[0, :]] *)
Definition last_minus_first (tracer_vals : ndarray) : result (list float) :=
  match shape tracer_vals with
  | t :: rest =>
      if (t =? 0)%nat then
        Raise (IndexError (Msg "index -1 is out of bounds for axis 0 with size 0"))
      else
        OK (zip_with sub
              (chunk (Nd.size rest) (t - 1) (data tracer_vals))
              (chunk (Nd.size rest) 0 (data tracer_vals)))
  | [] => Raise (IndexError (Msg "too many indices for array"))
  end.

(** What [write_hist_vars] computes of one tracer's series [tracer_vals]
    (time by depth): the mean in time, the anomaly, the standard
    deviation and last minus first (lines 199 and 210-225), in program
    order. *)
Record time_statistics : Type := {
  time_mean : list float;
  time_anom : list float;
  time_std : list float;
  time_delta : list float
}.

Definition write_hist_vars_statistics (fptr : Nc.dataset)
    (tracer_vals : ndarray) : result time_statistics :=
  let* time_weights := hist_time_mean_weights fptr in
  let* tracer_vals_mean := einsum_i time_weights tracer_vals in
  let tracer_vals_anom := sub_rows tracer_vals tracer_vals_mean in
  let* tracer_vals_var :=
    einsum_i time_weights
      {| shape := shape tracer_vals_anom;
         data := map (fun x => x * x) (data tracer_vals_anom) |} in
  let* delta := last_minus_first tracer_vals in
  OK {| time_mean := data tracer_vals_mean;
        time_anom := data tracer_vals_anom;
        time_std := map sqrt (data tracer_vals_var);
        time_delta := delta |}.

(** Every way of adding the numbers of a list: in any order and any
    grouping, each sum rounded. *)
Fixpoint splits (l : list float) : list (list float * list float) :=
  match l with
  | [] => [([], [])]
  | x :: l' =>
      flat_map (fun p => [(x :: fst p, snd p); (fst p, x :: snd p)])
        (splits l')
  end.

Fixpoint sums_from (fuel : nat) (l : list float) : list float :=
  match fuel with
  | O => []
  | S fuel' =>
      match l with
      | [] => []
      | [x] => [x]
      | _ =>
          flat_map
            (fun p =>
               match fst p, snd p with
               | [], _ | _, [] => []
               | a, b =>
                   flat_map (fun s => map (fun t => s + t) (sums_from fuel' b))
                     (sums_from fuel' a)
               end)
            (splits l)
      end
  end.

Definition sums_any_order (l : list float) : list float :=
  sums_from (List.length l) l.

End B64.

(** *** Inputs for the binary64 reading *)

Module B64Inputs.

Import PrimFloat.
Local Open Scope float_scope.

(** The running example of the spec. *)
Definition defn_4 : B64.defn_dict :=
  {| B64.nlevs := 4; B64.edge_start := 0; B64.edge_end := 100;
     B64.delta_ratio_max := 3 |}.

(** The running example with a ratio of [1e17], and with no ratio. *)
Definition defn_4_huge_ratio : B64.defn_dict :=
  {| B64.nlevs := 4; B64.edge_start := 0; B64.edge_end := 100;
     B64.delta_ratio_max := 1e17 |}.

Definition defn_4_nan_ratio : B64.defn_dict :=
  {| B64.nlevs := 4; B64.edge_start := 0; B64.edge_end := 100;
     B64.delta_ratio_max := nan |}.

(** The defaults of [spatial_axis_defn_dict] for the ["depth"] axis. *)
Definition defn_depth : B64.defn_dict :=
  {| B64.nlevs := 30; B64.edge_start := 0; B64.edge_end := 900;
     B64.delta_ratio_max := 5 |}.

(** Four layers between [1e16] and [1e16 + 2], where neighbouring
    binary64 numbers are 2 apart. *)
Definition defn_4_far : B64.defn_dict :=
  {| B64.nlevs := 4; B64.edge_start := 1e16; B64.edge_end := 1e16 + 2;
     B64.delta_ratio_max := 3 |}.

(** The binary64 number nearest to 0.23. *)
Definition c_023 : float := 0x1.d70a3d70a3d71p-3.

(** A series of one depth that holds [c_023] at each of four times. *)
Definition constant_series : B64.ndarray :=
  {| B64.shape := [4%nat; 1%nat]; B64.data := repeat c_023 4 |}.

End B64Inputs.

(** * Properties *)

(** ** Sums of exact numbers *)

Section Sums.

Lemma sum_app (a b : list Q) : Np.sum (a ++ b) == Np.sum a + Np.sum b.
Proof.
  induction a as [|x a IH]; simpl.
  - ring.
  - rewrite IH. ring.
Qed.

Lemma sum_rev (a : list Q) : Np.sum (rev a) == Np.sum a.
Proof.
  induction a as [|x a IH]; simpl.
  - reflexivity.
  - rewrite sum_app, IH. simpl. ring.
Qed.

Lemma sum_map_ext {A} (f g : A -> Q) (l : list A) :
  (forall x, In x l -> f x == g x) ->
  Np.sum (map f l) == Np.sum (map g l).
Proof.
  induction l as [|x l IH]; intros H; simpl.
  - reflexivity.
  - rewrite (H x (or_introl eq_refl)), IH.
    + reflexivity.
    + intros y Hy. apply H. now right.
Qed.

Lemma sum_map_plus {A} (f g : A -> Q) (l : list A) :
  Np.sum (map (fun x => f x + g x) l) == Np.sum (map f l) + Np.sum (map g l).
Proof.
  induction l as [|x l IH]; simpl.
  - ring.
  - rewrite IH. ring.
Qed.

Lemma sum_map_scale {A} (c : Q) (f : A -> Q) (l : list A) :
  Np.sum (map (fun x => c * f x) l) == c * Np.sum (map f l).
Proof.
  induction l as [|x l IH]; simpl.
  - ring.
  - rewrite IH. ring.
Qed.

Lemma sum_map_const {A} (c : Q) (l : list A) :
  Np.sum (map (fun _ => c) l) == Np.of_nat (List.length l) * c.
Proof.
  induction l as [|x l IH].
  - simpl. unfold Np.of_nat. simpl. ring.
  - cbn [map Np.sum fold_right List.length]. fold (Np.sum (map (fun _ => c) l)).
    rewrite IH. unfold Np.of_nat. rewrite Nat2Z.inj_succ, <- Z.add_1_r.
    rewrite inject_Z_plus. ring.
Qed.

Lemma rev_seq (n : nat) :
  rev (seq 0 n) = map (fun i => (n - 1 - i)%nat) (seq 0 n).
Proof.
  induction n as [|n IH].
  - reflexivity.
  - rewrite seq_S at 1. rewrite rev_app_distr. simpl rev. simpl app.
    rewrite IH. cbn [seq map]. f_equal.
    + lia.
    + rewrite <- seq_shift, map_map. apply map_ext. intros i. lia.
Qed.

(** Summing in the opposite order. *)
Lemma sum_upto_reverse (f : nat -> Q) (n : nat) :
  sum_upto f n == sum_upto (fun i => f (n - 1 - i)%nat) n.
Proof.
  unfold sum_upto.
  rewrite <- (sum_rev (map f (seq 0 n))), <- map_rev, rev_seq, map_map.
  reflexivity.
Qed.

(** A sum whose terms cancel in pairs [i], [n-1-i] is zero. *)
Lemma sum_upto_odd (f : nat -> Q) (n : nat) :
  (forall i, (i < n)%nat -> f (n - 1 - i)%nat == - f i) ->
  sum_upto f n == 0.
Proof.
  intros Hodd.
  assert (H2 : sum_upto f n + sum_upto f n == 0).
  { rewrite (sum_upto_reverse f n) at 2. unfold sum_upto.
    rewrite <- sum_map_plus.
    rewrite (sum_map_ext (fun i => f i + f (n - 1 - i)%nat) (fun _ => 0)).
    - rewrite sum_map_const. ring.
    - intros i Hi. apply in_seq in Hi. rewrite Hodd by lia. ring. }
  lra.
Qed.

End Sums.

(** ** The stretching polynomial and the sample points *)

#[export] Instance stretch_fcn_proper : Proper (Qeq ==> Qeq) stretch_fcn.
Proof. intros x y H. unfold stretch_fcn. now rewrite H. Qed.

Lemma stretch_fcn_odd (x : Q) : stretch_fcn (- x) == - stretch_fcn x.
Proof. unfold stretch_fcn. ring. Qed.

Lemma stretch_fcn_at_1 : stretch_fcn 1 == 1.
Proof. reflexivity. Qed.

Lemma stretch_fcn_at_m1 : stretch_fcn (-1) == -1.
Proof. reflexivity. Qed.

(** [1 - S(x) = (1-x)^3 (3x^2+9x+8) / 8], so [S <= 1] on [x <= 1]; by
    oddness [-1 <= S] on [-1 <= x]. *)
Lemma stretch_fcn_le_1 (x : Q) : x <= 1 -> stretch_fcn x <= 1.
Proof.
  intros Hx.
  assert (E : 1 - stretch_fcn x
              == (1 # 8) * ((1 - x) * ((1 - x) * (1 - x)))
                 * (3 * ((x + (3 # 2)) * (x + (3 # 2))) + (5 # 4))).
  { unfold stretch_fcn. ring. }
  assert (P1 : 0 <= 1 - x) by lra.
  assert (P2 : 0 <= (1 - x) * (1 - x)) by (apply Qmult_le_0_compat; lra).
  assert (P3 : 0 <= (1 - x) * ((1 - x) * (1 - x)))
    by (apply Qmult_le_0_compat; lra).
  assert (P4 : 0 <= (x + (3 # 2)) * (x + (3 # 2))).
  { destruct (Qlt_le_dec (x + (3 # 2)) 0) as [Hn|Hp].
    - setoid_replace ((x + (3 # 2)) * (x + (3 # 2)))
        with ((- (x + (3 # 2))) * (- (x + (3 # 2)))) by ring.
      apply Qmult_le_0_compat; lra.
    - apply Qmult_le_0_compat; lra. }
  assert (P5 : 0 <= (1 # 8) * ((1 - x) * ((1 - x) * (1 - x)))
                    * (3 * ((x + (3 # 2)) * (x + (3 # 2))) + (5 # 4))).
  { apply Qmult_le_0_compat; [apply Qmult_le_0_compat|]; lra. }
  lra.
Qed.

Lemma stretch_fcn_ge_m1 (x : Q) : -1 <= x -> -1 <= stretch_fcn x.
Proof.
  intros Hx.
  assert (H := stretch_fcn_le_1 (- x)).
  rewrite stretch_fcn_odd in H. lra.
Qed.

Lemma of_nat_sub (n i : nat) :
  (i <= n)%nat -> Np.of_nat (n - i) == Np.of_nat n - Np.of_nat i.
Proof.
  intros H. unfold Np.of_nat.
  rewrite Nat2Z.inj_sub by assumption.
  unfold Zminus. rewrite inject_Z_plus, inject_Z_opp. ring.
Qed.

Lemma of_nat_nonneg (i : nat) : 0 <= Np.of_nat i.
Proof.
  unfold Np.of_nat. rewrite <- (Zle_Qle 0). lia.
Qed.

Lemma of_nat_le (i j : nat) : (i <= j)%nat -> Np.of_nat i <= Np.of_nat j.
Proof.
  intros H. unfold Np.of_nat. rewrite <- Zle_Qle. lia.
Qed.

(** The last sample of [np.linspace] is [stop], by the formula alone. *)
Lemma linspace_last (start stop : Q) (num : Z) (l : list Q) :
  (2 <= num)%Z -> Np.linspace start stop num = OK l -> last l 0 == stop.
Proof.
  intros Hn. unfold Np.linspace.
  destruct (Z.ltb_spec num 0) as [?|_]; [lia|].
  destruct (Z.ltb_spec 0 (num - 1)) as [_|?]; [|lia].
  intros [= <-].
  destruct (Z.to_nat num) as [|k] eqn:Ek; [lia|].
  rewrite seq_S, !map_app. cbn [map Nat.add]. rewrite last_last.
  assert (E : Np.of_nat k == inject_Z (num - 1)).
  { unfold Np.of_nat. apply inject_Z_injective. lia. }
  assert (P : 0 < inject_Z (num - 1)) by (rewrite <- (Zlt_Qlt 0); lia).
  rewrite E. field. lra.
Qed.

Section Samples.

Variable d : defn_dict.
Hypothesis nlevs_ge_2 : (2 <= nlevs d)%Z.

Let n : nat := Z.to_nat (nlevs d).

Lemma div_pos : 0 < inject_Z (nlevs d - 1).
Proof. rewrite <- (Zlt_Qlt 0). lia. Qed.

Lemma of_nat_pred_n : Np.of_nat (n - 1) == inject_Z (nlevs d - 1).
Proof.
  unfold Np.of_nat, n. apply inject_Z_injective. lia.
Qed.

(** The sample points are placed symmetrically about 0. *)
Lemma coord_of_mirror (i : nat) :
  (i < n)%nat -> coord_of d (n - 1 - i) == - coord_of d i.
Proof.
  intros Hi. unfold coord_of.
  rewrite of_nat_sub by lia. rewrite of_nat_pred_n.
  assert (P := div_pos). field. lra.
Qed.

Lemma coord_of_first : coord_of d 0 == -1.
Proof. unfold coord_of. unfold Np.of_nat. simpl. ring. Qed.

Lemma coord_of_last : coord_of d (n - 1) == 1.
Proof.
  unfold coord_of. rewrite of_nat_pred_n.
  assert (P := div_pos). field. lra.
Qed.

Lemma coord_of_range (i : nat) :
  (i < n)%nat -> -1 <= coord_of d i <= 1.
Proof.
  intros Hi. assert (P := div_pos).
  assert (L : 0 <= Np.of_nat i) by apply of_nat_nonneg.
  assert (U : Np.of_nat i <= inject_Z (nlevs d - 1)).
  { rewrite <- of_nat_pred_n. apply of_nat_le. lia. }
  unfold coord_of.
  set (k := Np.of_nat i) in *. set (m := inject_Z (nlevs d - 1)) in *.
  assert (E : k * ((1 - -1) / m) + -1 == 2 * (k / m) - 1) by (field; lra).
  rewrite E.
  assert (Q0 : 0 <= k / m) by (apply Qle_shift_div_l; lra).
  assert (Q1 : k / m <= 1) by (apply Qle_shift_div_r; lra).
  lra.
Qed.

(** The comment of the source: "the mean of stretch_fcn is 0". *)
Lemma stretch_sum_zero :
  sum_upto (fun i => stretch_fcn (coord_of d i)) n == 0.
Proof.
  apply sum_upto_odd. intros i Hi.
  rewrite coord_of_mirror by assumption. apply stretch_fcn_odd.
Qed.

End Samples.

(** ** [_gen_edges] *)

Lemma gen_delta_closed (d : defn_dict) :
  (2 <= nlevs d)%Z -> 1 <= delta_ratio_max d ->
  gen_delta d = OK (map (delta_of d) (seq 0 (Z.to_nat (nlevs d)))).
Proof.
  intros Hn Hr. unfold gen_delta, Np.linspace, gen_delta_avg.
  destruct (Z.ltb_spec (nlevs d) 0) as [?|_]; [lia|].
  destruct (Z.ltb_spec 0 (nlevs d - 1)) as [_|?]; [|lia].
  destruct (Z.eqb_spec (nlevs d) 0) as [?|_]; [lia|].
  cbn [bind].
  destruct (Qlt_le_dec (delta_ratio_max d) 1) as [Hlt|_]; [lra|].
  f_equal. rewrite !map_map. apply map_ext. intros i. reflexivity.
Qed.

(** A single layer: [np.linspace(-1.0, 1.0, 1)] is [[-1.]], where the
    stretching function is [-1]. *)
Lemma gen_delta_single (d : defn_dict) :
  nlevs d = 1%Z -> 1 <= delta_ratio_max d ->
  exists x, gen_delta d = OK [x] /\
            x == delta_avg_of d - stretch_factor_of d.
Proof.
  intros Hn Hr. unfold gen_delta, Np.linspace, gen_delta_avg.
  rewrite Hn. cbn [Z.ltb Z.compare Z.sub Z.add Z.opp Z.pos_sub Z.eqb bind
                   Z.to_nat Pos.to_nat Pos.iter_op Nat.add seq map].
  destruct (Qlt_le_dec (delta_ratio_max d) 1) as [Hlt|_]; [lra|].
  eexists. split; [reflexivity|].
  unfold stretch_factor_of, delta_avg_of. rewrite Hn.
  unfold stretch_fcn, Np.of_nat. simpl inject_Z. field. lra.
Qed.

Lemma length_gen_delta (d : defn_dict) (delta : list Q) :
  gen_delta d = OK delta -> List.length delta = Z.to_nat (nlevs d).
Proof.
  unfold gen_delta, Np.linspace, gen_delta_avg.
  destruct (nlevs d <? 0)%Z; [discriminate|].
  destruct (0 <? nlevs d - 1)%Z; cbn [bind];
    (destruct (nlevs d =? 0)%Z; [discriminate|]); cbn [bind];
    (destruct (Qlt_le_dec (delta_ratio_max d) 1); [discriminate|]);
    intros H; injection H as <-; now rewrite !length_map, length_seq.
Qed.

Lemma nth_map_seq (f : nat -> Q) (n i : nat) :
  (i < n)%nat -> nth i (map f (seq 0 n)) 0 = f i.
Proof.
  intros Hi.
  rewrite (nth_indep _ 0 (f 0%nat)) by now rewrite length_map, length_seq.
  rewrite map_nth, seq_nth by assumption. reflexivity.
Qed.

(** *** Cumulative sums *)

Lemma last_cumsum_from (a : list Q) (acc dflt : Q) :
  a <> [] -> last (Np.cumsum_from acc a) dflt == acc + Np.sum a.
Proof.
  revert acc. induction a as [|x a IH]; intros acc Hne; [congruence|].
  destruct a as [|y a].
  - simpl. ring.
  - change (last (Np.cumsum_from (acc + x) (y :: a)) dflt
            == acc + (x + Np.sum (y :: a))).
    rewrite IH by discriminate. ring.
Qed.

Lemma last_cons_nonempty {A} (x dflt : A) (l : list A) :
  l <> [] -> last (x :: l) dflt = last l dflt.
Proof. destruct l; [congruence|reflexivity]. Qed.

Lemma last_map_default {A B} (f : A -> B) (l : list A) (a : A) (b : B) :
  l <> [] -> last (map f l) b = f (last l a).
Proof.
  induction l as [|x l IH]; intros Hne; [congruence|].
  destruct l as [|y l]; [reflexivity|].
  change (last (map f (y :: l)) b = f (last (y :: l) a)).
  apply IH. discriminate.
Qed.

(** The last edge is [edge_start + sum(delta)]. *)
Lemma last_edge_sum (start : Q) (delta : list Q) :
  delta <> [] ->
  last (start :: map (fun c => start + c) (Np.cumsum delta)) 0
  == start + Np.sum delta.
Proof.
  intros Hne. destruct delta as [|x a]; [congruence|].
  cbn [Np.cumsum map].
  rewrite last_cons_nonempty by discriminate.
  destruct a as [|y a].
  - simpl. ring.
  - rewrite last_cons_nonempty by (cbn; discriminate).
    rewrite (last_map_default _ _ 0) by (cbn; discriminate).
    rewrite last_cumsum_from by discriminate.
    cbn [Np.sum fold_right]. ring.
Qed.

(** Consecutive edges differ by the thicknesses: [edges[1:] - edges[:-1]]
    gives [delta] back. *)
Lemma diff_cumsum_from (start : Q) (a : list Q) (acc b : Q) :
  b == start + acc ->
  arr_eq
    (Np.zip_with Qminus
       (Np.drop_first (b :: map (fun c => start + c) (Np.cumsum_from acc a)))
       (Np.drop_last (b :: map (fun c => start + c) (Np.cumsum_from acc a))))
    a.
Proof.
  revert acc b. induction a as [|x a IH]; intros acc b Hb.
  - constructor.
  - cbn [Np.cumsum_from map Np.drop_first tl].
    unfold Np.drop_last.
    change (removelast (b :: start + (acc + x)
                          :: map (fun c => start + c)
                               (Np.cumsum_from (acc + x) a)))
      with (b :: removelast (start + (acc + x)
                               :: map (fun c => start + c)
                                    (Np.cumsum_from (acc + x) a))).
    cbn [Np.zip_with]. constructor.
    + rewrite Hb. ring.
    + apply (IH (acc + x) (start + (acc + x))). reflexivity.
Qed.

Lemma diff_edges (start : Q) (delta : list Q) :
  arr_eq
    (Np.zip_with Qminus
       (Np.drop_first (start :: map (fun c => start + c) (Np.cumsum delta)))
       (Np.drop_last (start :: map (fun c => start + c) (Np.cumsum delta))))
    delta.
Proof.
  destruct delta as [|x a]; [constructor|].
  cbn [Np.cumsum map Np.drop_first tl]. unfold Np.drop_last.
  change (removelast (start :: start + x
                        :: map (fun c => start + c) (Np.cumsum_from x a)))
    with (start :: removelast (start + x
                        :: map (fun c => start + c) (Np.cumsum_from x a))).
  cbn [Np.zip_with]. constructor.
  - ring.
  - apply (diff_cumsum_from start a x (start + x)). reflexivity.
Qed.

(** Every edge is [edge_start] plus the thicknesses before it: the part
    of the spec's description that holds of every definition. *)
Lemma nth_cumsum_from (a : list Q) (acc : Q) (k : nat) :
  (k < List.length a)%nat ->
  nth k (Np.cumsum_from acc a) 0 == acc + Np.sum (firstn (S k) a).
Proof.
  revert acc k. induction a as [|x a IH]; intros acc k Hk; [cbn in Hk; lia|].
  destruct k as [|k].
  - cbn [Np.cumsum_from nth firstn Np.sum fold_right]. ring.
  - cbn [Np.cumsum_from nth]. cbn [List.length] in Hk.
    rewrite IH by lia.
    change (firstn (S (S k)) (x :: a)) with (x :: firstn (S k) a).
    unfold Np.sum. cbn [fold_right]. ring.
Qed.

Lemma gen_edges_cumulative (d : defn_dict) (edges : list Q) :
  _gen_edges d = OK edges ->
  exists delta,
    gen_delta d = OK delta /\
    List.length edges = S (List.length delta) /\
    forall k, (k <= List.length delta)%nat ->
      nth k edges 0 == edge_start d + Np.sum (firstn k delta).
Proof.
  unfold _gen_edges. destruct (gen_delta d) as [delta|]; [|discriminate].
  cbn [bind]. intros [= <-]. exists delta. split; [reflexivity|].
  assert (Hlen : List.length (Np.cumsum delta) = List.length delta).
  { destruct delta as [|x a]; [reflexivity|]. cbn [Np.cumsum List.length].
    f_equal. generalize x. induction a as [|y a IH]; intros acc; [reflexivity|].
    cbn [Np.cumsum_from List.length]. now rewrite IH. }
  split; [cbn [List.length]; now rewrite length_map, Hlen|].
  intros [|k] Hk; [cbn [nth firstn Np.sum fold_right]; ring|].
  cbn [nth].
  rewrite (nth_indep _ 0 (edge_start d + 0))
    by (rewrite length_map, Hlen; lia).
  rewrite (map_nth (fun c => edge_start d + c)).
  destruct delta as [|x a]; [cbn in Hk; lia|].
  cbn [Np.cumsum]. destruct k as [|k].
  - cbn [nth firstn]. unfold Np.sum. cbn [fold_right]. ring.
  - cbn [nth]. cbn [List.length] in Hk. rewrite nth_cumsum_from by lia.
    change (firstn (S (S k)) (x :: a)) with (x :: firstn (S k) a).
    unfold Np.sum. cbn [fold_right]. ring.
Qed.

(** The thicknesses of an axis with at least two layers add up to
    [edge_end - edge_start]. *)
Lemma sum_delta (d : defn_dict) :
  (2 <= nlevs d)%Z ->
  sum_upto (delta_of d) (Z.to_nat (nlevs d)) == edge_end d - edge_start d.
Proof.
  intros Hn. unfold sum_upto, delta_of.
  rewrite sum_map_plus, sum_map_const, sum_map_scale, length_seq.
  fold (sum_upto (fun i => stretch_fcn (coord_of d i)) (Z.to_nat (nlevs d))).
  rewrite (stretch_sum_zero d Hn).
  unfold delta_avg_of, Np.of_nat. rewrite Z2Nat.id by lia.
  field. intros H. apply (inject_Z_injective (nlevs d) 0) in H. lia.
Qed.

Lemma gen_edges_last_edge (d : defn_dict) :
  (2 <= nlevs d)%Z -> 1 <= delta_ratio_max d -> ends_at_edge_end d.
Proof.
  intros Hn Hr. unfold ends_at_edge_end, _gen_edges.
  rewrite (gen_delta_closed d Hn Hr). cbn [bind].
  eexists. split; [reflexivity|].
  rewrite last_edge_sum.
  - fold (sum_upto (delta_of d) (Z.to_nat (nlevs d))).
    rewrite (sum_delta d Hn). ring.
  - destruct (Z.to_nat (nlevs d)) eqn:E; [lia|discriminate].
Qed.

(** C1 (the code misses the claim on a single layer).  For [nlevs = 1]
    the only sample point is [-1], where the stretching function is [-1]
    and not [0]: with [edge_start = 0], [edge_end = 100] and
    [delta_ratio_max = 3] the generated edges are [[0; 50]], so the final
    edge is [50] and not [edge_end = 100]. *)
Theorem gen_edges_single_layer_last_edge :
  valid_defn defn_1 /\
  exists edges,
    _gen_edges defn_1 = OK edges /\
    map Qred edges = [0; 50] /\
    ~ last edges 0 == edge_end defn_1.
Proof.
  split.
  - split; [vm_compute; discriminate | vm_compute; discriminate].
  - eexists. split; [vm_compute; reflexivity|].
    split; [vm_compute; reflexivity|].
    vm_compute. discriminate.
Qed.

(** The single-layer axis in general: the last edge falls short of
    [edge_end] by [stretch_factor]. *)
Lemma gen_edges_single_layer (d : defn_dict) :
  nlevs d = 1%Z -> 1 <= delta_ratio_max d ->
  exists edges,
    _gen_edges d = OK edges /\
    last edges 0 == edge_end d - stretch_factor_of d.
Proof.
  intros Hn Hr. destruct (gen_delta_single d Hn Hr) as [x [Hx Ex]].
  unfold _gen_edges. rewrite Hx. cbn [bind Np.cumsum Np.cumsum_from map].
  eexists. split; [reflexivity|].
  cbn [last]. rewrite Ex. unfold delta_avg_of. rewrite Hn.
  change (inject_Z 1) with 1. field.
Qed.

(** ** Largest and smallest thickness *)

Lemma fold_max_ub (l : list Q) (x M : Q) :
  x <= M -> (forall y, In y l -> y <= M) -> fold_left Qmax l x <= M.
Proof.
  revert x. induction l as [|z l IH]; intros x Hx Hl; [exact Hx|].
  cbn [fold_left]. apply IH.
  - apply Q.max_lub; [exact Hx | apply Hl; now left].
  - intros y Hy. apply Hl. now right.
Qed.

Lemma fold_max_ge_init (l : list Q) (x : Q) : x <= fold_left Qmax l x.
Proof.
  revert x. induction l as [|z l IH]; intros x; [apply Qle_refl|].
  cbn [fold_left]. eapply Qle_trans; [apply Q.le_max_l | apply IH].
Qed.

Lemma fold_max_ge_in (l : list Q) (x y : Q) :
  In y l -> y <= fold_left Qmax l x.
Proof.
  revert x. induction l as [|z l IH]; intros x Hy; [destruct Hy|].
  cbn [fold_left]. destruct Hy as [->|Hy].
  - eapply Qle_trans; [apply Q.le_max_r | apply fold_max_ge_init].
  - now apply IH.
Qed.

Lemma fold_min_lb (l : list Q) (x m : Q) :
  m <= x -> (forall y, In y l -> m <= y) -> m <= fold_left Qmin l x.
Proof.
  revert x. induction l as [|z l IH]; intros x Hx Hl; [exact Hx|].
  cbn [fold_left]. apply IH.
  - apply Q.min_glb; [exact Hx | apply Hl; now left].
  - intros y Hy. apply Hl. now right.
Qed.

Lemma fold_min_le_init (l : list Q) (x : Q) : fold_left Qmin l x <= x.
Proof.
  revert x. induction l as [|z l IH]; intros x; [apply Qle_refl|].
  cbn [fold_left]. eapply Qle_trans; [apply IH | apply Q.le_min_l].
Qed.

Lemma fold_min_le_in (l : list Q) (x y : Q) :
  In y l -> fold_left Qmin l x <= y.
Proof.
  revert x. induction l as [|z l IH]; intros x Hy; [destruct Hy|].
  cbn [fold_left]. destruct Hy as [->|Hy].
  - eapply Qle_trans; [apply fold_min_le_init | apply Q.le_min_r].
  - now apply IH.
Qed.

(** The maximum of a non-empty array is its upper bound that is attained. *)
Lemma max_attained (a : list Q) (y M : Q) :
  In y a -> y == M -> (forall z, In z a -> z <= M) ->
  exists mx, Np.max a = OK mx /\ mx == M.
Proof.
  intros Hy Ey Hub. destruct a as [|x a]; [destruct Hy|].
  eexists. split; [reflexivity|]. apply Qle_antisym.
  - apply fold_max_ub; [apply Hub; now left|].
    intros z Hz. apply Hub. now right.
  - rewrite <- Ey. destruct Hy as [->|Hy].
    + apply fold_max_ge_init.
    + now apply fold_max_ge_in.
Qed.

Lemma min_attained (a : list Q) (y m : Q) :
  In y a -> y == m -> (forall z, In z a -> m <= z) ->
  exists mn, Np.min a = OK mn /\ mn == m.
Proof.
  intros Hy Ey Hlb. destruct a as [|x a]; [destruct Hy|].
  eexists. split; [reflexivity|]. apply Qle_antisym.
  - rewrite <- Ey. destruct Hy as [->|Hy].
    + apply fold_min_le_init.
    + now apply fold_min_le_in.
  - apply fold_min_lb; [apply Hlb; now left|].
    intros z Hz. apply Hlb. now right.
Qed.

Section Thickness.

Variable d : defn_dict.
Hypothesis ratio_ge_1 : 1 <= delta_ratio_max d.

Section AnyLayerCount.

Hypothesis nlevs_ge_1 : (1 <= nlevs d)%Z.
Hypothesis edges_increase : edge_start d < edge_end d.

Lemma delta_avg_pos : 0 < delta_avg_of d.
Proof.
  unfold delta_avg_of.
  assert (P : 0 < inject_Z (nlevs d)) by (rewrite <- (Zlt_Qlt 0); lia).
  apply Qmult_lt_0_compat; [|lra].
  apply Qlt_shift_div_l; lra.
Qed.

Lemma stretch_factor_range :
  0 <= stretch_factor_of d /\ stretch_factor_of d < delta_avg_of d.
Proof.
  assert (P := delta_avg_pos). unfold stretch_factor_of.
  set (a := delta_avg_of d) in *. set (r := delta_ratio_max d) in *.
  split.
  - apply Qle_shift_div_l; [lra|].
    assert (0 <= a * (r - 1)) by (apply Qmult_le_0_compat; lra). lra.
  - apply Qlt_shift_div_r; [lra|].
    assert (E : a * (r + 1) - a * (r - 1) == 2 * a) by ring. lra.
Qed.

End AnyLayerCount.

Hypothesis nlevs_ge_2 : (2 <= nlevs d)%Z.

Let n : nat := Z.to_nat (nlevs d).

Lemma delta_of_first : delta_of d 0 == delta_avg_of d - stretch_factor_of d.
Proof.
  unfold delta_of. rewrite (coord_of_first d), stretch_fcn_at_m1. ring.
Qed.

Lemma delta_of_last :
  delta_of d (n - 1) == delta_avg_of d + stretch_factor_of d.
Proof.
  unfold delta_of, n.
  rewrite (coord_of_last d nlevs_ge_2), stretch_fcn_at_1. ring.
Qed.

(** Thicknesses mirror each other about the mean thickness. *)
Lemma delta_of_mirror (i : nat) :
  (i < n)%nat -> delta_of d i + delta_of d (n - 1 - i) == 2 * delta_avg_of d.
Proof.
  intros Hi. unfold delta_of, n.
  rewrite (coord_of_mirror d nlevs_ge_2) by exact Hi.
  rewrite stretch_fcn_odd. ring.
Qed.

Hypothesis edges_increase : edge_start d < edge_end d.

Lemma delta_of_bounds (i : nat) :
  (i < n)%nat ->
  delta_avg_of d - stretch_factor_of d <= delta_of d i
  /\ delta_of d i <= delta_avg_of d + stretch_factor_of d.
Proof.
  intros Hi. destruct (coord_of_range d nlevs_ge_2 i Hi) as [L U].
  assert (S1 := stretch_fcn_le_1 _ U). assert (S2 := stretch_fcn_ge_m1 _ L).
  assert (N1 : (1 <= nlevs d)%Z) by lia.
  destruct (stretch_factor_range N1 edges_increase) as [F _]. unfold delta_of.
  set (s := stretch_fcn (coord_of d i)) in *.
  set (f := stretch_factor_of d) in *.
  assert (A : 0 <= f * (1 - s)) by (apply Qmult_le_0_compat; lra).
  assert (B : 0 <= f * (s + 1)) by (apply Qmult_le_0_compat; lra).
  assert (EA : f * (1 - s) == f - f * s) by ring.
  assert (EB : f * (s + 1) == f * s + f) by ring.
  split; lra.
Qed.

Lemma delta_of_pos (i : nat) : (i < n)%nat -> 0 < delta_of d i.
Proof.
  intros Hi. destruct (delta_of_bounds i Hi) as [L _].
  assert (N1 : (1 <= nlevs d)%Z) by lia.
  destruct (stretch_factor_range N1 edges_increase) as [_ F]. lra.
Qed.

End Thickness.




(** The ratio for the decreasing edges, computed. *)
Example gen_delta_ratio_decreasing_edges :
  exists delta mx mn,
    gen_delta defn_4_decreasing = OK delta /\
    Np.max delta = OK mx /\ Np.min delta = OK mn /\
    mx / mn == 1 # 3.
Proof. do 3 eexists. repeat split; vm_compute; reflexivity. Qed.

(** C3 (amended).  The stretching function is odd about the grid centre,
    so mirrored thicknesses are not equal but, in exact arithmetic, add
    up to twice the mean thickness:
    [delta[i] + delta[N-1-i] == 2 * delta_avg].  (Rounded, a sum can be
    off in the last bit: [Rounding.gen_delta_mirror_rounded].) *)
Theorem gen_delta_mirror (d : defn_dict) :
  (2 <= nlevs d)%Z -> 1 <= delta_ratio_max d ->
  exists delta,
    gen_delta d = OK delta /\
    List.length delta = Z.to_nat (nlevs d) /\
    forall i, (i < List.length delta)%nat ->
      nth i delta 0 + nth (List.length delta - 1 - i) delta 0
      == 2 * ((edge_end d - edge_start d) / inject_Z (nlevs d)).
Proof.
  intros Hn Hr. rewrite (gen_delta_closed d Hn Hr).
  eexists. split; [reflexivity|].
  rewrite length_map, length_seq. split; [reflexivity|].
  intros i Hi. rewrite !nth_map_seq by lia.
  rewrite (delta_of_mirror d Hn i Hi). unfold delta_avg_of.
  field. intros H. apply (inject_Z_injective (nlevs d) 0) in H. lia.
Qed.

Lemma gen_delta_mirror_witness :
  (2 <= nlevs defn_4)%Z /\ 1 <= delta_ratio_max defn_4 /\
  exists delta,
    gen_delta defn_4 = OK delta /\
    List.length delta = Z.to_nat (nlevs defn_4) /\
    forall i, (i < List.length delta)%nat ->
      nth i delta 0 + nth (List.length delta - 1 - i) delta 0
      == 2 * ((edge_end defn_4 - edge_start defn_4) / inject_Z (nlevs defn_4)).
Proof.
  assert (H1 : (2 <= nlevs defn_4)%Z) by (simpl; lia).
  assert (H2 : 1 <= delta_ratio_max defn_4) by (simpl; lra).
  repeat split; try assumption.
  exact (gen_delta_mirror defn_4 H1 H2).
Defined.

(** C3 fails as stated: for the spec's own example the thicknesses are
    [25/2, 2875/162, 5225/162, 75/2], so [delta[0] <> delta[3]]. *)
Lemma gen_delta_not_symmetric :
  valid_defn defn_4 /\
  (exists delta, gen_delta defn_4 = OK delta /\
     map Qred delta = [25 # 2; 2875 # 162; 5225 # 162; 75 # 2]) /\
  ~ delta_symmetric defn_4.
Proof.
  split; [split; [simpl; lia | simpl; lra]|]. split.
  - eexists. split; vm_compute; reflexivity.
  - intros [delta [Hd Hsym]].
    vm_compute in Hd. injection Hd as <-.
    specialize (Hsym 0%nat). cbn [List.length] in Hsym.
    assert (L : (0 < 4)%nat) by lia. specialize (Hsym L).
    vm_compute in Hsym. discriminate.
Qed.

(** ** [SpatialAxis]: what holds of every constructed axis *)

Lemma length_zip_with (f : Q -> Q -> Q) (a b : list Q) :
  List.length (Np.zip_with f a b) = Nat.min (List.length a) (List.length b).
Proof.
  revert b. induction a as [|x a IH]; intros [|y b]; simpl; auto.
Qed.

Lemma length_diff (e : list Q) :
  List.length (Np.zip_with Qminus (Np.drop_first e) (Np.drop_last e))
  = (List.length e - 1)%nat.
Proof.
  rewrite length_zip_with. unfold Np.drop_first, Np.drop_last.
  destruct e as [|x e]; [reflexivity|].
  cbn [tl]. rewrite removelast_firstn_len, length_firstn.
  cbn [List.length]. lia.
Qed.

(** Thicknesses read off the edges are positive exactly when the edges
    increase strictly. *)
Lemma diff_positive_iff (e : list Q) :
  all_positive (Np.zip_with Qminus (Np.drop_first e) (Np.drop_last e))
  <-> strictly_increasing e.
Proof.
  unfold all_positive, Np.drop_first, Np.drop_last.
  induction e as [|x e IH]; [cbn; split; auto|].
  destruct e as [|y e]; [cbn; split; auto|].
  change (removelast (x :: y :: e)) with (x :: removelast (y :: e)).
  cbn [tl Np.zip_with strictly_increasing].
  cbn [tl] in IH. split.
  - intros H. inversion H as [|? ? Hxy Hrest]; subst. split; [lra|].
    apply IH. exact Hrest.
  - intros [Hxy Hrest]. constructor; [lra|]. apply IH. exact Hrest.
Qed.

Lemma recip_finite (x : Q) : 0 < x -> Np.is_finite (Np.recip x) = true.
Proof.
  intros Hx. unfold Np.recip.
  destruct (Qeq_bool x 0) eqn:E; [|reflexivity].
  apply Qeq_bool_eq in E. lra.
Qed.

Lemma recip_all_finite (a : list Q) :
  all_positive a -> all_finite (map Np.recip a).
Proof.
  unfold all_positive, all_finite. intros H.
  induction H as [|x a Hx _ IH]; cbn [map]; constructor; auto.
  now apply recip_finite.
Qed.

(** Midpoints of strictly increasing edges are strictly spaced. *)
Lemma mid_spacing_positive (e : list Q) :
  strictly_increasing e ->
  all_positive
    (Np.ediff1d
       (map (fun s => (1 # 2) * s)
          (Np.zip_with Qplus (Np.drop_last e) (Np.drop_first e)))).
Proof.
  unfold all_positive, Np.ediff1d, Np.drop_first, Np.drop_last.
  induction e as [|a e IH]; [constructor|].
  destruct e as [|b e]; [constructor|].
  destruct e as [|c e]; [constructor|].
  intros [Hab [Hbc Hrest]].
  change (removelast (a :: b :: c :: e))
    with (a :: b :: removelast (c :: e)).
  change (removelast (b :: c :: e)) with (b :: removelast (c :: e)) in IH.
  cbn [tl Np.zip_with map] in *.
  set (M := map (fun s => (1 # 2) * s)
              (Np.zip_with Qplus (removelast (c :: e)) e)) in *.
  change (removelast ((1 # 2) * (a + b) :: (1 # 2) * (b + c) :: M))
    with ((1 # 2) * (a + b) :: removelast ((1 # 2) * (b + c) :: M)).
  cbn [Np.zip_with]. constructor.
  - lra.
  - apply IH. split; assumption.
Qed.

Lemma all_positive_arr_eq (a b : list Q) :
  arr_eq a b -> all_positive b -> all_positive a.
Proof.
  unfold arr_eq, all_positive. intros H.
  induction H as [|x y a b Hxy _ IH]; intros Hb; [constructor|].
  inversion Hb; subst. constructor; [lra | auto].
Qed.

Lemma derive_lengths (name unit_s : string) (e : list Q) (ddv : option string) :
  sa_nlevs (derive name unit_s e ddv) = (Z.of_nat (List.length e) - 1)%Z /\
  List.length (sa_delta (derive name unit_s e ddv)) = (List.length e - 1)%nat.
Proof.
  split; [reflexivity|]. cbn [derive sa_delta]. apply length_diff.
Qed.

Lemma derive_len_nonempty (name unit_s : string) (e : list Q) (ddv : option string) :
  e <> [] ->
  SpatialAxis_len (derive name unit_s e ddv) = OK (List.length e - 1)%nat.
Proof.
  intros Hne. unfold SpatialAxis_len. cbn [derive sa_nlevs].
  destruct e as [|x e]; [congruence|]. cbn [List.length].
  destruct (Z.ltb_spec (Z.of_nat (S (List.length e)) - 1) 0); [lia|].
  f_equal. lia.
Qed.

Lemma derive_invariant (name unit_s : string) (e : list Q) (ddv : option string) :
  e <> [] -> strictly_increasing e ->
  axis_invariant (derive name unit_s e ddv).
Proof.
  intros Hne Hinc. unfold axis_invariant.
  assert (P : all_positive (sa_delta (derive name unit_s e ddv)))
    by (apply diff_positive_iff; exact Hinc).
  split; [now apply derive_len_nonempty|].
  split; [apply derive_lengths|].
  split; [exact P|].
  split.
  - cbn [derive sa_delta_r]. apply recip_all_finite. exact P.
  - cbn [derive sa_delta_mid_r]. apply recip_all_finite.
    now apply mid_spacing_positive.
Qed.

(** Generated edges increase strictly when [edge_start < edge_end]. *)
Lemma gen_edges_increasing (d : defn_dict) (edges : list Q) :
  _gen_edges d = OK edges -> edge_start d < edge_end d ->
  List.length edges = S (Z.to_nat (nlevs d)) /\ strictly_increasing edges.
Proof.
  intros He Hlt. unfold _gen_edges in He.
  destruct (gen_delta d) as [delta|] eqn:Hd; [|discriminate].
  cbn [bind] in He. injection He as <-.
  assert (Hlen := length_gen_delta d _ Hd).
  split.
  { cbn [List.length]. rewrite length_map. f_equal.
    destruct delta as [|x a]; [exact Hlen|].
    cbn [Np.cumsum List.length] in *. rewrite <- Hlen. f_equal.
    clear. generalize x. induction a as [|y a IH]; intros acc; [reflexivity|].
    cbn [Np.cumsum_from List.length]. now rewrite IH. }
  apply diff_positive_iff.
  apply (all_positive_arr_eq _ _ (diff_edges (edge_start d) delta)).
  (* the thicknesses themselves are positive *)
  assert (Hr : 1 <= delta_ratio_max d).
  { unfold gen_delta in Hd.
    destruct (Np.linspace (-1) 1 (nlevs d)); [|discriminate].
    cbn [bind] in Hd. destruct (gen_delta_avg d); [|discriminate].
    cbn [bind] in Hd.
    destruct (Qlt_le_dec (delta_ratio_max d) 1); [discriminate|assumption]. }
  assert (Hn : (1 <= nlevs d)%Z).
  { unfold gen_delta, Np.linspace, gen_delta_avg in Hd.
    destruct (Z.ltb_spec (nlevs d) 0); [discriminate|].
    destruct (0 <? nlevs d - 1)%Z; cbn [bind] in Hd;
      (destruct (Z.eqb_spec (nlevs d) 0); [discriminate|]); lia. }
  destruct (Z.eq_dec (nlevs d) 1) as [H1|H1].
  - destruct (gen_delta_single d H1 Hr) as [x [Hx Ex]].
    rewrite Hx in Hd. injection Hd as <-.
    constructor; [|constructor].
    destruct (stretch_factor_range d Hr Hn Hlt). lra.
  - assert (H2 : (2 <= nlevs d)%Z) by lia.
    rewrite (gen_delta_closed d H2 Hr) in Hd. injection Hd as <-.
    apply Forall_forall. intros z Hz.
    apply in_map_iff in Hz. destruct Hz as [i [<- Hi]].
    apply in_seq in Hi.
    apply (delta_of_pos d Hr H2 Hlt). lia.
Qed.

Section Construction.

Variable str_of_float : Q -> string.

Local Abbreviation init := (SpatialAxis_init str_of_float).

(** Every constructed axis is derived from its own edges; a generated one
    has the edges [_gen_edges] returns for the definition in force. *)
Lemma init_is_derived fs name fname defn ax :
  init fs name fname defn = OK ax ->
  ax = derive (sa_axisname ax) (sa_units ax) (sa_edges ax)
         (sa_defn_dict_values ax)
  /\ (fname = None ->
      exists d, _gen_edges d = OK (sa_edges ax) /\
                (defn = Some d \/
                 defn = None /\ spatial_axis_defn_dict name = OK d)).
Proof.
  unfold SpatialAxis_init. intros H.
  destruct fname as [f|].
  - split; [|discriminate].
    destruct defn as [d|]; [discriminate|].
    destruct name as [n|]; [|discriminate].
    destruct (Nc.open_read fs f) as [fptr|]; [|discriminate].
    cbn [bind] in H.
    destruct (Nc.lookup_var fptr (n ++ "_edges")) as [var|]; [|discriminate].
    cbn [bind] in H.
    destruct (Nc.var_attr var "units") as [u|]; [|discriminate].
    cbn [bind] in H. injection H as <-. reflexivity.
  - assert (G : forall d, _gen_edges d = OK (sa_edges ax) ->
              bind (_gen_edges d)
                (fun edges => OK (derive (axisname d) (units d) edges
                                    (Some (defn_dict_values_str
                                             str_of_float d))))
              = OK ax ->
              ax = derive (sa_axisname ax) (sa_units ax) (sa_edges ax)
                     (sa_defn_dict_values ax)).
    { intros d _ E. destruct (_gen_edges d); [|discriminate].
      cbn [bind] in E. injection E as <-. reflexivity. }
    assert (K : forall d,
              bind (_gen_edges d)
                (fun edges => OK (derive (axisname d) (units d) edges
                                    (Some (defn_dict_values_str
                                             str_of_float d))))
              = OK ax -> _gen_edges d = OK (sa_edges ax)).
    { intros d E. destruct (_gen_edges d); [|discriminate].
      cbn [bind] in E. injection E as <-. reflexivity. }
    destruct defn as [d|].
    + destruct name as [n|]; [discriminate|]. cbn [bind] in H.
      split; [apply (G d); auto|]. intros _. exists d. split; auto.
    + destruct (spatial_axis_defn_dict name) as [d|] eqn:D; [|discriminate].
      cbn [bind] in H.
      split; [apply (G d); auto|]. intros _. exists d. split; auto.
Qed.

(** C4 (amended).  Every constructed axis has [_nlevs == len(edges) - 1]
    (an integer: [-1] for an empty edges variable) and
    [max(0, len(edges) - 1)] thicknesses.  In exact arithmetic its
    thicknesses are all positive exactly when its edges increase
    strictly, and then, the edges being non-empty, the whole invariant
    holds ([len(axis)], finite reciprocals); that is the case for every
    axis generated from a definition with [edge_start < edge_end], whose
    length is [nlevs].  Edges loaded from a file are taken as they are.
    (Rounded, edges that are too close for binary64 coincide, and the
    reciprocal of a tiny thickness overflows:
    [Rounding.gen_edges_repeated_edges],
    [Rounding.derive_reciprocal_overflows].) *)
Theorem spatial_axis_init_invariant fs name fname defn ax :
  init fs name fname defn = OK ax ->
  sa_nlevs ax = (Z.of_nat (List.length (sa_edges ax)) - 1)%Z /\
  Z.of_nat (List.length (sa_delta ax))
  = Z.max 0 (Z.of_nat (List.length (sa_edges ax)) - 1) /\
  (all_positive (sa_delta ax) <-> strictly_increasing (sa_edges ax)) /\
  (sa_edges ax <> [] -> strictly_increasing (sa_edges ax) ->
   axis_invariant ax) /\
  (fname = None ->
   forall d,
     defn = Some d \/ defn = None /\ spatial_axis_defn_dict name = OK d ->
     edge_start d < edge_end d ->
     axis_invariant ax /\ SpatialAxis_len ax = OK (Z.to_nat (nlevs d))).
Proof.
  intros H. destruct (init_is_derived _ _ _ _ _ H) as [E G].
  set (e := sa_edges ax) in *.
  rewrite E.
  split; [apply derive_lengths|].
  split; [rewrite (proj2 (derive_lengths _ _ e _));
          cbn [derive sa_edges]; lia|].
  split; [cbn [derive sa_delta sa_edges]; apply diff_positive_iff|].
  split.
  - cbn [derive sa_edges]. intros Hne Hinc. now apply derive_invariant.
  - intros Hf d Hd Hlt. destruct (G Hf) as [d' [Hg Hd']].
    assert (d' = d) as ->.
    { destruct Hd as [->|[-> Hd]]; destruct Hd' as [Hd'|[Hd' Hd'']];
        congruence. }
    destruct (gen_edges_increasing d _ Hg Hlt) as [Hlen Hinc].
    assert (Hne : e <> []) by (destruct e; [discriminate|congruence]).
    split; [now apply derive_invariant|].
    rewrite derive_len_nonempty by exact Hne. f_equal. lia.
Qed.

End Construction.

Lemma spatial_axis_init_invariant_witness :
  exists ax,
    SpatialAxis_init no_float_str flat_layer_fs
      None None (Some defn_4) = OK ax /\
    axis_invariant ax /\ SpatialAxis_len ax = OK 4%nat.
Proof.
  eexists. split; [vm_compute; reflexivity|].
  refine (proj2 (proj2 (proj2 (proj2
    (spatial_axis_init_invariant no_float_str flat_layer_fs
       None None (Some defn_4) _ _)))) eq_refl defn_4 (or_introl eq_refl) _).
  - vm_compute. reflexivity.
  - reflexivity.
Defined.

(** C4 fails as stated.  An axis loaded from a file whose edges are
    [0, 10, 10] is constructed without complaint; its second thickness is
    [0] and the reciprocal of that an infinity.  And an axis generated
    from a definition with its edges in decreasing order is constructed
    with negative thicknesses. *)
Lemma spatial_axis_invariant_fails :
  (exists ax,
     SpatialAxis_init no_float_str flat_layer_fs
       (Some "depth") (Some "grid.nc") None = OK ax /\
     map Qred (sa_delta ax) = [10; 0] /\
     nth 1 (sa_delta_r ax) Np.NaN = Np.Inf /\
     ~ axis_invariant ax)
  /\
  (valid_defn defn_4_decreasing /\
   exists ax,
     SpatialAxis_init no_float_str flat_layer_fs
       None None (Some defn_4_decreasing) = OK ax /\
     map Qred (sa_delta ax)
     = [-25 # 2; -2875 # 162; -5225 # 162; -75 # 2] /\
     ~ axis_invariant ax).
Proof.
  split.
  - eexists. split; [vm_compute; reflexivity|].
    split; [vm_compute; reflexivity|].
    split; [vm_compute; reflexivity|].
    intros [_ [_ [P _]]]. cbn in P.
    inversion P as [|? ? _ P']; subst.
    inversion P' as [|? ? H0 _]; subst.
    vm_compute in H0. discriminate.
  - split; [split; [simpl; lia | simpl; lra]|].
    eexists. split; [vm_compute; reflexivity|].
    split; [vm_compute; reflexivity|].
    intros [_ [_ [P _]]]. cbn in P.
    inversion P as [|? ? H0 _]; subst.
    vm_compute in H0. discriminate.
Qed.

(** An edges variable of length zero is loaded as well: [_nlevs] is
    [-1], there is no thickness, and [len(axis)] raises. *)
Example spatial_axis_empty_edges :
  exists ax,
    SpatialAxis_init no_float_str (one_file "grid.nc" no_edges_file)
      (Some "depth") (Some "grid.nc") None = OK ax /\
    sa_edges ax = [] /\ sa_nlevs ax = (-1)%Z /\ sa_delta ax = [] /\
    SpatialAxis_len ax
    = Raise (ValueError (Msg "__len__() should return >= 0")).
Proof. eexists. repeat split; vm_compute; reflexivity. Qed.

(** ** [int_vals_mid] *)

Section RowMajor.

Lemma size_app (sh1 sh2 : list nat) :
  Nd.size (sh1 ++ sh2) = (Nd.size sh1 * Nd.size sh2)%nat.
Proof.
  induction sh1 as [|s sh1 IH].
  - cbn [app]. change (Nd.size []) with 1%nat. lia.
  - change (Nd.size ((s :: sh1) ++ sh2))
      with (s * Nd.size (sh1 ++ sh2))%nat.
    change (Nd.size (s :: sh1)) with (s * Nd.size sh1)%nat.
    rewrite IH. ring.
Qed.

Lemma offset_lt (sh idx : list nat) :
  Nd.in_range sh idx -> (Nd.offset sh idx < Nd.size sh)%nat.
Proof.
  unfold Nd.in_range. intros H.
  induction H as [|i s idx sh His _ IH].
  - cbn. lia.
  - cbn [Nd.offset Nd.size fold_right]. fold (Nd.size sh). nia.
Qed.

(** Appending an index for a new last axis of length [n]. *)
Lemma offset_snoc (sh idx : list nat) (n i : nat) :
  Nd.in_range sh idx ->
  Nd.offset (sh ++ [n]) (idx ++ [i]) = (Nd.offset sh idx * n + i)%nat.
Proof.
  unfold Nd.in_range. intros H.
  induction H as [|j s idx sh _ _ IH].
  - cbn. lia.
  - cbn [app Nd.offset]. rewrite IH, size_app. cbn [Nd.size fold_right]. ring.
Qed.

Lemma length_chunk (m r : nat) (l : list Q) :
  ((r + 1) * m <= List.length l)%nat -> List.length (Nd.chunk m r l) = m.
Proof.
  intros H. unfold Nd.chunk. rewrite length_firstn, length_skipn. nia.
Qed.

Lemma nth_chunk (m r i : nat) (l : list Q) :
  (i < m)%nat -> nth i (Nd.chunk m r l) 0 = nth (r * m + i) l 0.
Proof.
  intros Hi. unfold Nd.chunk. rewrite nth_firstn.
  destruct (Nat.ltb_spec i m); [|lia]. apply nth_skipn.
Qed.

Lemma nth_rows (n m r : nat) (l : list Q) :
  (r < n)%nat -> nth r (Nd.rows n m l) [] = Nd.chunk m r l.
Proof.
  intros Hr. unfold Nd.rows.
  rewrite (nth_indep _ [] (Nd.chunk m 0 l))
    by now rewrite length_map, length_seq.
  rewrite (map_nth (fun r => Nd.chunk m r l)), seq_nth by assumption.
  reflexivity.
Qed.

(** The sum of an elementwise product, by index. *)
Lemma sum_zip_mult (a b : list Q) :
  List.length a = List.length b ->
  Np.sum (Np.zip_with Qmult a b)
  == sum_upto (fun i => nth i a 0 * nth i b 0) (List.length a).
Proof.
  revert b. induction a as [|x a IH]; intros [|y b] Hlen;
    try discriminate; [reflexivity|].
  injection Hlen as Hlen. unfold sum_upto in *.
  cbn [Np.zip_with Np.sum fold_right List.length seq map nth].
  fold (Np.sum (Np.zip_with Qmult a b)).
  rewrite IH by assumption.
  rewrite <- seq_shift, map_map. reflexivity.
Qed.

End RowMajor.

(** The weighted sum over the last axis, for any [self] with [N]
    thicknesses. *)
Lemma int_vals_mid_rows
    (self : SpatialAxis) (vals : Nd.ndarray) (lead : list nat) (N : nat) :
  List.length (sa_delta self) = N ->
  Nd.shape vals = lead ++ [N] ->
  Nd.well_formed vals ->
  exists res,
    int_vals_mid self vals = OK res /\
    Nd.shape res = lead /\
    Nd.well_formed res /\
    forall idx, Nd.in_range lead idx ->
      Nd.get res idx == weighted_sum_last_axis (sa_delta self) vals idx.
Proof.
  intros Hdelta Hshape Hwf.
  unfold int_vals_mid. rewrite Hshape, rev_app_distr. cbn [rev app].
  rewrite rev_involutive, Hdelta.
  unfold Nd.broadcastable. rewrite Nat.eqb_refl. cbn [orb].
  eexists. split; [reflexivity|]. cbn [Nd.shape Nd.data].
  split; [reflexivity|].
  split.
  { unfold Nd.well_formed, Nd.rows. cbn [Nd.shape Nd.data].
    now rewrite !length_map, length_seq. }
  intros idx Hidx.
  assert (Ho := offset_lt _ _ Hidx).
  unfold Nd.well_formed in Hwf. rewrite Hshape, size_app in Hwf.
  cbn [Nd.size fold_right] in Hwf. rewrite Nat.mul_1_r in Hwf.
  set (o := Nd.offset lead idx) in *.
  assert (Hrow : List.length (Nd.chunk N o (Nd.data vals)) = N)
    by (apply length_chunk; nia).
  unfold Nd.get at 1. cbn [Nd.shape Nd.data]. fold o.
  rewrite (nth_indep _ 0
             (Np.sum (Nd.broadcast_mul (sa_delta self) [])))
    by (unfold Nd.rows; now rewrite !length_map, length_seq).
  rewrite (map_nth (fun row => Np.sum (Nd.broadcast_mul (sa_delta self) row))).
  rewrite nth_rows by assumption.
  unfold Nd.broadcast_mul. rewrite Hdelta, Hrow, Nat.eqb_refl.
  rewrite sum_zip_mult by congruence.
  unfold weighted_sum_last_axis, sum_upto. rewrite Hdelta.
  apply sum_map_ext. intros i Hi. apply in_seq in Hi.
  rewrite nth_chunk by lia.
  unfold Nd.get. rewrite Hshape, offset_snoc by assumption. reflexivity.
Qed.

(** An axis has as many thicknesses as [len(axis)] says. *)
Lemma derive_len_delta (name unit_s : string) (e : list Q)
    (ddv : option string) (N : nat) :
  SpatialAxis_len (derive name unit_s e ddv) = OK N ->
  List.length (sa_delta (derive name unit_s e ddv)) = N.
Proof.
  unfold SpatialAxis_len. cbn [derive sa_nlevs sa_delta].
  destruct (Z.ltb_spec (Z.of_nat (List.length e) - 1) 0); [discriminate|].
  intros [= <-]. rewrite length_diff. lia.
Qed.



Example int_vals_mid_2x2 :
  exists res, int_vals_mid axis_10_20 vals_2x2 = OK res /\
              map Qred (Nd.data res) = [50; 110].
Proof. eexists. split; vm_compute; reflexivity. Qed.

(** ** [dump]: the phase tag *)

(** C9.  In both variants [dump] with a tag other than ["define"] and
    ["write"] raises a [ValueError] whose argument carries the tag, and
    the handle is left as it was. *)
Theorem dump_unknown_action
    (tp : TestProblem.TracerModuleState) (pop : CimePop.TracerModuleState)
    (action : string) (fptr : Nc.dataset) :
  action <> "define" -> action <> "write" ->
  TestProblem.dump tp action fptr
    = (Raise (ValueError (Tuple ["unknown action=%s"; action])), fptr)
  /\ CimePop.dump pop action fptr
    = (Raise (ValueError (Tuple ["unknown action="; action])), fptr).
Proof.
  intros Hd Hw.
  apply String.eqb_neq in Hd. apply String.eqb_neq in Hw.
  unfold TestProblem.dump, CimePop.dump. rewrite Hd, Hw.
  split; reflexivity.
Qed.

Lemma dump_unknown_action_witness :
  TestProblem.dump (tp_module ["iage"]) "read" (time_only 3)
    = (Raise (ValueError (Tuple ["unknown action=%s"; "read"])), time_only 3)
  /\ CimePop.dump (pop_module ["iage"]) "read" (time_only 3)
    = (Raise (ValueError (Tuple ["unknown action="; "read"])), time_only 3).
Proof.
  apply dump_unknown_action; discriminate.
Defined.

(** ** [hist_time_mean_weights] *)

Lemma scale_at_last (c h : Q) (k : nat) :
  TestProblem.scale_at (repeat c (S k)) k h = OK (repeat c k ++ [c * h]).
Proof.
  induction k as [|k IH]; [reflexivity|].
  change (repeat c (S (S k))) with (c :: repeat c (S k)).
  cbn [TestProblem.scale_at]. rewrite IH. reflexivity.
Qed.

(** The weights for a time axis of length [k + 2]. *)
Lemma hist_time_mean_weights_closed (fptr : Nc.dataset) (k : nat) :
  Nc.dim_len fptr "time" = OK (S (S k)) ->
  TestProblem.hist_time_mean_weights fptr
  = OK (let c := 1 / inject_Z (Z.of_nat (S (S k)) - 1) in
        c * (1 # 2) :: repeat c k ++ [c * (1 # 2)]).
Proof.
  intros Ht. unfold TestProblem.hist_time_mean_weights. rewrite Ht.
  cbn [bind Nat.eqb].
  change (repeat ?c (S (S k))) with (c :: repeat c (S k)).
  cbn [TestProblem.scale_at bind Nat.sub].
  rewrite scale_at_last. reflexivity.
Qed.

Lemma sum_repeat (c : Q) (k : nat) : Np.sum (repeat c k) == Np.of_nat k * c.
Proof.
  induction k as [|k IH].
  - unfold Np.of_nat. simpl. ring.
  - cbn [repeat Np.sum fold_right]. fold (Np.sum (repeat c k)). rewrite IH.
    unfold Np.of_nat. rewrite Nat2Z.inj_succ, <- Z.add_1_r, inject_Z_plus.
    ring.
Qed.

Lemma hist_time_mean_weights_single (fptr : Nc.dataset) :
  Nc.dim_len fptr "time" = OK 1%nat ->
  TestProblem.hist_time_mean_weights fptr = Raise ZeroDivisionError.
Proof.
  intros Ht. unfold TestProblem.hist_time_mean_weights. rewrite Ht.
  reflexivity.
Qed.

Lemma hist_time_mean_weights_sum (fptr : Nc.dataset) (T : nat) :
  Nc.dim_len fptr "time" = OK T -> (2 <= T)%nat ->
  exists w,
    TestProblem.hist_time_mean_weights fptr = OK w /\
    List.length w = T /\
    Forall (fun x => 0 <= x) w /\
    Np.sum w == 1.
Proof.
  intros Ht HT. destruct T as [|[|k]]; try lia.
  rewrite (hist_time_mean_weights_closed fptr k Ht).
  eexists. split; [reflexivity|]. cbv zeta.
  set (c := 1 / inject_Z (Z.of_nat (S (S k)) - 1)).
  assert (Hpos : 0 < inject_Z (Z.of_nat (S (S k)) - 1))
    by (rewrite <- (Zlt_Qlt 0); lia).
  assert (Hc : 0 < c) by (apply Qlt_shift_div_l; lra).
  split; [cbn [List.length]; rewrite length_app, repeat_length; cbn; lia|].
  split.
  - constructor; [lra|]. apply Forall_app. split.
    + apply Forall_forall. intros x Hx. apply repeat_spec in Hx. subst. lra.
    + constructor; [lra|constructor].
  - cbn [Np.sum fold_right]. fold (Np.sum (repeat c k ++ [c * (1 # 2)])).
    rewrite sum_app, sum_repeat. cbn [Np.sum fold_right].
    assert (E : Np.of_nat k + 1 == inject_Z (Z.of_nat (S (S k)) - 1)).
    { unfold Np.of_nat. rewrite <- (inject_Z_plus _ 1).
      apply inject_Z_injective. lia. }
    unfold c. rewrite <- E in *. field. lra.
Qed.



(** The weights of the spec's scenario, a time axis of length 5. *)
Example hist_time_mean_weights_5 :
  exists w, TestProblem.hist_time_mean_weights (time_only 5) = OK w /\
            map Qred w = [1 # 8; 1 # 4; 1 # 4; 1 # 4; 1 # 8].
Proof. eexists. split; vm_compute; reflexivity. Qed.

(** ** Reading tracers from a file *)

Section Dicts.

Context {V : Type}.

Lemma get_app_fresh (d : Nc.dict V) (k k' : string) (v : V) :
  k <> k' -> Nc.get (d ++ [(k, v)]) k' = Nc.get d k'.
Proof.
  intros Hne. induction d as [|[k0 v0] d IH]; cbn [app Nc.get].
  - apply String.eqb_neq in Hne. now rewrite Hne.
  - destruct (String.eqb k0 k'); [reflexivity|exact IH].
Qed.

Lemma set_fresh (d : Nc.dict V) (k : string) (v : V) :
  Nc.get d k = None -> Nc.set d k v = d ++ [(k, v)].
Proof.
  induction d as [|[k0 v0] d IH]; cbn [Nc.get Nc.set app]; [reflexivity|].
  destruct (String.eqb k0 k); [discriminate|].
  intros H. now rewrite IH.
Qed.

Lemma get_in_nodup (d : Nc.dict V) (k : string) (v : V) :
  NoDup (Nc.keys d) -> In (k, v) d -> Nc.get d k = Some v.
Proof.
  induction d as [|[k0 v0] d IH]; intros Hnd Hin; [destruct Hin|].
  cbn [Nc.keys map fst] in Hnd. inversion Hnd as [|? ? Hnotin Hnd']; subst.
  cbn [Nc.get]. destruct Hin as [E|Hin].
  - injection E as -> ->. now rewrite String.eqb_refl.
  - destruct (String.eqb_spec k0 k) as [->|_].
    + exfalso. apply Hnotin. change k with (fst (k, v)). now apply in_map.
    + now apply IH.
Qed.

End Dicts.

(** A dict with one entry per key equals itself. *)
Lemma dict_eqb_refl (d : Nc.dict nat) :
  NoDup (Nc.keys d) -> Nc.dict_eqb Nat.eqb d d = true.
Proof.
  intros Hnd. unfold Nc.dict_eqb. rewrite Nat.eqb_refl. cbn [andb].
  apply forallb_forall. intros [k v] Hin. cbn [fst snd].
  rewrite (get_in_nodup d k v Hnd Hin). apply Nat.eqb_refl.
Qed.

(** The dict of a variable stored on distinct dimensions of the file:
    one entry per dimension, in order. *)
Lemma dims_fold (fptr : Nc.dataset) (dims : list string) (acc : Nc.dict nat) :
  dims_defined fptr dims -> NoDup dims ->
  (forall n, In n dims -> Nc.get acc n = None) ->
  fold_left
    (fun acc dimname =>
       let* res := acc in
       let* len := Nc.dim_len fptr dimname in
       OK (Nc.set res dimname len))
    dims (OK acc)
  = OK (acc ++ map (fun n => (n, dim_len_of fptr n)) dims).
Proof.
  revert acc. induction dims as [|n dims IH]; intros acc Hdef Hnd Hfresh.
  - cbn. now rewrite app_nil_r.
  - cbn [fold_left bind].
    assert (Hn : Nc.dim_len fptr n = OK (dim_len_of fptr n)).
    { unfold Nc.dim_len, dim_len_of.
      assert (M := Hdef n (or_introl eq_refl)). unfold Nc.mem in M.
      destruct (Nc.get (Nc.ds_dimensions fptr) n); [reflexivity|discriminate]. }
    rewrite Hn. cbn [bind].
    rewrite set_fresh by (apply Hfresh; now left).
    inversion Hnd as [|? ? Hnotin Hnd']; subst.
    rewrite IH.
    + now rewrite <- app_assoc.
    + intros m Hm. apply Hdef. now right.
    + exact Hnd'.
    + intros m Hm. rewrite get_app_fresh.
      * apply Hfresh. now right.
      * intros ->. contradiction.
Qed.

Lemma keys_dims (fptr : Nc.dataset) (dims : list string) :
  Nc.keys (map (fun n => (n, dim_len_of fptr n)) dims) = dims.
Proof.
  unfold Nc.keys. rewrite map_map. cbn [fst]. apply map_id.
Qed.

Lemma for_each_ok {A} (xs : list A) (body : A -> result unit) :
  (forall x, In x xs -> body x = OK tt) -> for_each xs body = OK tt.
Proof.
  induction xs as [|x xs IH]; intros H; [reflexivity|].
  cbn [for_each]. rewrite (H x (or_introl eq_refl)). cbn [bind].
  apply IH. intros y Hy. apply H. now right.
Qed.

(** A loop whose body either passes or raises [e], and raises for some
    element, raises [e]. *)
Lemma for_each_raise {A} (xs : list A) (body : A -> result unit) (e : exn) :
  (forall x, In x xs -> body x = OK tt \/ body x = Raise e) ->
  (exists x, In x xs /\ body x = Raise e) ->
  for_each xs body = Raise e.
Proof.
  induction xs as [|x xs IH]; intros Hall [y [Hy Ey]]; [destruct Hy|].
  cbn [for_each]. destruct (Hall x (or_introl eq_refl)) as [E|E]; rewrite E.
  - cbn [bind]. apply IH.
    + intros z Hz. apply Hall. now right.
    + destruct Hy as [->|Hy]; [congruence|]. now exists y.
  - reflexivity.
Qed.

Lemma lookup_var_stored (fptr : Nc.dataset) (name : string) (var : Nc.variable) :
  Nc.get (Nc.ds_variables fptr) name = Some var ->
  Nc.lookup_var fptr name = OK var.
Proof. unfold Nc.lookup_var. now intros ->. Qed.

Lemma open_read_one (fs : Nc.filesystem) (fname : string) (fptr : Nc.dataset) :
  fs fname = Some fptr -> Nc.open_read fs fname = OK fptr.
Proof. unfold Nc.open_read. now intros ->. Qed.

(** The no-grid variant compares the dimension tuples themselves: any
    tracer stored on another tuple than the first stops the reader with
    the error that names the module and the file. *)
Lemma cime_pop_read_vals_mismatch
    (tracers : Nc.dict tracer_metadata) (fs : Nc.filesystem)
    (tracer_module_name fname : string) (fptr : Nc.dataset)
    (name0 : string) (var0 : Nc.variable) :
  fs fname = Some fptr ->
  hd_error (CimePop.names_of tracers) = Some name0 ->
  Nc.get (Nc.ds_variables fptr) (name0 +++ "_CUR") = Some var0 ->
  dims_defined fptr (Nc.var_dimensions var0) ->
  all_stored fptr (map (fun n => n +++ "_CUR") (CimePop.names_of tracers))
    (fun _ => True) ->
  (exists name var,
     In name (CimePop.names_of tracers) /\
     Nc.get (Nc.ds_variables fptr) (name +++ "_CUR") = Some var /\
     Nc.var_dimensions var <> Nc.var_dimensions var0) ->
  CimePop._read_vals tracers fs tracer_module_name fname
  = Raise (ValueError (Msg (msg_not_same_dimensions tracer_module_name fname))).
Proof.
  intros Hfs Hhd Hvar0 Hdef Hall [name [var [Hin [Hvar Hne]]]].
  unfold CimePop._read_vals. rewrite (open_read_one _ _ _ Hfs). cbn [bind].
  destruct (CimePop.names_of tracers) as [|n0 names] eqn:En; [discriminate|].
  injection Hhd as ->. cbn [bind].
  unfold CimePop.suffix.
  rewrite (lookup_var_stored _ _ _ Hvar0). cbn [bind].
  assert (Hd : exists d, CimePop.dims_of fptr var0 = OK d).
  { unfold CimePop.dims_of.
    clear - Hdef. generalize (@nil (string * nat)) as acc.
    induction (Nc.var_dimensions var0) as [|n dims IH]; intros acc.
    - now exists acc.
    - cbn [fold_left bind].
      assert (M := Hdef n (or_introl eq_refl)).
      unfold Nc.dim_len. unfold Nc.mem in M.
      destruct (Nc.get (Nc.ds_dimensions fptr) n); [|discriminate].
      cbn [bind]. apply IH. intros m Hm. apply Hdef. now right. }
  destruct Hd as [d Hd]. rewrite Hd. cbn [bind].
  rewrite (for_each_raise _ _
             (ValueError (Msg (msg_not_same_dimensions tracer_module_name fname)))).
  - reflexivity.
  - intros x Hx.
    destruct (Hall (x +++ "_CUR")) as [v [Hv _]].
    { apply in_map_iff. now exists x. }
    rewrite (lookup_var_stored _ _ _ Hv). cbn [bind].
    destruct (list_eq_dec string_dec (Nc.var_dimensions v)
                (Nc.var_dimensions var0)); auto.
  - exists name. split; [exact Hin|].
    rewrite (lookup_var_stored _ _ _ Hvar). cbn [bind].
    destruct (list_eq_dec string_dec (Nc.var_dimensions var)
                (Nc.var_dimensions var0)); [contradiction|reflexivity].
Qed.

(** The grid-aware variant compares dicts: a tracer whose dict of
    dimensions differs from the first tracer's stops the reader with the
    same error. *)
Lemma test_problem_read_vals_mismatch
    (tracers : Nc.dict tracer_metadata) (depth : SpatialAxis)
    (fs : Nc.filesystem) (tracer_module_name fname : string)
    (fptr : Nc.dataset) (name0 : string) (d0 : Nc.dict nat) :
  fname <> "zeros" -> fname <> "gen_init_iterate" ->
  fs fname = Some fptr ->
  hd_error (TestProblem.names_of tracers) = Some name0 ->
  Utils.extract_dimensions fptr name0 = OK d0 ->
  (forall name, In name (TestProblem.names_of tracers) ->
     exists dx, Utils.extract_dimensions fptr name = OK dx) ->
  (exists name dx,
     In name (TestProblem.names_of tracers) /\
     Utils.extract_dimensions fptr name = OK dx /\
     Nc.dict_eqb Nat.eqb dx d0 = false) ->
  TestProblem._read_vals tracers depth fs tracer_module_name fname
  = Raise (ValueError (Msg (msg_not_same_dimensions tracer_module_name fname))).
Proof.
  intros Hz Hg Hfs Hhd Hd0 Hall [name [dx [Hin [Hdx Hne]]]].
  unfold TestProblem._read_vals.
  apply String.eqb_neq in Hz. apply String.eqb_neq in Hg. rewrite Hz, Hg.
  rewrite (open_read_one _ _ _ Hfs). cbn [bind].
  destruct (TestProblem.names_of tracers) as [|n0 names] eqn:En; [discriminate|].
  injection Hhd as ->. cbn [bind]. rewrite Hd0. cbn [bind].
  rewrite (for_each_raise _ _
             (ValueError (Msg (msg_not_same_dimensions tracer_module_name fname)))).
  - reflexivity.
  - intros x Hx. destruct (Hall x Hx) as [d Hd]. rewrite Hd. cbn [bind].
    destruct (Nc.dict_eqb Nat.eqb d d0); cbn [negb]; auto.
  - exists name. split; [exact Hin|]. rewrite Hdx. cbn [bind].
    now rewrite Hne.
Qed.

(** C7 (the grid-aware variant misses the claim).  The grid-aware reader
    compares the dicts [extract_dimensions] returns, and two dicts with
    the same entries in another order are equal: tracers [a] on [(x, y)]
    and [b] on [(y, x)], both dimensions of length 2, are read without
    any error, [b] row by row into a slice laid out for [(x, y)].  The
    no-grid reader refuses the same variables. *)
Theorem test_problem_read_vals_permuted_dimensions :
  TestProblem._read_vals tracers_ab axis_10_20
    (one_file "perm.nc" permuted_file) "iage" "perm.nc"
  = OK ({| Nd.shape := [2%nat; 2%nat; 2%nat];
           Nd.data := [1; 2; 3; 4; 5; 6; 7; 8] |},
        [("x", 2%nat); ("y", 2%nat)])
  /\
  CimePop._read_vals tracers_ab
    (one_file "perm.nc" permuted_file) "iage" "perm.nc"
  = Raise (ValueError (Msg (msg_not_same_dimensions "iage" "perm.nc"))).
Proof. split; vm_compute; reflexivity. Qed.

(** ** More than three dimensions *)

Lemma for_each_cases {A} (xs : list A) (body : A -> result unit) (e : exn) :
  (forall x, In x xs -> body x = OK tt \/ body x = Raise e) ->
  for_each xs body = OK tt \/ for_each xs body = Raise e.
Proof.
  induction xs as [|x xs IH]; intros H; [now left|].
  cbn [for_each]. destruct (H x (or_introl eq_refl)) as [E|E]; rewrite E.
  - cbn [bind]. apply IH. intros y Hy. apply H. now right.
  - now right.
Qed.

(** Collecting the lengths of dimensions the file defines succeeds. *)
Lemma dims_fold_defined (fptr : Nc.dataset) (dims : list string)
    (acc : Nc.dict nat) :
  dims_defined fptr dims ->
  exists d,
    fold_left
      (fun acc dimname =>
         let* res := acc in
         let* len := Nc.dim_len fptr dimname in
         OK (Nc.set res dimname len))
      dims (OK acc)
    = OK d.
Proof.
  revert acc. induction dims as [|n dims IH]; intros acc Hdef.
  - now exists acc.
  - cbn [fold_left bind].
    assert (M := Hdef n (or_introl eq_refl)).
    unfold Nc.dim_len. unfold Nc.mem in M.
    destruct (Nc.get (Nc.ds_dimensions fptr) n); [|discriminate].
    cbn [bind]. apply IH. intros m Hm. apply Hdef. now right.
Qed.

Lemma extract_dimensions_defined (fptr : Nc.dataset) (name : string)
    (var : Nc.variable) :
  Nc.get (Nc.ds_variables fptr) name = Some var ->
  dims_defined fptr (Nc.var_dimensions var) ->
  exists d, Utils.extract_dimensions fptr name = OK d.
Proof.
  intros Hv Hd. unfold Utils.extract_dimensions.
  rewrite (lookup_var_stored _ _ _ Hv). cbn [bind].
  now apply dims_fold_defined.
Qed.

Lemma hd_error_cons {A} (l : list A) (x : A) :
  hd_error l = Some x -> exists l', l = x :: l'.
Proof. destruct l as [|y l]; [discriminate|]. intros [= ->]. now exists l. Qed.

Section TooManyDimensions.

Variable fs : Nc.filesystem.
Variable tracer_module_name fname : string.
Variable fptr : Nc.dataset.
Variable tracers : Nc.dict tracer_metadata.
Variable name0 : string.
Variable var0 : Nc.variable.

Hypothesis file_opens : fs fname = Some fptr.
Hypothesis first_tracer : hd_error (Nc.keys tracers) = Some name0.
Hypothesis first_defined : dims_defined fptr (Nc.var_dimensions var0).
Hypothesis first_distinct : NoDup (Nc.var_dimensions var0).
Hypothesis more_than_3 : (3 < List.length (Nc.var_dimensions var0))%nat.

Let dims : list string := Nc.var_dimensions var0.
Let d : Nc.dict nat := map (fun n => (n, dim_len_of fptr n)) dims.
Let e_ndim : exn :=
  ValueError (Msg (msg_ndim_too_large tracer_module_name fname
                     (List.length dims))).
Let e_diff : exn :=
  ValueError (Msg (msg_not_same_dimensions tracer_module_name fname)).

Lemma length_dims_dict : List.length d = List.length dims.
Proof. unfold d. apply length_map. Qed.

Lemma extract_dimensions_stored (name : string) (var : Nc.variable) :
  Nc.get (Nc.ds_variables fptr) name = Some var ->
  Nc.var_dimensions var = dims ->
  Utils.extract_dimensions fptr name = OK d.
Proof.
  intros Hv Hd. unfold Utils.extract_dimensions.
  rewrite (lookup_var_stored _ _ _ Hv). cbn [bind]. rewrite Hd.
  unfold dims. rewrite dims_fold; auto.
Qed.

Lemma dims_of_distinct : CimePop.dims_of fptr var0 = OK d.
Proof.
  unfold CimePop.dims_of, d, dims.
  apply (dims_fold fptr (Nc.var_dimensions var0) []); auto.
Qed.

Lemma test_problem_read_vals_ndim (depth : SpatialAxis) :
  fname <> "zeros" -> fname <> "gen_init_iterate" ->
  Nc.get (Nc.ds_variables fptr) name0 = Some var0 ->
  all_stored fptr (TestProblem.names_of tracers)
    (fun var => dims_defined fptr (Nc.var_dimensions var)) ->
  let r := TestProblem._read_vals tracers depth fs tracer_module_name fname in
  (r = Raise e_ndim \/ r = Raise e_diff) /\
  (all_stored fptr (TestProblem.names_of tracers)
     (fun var => Nc.var_dimensions var = dims) ->
   r = Raise e_ndim).
Proof.
  intros Hz Hg Hv0 Hall r. unfold r, TestProblem._read_vals.
  apply String.eqb_neq in Hz. apply String.eqb_neq in Hg. rewrite Hz, Hg.
  rewrite (open_read_one _ _ _ file_opens). cbn [bind].
  unfold TestProblem.names_of in *.
  destruct (hd_error_cons _ _ first_tracer) as [ns En]. rewrite En in *.
  cbn [bind].
  rewrite (extract_dimensions_stored name0 var0 Hv0 eq_refl). cbn [bind].
  assert (Hpass :
            forall checks : result unit, checks = OK tt ->
              (let* checked := checks in
               if (3 <? List.length d)%nat
               then Raise (ValueError
                             (Msg (msg_ndim_too_large tracer_module_name fname
                                     (List.length d))))
               else
                 let* vals := read_tracers fptr (name0 :: ns) (Nc.values d) in
                 OK (vals, d))
              = Raise e_ndim).
  { intros checks ->. cbn [bind]. rewrite length_dims_dict.
    destruct (Nat.ltb_spec 3 (List.length dims)); [reflexivity|].
    unfold dims in *. lia. }
  split.
  - match goal with
    | |- (let* checked := for_each ?xs ?body in _) = _ \/ _ =>
        destruct (for_each_cases xs body e_diff) as [E|E]
    end.
    + intros x Hx. destruct (Hall x Hx) as [v [Hv Hd]].
      destruct (extract_dimensions_defined fptr x v Hv Hd) as [dx Edx].
      rewrite Edx. cbn [bind].
      destruct (Nc.dict_eqb Nat.eqb dx d); cbn [negb]; auto.
    + left. now apply Hpass.
    + right. rewrite E. reflexivity.
  - intros Hsame. apply Hpass. apply for_each_ok.
    intros x Hx. destruct (Hsame x Hx) as [v [Hv Hd]].
    rewrite (extract_dimensions_stored x v Hv Hd). cbn [bind].
    rewrite dict_eqb_refl; [reflexivity|].
    unfold d. now rewrite keys_dims.
Qed.

Lemma cime_pop_read_vals_ndim :
  Nc.get (Nc.ds_variables fptr) (name0 +++ "_CUR") = Some var0 ->
  all_stored fptr (map (fun n => n +++ "_CUR") (CimePop.names_of tracers))
    (fun _ => True) ->
  let r := CimePop._read_vals tracers fs tracer_module_name fname in
  (r = Raise e_ndim \/ r = Raise e_diff) /\
  (all_stored fptr (map (fun n => n +++ "_CUR") (CimePop.names_of tracers))
     (fun var => Nc.var_dimensions var = dims) ->
   r = Raise e_ndim).
Proof.
  intros Hv0 Hall r. unfold r, CimePop._read_vals.
  rewrite (open_read_one _ _ _ file_opens). cbn [bind].
  unfold CimePop.names_of, CimePop.suffix in *.
  destruct (hd_error_cons _ _ first_tracer) as [ns En]. rewrite En in *.
  cbn [bind].
  rewrite (lookup_var_stored _ _ _ Hv0). cbn [bind].
  rewrite dims_of_distinct. cbn [bind].
  assert (Hpass :
            forall checks : result unit, checks = OK tt ->
              (let* checked := checks in
               if (3 <? List.length d)%nat
               then Raise (ValueError
                             (Msg (msg_ndim_too_large tracer_module_name fname
                                     (List.length d))))
               else
                 let* vals :=
                   read_tracers fptr
                     (map (fun n => n +++ "_CUR") (name0 :: ns))
                     (Nc.values d) in
                 OK (vals, d))
              = Raise e_ndim).
  { intros checks ->. cbn [bind]. rewrite length_dims_dict.
    destruct (Nat.ltb_spec 3 (List.length dims)); [reflexivity|].
    unfold dims in *. lia. }
  split.
  - match goal with
    | |- (let* checked := for_each ?xs ?body in _) = _ \/ _ =>
        destruct (for_each_cases xs body e_diff) as [E|E]
    end.
    + intros x Hx.
      destruct (Hall (x +++ "_CUR")) as [v [Hv _]].
      { apply in_map_iff. now exists x. }
      rewrite (lookup_var_stored _ _ _ Hv). cbn [bind].
      destruct (list_eq_dec string_dec (Nc.var_dimensions v)
                  (Nc.var_dimensions var0)); [left|right]; reflexivity.
    + left. now apply Hpass.
    + right. rewrite E. reflexivity.
  - intros Hsame. apply Hpass. apply for_each_ok.
    intros x Hx.
    destruct (Hsame (x +++ "_CUR")) as [v [Hv Hd]].
    { apply in_map_iff. now exists x. }
    rewrite (lookup_var_stored _ _ _ Hv). cbn [bind]. rewrite Hd.
    destruct (list_eq_dec string_dec dims (Nc.var_dimensions var0));
      [reflexivity|unfold dims in *; congruence].
Qed.

End TooManyDimensions.

(** C8 (amended).  In both variants, a source file that stores the
    variable of every tracer of the module, the first tracer's on more
    than three dimensions, all distinct, is refused with a [ValueError],
    whatever the number (at least one) of tracers: with the one that
    cites the dimensionality when every tracer is stored on the first
    tracer's dimensions, and otherwise with that one or, if a tracer's
    dimensions differ, with the one for the difference, which is checked
    first.  (A file that lacks a tracer's variable is refused with a
    [KeyError] before either check: [read_vals_missing_tracer].) *)
Theorem read_vals_too_many_dimensions
    (fs : Nc.filesystem) (tracer_module_name fname : string)
    (fptr : Nc.dataset) (tracers : Nc.dict tracer_metadata)
    (name0 : string) (var0 : Nc.variable) (depth : SpatialAxis) :
  fs fname = Some fptr ->
  hd_error (Nc.keys tracers) = Some name0 ->
  dims_defined fptr (Nc.var_dimensions var0) ->
  NoDup (Nc.var_dimensions var0) ->
  (3 < List.length (Nc.var_dimensions var0))%nat ->
  let e_ndim :=
    ValueError (Msg (msg_ndim_too_large tracer_module_name fname
                       (List.length (Nc.var_dimensions var0)))) in
  let e_diff :=
    ValueError (Msg (msg_not_same_dimensions tracer_module_name fname)) in
  (fname <> "zeros" -> fname <> "gen_init_iterate" ->
   Nc.get (Nc.ds_variables fptr) name0 = Some var0 ->
   all_stored fptr (TestProblem.names_of tracers)
     (fun var => dims_defined fptr (Nc.var_dimensions var)) ->
   let r := TestProblem._read_vals tracers depth fs tracer_module_name fname in
   (r = Raise e_ndim \/ r = Raise e_diff) /\
   (all_stored fptr (TestProblem.names_of tracers)
      (fun var => Nc.var_dimensions var = Nc.var_dimensions var0) ->
    r = Raise e_ndim))
  /\
  (Nc.get (Nc.ds_variables fptr) (name0 +++ "_CUR") = Some var0 ->
   all_stored fptr (map (fun n => n +++ "_CUR") (CimePop.names_of tracers))
     (fun _ => True) ->
   let r := CimePop._read_vals tracers fs tracer_module_name fname in
   (r = Raise e_ndim \/ r = Raise e_diff) /\
   (all_stored fptr (map (fun n => n +++ "_CUR") (CimePop.names_of tracers))
      (fun var => Nc.var_dimensions var = Nc.var_dimensions var0) ->
    r = Raise e_ndim)).
Proof.
  intros Hfs Hhd Hdef Hnd Hlen e_ndim e_diff. split.
  - intros Hz Hg Hv0 Hall.
    now apply (test_problem_read_vals_ndim fs tracer_module_name fname fptr
                 tracers name0 var0).
  - intros Hv0 Hall.
    now apply (cime_pop_read_vals_ndim fs tracer_module_name fname fptr
                 tracers name0 var0).
Qed.

Lemma read_vals_too_many_dimensions_witness :
  TestProblem._read_vals tracers_a axis_10_20
    (one_file "f.nc" four_dims_file) "iage" "f.nc"
  = Raise (ValueError (Msg (msg_ndim_too_large "iage" "f.nc" 4)))
  /\
  CimePop._read_vals tracers_a (one_file "f.nc" four_dims_file) "iage" "f.nc"
  = Raise (ValueError (Msg (msg_ndim_too_large "iage" "f.nc" 4))).
Proof.
  pose (var0 := var_on ["w"; "x"; "y"; "z"] [1; 2; 3; 4]).
  assert (Hdef : dims_defined four_dims_file (Nc.var_dimensions var0)).
  { intros n [<-|[<-|[<-|[<-|[]]]]]; reflexivity. }
  assert (Hnd : NoDup (Nc.var_dimensions var0)).
  { repeat constructor; cbn; intuition discriminate. }
  assert (Hlen : (3 < List.length (Nc.var_dimensions var0))%nat)
    by (cbn; lia).
  destruct (read_vals_too_many_dimensions
              (one_file "f.nc" four_dims_file) "iage" "f.nc" four_dims_file
              tracers_a "a" var0 axis_10_20
              eq_refl eq_refl Hdef Hnd Hlen) as [Htp Hpop].
  split.
  - apply Htp; try discriminate; try reflexivity.
    + intros name [<-|[]]. eexists. split; [reflexivity|exact Hdef].
    + intros name [<-|[]]. eexists. split; reflexivity.
  - apply Hpop; try reflexivity.
    + intros name [<-|[]]. eexists. split; [reflexivity|exact I].
    + intros name [<-|[]]. eexists. split; reflexivity.
Defined.

(** C8 fails as stated.  Two tracers on four dimensions each, in
    different orders, are refused by the no-grid reader for the
    difference, and the message does not cite the dimensionality; a
    tracer stored four times on one dimension of length 1 counts as
    one-dimensional in both readers and is read. *)
Lemma read_vals_four_dimensions_not_cited :
  CimePop._read_vals tracers_ab
    (one_file "f.nc" four_dims_permuted_file) "iage" "f.nc"
  = Raise (ValueError (Msg (msg_not_same_dimensions "iage" "f.nc")))
  /\ msg_not_same_dimensions "iage" "f.nc"
     <> msg_ndim_too_large "iage" "f.nc" 4
  /\ TestProblem._read_vals tracers_a axis_10_20
       (one_file "f.nc" repeated_dim_file) "iage" "f.nc"
     = OK ({| Nd.shape := [1%nat; 1%nat]; Nd.data := [7] |}, [("x", 1%nat)])
  /\ CimePop._read_vals tracers_a
       (one_file "f.nc" repeated_dim_file) "iage" "f.nc"
     = OK ({| Nd.shape := [1%nat; 1%nat]; Nd.data := [7] |}, [("x", 1%nat)]).
Proof.
  repeat split; try (vm_compute; reflexivity).
  vm_compute. discriminate.
Qed.

(** A file that stores four-dimensional [a] but nothing for tracer [b]:
    both readers fail on the lookup of [b]'s variable, in the loop that
    compares the dimensions, before the number of dimensions is looked
    at. *)
Lemma read_vals_missing_tracer :
  TestProblem._read_vals tracers_ab axis_10_20
    (one_file "f.nc" four_dims_file) "iage" "f.nc"
  = Raise (KeyError "b")
  /\
  CimePop._read_vals tracers_ab (one_file "f.nc" four_dims_file) "iage" "f.nc"
  = Raise (KeyError "b_CUR").
Proof. split; vm_compute; reflexivity. Qed.

(** ** [write_hist_vars] on a series that is constant in time *)

Section Rows.

Lemma skipn_app_exact {A} (l1 l2 : list A) (k : nat) :
  skipn (List.length l1 + k) (l1 ++ l2) = skipn k l2.
Proof. induction l1 as [|x l1 IH]; [reflexivity|exact IH]. Qed.

Lemma firstn_app_exact {A} (l1 l2 : list A) :
  firstn (List.length l1) (l1 ++ l2) = l1.
Proof.
  induction l1 as [|x l1 IH]; [now destruct l2|]. cbn. now rewrite IH.
Qed.

(** The [i]-th run of an array laid out run by run. *)
Lemma chunk_flat_map (f : nat -> list Q) (m s n i : nat) :
  (forall j, List.length (f j) = m) -> (i < n)%nat ->
  Nd.chunk m i (flat_map f (seq s n)) = f (s + i)%nat.
Proof.
  intros Hlen. revert s i. induction n as [|n IH]; intros s i Hi; [lia|].
  cbn [seq flat_map]. unfold Nd.chunk in *. destruct i as [|i].
  - cbn [Nat.mul skipn]. rewrite Nat.add_0_r.
    rewrite <- (Hlen s) at 1. apply firstn_app_exact.
  - replace (S i * m)%nat with (List.length (f s) + i * m)%nat
      by (rewrite Hlen; lia).
    rewrite skipn_app_exact, IH by lia. f_equal. lia.
Qed.

Lemma flat_map_ext_in {A B} (f g : A -> list B) (l : list A) :
  (forall x, In x l -> f x = g x) -> flat_map f l = flat_map g l.
Proof.
  induction l as [|x l IH]; intros H; [reflexivity|].
  cbn [flat_map]. rewrite (H x (or_introl eq_refl)), IH; [reflexivity|].
  intros y Hy. apply H. now right.
Qed.

Lemma size_single (n : nat) : Nd.size [n] = n.
Proof. cbn. lia. Qed.

Lemma map_nth_seq (w : list Q) :
  map (fun i => nth i w 0) (seq 0 (List.length w)) = w.
Proof.
  induction w as [|x w IH]; [reflexivity|].
  cbn [List.length seq map nth]. f_equal.
  rewrite <- seq_shift, map_map. exact IH.
Qed.

Lemma arr_eq_map {A} (f g : A -> Q) (l : list A) :
  (forall x, In x l -> f x == g x) -> arr_eq (map f l) (map g l).
Proof.
  induction l as [|x l IH]; intros H; [constructor|].
  cbn [map]. constructor; [apply H; now left|].
  apply IH. intros y Hy. apply H. now right.
Qed.

Lemma all_zero_nth (l : list Q) (j : nat) : all_zero l -> nth j l 0 == 0.
Proof.
  intros H. revert j. induction H as [|x l Hx _ IH]; intros [|j]; cbn;
    try reflexivity; auto.
Qed.

Lemma all_zero_firstn (n : nat) (l : list Q) :
  all_zero l -> all_zero (firstn n l).
Proof.
  unfold all_zero. intros H. revert n.
  induction H as [|x l Hx _ IH]; intros [|n]; cbn [firstn].
  - constructor.
  - constructor.
  - constructor.
  - constructor; [exact Hx | apply IH].
Qed.

Lemma all_zero_skipn (n : nat) (l : list Q) :
  all_zero l -> all_zero (skipn n l).
Proof.
  unfold all_zero. intros H. revert n.
  induction H as [|x l Hx Hl IH]; intros [|n]; cbn [skipn].
  - constructor.
  - constructor.
  - constructor; assumption.
  - apply IH.
Qed.

Lemma all_zero_chunk (m r : nat) (l : list Q) :
  all_zero l -> all_zero (Nd.chunk m r l).
Proof.
  intros H. unfold Nd.chunk.
  apply all_zero_firstn. now apply all_zero_skipn.
Qed.

Lemma all_zero_flat_map {A} (f : A -> list Q) (l : list A) :
  (forall x, In x l -> all_zero (f x)) -> all_zero (flat_map f l).
Proof.
  unfold all_zero. induction l as [|x l IH]; intros H; [constructor|].
  cbn [flat_map]. apply Forall_app. split; [apply H; now left|].
  apply IH. intros y Hy. apply H. now right.
Qed.

Lemma all_zero_diff (a b : list Q) :
  arr_eq b a -> all_zero (Np.zip_with Qminus a b).
Proof.
  unfold arr_eq, all_zero. intros H.
  induction H as [|y x b a Hxy _ IH]; [constructor|].
  cbn [Np.zip_with]. constructor; [rewrite Hxy; ring | exact IH].
Qed.

Lemma all_zero_diff_self (a : list Q) : all_zero (Np.zip_with Qminus a a).
Proof.
  induction a as [|x a IH]; [constructor|].
  cbn [Np.zip_with]. constructor; [ring | exact IH].
Qed.

Lemma length_arr_eq (a b : list Q) : arr_eq a b -> List.length a = List.length b.
Proof. intros H. induction H; cbn; auto. Qed.

Lemma sum_all_zero (l : list Q) : all_zero l -> Np.sum l == 0.
Proof.
  intros H. induction H as [|x l Hx _ IH]; [reflexivity|].
  cbn [Np.sum fold_right]. fold (Np.sum l). rewrite Hx, IH. ring.
Qed.

End Rows.

Section Contraction.

(** [einsum] when the weights are as many as the first axis is long. *)
Lemma einsum_i_same_length (w : list Q) (t : nat) (rest : list nat)
    (vals : list Q) :
  List.length w = t ->
  Nd.einsum_i w {| Nd.shape := t :: rest; Nd.data := vals |}
  = OK {| Nd.shape := rest;
          Nd.data :=
            map (fun j =>
                   Np.sum (map (fun i => nth i w 0
                                         * nth j (Nd.chunk (Nd.size rest) i vals) 0)
                             (seq 0 t)))
              (seq 0 (Nd.size rest)) |}.
Proof.
  intros Hw. unfold Nd.einsum_i. cbn [Nd.shape Nd.data]. rewrite Hw.
  unfold Nd.broadcastable. rewrite Nat.eqb_refl, Nat.max_id. reflexivity.
Qed.

(** Contracting rows that are all the same row [cs] with weights that add
    up to 1 gives [cs] back. *)
Lemma einsum_i_constant_rows (w cs : list Q) :
  Np.sum w == 1 ->
  exists mean,
    Nd.einsum_i w
      {| Nd.shape := [List.length w; List.length cs];
         Nd.data := flat_map (fun _ => cs) (seq 0 (List.length w)) |}
    = OK mean /\
    arr_eq (Nd.data mean) cs.
Proof.
  intros Hsum. rewrite einsum_i_same_length by reflexivity.
  eexists. split; [reflexivity|]. cbn [Nd.data]. rewrite size_single.
  match goal with
  | |- arr_eq ?L _ =>
      assert (E : arr_eq L (map (fun j => nth j cs 0)
                              (seq 0 (List.length cs))))
  end.
  { apply arr_eq_map. intros j _.
    rewrite (sum_map_ext
               (fun i => nth i w 0
                         * nth j (Nd.chunk (List.length cs) i
                                    (flat_map (fun _ => cs)
                                       (seq 0 (List.length w)))) 0)
               (fun i => nth j cs 0 * nth i w 0)).
    - rewrite sum_map_scale, map_nth_seq, Hsum. ring.
    - intros i Hi. apply in_seq in Hi.
      rewrite (chunk_flat_map (fun _ => cs)) by (auto; lia). ring. }
  now rewrite map_nth_seq in E.
Qed.

(** Contracting an array of zeros gives zeros. *)
Lemma einsum_i_zero (w : list Q) (t : nat) (rest : list nat) (vals : list Q) :
  List.length w = t -> all_zero vals ->
  exists v,
    Nd.einsum_i w {| Nd.shape := t :: rest; Nd.data := vals |} = OK v /\
    all_zero (Nd.data v) /\ List.length (Nd.data v) = Nd.size rest.
Proof.
  intros Hw Hz. rewrite einsum_i_same_length by exact Hw.
  eexists. split; [reflexivity|]. cbn [Nd.data]. split.
  - apply Forall_forall. intros x Hx. apply in_map_iff in Hx.
    destruct Hx as [j [<- _]]. apply sum_all_zero.
    apply Forall_forall. intros y Hy. apply in_map_iff in Hy.
    destruct Hy as [i [<- _]].
    rewrite (all_zero_nth _ j (all_zero_chunk _ i _ Hz)). ring.
  - now rewrite length_map, length_seq.
Qed.

End Contraction.

Section Handle.

Lemma get_set {V} (d : Nc.dict V) (k m : string) (v : V) :
  Nc.mem d k = true ->
  Nc.mem (Nc.set d k v) m = Nc.mem d m.
Proof.
  unfold Nc.mem. induction d as [|[k0 v0] d IH]; cbn [Nc.get Nc.set].
  - discriminate.
  - destruct (String.eqb_spec k0 k) as [->|Hne]; cbn [Nc.get]; intros H.
    + destruct (String.eqb k m); reflexivity.
    + destruct (String.eqb k0 m); [reflexivity|]. apply IH. exact H.
Qed.

(** An assignment defines no variable and removes none. *)
Lemma mem_store (fptr : Nc.dataset) (name m : string) (vals : list Q) :
  Nc.mem (Nc.ds_variables (Nc.store fptr name vals)) m
  = Nc.mem (Nc.ds_variables fptr) m.
Proof.
  unfold Nc.store.
  destruct (Nc.get (Nc.ds_variables fptr) name) eqn:E; [|reflexivity].
  cbn [Nc.ds_variables]. apply get_set. unfold Nc.mem. now rewrite E.
Qed.

Lemma mem_store_all (l : list (string * list Q)) (fptr : Nc.dataset)
    (m : string) :
  Nc.mem (Nc.ds_variables (store_all l fptr)) m
  = Nc.mem (Nc.ds_variables fptr) m.
Proof.
  revert fptr. induction l as [|e l IH]; intros fptr; [reflexivity|].
  unfold store_all in *. cbn [fold_left]. rewrite IH. apply mem_store.
Qed.

Lemma store_all_app (l1 l2 : list (string * list Q)) (fptr : Nc.dataset) :
  store_all (l1 ++ l2) fptr = store_all l2 (store_all l1 fptr).
Proof. unfold store_all. apply fold_left_app. Qed.

Lemma assign_declared (name : string) (vals : list Q) (k : Nc.io unit)
    (fptr : Nc.dataset) :
  Nc.mem (Nc.ds_variables fptr) name = true ->
  (Nc.assign name vals ;; k) fptr = k (Nc.store fptr name vals).
Proof. intros H. unfold Nc.bind_io, Nc.assign. now rewrite H. Qed.

Lemma assign_declared_last (name : string) (vals : list Q)
    (fptr : Nc.dataset) :
  Nc.mem (Nc.ds_variables fptr) name = true ->
  Nc.assign name vals fptr = (OK tt, Nc.store fptr name vals).
Proof. intros H. unfold Nc.assign. now rewrite H. Qed.

Lemma reading_ok {A B} (r : result A) (x : A) (k : A -> Nc.io B)
    (fptr : Nc.dataset) :
  r = OK x -> (y <- Nc.reading (fun _ => r) ;; k y) fptr = k x fptr.
Proof. intros ->. reflexivity. Qed.

Lemma append_empty (s : string) : s +++ EmptyString = s.
Proof. induction s as [|ch s IH]; [reflexivity|]. cbn. now rewrite IH. Qed.

End Handle.

Section ConstantSeries.

Variable np_sqrt : Q -> Q.
Hypothesis np_sqrt_zero : forall x, x == 0 -> np_sqrt x == 0.

Variable self : TestProblem.TracerModuleState.
Variable a : Nd.array3.
Variable c : nat -> nat -> Q.
Variable w : list Q.

Hypothesis series_constant : constant_in_time a c.
Hypothesis weights_length : List.length w = Nd.dim2 a.
Hypothesis weights_sum : Np.sum w == 1.
Hypothesis time_nonempty : (1 <= Nd.dim2 a)%nat.
Hypothesis depth_fits :
  List.length (sa_delta (TestProblem.depth self)) = Nd.dim1 a.

Let T : nat := Nd.dim2 a.
Let D : nat := Nd.dim1 a.
Let cs (i : nat) : list Q := map (c i) (seq 0 D).
Let tv (i : nat) : Nd.ndarray :=
  {| Nd.shape := [T; D]; Nd.data := flat_map (fun _ => cs i) (seq 0 T) |}.

Lemma length_cs (i : nat) : List.length (cs i) = D.
Proof. unfold cs. now rewrite length_map, length_seq. Qed.

Lemma chunk_tv (i t : nat) :
  (t < T)%nat -> Nd.chunk D t (Nd.data (tv i)) = cs i.
Proof.
  intros Ht. cbn [tv Nd.data].
  apply (chunk_flat_map (fun _ => cs i)); [intros; apply length_cs | exact Ht].
Qed.

(** The time series of tracer [i], time first: every row is the row of
    the constants. *)
Lemma slice_transposed_constant (i : nat) :
  (i < Nd.dim0 a)%nat -> Nd.slice_transposed a i = OK (tv i).
Proof.
  intros Hi. unfold Nd.slice_transposed.
  destruct (Nat.ltb_spec i (Nd.dim0 a)); [|lia].
  unfold tv. f_equal. f_equal. fold T D.
  rewrite series_constant. fold T D.
  rewrite (chunk_flat_map
             (fun i => flat_map (fun d => repeat (c i d) T) (seq 0 D)));
    [|intros j; rewrite (flat_map_constant_length (c:=T));
       [now rewrite length_seq | intros; apply repeat_length] | exact Hi].
  cbn [Nat.add].
  apply flat_map_ext_in. intros t Ht. apply in_seq in Ht.
  unfold cs. apply map_ext_in. intros d Hd. apply in_seq in Hd.
  rewrite <- nth_chunk by lia.
  rewrite (chunk_flat_map (fun d => repeat (c i d) T));
    [|intros; apply repeat_length | lia].
  apply nth_repeat_lt. lia.
Qed.

Lemma sub_rows_constant (i : nat) (mean : Nd.ndarray) :
  arr_eq (Nd.data mean) (cs i) ->
  Nd.shape (TestProblem.sub_rows (tv i) mean) = [T; D] /\
  all_zero (Nd.data (TestProblem.sub_rows (tv i) mean)) /\
  List.length (Nd.data (TestProblem.sub_rows (tv i) mean)) = (T * D)%nat.
Proof.
  intros Hm. unfold TestProblem.sub_rows. cbn [tv Nd.shape Nd.data].
  rewrite size_single. fold (tv i).
  split; [reflexivity|]. split.
  - apply all_zero_flat_map. intros t Ht. apply in_seq in Ht.
    change (flat_map (fun _ => cs i) (seq 0 T)) with (Nd.data (tv i)).
    rewrite chunk_tv by lia. now apply all_zero_diff.
  - rewrite (flat_map_constant_length (c:=D)); [now rewrite length_seq|].
    intros t Ht. apply in_seq in Ht.
    change (flat_map (fun _ => cs i) (seq 0 T)) with (Nd.data (tv i)).
    rewrite chunk_tv by lia. rewrite length_zip_with.
    rewrite (length_arr_eq _ _ Hm), length_cs. lia.
Qed.

Lemma last_minus_first_constant (i : nat) :
  exists delta,
    TestProblem.last_minus_first (tv i) = OK delta /\
    all_zero delta /\ List.length delta = D.
Proof.
  unfold TestProblem.last_minus_first. cbn [tv Nd.shape].
  destruct (Nat.eqb_spec T 0); [unfold T in *; lia|].
  eexists. split; [reflexivity|]. rewrite size_single. fold (tv i).
  rewrite !chunk_tv by (unfold T in *; lia).
  split; [apply all_zero_diff_self|].
  rewrite length_zip_with, length_cs. lia.
Qed.

Lemma int_vals_mid_constant (i : nat) :
  exists res, int_vals_mid (TestProblem.depth self) (tv i) = OK res.
Proof.
  unfold int_vals_mid. cbn [tv Nd.shape rev app].
  rewrite depth_fits. fold D. unfold Nd.broadcastable.
  rewrite Nat.eqb_refl. cbn [orb]. eexists. reflexivity.
Qed.

(** One pass of the loop. *)
Lemma write_hist_vars_tracer_constant (i : nat) (name : string)
    (fptr : Nc.dataset) :
  (i < Nd.dim0 a)%nat -> declared_for fptr name ->
  exists o,
    TestProblem.write_hist_vars_tracer np_sqrt self w a (i, name) fptr
    = (OK tt, store_all (hist_assignments name o) fptr) /\
    constant_hist_values c T D i o.
Proof.
  intros Hi Hdecl.
  assert (Hw : List.length w = T) by exact weights_length.
  destruct (einsum_i_constant_rows w (cs i) weights_sum) as [mean [Emean Pmean]].
  rewrite Hw, length_cs in Emean. fold (tv i) in Emean.
  destruct (sub_rows_constant i mean Pmean) as [Sanom [Zanom Lanom]].
  set (anom := TestProblem.sub_rows (tv i) mean) in *.
  destruct (einsum_i_zero w T [D]
              (map (fun x => x * x) (Nd.data anom)) Hw)
    as [var [Evar [Zvar Lvar]]].
  { apply Forall_forall. intros x Hx. apply in_map_iff in Hx.
    destruct Hx as [y [<- Hy]].
    assert (Ey : y == 0) by (revert y Hy; apply Forall_forall; exact Zanom).
    rewrite Ey. ring. }
  rewrite <- Sanom in Evar.
  destruct (last_minus_first_constant i) as [delta [Edelta [Zdelta Ldelta]]].
  destruct (int_vals_mid_constant i) as [dint Edint].
  exists {| hv_tracer := Nd.data (tv i);
            hv_time_mean := Nd.data mean;
            hv_time_anom := Nd.data anom;
            hv_time_std := map np_sqrt (Nd.data var);
            hv_time_delta := delta;
            hv_depth_int := Nd.data dint |}.
  split.
  - unfold TestProblem.write_hist_vars_tracer. cbn [fst snd].
    rewrite (reading_ok _ (tv i)) by (now apply slice_transposed_constant).
    rewrite assign_declared
      by (rewrite <- (append_empty name); apply Hdecl; cbn; tauto).
    rewrite (reading_ok _ mean) by exact Emean.
    rewrite assign_declared
      by (rewrite !mem_store; apply Hdecl; cbn; tauto).
    fold anom.
    rewrite assign_declared
      by (rewrite !mem_store; apply Hdecl; cbn; tauto).
    rewrite (reading_ok _ var) by exact Evar.
    rewrite assign_declared
      by (rewrite !mem_store; apply Hdecl; cbn; tauto).
    rewrite (reading_ok _ delta) by exact Edelta.
    rewrite assign_declared
      by (rewrite !mem_store; apply Hdecl; cbn; tauto).
    rewrite (reading_ok _ dint) by exact Edint.
    rewrite assign_declared_last
      by (rewrite !mem_store; apply Hdecl; cbn; tauto).
    reflexivity.
  - unfold constant_hist_values.
    cbn [hv_tracer hv_time_mean hv_time_anom hv_time_std hv_time_delta].
    split; [reflexivity|]. split; [exact Pmean|].
    split; [split; assumption|]. split; [|split; assumption].
    split.
    + apply Forall_forall. intros x Hx. apply in_map_iff in Hx.
      destruct Hx as [y [<- Hy]]. apply np_sqrt_zero.
      revert y Hy. apply Forall_forall. exact Zvar.
    + rewrite length_map, Lvar. apply size_single.
Qed.

(** The loop over the tracers, from tracer [k] on. *)
Lemma write_hist_vars_loop_constant (names : list string) (k : nat)
    (fptr : Nc.dataset) :
  (k + List.length names <= Nd.dim0 a)%nat ->
  (forall name, In name names -> declared_for fptr name) ->
  exists outs,
    List.length outs = List.length names /\
    Nc.for_each (combine (seq k (List.length names)) names)
      (TestProblem.write_hist_vars_tracer np_sqrt self w a) fptr
    = (OK tt,
       store_all
         (flat_map (fun p => hist_assignments (fst p) (snd p))
            (combine names outs)) fptr) /\
    forall i o, nth_error outs i = Some o ->
                constant_hist_values c T D (k + i) o.
Proof.
  revert k fptr. induction names as [|name names IH]; intros k fptr Hk Hdecl.
  - exists []. split; [reflexivity|]. split; [reflexivity|].
    intros [|i] o; discriminate.
  - cbn [List.length] in Hk.
    destruct (write_hist_vars_tracer_constant k name fptr) as [o [Eo Po]];
      [lia | apply Hdecl; now left |].
    destruct (IH (S k) (store_all (hist_assignments name o) fptr))
      as [outs [Louts [Eouts Pouts]]]; [lia| |].
    { intros n Hn sfx Hsfx. rewrite mem_store_all.
      apply Hdecl; [now right|exact Hsfx]. }
    exists (o :: outs). split; [cbn; now rewrite Louts|]. split.
    + cbn [List.length seq combine Nc.for_each flat_map fst snd].
      unfold Nc.bind_io at 1. rewrite Eo, Eouts, store_all_app. reflexivity.
    + intros [|i] o' Ho'.
      * injection Ho' as <-. now rewrite Nat.add_0_r.
      * cbn [nth_error] in Ho'. replace (k + S i)%nat with (S k + i)%nat by lia.
        now apply Pouts.
Qed.

End ConstantSeries.

Lemma hist_time_mean_weights_trapezoid (fptr : Nc.dataset) (T : nat) :
  Nc.dim_len fptr "time" = OK T -> (2 <= T)%nat ->
  TestProblem.hist_time_mean_weights fptr = OK (trapezoid_weights T).
Proof.
  intros Ht HT. destruct T as [|[|k]]; try lia.
  rewrite (hist_time_mean_weights_closed fptr k Ht).
  unfold trapezoid_weights. cbn [Nat.sub]. now rewrite Nat.sub_0_r.
Qed.


Lemma sqrt_floor_zero (x : Q) : x == 0 -> sqrt_floor x == 0.
Proof.
  intros H. unfold sqrt_floor. rewrite (Qred_complete x 0 H). reflexivity.
Qed.


(** The scenario of the spec: values 1..5 over five times give the mean 3
    and the difference 4 at every depth. *)
Example write_hist_vars_ramp :
  let series := {| Nd.dim0 := 1; Nd.dim1 := 2; Nd.dim2 := 5;
                   Nd.values := [1; 2; 3; 4; 5; 1; 2; 3; 4; 5] |} in
  exists tv mean delta,
    Nd.slice_transposed series 0 = OK tv /\
    Nd.einsum_i (trapezoid_weights 5) tv = OK mean /\
    map Qred (Nd.data mean) = [3; 3] /\
    TestProblem.last_minus_first tv = OK delta /\
    map Qred delta = [4; 4].
Proof. do 3 eexists. repeat split; vm_compute; reflexivity. Qed.

(** * Further properties of the code *)

(** ** [_gen_edges]: when it succeeds and how it fails *)

(** X1.  For finite [edge_start], [edge_end] and [delta_ratio_max] (the
    rationals include every finite binary64 number, and the checks
    compare without rounding), [_gen_edges] returns edges exactly for
    [nlevs >= 1] and [delta_ratio_max >= 1]: then there are [nlevs + 1]
    of them and the first is [edge_start].  A negative [nlevs] is
    refused by [np.linspace], [nlevs = 0] divides by zero before the
    ratio is looked at, and a ratio below 1 is refused last.  (A nan is
    not below 1 and passes the check: [Rounding.gen_edges_nan_ratio].) *)
Theorem gen_edges_outcome (d : defn_dict) :
  ((nlevs d < 0)%Z ->
   _gen_edges d
   = Raise (ValueError (Msg ("Number of samples, " +++ str_of_int (nlevs d)
                             +++ ", must be non-negative."))))
  /\ (nlevs d = 0%Z -> _gen_edges d = Raise ZeroDivisionError)
  /\ ((1 <= nlevs d)%Z -> delta_ratio_max d < 1 ->
      _gen_edges d = Raise (ValueError (Msg "delta_ratio_max must be >= 1.0")))
  /\ ((1 <= nlevs d)%Z -> 1 <= delta_ratio_max d ->
      exists edges,
        _gen_edges d = OK edges /\
        List.length edges = S (Z.to_nat (nlevs d)) /\
        hd_error edges = Some (edge_start d)).
Proof.
  unfold _gen_edges, gen_delta, Np.linspace, gen_delta_avg.
  repeat split.
  - intros H. destruct (Z.ltb_spec (nlevs d) 0); [reflexivity|lia].
  - intros ->. reflexivity.
  - intros Hn Hr.
    destruct (Z.ltb_spec (nlevs d) 0); [lia|].
    destruct (0 <? nlevs d - 1)%Z; cbn [bind];
      (destruct (Z.eqb_spec (nlevs d) 0); [lia|]); cbn [bind];
      (destruct (Qlt_le_dec (delta_ratio_max d) 1); [reflexivity|lra]).
  - intros Hn Hr.
    assert (E : exists delta, gen_delta d = OK delta).
    { unfold gen_delta, Np.linspace, gen_delta_avg.
      destruct (Z.ltb_spec (nlevs d) 0); [lia|].
      destruct (0 <? nlevs d - 1)%Z; cbn [bind];
        (destruct (Z.eqb_spec (nlevs d) 0); [lia|]); cbn [bind];
        (destruct (Qlt_le_dec (delta_ratio_max d) 1); [lra|]);
        eexists; reflexivity. }
    destruct E as [delta E].
    assert (G : _gen_edges d
                = OK (edge_start d
                        :: map (fun c => edge_start d + c) (Np.cumsum delta)))
      by (unfold _gen_edges; now rewrite E).
    unfold _gen_edges, gen_delta, Np.linspace, gen_delta_avg in G.
    rewrite G. eexists. split; [reflexivity|]. split; [|reflexivity].
    assert (G' : _gen_edges d
                 = OK (edge_start d
                         :: map (fun c => edge_start d + c) (Np.cumsum delta)))
      by (unfold _gen_edges; now rewrite E).
    destruct (gen_edges_cumulative d _ G') as [delta' [E' [L _]]].
    rewrite E in E'. injection E' as <-.
    rewrite L, (length_gen_delta d _ E). reflexivity.
Qed.

Lemma gen_edges_outcome_witness :
  _gen_edges {| axisname := "depth"; units := "m"; nlevs := 0%Z;
                edge_start := 0; edge_end := 100; delta_ratio_max := 0 |}
  = Raise ZeroDivisionError
  /\ _gen_edges {| axisname := "depth"; units := "m"; nlevs := 2%Z;
                   edge_start := 0; edge_end := 100; delta_ratio_max := 1 # 2 |}
     = Raise (ValueError (Msg "delta_ratio_max must be >= 1.0"))
  /\ exists edges,
       _gen_edges defn_4 = OK edges /\
       List.length edges = 5%nat /\
       hd_error edges = Some 0.
Proof.
  split; [|split].
  - apply (proj1 (proj2 (gen_edges_outcome _))). reflexivity.
  - apply (proj1 (proj2 (proj2 (gen_edges_outcome _)))); [cbn; lia|reflexivity].
  - apply (proj2 (proj2 (proj2 (gen_edges_outcome defn_4))));
      [cbn; lia | cbn; lra].
Defined.

(** ** The stretching function grows *)

(** Boole's rule, exact for the quartic derivative [15/8 (1 - t^2)^2]:
    the increase of the stretching function over [[x, y]] is [y - x]
    times a weighted sum of squares. *)
Lemma stretch_fcn_increase (x y : Q) :
  let sq := fun t => (1 - t * t) * (1 - t * t) in
  let t := fun k => x + k * (y - x) in
  stretch_fcn y - stretch_fcn x
  == (y - x) * (15 # 8)
     * ((7 # 90) * sq (t 0) + (32 # 90) * sq (t (1 # 4))
        + (12 # 90) * sq (t (1 # 2)) + (32 # 90) * sq (t (3 # 4))
        + (7 # 90) * sq (t 1)).
Proof. cbv zeta. unfold stretch_fcn. ring. Qed.

Lemma square_nonneg (a : Q) : 0 <= a * a.
Proof.
  destruct (Qlt_le_dec a 0) as [Hn|Hp].
  - setoid_replace (a * a) with ((- a) * (- a)) by ring.
    apply Qmult_le_0_compat; lra.
  - apply Qmult_le_0_compat; lra.
Qed.

Lemma stretch_fcn_monotone (x y : Q) :
  x <= y -> stretch_fcn x <= stretch_fcn y.
Proof.
  intros Hxy. assert (E := stretch_fcn_increase x y). cbv zeta beta in E.
  assert (P0 := square_nonneg (1 - (x + 0 * (y - x)) * (x + 0 * (y - x)))).
  assert (P1 := square_nonneg
                  (1 - (x + (1 # 4) * (y - x)) * (x + (1 # 4) * (y - x)))).
  assert (P2 := square_nonneg
                  (1 - (x + (1 # 2) * (y - x)) * (x + (1 # 2) * (y - x)))).
  assert (P3 := square_nonneg
                  (1 - (x + (3 # 4) * (y - x)) * (x + (3 # 4) * (y - x)))).
  assert (P4 := square_nonneg (1 - (x + 1 * (y - x)) * (x + 1 * (y - x)))).
  match type of E with
  | _ == (y - x) * (15 # 8) * ?s =>
      assert (P : 0 <= (y - x) * (15 # 8) * s)
  end.
  { apply Qmult_le_0_compat; [apply Qmult_le_0_compat; lra|]. lra. }
  lra.
Qed.

(** ** The generated thicknesses *)

(** The thicknesses are the mean thickness plus [stretch_factor] times
    one stretch value each, for any number of layers. *)
Lemma gen_delta_form (d : defn_dict) :
  (1 <= nlevs d)%Z -> 1 <= delta_ratio_max d ->
  exists stretch,
    gen_delta d
    = OK (map (fun s => delta_avg_of d + stretch_factor_of d * s) stretch) /\
    List.length stretch = Z.to_nat (nlevs d).
Proof.
  intros Hn Hr. unfold gen_delta, Np.linspace, gen_delta_avg.
  destruct (Z.ltb_spec (nlevs d) 0); [lia|].
  destruct (0 <? nlevs d - 1)%Z; cbn [bind];
    (destruct (Z.eqb_spec (nlevs d) 0); [lia|]); cbn [bind];
    (destruct (Qlt_le_dec (delta_ratio_max d) 1); [lra|]);
    eexists; (split; [reflexivity|]);
    now rewrite !length_map, length_seq.
Qed.

Lemma sum_firstn_const (l : list Q) (c : Q) (k : nat) :
  Forall (fun x => x == c) l -> (k <= List.length l)%nat ->
  Np.sum (firstn k l) == Np.of_nat k * c.
Proof.
  intros H. revert k. induction H as [|x l Hx _ IH]; intros k Hk.
  - cbn in Hk. assert (k = 0%nat) as -> by lia. cbn. unfold Np.of_nat.
    cbn. ring.
  - destruct k as [|k].
    + cbn. unfold Np.of_nat. cbn. ring.
    + cbn [firstn]. unfold Np.sum. cbn [fold_right]. fold (Np.sum (firstn k l)).
      cbn [List.length] in Hk. rewrite IH by lia. rewrite Hx.
      unfold Np.of_nat. rewrite Nat2Z.inj_succ, <- Z.add_1_r, inject_Z_plus.
      ring.
Qed.

(** X2.  With [delta_ratio_max = 1] the axis is uniform: edge [k] is
    [edge_start + k * (edge_end - edge_start) / nlevs], for every
    [nlevs >= 1]. *)
Theorem gen_edges_uniform (d : defn_dict) :
  (1 <= nlevs d)%Z -> delta_ratio_max d == 1 ->
  exists edges,
    _gen_edges d = OK edges /\
    forall k, (k <= Z.to_nat (nlevs d))%nat ->
      nth k edges 0
      == edge_start d
         + Np.of_nat k * ((edge_end d - edge_start d) / inject_Z (nlevs d)).
Proof.
  intros Hn Hr1. assert (Hr : 1 <= delta_ratio_max d) by lra.
  destruct (gen_delta_form d Hn Hr) as [stretch [E L]].
  assert (G : _gen_edges d
              = OK (edge_start d
                      :: map (fun c => edge_start d + c)
                           (Np.cumsum
                              (map (fun s => delta_avg_of d
                                             + stretch_factor_of d * s)
                                 stretch))))
    by (unfold _gen_edges; now rewrite E).
  eexists. split; [exact G|].
  destruct (gen_edges_cumulative d _ G) as [delta [E' [_ Hk]]].
  rewrite E in E'. injection E' as <-.
  intros k Hle. rewrite Hk by (rewrite length_map; lia).
  rewrite (sum_firstn_const _ (delta_avg_of d)).
  - unfold delta_avg_of. field. intros H.
    apply (inject_Z_injective (nlevs d) 0) in H. lia.
  - apply Forall_forall. intros x Hx. apply in_map_iff in Hx.
    destruct Hx as [s [<- _]]. unfold stretch_factor_of.
    rewrite Hr1. field.
  - rewrite length_map. lia.
Qed.

Lemma gen_edges_uniform_witness :
  let d := {| axisname := "depth"; units := "m"; nlevs := 4%Z;
              edge_start := 0; edge_end := 100; delta_ratio_max := 1 |} in
  exists edges,
    _gen_edges d = OK edges /\
    forall k, (k <= 4)%nat -> nth k edges 0 == 0 + Np.of_nat k * ((100 - 0) / 4).
Proof.
  intros d. apply (gen_edges_uniform d); [cbn; lia | reflexivity].
Defined.

Lemma coord_of_step (d : defn_dict) (i : nat) :
  (2 <= nlevs d)%Z -> coord_of d i <= coord_of d (S i).
Proof.
  intros Hn. assert (P := div_pos d Hn). unfold coord_of.
  assert (L : Np.of_nat i <= Np.of_nat (S i)) by (apply of_nat_le; lia).
  assert (Q0 : 0 < (1 - -1) / inject_Z (nlevs d - 1))
    by (apply Qlt_shift_div_l; lra).
  set (q := (1 - -1) / inject_Z (nlevs d - 1)) in *.
  assert (M : Np.of_nat i * q <= Np.of_nat (S i) * q)
    by (apply Qmult_le_compat_r; lra).
  lra.
Qed.

(** X3.  In exact arithmetic, with [edge_start < edge_end] the layers never
    get thinner along the axis: [delta[i] <= delta[i+1]].  (Rounded
    thicknesses that are equal up to the last bit can come out in either
    order.) *)
Theorem gen_delta_nondecreasing (d : defn_dict) :
  (2 <= nlevs d)%Z -> 1 <= delta_ratio_max d ->
  edge_start d < edge_end d ->
  exists delta,
    gen_delta d = OK delta /\
    forall i, (S i < List.length delta)%nat ->
      nth i delta 0 <= nth (S i) delta 0.
Proof.
  intros Hn Hr Hlt. rewrite (gen_delta_closed d Hn Hr).
  eexists. split; [reflexivity|].
  rewrite length_map, length_seq. intros i Hi.
  rewrite !nth_map_seq by lia. unfold delta_of.
  assert (N1 : (1 <= nlevs d)%Z) by lia.
  destruct (stretch_factor_range d Hr N1 Hlt) as [F _].
  assert (M := stretch_fcn_monotone _ _ (coord_of_step d i Hn)).
  assert (K : stretch_factor_of d * stretch_fcn (coord_of d i)
              <= stretch_factor_of d * stretch_fcn (coord_of d (S i))).
  { rewrite !(Qmult_comm (stretch_factor_of d)).
    apply Qmult_le_compat_r; assumption. }
  lra.
Qed.

Lemma gen_delta_nondecreasing_witness :
  exists delta,
    gen_delta defn_4 = OK delta /\
    forall i, (S i < List.length delta)%nat ->
      nth i delta 0 <= nth (S i) delta 0.
Proof.
  apply (gen_delta_nondecreasing defn_4); [cbn; lia | cbn; lra | reflexivity].
Defined.

(** ** [int_vals_mid]: broadcasting, linearity, constants *)

Lemma nth_zip_with (f : Q -> Q -> Q) (a b : list Q) (i : nat) :
  (i < List.length a)%nat -> (i < List.length b)%nat ->
  nth i (Np.zip_with f a b) 0 = f (nth i a 0) (nth i b 0).
Proof.
  revert b i. induction a as [|x a IH]; intros [|y b] i Ha Hb;
    cbn in Ha, Hb; try lia.
  destruct i as [|i]; [reflexivity|]. cbn. apply IH; lia.
Qed.

Lemma offset_last_lt (lead idx : list nat) (N i : nat) :
  Nd.in_range lead idx -> (i < N)%nat ->
  (Nd.offset (lead ++ [N]) (idx ++ [i]) < Nd.size lead * N)%nat.
Proof.
  intros Hidx Hi. rewrite offset_snoc by exact Hidx.
  assert (Ho := offset_lt _ _ Hidx). nia.
Qed.

(** X4.  [int_vals_mid] returns when the last axis of [vals] has the length
    of [delta] or one of the two lengths is 1, with the leading shape of
    [vals]; on any other last axis the product raises a [ValueError]. *)
Theorem int_vals_mid_outcome
    (self : SpatialAxis) (vals : Nd.ndarray) (lead : list nat) (l : nat) :
  Nd.shape vals = lead ++ [l] ->
  let n := List.length (sa_delta self) in
  ((n = l \/ l = 1%nat \/ n = 1%nat) ->
   exists res, int_vals_mid self vals = OK res /\
               Nd.shape res = lead /\ Nd.well_formed res)
  /\ (n <> l -> l <> 1%nat -> n <> 1%nat ->
      exists m, int_vals_mid self vals = Raise (ValueError m)).
Proof.
  intros Hshape n. unfold int_vals_mid.
  rewrite Hshape, rev_app_distr. cbn [rev app]. rewrite rev_involutive.
  fold n. unfold Nd.broadcastable. split.
  - intros H.
    assert (E : ((n =? l)%nat || (l =? 1)%nat || (n =? 1)%nat) = true).
    { destruct H as [H | [H | H]]; rewrite H, ?Nat.eqb_refl, ?orb_true_r;
        reflexivity. }
    rewrite E. eexists. split; [reflexivity|]. split; [reflexivity|].
    unfold Nd.well_formed, Nd.rows. cbn [Nd.shape Nd.data].
    now rewrite !length_map, length_seq.
  - intros H1 H2 H3.
    apply Nat.eqb_neq in H1, H2, H3. rewrite H1, H2, H3. cbn [orb].
    eexists. reflexivity.
Qed.

Lemma int_vals_mid_outcome_witness :
  (exists res, int_vals_mid axis_10_20 vals_2x2 = OK res /\
               Nd.shape res = [2%nat] /\ Nd.well_formed res)
  /\ (exists m,
        int_vals_mid axis_10_20
          {| Nd.shape := [2%nat; 3%nat]; Nd.data := [1; 2; 3; 4; 5; 6] |}
        = Raise (ValueError m)).
Proof.
  split.
  - apply (int_vals_mid_outcome axis_10_20 vals_2x2 [2%nat] 2 eq_refl).
    left. reflexivity.
  - apply (int_vals_mid_outcome axis_10_20
             {| Nd.shape := [2%nat; 3%nat]; Nd.data := [1; 2; 3; 4; 5; 6] |}
             [2%nat] 3 eq_refl); cbn; lia.
Defined.

Lemma chunk_single (r : nat) (l : list Q) :
  (r < List.length l)%nat -> Nd.chunk 1 r l = [nth r l 0].
Proof.
  intros Hr.
  assert (L : List.length (Nd.chunk 1 r l) = 1%nat)
    by (apply length_chunk; lia).
  assert (N := nth_chunk 1 r 0 l Nat.lt_0_1).
  rewrite Nat.mul_1_r, Nat.add_0_r in N.
  destruct (Nd.chunk 1 r l) as [|x [|y t]]; cbn in L; try lia.
  cbn in N. now rewrite N.
Qed.

Lemma sum_map_scale_r (c : Q) (l : list Q) :
  Np.sum (map (fun x => x * c) l) == Np.sum l * c.
Proof.
  induction l as [|x l IH]; cbn; [ring|].
  unfold Np.sum in *. cbn [fold_right]. rewrite IH. ring.
Qed.

(** X5.  A value array whose last axis has length 1 is not refused: the one
    value of each row is repeated over the layers, so each result is, in
    exact arithmetic, that value times the sum of the thicknesses. *)
Theorem int_vals_mid_single_column
    (self : SpatialAxis) (vals : Nd.ndarray) (lead : list nat) :
  Nd.shape vals = lead ++ [1%nat] ->
  Nd.well_formed vals ->
  exists res,
    int_vals_mid self vals = OK res /\
    Nd.shape res = lead /\
    forall idx, Nd.in_range lead idx ->
      Nd.get res idx
      == Np.sum (sa_delta self) * Nd.get vals (idx ++ [0%nat]).
Proof.
  intros Hshape Hwf. unfold int_vals_mid.
  rewrite Hshape, rev_app_distr. cbn [rev app]. rewrite rev_involutive.
  unfold Nd.broadcastable. rewrite Nat.eqb_refl, orb_true_r. cbn [orb].
  eexists. split; [reflexivity|]. split; [reflexivity|].
  intros idx Hidx. unfold Nd.get at 1 2. cbn [Nd.shape Nd.data].
  rewrite Hshape, offset_snoc by exact Hidx.
  rewrite Nat.mul_1_r, Nat.add_0_r.
  assert (Ho := offset_lt _ _ Hidx).
  unfold Nd.well_formed in Hwf. rewrite Hshape, size_app in Hwf.
  cbn [Nd.size fold_right] in Hwf. rewrite Nat.mul_1_r in Hwf.
  set (o := Nd.offset lead idx) in *.
  unfold Nd.rows. rewrite map_map, nth_map_seq by exact Ho.
  rewrite chunk_single by lia.
  set (v := nth o (Nd.data vals) 0).
  unfold Nd.broadcast_mul. cbn [List.length hd].
  destruct (Nat.eqb_spec (List.length (sa_delta self)) 1) as [E|E].
  - destruct (sa_delta self) as [|x [|y t]]; cbn in E; try lia.
    cbn. ring.
  - cbn [Nat.eqb]. apply sum_map_scale_r.
Qed.

Lemma int_vals_mid_single_column_witness :
  exists res,
    int_vals_mid axis_10_20 {| Nd.shape := [2%nat; 1%nat]; Nd.data := [3; 5] |}
    = OK res /\
    Nd.shape res = [2%nat] /\
    forall idx, Nd.in_range [2%nat] idx ->
      Nd.get res idx
      == Np.sum (sa_delta axis_10_20)
         * Nd.get {| Nd.shape := [2%nat; 1%nat]; Nd.data := [3; 5] |}
             (idx ++ [0%nat]).
Proof.
  apply (int_vals_mid_single_column axis_10_20
           {| Nd.shape := [2%nat; 1%nat]; Nd.data := [3; 5] |} [2%nat]);
    reflexivity.
Defined.

Lemma weighted_sum_lincomb
    (delta : list Q) (a b : Q) (x y : Nd.ndarray) (lead idx : list nat) :
  Nd.shape x = lead ++ [List.length delta] ->
  Nd.shape y = Nd.shape x ->
  Nd.well_formed x -> Nd.well_formed y ->
  Nd.in_range lead idx ->
  weighted_sum_last_axis delta (lincomb a b x y) idx
  == a * weighted_sum_last_axis delta x idx
     + b * weighted_sum_last_axis delta y idx.
Proof.
  intros Hx Hy Wx Wy Hidx. unfold weighted_sum_last_axis, sum_upto.
  rewrite <- !sum_map_scale, <- sum_map_plus.
  apply sum_map_ext. intros i Hi. apply in_seq in Hi.
  unfold Nd.get, lincomb. cbn [Nd.shape Nd.data]. rewrite Hy, Hx.
  assert (Ho := offset_last_lt lead idx (List.length delta) i Hidx
                  ltac:(lia)).
  unfold Nd.well_formed in Wx, Wy. rewrite Hy in Wy.
  rewrite Hx, size_app in Wx, Wy.
  cbn [Nd.size fold_right] in Wx, Wy. rewrite Nat.mul_1_r in Wx, Wy.
  rewrite nth_zip_with by lia. ring.
Qed.

(** X6.  In exact arithmetic [int_vals_mid] is linear in the values: the
    integral of [a * x + b * y] is [a] times that of [x] plus [b] times
    that of [y], for arrays of any rank whose last axis is the depth
    axis. *)
Theorem int_vals_mid_linear
    (self : SpatialAxis) (a b : Q) (x y : Nd.ndarray) (lead : list nat) :
  Nd.shape x = lead ++ [List.length (sa_delta self)] ->
  Nd.shape y = Nd.shape x ->
  Nd.well_formed x -> Nd.well_formed y ->
  exists rx ry rxy,
    int_vals_mid self x = OK rx /\
    int_vals_mid self y = OK ry /\
    int_vals_mid self (lincomb a b x y) = OK rxy /\
    Nd.shape rxy = lead /\
    forall idx, Nd.in_range lead idx ->
      Nd.get rxy idx == a * Nd.get rx idx + b * Nd.get ry idx.
Proof.
  intros Hx Hy Wx Wy.
  assert (Wxy : Nd.well_formed (lincomb a b x y)).
  { unfold Nd.well_formed, lincomb in *. cbn [Nd.shape Nd.data].
    rewrite length_zip_with, Wx, Wy, Hy. apply Nat.min_id. }
  destruct (int_vals_mid_rows self x lead _ eq_refl Hx Wx)
    as [rx [Ex [_ [_ Gx]]]].
  destruct (int_vals_mid_rows self y lead _ eq_refl
              (eq_trans Hy Hx) Wy) as [ry [Ey [_ [_ Gy]]]].
  destruct (int_vals_mid_rows self (lincomb a b x y) lead _ eq_refl Hx Wxy)
    as [rxy [Exy [Sxy [_ Gxy]]]].
  exists rx, ry, rxy. repeat split; try assumption.
  intros idx Hidx.
  rewrite (Gxy idx Hidx), (Gx idx Hidx), (Gy idx Hidx).
  now apply (weighted_sum_lincomb _ a b x y lead).
Qed.

Lemma int_vals_mid_linear_witness :
  exists rx ry rxy,
    int_vals_mid axis_10_20 vals_2x2 = OK rx /\
    int_vals_mid axis_10_20 vals_2x2 = OK ry /\
    int_vals_mid axis_10_20 (lincomb 2 3 vals_2x2 vals_2x2) = OK rxy /\
    Nd.shape rxy = [2%nat] /\
    forall idx, Nd.in_range [2%nat] idx ->
      Nd.get rxy idx == 2 * Nd.get rx idx + 3 * Nd.get ry idx.
Proof.
  apply (int_vals_mid_linear axis_10_20 2 3 vals_2x2 vals_2x2 [2%nat]);
    reflexivity.
Defined.

Lemma sum_diff_telescopes (e : list Q) :
  e <> [] ->
  Np.sum (Np.zip_with Qminus (Np.drop_first e) (Np.drop_last e))
  == last e 0 - hd 0 e.
Proof.
  intros _. destruct e as [|x e]; [cbn; ring|].
  revert x. induction e as [|y e IH]; intros x.
  - cbn. ring.
  - change (Np.drop_first (x :: y :: e)) with (y :: e).
    change (Np.drop_last (x :: y :: e)) with (x :: Np.drop_last (y :: e)).
    destruct e as [|z e].
    + cbn. ring.
    + change (Np.zip_with Qminus (y :: z :: e) (x :: Np.drop_last (y :: z :: e)))
        with ((y - x) :: Np.zip_with Qminus (Np.drop_first (y :: z :: e))
                           (Np.drop_last (y :: z :: e))).
      unfold Np.sum. cbn [fold_right].
      fold (Np.sum (Np.zip_with Qminus (Np.drop_first (y :: z :: e))
                      (Np.drop_last (y :: z :: e)))).
      rewrite (IH y).
      change (last (x :: y :: z :: e) 0) with (last (y :: z :: e) 0).
      cbn [hd]. ring.
Qed.

(** X7.  In exact arithmetic, on an axis built from any non-empty list of
    edges the integral of values that are all [c] is [c] times the extent
    of the axis, [edges[-1] - edges[0]]: the thicknesses telescope. *)
Theorem int_vals_mid_of_constant
    (name unit_s : string) (e : list Q) (ddv : option string)
    (vals : Nd.ndarray) (lead : list nat) (c : Q) :
  e <> [] ->
  Nd.shape vals = lead ++ [(List.length e - 1)%nat] ->
  Nd.well_formed vals ->
  all_equal_to c (Nd.data vals) ->
  exists res,
    int_vals_mid (derive name unit_s e ddv) vals = OK res /\
    Nd.shape res = lead /\
    forall idx, Nd.in_range lead idx ->
      Nd.get res idx == c * (last e 0 - hd 0 e).
Proof.
  intros He Hshape Hwf Hc.
  set (self := derive name unit_s e ddv).
  assert (Hlen : List.length (sa_delta self) = (List.length e - 1)%nat)
    by apply (derive_lengths name unit_s e ddv).
  destruct (int_vals_mid_rows self vals lead _ Hlen Hshape Hwf)
    as [res [E [S [_ G]]]].
  exists res. repeat split; try assumption.
  intros idx Hidx. rewrite (G idx Hidx).
  unfold weighted_sum_last_axis, sum_upto.
  rewrite <- (sum_diff_telescopes e He).
  change (Np.zip_with Qminus (Np.drop_first e) (Np.drop_last e))
    with (sa_delta self).
  assert (T : Np.sum (sa_delta self)
              == Np.sum (map (fun i => nth i (sa_delta self) 0)
                           (seq 0 (List.length (sa_delta self)))))
    by (now rewrite map_nth_seq).
  rewrite T, <- sum_map_scale. apply sum_map_ext. intros i Hi.
  apply in_seq in Hi. unfold Nd.get. rewrite Hshape.
  assert (Ho := offset_last_lt lead idx (List.length e - 1) i Hidx
                  ltac:(lia)).
  unfold Nd.well_formed in Hwf. rewrite Hshape, size_app in Hwf.
  cbn [Nd.size fold_right] in Hwf. rewrite Nat.mul_1_r in Hwf.
  assert (V : nth (Nd.offset (lead ++ [(List.length e - 1)%nat]) (idx ++ [i]))
                (Nd.data vals) 0 == c).
  { unfold all_equal_to in Hc. rewrite Forall_forall in Hc.
    apply Hc. apply nth_In. lia. }
  rewrite V. ring.
Qed.

Lemma int_vals_mid_of_constant_witness :
  exists res,
    int_vals_mid (derive "depth" "m" [0; 10; 30] None)
      {| Nd.shape := [2%nat; 2%nat]; Nd.data := [7; 7; 7; 7] |} = OK res /\
    Nd.shape res = [2%nat] /\
    forall idx, Nd.in_range [2%nat] idx ->
      Nd.get res idx == 7 * (last [0; 10; 30] 0 - hd 0 [0; 10; 30]).
Proof.
  apply (int_vals_mid_of_constant "depth" "m" [0; 10; 30] None
           {| Nd.shape := [2%nat; 2%nat]; Nd.data := [7; 7; 7; 7] |}
           [2%nat] 7);
    [discriminate | reflexivity | reflexivity |].
  repeat constructor.
Defined.

(** ** [SpatialAxis.__init__] from a name alone *)

(** X8.  Without a file and without a definition only the name ["depth"]
    builds an axis: 30 layers from 0 to 900 m with increasing edges,
    whatever the files are.  No name at all, or any other name, raises
    the [ValueError] of the first key left without a value. *)
Theorem spatial_axis_init_by_name
    (str_of_float : Q -> string) (fs : Nc.filesystem) :
  (exists ax,
     SpatialAxis_init str_of_float fs (Some "depth") None None = OK ax /\
     sa_axisname ax = "depth" /\ sa_units ax = "m" /\
     SpatialAxis_len ax = OK 30%nat /\
     nth 0 (sa_edges ax) 0 == 0 /\ last (sa_edges ax) 0 == 900 /\
     strictly_increasing (sa_edges ax))
  /\ SpatialAxis_init str_of_float fs None None None
     = Raise (ValueError (Msg "value for key axisname not set"))
  /\ (forall n, n <> "depth" ->
      SpatialAxis_init str_of_float fs (Some n) None None
      = Raise (ValueError (Msg "value for key units not set"))).
Proof.
  split; [|split].
  - set (d := {| axisname := "depth"; units := "m"; nlevs := 30%Z;
                 edge_start := 0; edge_end := 900; delta_ratio_max := 5 |}).
    assert (Hn : (2 <= nlevs d)%Z) by (cbn; lia).
    assert (Hr : 1 <= delta_ratio_max d) by (cbn; lra).
    destruct (gen_edges_last_edge d Hn Hr) as [edges [E L]].
    destruct (gen_edges_increasing d edges E eq_refl) as [Len Inc].
    destruct (gen_edges_cumulative d edges E) as [delta [_ [_ K]]].
    exists (derive "depth" "m" edges (Some (defn_dict_values_str str_of_float d))).
    unfold SpatialAxis_init, spatial_axis_defn_dict.
    cbn [String.eqb Ascii.eqb Bool.eqb bind]. fold d. rewrite E. cbn [bind].
    split; [reflexivity|]. split; [reflexivity|]. split; [reflexivity|].
    split.
    { unfold SpatialAxis_len, derive. cbn [sa_nlevs]. rewrite Len. reflexivity. }
    split.
    { cbn [sa_edges derive]. rewrite (K 0%nat) by lia. cbn. ring. }
    split; [exact L | exact Inc].
  - reflexivity.
  - intros n Hn. unfold SpatialAxis_init, spatial_axis_defn_dict.
    apply String.eqb_neq in Hn. rewrite Hn. reflexivity.
Qed.

Lemma spatial_axis_init_by_name_witness :
  SpatialAxis_init no_float_str (fun _ => None) (Some "time") None None
  = Raise (ValueError (Msg "value for key units not set")).
Proof.
  apply (spatial_axis_init_by_name no_float_str (fun _ => None)).
  discriminate.
Defined.

(** ** The time mean is a weighted average *)

Lemma weighted_sum_bounds (w : list Q) (g : nat -> Q) (lo hi : Q) :
  Forall (fun x => 0 <= x) w ->
  (forall i, (i < List.length w)%nat -> lo <= g i /\ g i <= hi) ->
  lo * Np.sum w
  <= Np.sum (map (fun i => nth i w 0 * g i) (seq 0 (List.length w)))
  /\ Np.sum (map (fun i => nth i w 0 * g i) (seq 0 (List.length w)))
     <= hi * Np.sum w.
Proof.
  intros Hw. revert g. induction Hw as [|x w Hx _ IH]; intros g Hg.
  - cbn. lra.
  - cbn [List.length seq map nth].
    rewrite <- seq_shift, map_map. cbn [nth].
    unfold Np.sum. cbn [fold_right].
    fold (Np.sum w).
    fold (Np.sum (map (fun i => nth i w 0 * g (S i)) (seq 0 (List.length w)))).
    destruct (IH (fun i => g (S i))) as [A B].
    { intros i Hi. apply Hg. cbn. lia. }
    destruct (Hg 0%nat) as [G1 G2]; [cbn; lia|].
    assert (X1 : 0 <= x * (g 0%nat - lo))
      by (apply Qmult_le_0_compat; lra).
    assert (X2 : 0 <= x * (hi - g 0%nat))
      by (apply Qmult_le_0_compat; lra).
    split; lra.
Qed.

(** X9.  In exact arithmetic, for a stored time length of at least 2 the
    time mean [einsum("i,i...", weights, vals)] of a series lies, at
    every point, between the smallest and the largest value of the
    series: it is a weighted average with the weights of
    [hist_time_mean_weights].  (Rounded, the mean of a constant series
    can fall one binary64 number below the constant:
    [Rounding.write_hist_vars_constant_series_rounded].) *)
Theorem time_mean_within_range
    (fptr : Nc.dataset) (T : nat) (vals : Nd.ndarray) (rest : list nat)
    (lo hi : Q) :
  Nc.dim_len fptr "time" = OK T -> (2 <= T)%nat ->
  Nd.shape vals = T :: rest -> Nd.well_formed vals ->
  within lo hi (Nd.data vals) ->
  exists w mean,
    TestProblem.hist_time_mean_weights fptr = OK w /\
    Nd.einsum_i w vals = OK mean /\
    Nd.shape mean = rest /\
    Nd.well_formed mean /\
    within lo hi (Nd.data mean).
Proof.
  intros Ht HT Hshape Hwf Hin.
  destruct (hist_time_mean_weights_sum fptr T Ht HT) as [w [Ew [Lw [Pw Sw]]]].
  destruct vals as [sh vs]. cbn [Nd.shape Nd.data] in *. subst sh.
  exists w. eexists. split; [exact Ew|].
  rewrite (einsum_i_same_length w T rest vs Lw).
  split; [reflexivity|]. cbn [Nd.shape Nd.data]. split; [reflexivity|].
  split.
  { unfold Nd.well_formed. cbn [Nd.shape Nd.data].
    now rewrite length_map, length_seq. }
  unfold Nd.well_formed in Hwf. cbn [Nd.shape Nd.data Nd.size fold_right] in Hwf.
  fold (Nd.size rest) in Hwf.
  unfold within in *. apply Forall_forall. intros x Hx.
  apply in_map_iff in Hx. destruct Hx as [j [<- Hj]]. apply in_seq in Hj.
  rewrite <- Lw.
  destruct (weighted_sum_bounds w
              (fun i => nth j (Nd.chunk (Nd.size rest) i vs) 0) lo hi Pw)
    as [A B].
  { intros i Hi. rewrite nth_chunk by lia.
    rewrite Forall_forall in Hin. apply Hin. apply nth_In. nia. }
  rewrite Sw in A, B. lra.
Qed.

Lemma time_mean_within_range_witness :
  exists w mean,
    TestProblem.hist_time_mean_weights (time_only 3) = OK w /\
    Nd.einsum_i w {| Nd.shape := [3%nat; 2%nat]; Nd.data := [1; 5; 2; 4; 3; 3] |}
    = OK mean /\
    Nd.shape mean = [2%nat] /\
    Nd.well_formed mean /\
    within 1 5 (Nd.data mean).
Proof.
  apply (time_mean_within_range (time_only 3) 3
           {| Nd.shape := [3%nat; 2%nat]; Nd.data := [1; 5; 2; 4; 3; 3] |}
           [2%nat] 1 5);
    [reflexivity | lia | reflexivity | reflexivity |].
  repeat constructor; cbn; lra.
Defined.

(** ** Anomaly and variance in time *)

Lemma chunk_flat_map_in_range (f : nat -> list Q) (m s n i : nat) :
  (forall j, (s <= j < s + n)%nat -> List.length (f j) = m) -> (i < n)%nat ->
  Nd.chunk m i (flat_map f (seq s n)) = f (s + i)%nat.
Proof.
  revert s i. induction n as [|n IH]; intros s i Hf Hi; [lia|].
  cbn [seq flat_map]. unfold Nd.chunk in *.
  destruct i as [|i].
  - cbn [Nat.mul skipn]. rewrite Nat.add_0_r.
    rewrite <- (Hf s) by lia. apply firstn_app_exact.
  - replace (S i * m)%nat with (List.length (f s) + i * m)%nat
      by (rewrite (Hf s) by lia; lia).
    rewrite skipn_app, skipn_all2 by lia.
    replace (List.length (f s) + i * m - List.length (f s))%nat
      with (i * m)%nat by lia.
    cbn [app]. rewrite (IH (S s) i); [f_equal; lia | | lia].
    intros j Hj. apply Hf. lia.
Qed.

Lemma sum_nonneg (l : list Q) : Forall (fun x => 0 <= x) l -> 0 <= Np.sum l.
Proof.
  induction 1 as [|x l Hx _ IH]; cbn; [lra|].
  unfold Np.sum in *. cbn [fold_right]. lra.
Qed.

Lemma nth_nonneg (l : list Q) (k : nat) :
  Forall (fun x => 0 <= x) l -> 0 <= nth k l 0.
Proof.
  intros H. revert k. induction H as [|x l Hx _ IH]; intros [|k]; cbn;
    try lra; auto.
Qed.

(** X10.  In exact arithmetic, for a stored time length of at least 2 and
    any series, the weighted time mean of the anomaly [vals - mean] is
    zero at every point, and the weighted mean of its square, whose root
    is written as [_time_std], is never negative. *)
Theorem time_anomaly_statistics
    (fptr : Nc.dataset) (T : nat) (vals : Nd.ndarray) (rest : list nat) :
  Nc.dim_len fptr "time" = OK T -> (2 <= T)%nat ->
  Nd.shape vals = T :: rest -> Nd.well_formed vals ->
  exists w mean anom_mean var,
    TestProblem.hist_time_mean_weights fptr = OK w /\
    Nd.einsum_i w vals = OK mean /\
    Nd.einsum_i w (TestProblem.sub_rows vals mean) = OK anom_mean /\
    all_zero (Nd.data anom_mean) /\
    Nd.einsum_i w
      {| Nd.shape := Nd.shape (TestProblem.sub_rows vals mean);
         Nd.data := map (fun x => x * x)
                      (Nd.data (TestProblem.sub_rows vals mean)) |}
    = OK var /\
    Forall (fun x => 0 <= x) (Nd.data var).
Proof.
  intros Ht HT Hshape Hwf.
  destruct (hist_time_mean_weights_sum fptr T Ht HT) as [w [Ew [Lw [Pw Sw]]]].
  destruct vals as [sh vs]. cbn [Nd.shape Nd.data] in *. subst sh.
  unfold Nd.well_formed in Hwf. cbn [Nd.shape Nd.data Nd.size fold_right] in Hwf.
  fold (Nd.size rest) in Hwf.
  set (m := Nd.size rest) in *.
  set (md := map (fun j => Np.sum (map (fun i => nth i w 0
                                                 * nth j (Nd.chunk m i vs) 0)
                                     (seq 0 T)))
               (seq 0 m)).
  assert (Lmd : List.length md = m)
    by (unfold md; now rewrite length_map, length_seq).
  exists w, {| Nd.shape := rest; Nd.data := md |}.
  rewrite (einsum_i_same_length w T rest vs Lw). fold m. fold md.
  unfold TestProblem.sub_rows. cbn [Nd.shape Nd.data]. fold m.
  set (ad := flat_map (fun i => Np.zip_with Qminus (Nd.chunk m i vs) md)
               (seq 0 T)).
  rewrite (einsum_i_same_length w T rest ad Lw).
  rewrite (einsum_i_same_length w T rest (map (fun x => x * x) ad) Lw).
  fold m. do 2 eexists. split; [exact Ew|]. split; [reflexivity|].
  split; [reflexivity|]. cbn [Nd.data]. split; [|split; [reflexivity|]].
  - unfold all_zero. apply Forall_forall. intros x Hx.
    apply in_map_iff in Hx. destruct Hx as [j [<- Hj]]. apply in_seq in Hj.
    assert (C : forall i, (i < T)%nat ->
                nth j (Nd.chunk m i ad) 0
                == nth j (Nd.chunk m i vs) 0 - nth j md 0).
    { intros i Hi. unfold ad.
      rewrite (chunk_flat_map_in_range _ m 0 T i).
      - cbn [Nat.add].
        rewrite nth_zip_with; [reflexivity | | lia].
        rewrite length_chunk; [lia | nia].
      - intros k Hk. rewrite length_zip_with, length_chunk, Lmd by nia.
        apply Nat.min_id.
      - exact Hi. }
    rewrite (sum_map_ext _ (fun i => nth i w 0 * nth j (Nd.chunk m i vs) 0
                                     + - nth j md 0 * nth i w 0)).
    2:{ intros i Hi. apply in_seq in Hi. rewrite C by lia. ring. }
    rewrite sum_map_plus, sum_map_scale.
    assert (S1 : Np.sum (map (fun i => nth i w 0) (seq 0 T)) == 1)
      by (rewrite <- Lw, map_nth_seq; exact Sw).
    rewrite S1. unfold md at 1. rewrite nth_map_seq by lia. ring.
  - apply Forall_forall. intros x Hx.
    apply in_map_iff in Hx. destruct Hx as [j [<- Hj]]. apply in_seq in Hj.
    apply sum_nonneg. apply Forall_forall. intros y Hy.
    apply in_map_iff in Hy. destruct Hy as [i [<- Hi]].
    apply Qmult_le_0_compat; [now apply nth_nonneg|].
    rewrite nth_chunk by lia. apply nth_nonneg.
    apply Forall_forall. intros z Hz. apply in_map_iff in Hz.
    destruct Hz as [u [<- _]]. apply square_nonneg.
Qed.

Lemma time_anomaly_statistics_witness :
  let vals := {| Nd.shape := [3%nat; 2%nat]; Nd.data := [1; 5; 2; 4; 3; 3] |} in
  exists w mean anom_mean var,
    TestProblem.hist_time_mean_weights (time_only 3) = OK w /\
    Nd.einsum_i w vals = OK mean /\
    Nd.einsum_i w (TestProblem.sub_rows vals mean) = OK anom_mean /\
    all_zero (Nd.data anom_mean) /\
    Nd.einsum_i w
      {| Nd.shape := Nd.shape (TestProblem.sub_rows vals mean);
         Nd.data := map (fun x => x * x)
                      (Nd.data (TestProblem.sub_rows vals mean)) |}
    = OK var /\
    Forall (fun x => 0 <= x) (Nd.data var).
Proof.
  intros vals.
  apply (time_anomaly_statistics (time_only 3) 3 vals [2%nat]);
    [reflexivity | lia | reflexivity | reflexivity].
Defined.

(** ** [_read_vals] from ["gen_init_iterate"] *)

(** [np.interp] at a sample point that is repeated takes the value of the
    last of the repeated points; between two sample points it is on the
    chord, and outside of them it is the nearest end value. *)
Example interp_repeated_sample_point :
  exists r,
    Np.interp [-1; 0; 1 # 2; 1; 3 # 2; 2; 5] [0; 1; 1; 2] [0; 2; 3; 4]
    = OK r /\
    map Qred r = [0; 0; 1; 3; 7 # 2; 4; 4].
Proof. eexists. split; vm_compute; reflexivity. Qed.

Lemma mapM_nth {A B} (f : A -> result B) (xs : list A) (ys : list B) :
  mapM f xs = OK ys ->
  List.length ys = List.length xs /\
  forall i x, nth_error xs i = Some x ->
    exists y, nth_error ys i = Some y /\ f x = OK y.
Proof.
  revert ys. induction xs as [|x xs IH]; intros ys H.
  - cbn in H. injection H as <-. split; [reflexivity|].
    intros [|i] y Hy; discriminate.
  - cbn [mapM] in H. destruct (f x) as [y|e] eqn:Ex; [|discriminate].
    cbn [bind] in H. destruct (mapM f xs) as [ys'|e]; [|discriminate].
    cbn [bind] in H. injection H as <-.
    destruct (IH ys' eq_refl) as [L N]. split; [cbn; now rewrite L|].
    intros [|i] x' Hx'.
    + injection Hx' as <-. exists y. split; [reflexivity | exact Ex].
    + cbn in Hx'. apply N in Hx'. exact Hx'.
Qed.

Lemma length_flat_map_const {A} (f : A -> list Q) (l : list A) (m : nat) :
  (forall x, In x l -> List.length (f x) = m) ->
  List.length (flat_map f l) = (List.length l * m)%nat.
Proof.
  induction l as [|x l IH]; intros H; [reflexivity|].
  cbn [flat_map List.length]. rewrite length_app, H, IH; [lia | | now left].
  intros y Hy. apply H. now right.
Qed.

Lemma length_concat_repeat (p : list Q) (n : nat) :
  List.length (List.concat (repeat p n)) = (n * List.length p)%nat.
Proof.
  induction n as [|n IH]; [reflexivity|].
  cbn [repeat List.concat]. rewrite length_app, IH. lia.
Qed.

(** What [vals[i, :] = prof] stores has the length of the slice. *)
Lemma broadcast_to_row_length (prof row : list Q) (n : nat) :
  Nd.broadcast_to {| Nd.shape := [List.length prof]; Nd.data := prof |} [n]
  = OK row ->
  List.length row = n.
Proof.
  unfold Nd.broadcast_to. cbn [Nd.shape Nd.data Datatypes.length Nat.sub].
  cbn [Nd.strip_ones Datatypes.length Nat.sub repeat app Nd.fits].
  rewrite andb_true_r.
  cbn [Nd.broadcast_data Nd.size fold_right].
  destruct (Nat.eqb_spec (List.length prof) n) as [E|E].
  - cbn [orb]. intros H. injection H as <-.
    rewrite (length_flat_map_const _ _ 1%nat).
    + rewrite length_seq. lia.
    + intros r Hr. apply in_seq in Hr. rewrite chunk_single by lia.
      reflexivity.
  - cbn [orb]. destruct (Nat.eqb_spec (List.length prof) 1) as [E1|E1];
      [|discriminate].
    intros H. injection H as <-. rewrite length_concat_repeat.
    rewrite chunk_single by lia. cbn. lia.
Qed.

Lemma gen_init_iterate_profile_length
    (tracers : Nc.dict tracer_metadata) (depth : SpatialAxis) (n : nat)
    (tracer : string * tracer_metadata) (row : list Q) :
  TestProblem.gen_init_iterate_profile tracers depth n tracer = OK row ->
  List.length row = n.
Proof.
  unfold TestProblem.gen_init_iterate_profile.
  destruct (tm_init_iterate_vals (snd tracer)) as [vals|].
  - destruct (tm_init_iterate_val_depths (snd tracer)) as [depths|];
      [|discriminate].
    destruct (Np.interp (sa_mid depth) depths vals) as [prof|];
      [|discriminate].
    cbn [bind]. apply broadcast_to_row_length.
  - destruct (tm_shadows (snd tracer)) as [s|]; [|discriminate].
    destruct (Nc.get tracers s) as [shadow|]; [|discriminate].
    destruct (tm_init_iterate_val_depths shadow) as [depths|]; [|discriminate].
    destruct (tm_init_iterate_vals shadow) as [vals|]; [|discriminate].
    destruct (Np.interp (sa_mid depth) depths vals) as [prof|];
      [|discriminate].
    cbn [bind]. apply broadcast_to_row_length.
Qed.

Lemma chunk_concat (ps : list (list Q)) (n i : nat) (p : list Q) :
  (forall q, In q ps -> List.length q = n) ->
  nth_error ps i = Some p ->
  Nd.chunk n i (List.concat ps) = p.
Proof.
  revert i. induction ps as [|q ps IH]; intros i Hlen Hi.
  - destruct i; discriminate.
  - cbn [List.concat]. unfold Nd.chunk in *. destruct i as [|i].
    + injection Hi as <-. cbn [Nat.mul skipn].
      rewrite <- (Hlen q) by now left. apply firstn_app_exact.
    + cbn [nth_error] in Hi.
      replace (S i * n)%nat with (List.length q + i * n)%nat
        by (rewrite (Hlen q) by (now left); lia).
      rewrite skipn_app, skipn_all2 by lia.
      replace (List.length q + i * n - List.length q)%nat
        with (i * n)%nat by lia.
      cbn [app]. apply IH; [|exact Hi].
      intros q' Hq'. apply Hlen. now right.
Qed.

(** X11.  From ["gen_init_iterate"] a tracer without a profile of its own that
    shadows a tracer with one starts from that tracer's values: the two
    rows of the returned array are equal. *)
Theorem gen_init_iterate_shadow_row
    (tracers : Nc.dict tracer_metadata) (depth : SpatialAxis)
    (fs : Nc.filesystem) (tracer_module_name : string)
    (i j : nat) (t s : string) (md_t md_s : tracer_metadata)
    (vals : Nd.ndarray) (dims : Nc.dict nat) :
  NoDup (Nc.keys tracers) ->
  nth_error tracers i = Some (t, md_t) ->
  nth_error tracers j = Some (s, md_s) ->
  tm_init_iterate_vals md_t = None ->
  tm_shadows md_t = Some s ->
  tm_init_iterate_vals md_s <> None ->
  TestProblem._read_vals tracers depth fs tracer_module_name "gen_init_iterate"
  = OK (vals, dims) ->
  exists row, Nd.index0 vals i = OK row /\ Nd.index0 vals j = OK row.
Proof.
  intros Hnd Hi Hj Ht Hsh Hs. unfold TestProblem._read_vals.
  cbn [String.eqb Ascii.eqb Bool.eqb].
  destruct (SpatialAxis_len depth) as [n|]; [|discriminate]. cbn [bind].
  destruct (mapM (TestProblem.gen_init_iterate_profile tracers depth n) tracers)
    as [ps|] eqn:E; [|discriminate].
  cbn [bind]. intros H. injection H as <- <-.
  destruct (mapM_nth _ _ _ E) as [L N].
  destruct (N i _ Hi) as [pi [Pi Fi]]. destruct (N j _ Hj) as [pj [Pj Fj]].
  assert (G : Nc.get tracers s = Some md_s)
    by (apply get_in_nodup; [exact Hnd | eapply nth_error_In; exact Hj]).
  assert (Eq : pi = pj).
  { unfold TestProblem.gen_init_iterate_profile in Fi, Fj.
    cbn [fst snd] in Fi, Fj. rewrite Ht, Hsh, G in Fi.
    destruct (tm_init_iterate_vals md_s) as [v|]; [|congruence].
    destruct (tm_init_iterate_val_depths md_s) as [dp|]; [|discriminate].
    congruence. }
  subst pj.
  assert (Hlen : forall q, In q ps -> List.length q = n).
  { intros q Hq. apply In_nth_error in Hq. destruct Hq as [k Hk].
    assert (Hk' : (k < List.length tracers)%nat)
      by (rewrite <- L; apply nth_error_Some; congruence).
    destruct (nth_error tracers k) as [x|] eqn:Ex;
      [|apply nth_error_None in Ex; lia].
    destruct (N k x Ex) as [y [Hy Fy]].
    assert (y = q) by congruence. subst y.
    eapply gen_init_iterate_profile_length; exact Fy. }
  assert (Bi : (i < List.length tracers)%nat)
    by (apply nth_error_Some; congruence).
  assert (Bj : (j < List.length tracers)%nat)
    by (apply nth_error_Some; congruence).
  exists {| Nd.shape := [n]; Nd.data := pi |}.
  unfold Nd.index0. cbn [Nd.shape Nd.data Nd.size fold_right].
  rewrite Nat.mul_1_r.
  apply Nat.ltb_lt in Bi, Bj. rewrite Bi, Bj.
  now rewrite (chunk_concat ps n i pi Hlen Pi), (chunk_concat ps n j pi Hlen Pj).
Qed.

Lemma gen_init_iterate_shadow_row_witness :
  exists row,
    Nd.index0 vals_profile_shadow 1 = OK row /\
    Nd.index0 vals_profile_shadow 0 = OK row.
Proof.
  apply (gen_init_iterate_shadow_row tracers_profile_shadow axis_10_20
           (fun _ => None) "phosphorus" 1 0 "po4_s" "po4"
           {| tm_attrs := []; tm_init_iterate_vals := None;
              tm_init_iterate_val_depths := None; tm_shadows := Some "po4" |}
           {| tm_attrs := []; tm_init_iterate_vals := Some [1; 4];
              tm_init_iterate_val_depths := Some [0; 30]; tm_shadows := None |}
           vals_profile_shadow [("depth", 2%nat)]);
    try reflexivity.
  - repeat constructor; cbn; intuition discriminate.
  - discriminate.
Defined.

Lemma length_concat_const (ps : list (list Q)) (n : nat) :
  (forall q, In q ps -> List.length q = n) ->
  List.length (List.concat ps) = (List.length ps * n)%nat.
Proof.
  induction ps as [|p ps IH]; intros H; [reflexivity|].
  cbn [List.concat List.length]. rewrite length_app, H, IH; [lia | | now left].
  intros q Hq. apply H. now right.
Qed.

(** X12.  The two generated sources, ["zeros"] and ["gen_init_iterate"], open
    no file: whatever the files are, a returned array has one row per
    tracer and one column per layer, holds that many values, and comes
    with the single dimension ["depth"].  ["zeros"] returns for every
    axis that has a length, with zeros only. *)
Theorem read_vals_generated_sources
    (tracers : Nc.dict tracer_metadata) (depth : SpatialAxis)
    (fs : Nc.filesystem) (tracer_module_name fname : string) :
  fname = "zeros" \/ fname = "gen_init_iterate" ->
  (forall vals dims,
     TestProblem._read_vals tracers depth fs tracer_module_name fname
     = OK (vals, dims) ->
     exists n,
       SpatialAxis_len depth = OK n /\
       Nd.shape vals = [List.length tracers; n] /\
       Nd.well_formed vals /\
       dims = [("depth", n)] /\
       forall fs',
         TestProblem._read_vals tracers depth fs' tracer_module_name fname
         = OK (vals, dims))
  /\ (forall n,
        fname = "zeros" -> SpatialAxis_len depth = OK n ->
        exists vals,
          TestProblem._read_vals tracers depth fs tracer_module_name fname
          = OK (vals, [("depth", n)]) /\
          all_zero (Nd.data vals)).
Proof.
  intros Hf. split.
  - intros vals dims. unfold TestProblem._read_vals.
    destruct Hf as [-> | ->]; cbn [String.eqb Ascii.eqb Bool.eqb].
    + destruct (SpatialAxis_len depth) as [n|]; [|discriminate]. cbn [bind].
      intros H. injection H as <- <-. exists n.
      split; [reflexivity|]. split; [reflexivity|]. split.
      { unfold Nd.well_formed. cbn [Nd.shape Nd.data Nd.size fold_right].
        rewrite repeat_length. lia. }
      split; reflexivity.
    + destruct (SpatialAxis_len depth) as [n|]; [|discriminate]. cbn [bind].
      destruct (mapM (TestProblem.gen_init_iterate_profile tracers depth n)
                  tracers) as [ps|] eqn:E; [|discriminate].
      cbn [bind]. intros H. injection H as <- <-. exists n.
      split; [reflexivity|]. split; [reflexivity|]. split.
      { unfold Nd.well_formed. cbn [Nd.shape Nd.data Nd.size fold_right].
        destruct (mapM_nth _ _ _ E) as [L N].
        rewrite (length_concat_const ps n), L; [lia|].
        intros q Hq. apply In_nth_error in Hq. destruct Hq as [k Hk].
        assert (Hk' : (k < List.length tracers)%nat)
          by (rewrite <- L; apply nth_error_Some; congruence).
        destruct (nth_error tracers k) as [x|] eqn:Ex;
          [|apply nth_error_None in Ex; lia].
        destruct (N k x Ex) as [y [Hy Fy]].
        assert (y = q) by congruence. subst y.
        eapply gen_init_iterate_profile_length; exact Fy. }
      split; reflexivity.
  - intros n -> Hn. unfold TestProblem._read_vals.
    cbn [String.eqb Ascii.eqb Bool.eqb]. rewrite Hn. cbn [bind].
    eexists. split; [reflexivity|]. cbn [Nd.data].
    unfold all_zero. apply Forall_forall. intros x Hx.
    apply repeat_spec in Hx. now subst x.
Qed.

Lemma read_vals_generated_sources_witness :
  let vals := {| Nd.shape := [2%nat; 2%nat]; Nd.data := [0; 0; 0; 0] |} in
  (exists n,
     SpatialAxis_len axis_10_20 = OK n /\
     Nd.shape vals = [List.length tracers_ab; n] /\
     Nd.well_formed vals /\
     [("depth", 2%nat)] = [("depth", n)] /\
     forall fs',
       TestProblem._read_vals tracers_ab axis_10_20 fs' "iage" "zeros"
       = OK (vals, [("depth", 2%nat)]))
  /\ (exists vals',
        TestProblem._read_vals tracers_ab axis_10_20 (fun _ => None)
          "iage" "zeros"
        = OK (vals', [("depth", 2%nat)]) /\
        all_zero (Nd.data vals')).
Proof.
  intros vals.
  pose proof (read_vals_generated_sources tracers_ab axis_10_20
                (fun _ => None) "iage" "zeros" (or_introl eq_refl)) as T.
  split.
  - apply (proj1 T vals [("depth", 2%nat)] eq_refl).
  - apply (proj2 T 2%nat eq_refl eq_refl).
Defined.

(** ** [spatial_axis_defn_dict] with keyword arguments *)

Lemma get_set_same {V} (d : Nc.dict V) (k : string) (v : V) :
  Nc.get (Nc.set d k v) k = Some v.
Proof.
  induction d as [|[k0 w] d IH]; cbn.
  - now rewrite String.eqb_refl.
  - destruct (String.eqb k0 k) eqn:E; cbn; now rewrite E.
Qed.

Lemma get_set_other {V} (d : Nc.dict V) (k k' : string) (v : V) :
  k <> k' -> Nc.get (Nc.set d k v) k' = Nc.get d k'.
Proof.
  intros Hk. induction d as [|[k0 w] d IH]; cbn.
  - apply String.eqb_neq in Hk. now rewrite Hk.
  - destruct (String.eqb_spec k0 k) as [->|E]; cbn.
    + apply String.eqb_neq in Hk. now rewrite Hk.
    + now rewrite IH.
Qed.

Lemma keys_set_present {V} (d : Nc.dict V) (k : string) (v : V) :
  Nc.mem d k = true -> Nc.keys (Nc.set d k v) = Nc.keys d.
Proof.
  unfold Nc.mem. induction d as [|[k0 w] d IH]; cbn; [discriminate|].
  destruct (String.eqb_spec k0 k) as [->|E]; cbn; [reflexivity|].
  intros H. f_equal. now apply IH.
Qed.

Lemma mem_keys {V} (d : Nc.dict V) (k : string) :
  Nc.mem d k = existsb (String.eqb k) (Nc.keys d).
Proof.
  unfold Nc.mem. induction d as [|[k0 w] d IH]; cbn; [reflexivity|].
  rewrite (String.eqb_sym k k0). destruct (String.eqb k0 k); cbn;
    [reflexivity | exact IH].
Qed.

Lemma populate_keys (trap : bool) (kwargs : list (string * pyval))
    (d d' : Nc.dict pyval) :
  populate trap kwargs d = OK d' -> Nc.keys d' = Nc.keys d.
Proof.
  revert d. induction kwargs as [|[k v] kw IH]; intros d; cbn [populate].
  - intros H. now injection H as <-.
  - destruct (Nc.mem d k) eqn:M.
    + intros H. apply IH in H. now rewrite H, keys_set_present.
    + destruct trap; [discriminate | apply IH].
Qed.

Lemma populate_known (trap : bool) (kwargs : list (string * pyval))
    (d : Nc.dict pyval) :
  Nc.keys d = defn_dict_keys ->
  populate false kwargs d = populate trap (known_kwargs kwargs) d.
Proof.
  revert d. induction kwargs as [|[k v] kw IH]; intros d Hd; [reflexivity|].
  cbn [populate known_kwargs filter fst]. fold (known_kwargs kw).
  rewrite <- Hd, <- mem_keys. destruct (Nc.mem d k) eqn:M.
  - cbn [populate]. rewrite M. apply IH. now rewrite keys_set_present.
  - now apply IH.
Qed.

Lemma populate_trapped (kwargs : list (string * pyval)) (d : Nc.dict pyval) :
  Nc.keys d = defn_dict_keys ->
  known_kwargs kwargs <> kwargs ->
  exists k,
    In k (map fst kwargs) /\ ~ In k defn_dict_keys /\
    populate true kwargs d = Raise (ValueError (Msg ("unknown key " +++ k))).
Proof.
  revert d. induction kwargs as [|[k v] kw IH]; intros d Hd Hne;
    [now contradiction Hne|].
  cbn [populate]. destruct (Nc.mem d k) eqn:M.
  - destruct (IH (Nc.set d k v)) as [k' [I [N E]]].
    + now rewrite keys_set_present.
    + intros E. apply Hne. cbn [known_kwargs filter fst].
      fold (known_kwargs kw). rewrite E.
      rewrite <- Hd, <- mem_keys, M. reflexivity.
    + exists k'. split; [now right|]. split; assumption.
  - exists k. split; [now left|]. split; [|reflexivity].
    intros I. rewrite mem_keys, Hd in M.
    assert (T : existsb (String.eqb k) defn_dict_keys = true)
      by (apply existsb_exists; exists k; split;
          [exact I | apply String.eqb_refl]).
    congruence.
Qed.

Lemma keys_defaults (a : pyval) : Nc.keys (defn_dict_defaults a) = defn_dict_keys.
Proof. unfold defn_dict_defaults. destruct (is_depth a); reflexivity. Qed.

(** X13.  Keyword arguments under keys the dict does not have: with
    [trap_unknown] false they are skipped, so the call behaves as the one
    without them; with [trap_unknown] true the call raises the
    [ValueError] naming such a key. *)
Theorem defn_dict_kw_unknown_keys
    (axisname : pyval) (kwargs : list (string * pyval)) :
  kwargs_ok kwargs ->
  spatial_axis_defn_dict_kw axisname false kwargs
  = spatial_axis_defn_dict_kw axisname true (known_kwargs kwargs)
  /\ (known_kwargs kwargs <> kwargs ->
      exists k,
        In k (map fst kwargs) /\ ~ In k defn_dict_keys /\
        spatial_axis_defn_dict_kw axisname true kwargs
        = Raise (ValueError (Msg ("unknown key " +++ k)))).
Proof.
  intros _. split.
  - unfold spatial_axis_defn_dict_kw.
    now rewrite (populate_known true kwargs _ (keys_defaults axisname)).
  - intros Hne.
    destruct (populate_trapped kwargs _ (keys_defaults axisname) Hne)
      as [k [I [N E]]].
    exists k. split; [exact I|]. split; [exact N|].
    unfold spatial_axis_defn_dict_kw. now rewrite E.
Qed.

Lemma defn_dict_kw_unknown_keys_witness :
  exists k,
    In k (map fst [("nlevs", PyInt 4); ("colour", PyStr "red")]) /\
    ~ In k defn_dict_keys /\
    spatial_axis_defn_dict_kw (PyStr "depth") true
      [("nlevs", PyInt 4); ("colour", PyStr "red")]
    = Raise (ValueError (Msg ("unknown key " +++ k))).
Proof.
  apply (defn_dict_kw_unknown_keys (PyStr "depth")
           [("nlevs", PyInt 4); ("colour", PyStr "red")]).
  - repeat split; [repeat constructor | |]; cbn; intuition discriminate.
  - discriminate.
Defined.

(** Without keyword arguments the function is the one
    [SpatialAxis.__init__] calls: the same definition, value by value,
    and the same [ValueError]. *)
Theorem defn_dict_kw_no_keywords (name : option string) (trap_unknown : bool) :
  spatial_axis_defn_dict_kw (pyval_of_name name) trap_unknown []
  = match spatial_axis_defn_dict name with
    | OK d => OK (values_of_defn d)
    | Raise e => Raise e
    end.
Proof.
  destruct name as [n|]; [|reflexivity].
  unfold spatial_axis_defn_dict_kw, spatial_axis_defn_dict, defn_dict_defaults.
  cbn [pyval_of_name is_depth populate bind].
  destruct (String.eqb_spec n "depth") as [->|E]; reflexivity.
Qed.

Lemma get_not_in {V} (d : Nc.dict V) (k : string) :
  ~ In k (Nc.keys d) -> Nc.get d k = None.
Proof.
  induction d as [|[k0 w] d IH]; cbn; [reflexivity|].
  intros H. destruct (String.eqb_spec k0 k) as [->|E]; [tauto|].
  apply IH. tauto.
Qed.

Lemma get_in {V} (d : Nc.dict V) (k : string) (v : V) :
  Nc.get d k = Some v -> In (k, v) d.
Proof.
  induction d as [|[k0 w] d IH]; cbn; [discriminate|].
  destruct (String.eqb_spec k0 k) as [->|E].
  - intros H. injection H as ->. now left.
  - intros H. right. now apply IH.
Qed.

Lemma mem_in_keys {V} (d : Nc.dict V) (k : string) :
  In k (Nc.keys d) -> Nc.mem d k = true.
Proof.
  intros H. rewrite mem_keys. apply existsb_exists. exists k.
  split; [exact H | apply String.eqb_refl].
Qed.

Lemma populate_get (trap : bool) (kwargs : list (string * pyval))
    (d0 d : Nc.dict pyval) :
  NoDup (map fst kwargs) ->
  populate trap kwargs d0 = OK d ->
  forall k, Nc.mem d0 k = true ->
    Nc.get d k = match Nc.get kwargs k with
                 | Some u => Some u
                 | None => Nc.get d0 k
                 end.
Proof.
  revert d0. induction kwargs as [|[k0 v0] kw IH]; intros d0 Hnd H k Hk.
  - cbn in H. now injection H as <-.
  - cbn [map fst] in Hnd. apply NoDup_cons_iff in Hnd. destruct Hnd as [Hn Hnd].
    cbn [populate] in H. cbn [Nc.get].
    destruct (Nc.mem d0 k0) eqn:M.
    + rewrite (IH _ Hnd H k) by (now rewrite get_set).
      destruct (String.eqb_spec k0 k) as [->|E].
      * rewrite (get_not_in kw k Hn). apply get_set_same.
      * now rewrite get_set_other.
    + assert (E : k0 <> k) by (intros ->; congruence).
      apply String.eqb_neq in E. rewrite E.
      destruct trap; [discriminate|]. now apply IH.
Qed.

Lemma ensure_set_values (items : Nc.dict pyval) (k : string) (v : pyval) :
  ensure_set items = OK tt -> In (k, v) items -> v <> PyNone.
Proof.
  induction items as [|[k0 v0] items IH]; cbn [ensure_set]; [contradiction|].
  destruct (is_none v0) eqn:N; [discriminate|].
  intros H [E|I]; [|now apply IH].
  injection E as _ <-. intros ->. discriminate.
Qed.

(** X14.  A returned dict has the six keys in their order and no value left
    at [None]; under each key it holds the keyword argument of that name
    when one was passed, and the default for the axis name otherwise. *)
Theorem defn_dict_kw_values
    (axisname : pyval) (trap_unknown : bool)
    (kwargs : list (string * pyval)) (d : Nc.dict pyval) :
  kwargs_ok kwargs ->
  spatial_axis_defn_dict_kw axisname trap_unknown kwargs = OK d ->
  Nc.keys d = defn_dict_keys /\
  forall k, In k defn_dict_keys ->
    exists v,
      Nc.get d k = Some v /\ v <> PyNone /\
      match Nc.get kwargs k with
      | Some u => v = u
      | None => Nc.get (defn_dict_defaults axisname) k = Some v
      end.
Proof.
  intros [Hnd _]. unfold spatial_axis_defn_dict_kw.
  destruct (populate trap_unknown kwargs (defn_dict_defaults axisname))
    as [d'|] eqn:P; [|discriminate].
  cbn [bind]. destruct (ensure_set d') as [[]|] eqn:S; [|discriminate].
  cbn [bind]. intros H. injection H as <-.
  assert (K : Nc.keys d' = defn_dict_keys)
    by (now rewrite (populate_keys _ _ _ _ P), keys_defaults).
  split; [exact K|]. intros k Hk.
  assert (M0 : Nc.mem (defn_dict_defaults axisname) k = true)
    by (apply mem_in_keys; now rewrite keys_defaults).
  assert (G := populate_get _ _ _ _ Hnd P k M0).
  assert (M : Nc.mem d' k = true) by (apply mem_in_keys; now rewrite K).
  unfold Nc.mem in M. destruct (Nc.get d' k) as [v|] eqn:Gv; [|discriminate].
  exists v. split; [reflexivity|]. split.
  - apply (ensure_set_values d' k v S). now apply get_in.
  - destruct (Nc.get kwargs k) as [u|]; [congruence | now symmetry].
Qed.

Lemma defn_dict_kw_values_witness :
  let d := [("axisname", PyStr "depth"); ("units", PyStr "m");
            ("nlevs", PyInt 4); ("edge_start", PyFloat 0);
            ("edge_end", PyFloat 900); ("delta_ratio_max", PyFloat 5)] in
  Nc.keys d = defn_dict_keys /\
  forall k, In k defn_dict_keys ->
    exists v,
      Nc.get d k = Some v /\ v <> PyNone /\
      match Nc.get [("nlevs", PyInt 4)] k with
      | Some u => v = u
      | None => Nc.get (defn_dict_defaults (PyStr "depth")) k = Some v
      end.
Proof.
  intros d.
  apply (defn_dict_kw_values (PyStr "depth") true [("nlevs", PyInt 4)] d).
  - repeat split; [repeat constructor | |]; cbn; intuition discriminate.
  - reflexivity.
Defined.

(** ** [SpatialAxis.dump] and loading the file again *)

Lemma length_append (s t : string) :
  String.length (s +++ t) = (String.length s + String.length t)%nat.
Proof. induction s as [|c s IH]; cbn; [reflexivity | now rewrite IH]. Qed.

Lemma append_inj_l (s t u : string) : s +++ t = s +++ u -> t = u.
Proof.
  induction s as [|c s IH]; cbn; [auto|].
  intros H. injection H as H. auto.
Qed.

Lemma append_neq_self (s t : string) : t <> EmptyString -> s +++ t <> s.
Proof.
  intros Ht H. apply (f_equal String.length) in H.
  rewrite length_append in H. destruct t; [congruence | cbn in H; lia].
Qed.

Lemma create_dimensions_verify_new (dims : Nc.dict nat) (fptr : Nc.dataset) :
  NoDup (Nc.keys dims) ->
  (forall k, In k (Nc.keys dims) -> Nc.get (Nc.ds_dimensions fptr) k = None) ->
  Utils.create_dimensions_verify dims fptr
  = (OK tt,
     {| Nc.ds_attrs := Nc.ds_attrs fptr;
        Nc.ds_dimensions := Nc.ds_dimensions fptr ++ dims;
        Nc.ds_variables := Nc.ds_variables fptr |}).
Proof.
  unfold Utils.create_dimensions_verify.
  revert fptr. induction dims as [|[k l] dims IH]; intros fptr Hnd Hnew.
  - cbn. rewrite app_nil_r. now destruct fptr.
  - cbn [Nc.keys map fst] in Hnd. apply NoDup_cons_iff in Hnd.
    destruct Hnd as [Hk Hnd].
    cbn [Nc.for_each fst snd]. unfold Nc.bind_io at 1.
    unfold Utils.create_dimension_exist_okay, Nc.createDimension, Nc.mem.
    rewrite (Hnew k) by now left.
    rewrite IH; cbn [Nc.ds_attrs Nc.ds_dimensions Nc.ds_variables].
    + rewrite set_fresh by (apply Hnew; now left).
      now rewrite <- app_assoc.
    + exact Hnd.
    + intros k' Hk'. rewrite set_fresh by (apply Hnew; now left).
      rewrite get_app_fresh by (intros ->; contradiction).
      apply Hnew. now right.
Qed.

Lemma createVariable_new (name : string) (dims : list string)
    (attrs : Nc.dict string) (lens : list nat) (fptr : Nc.dataset) :
  Nc.get (Nc.ds_variables fptr) name = None ->
  Nc.dim_lens fptr dims = OK lens ->
  Nc.createVariable name dims attrs fptr
  = (OK tt,
     {| Nc.ds_attrs := Nc.ds_attrs fptr;
        Nc.ds_dimensions := Nc.ds_dimensions fptr;
        Nc.ds_variables :=
          Nc.ds_variables fptr
          ++ [(name,
               {| Nc.var_dimensions := dims;
                  Nc.var_attrs := attrs;
                  Nc.var_data :=
                    repeat Nc.default_fill (fold_right Nat.mul 1%nat lens) |})]
     |}).
Proof.
  intros Hnew Hl. unfold Nc.createVariable, Nc.mem.
  now rewrite Hnew, Hl, set_fresh.
Qed.

Lemma create_vars_new (vars : Nc.dict Utils.var_metadata) (fptr : Nc.dataset) :
  NoDup (Nc.keys vars) ->
  (forall k, In k (Nc.keys vars) -> Nc.get (Nc.ds_variables fptr) k = None) ->
  (forall k vm, In (k, vm) vars ->
     exists lens, Nc.dim_lens fptr (Utils.vm_dimensions vm) = OK lens) ->
  exists V,
    Utils.create_vars vars fptr
    = (OK tt,
       {| Nc.ds_attrs := Nc.ds_attrs fptr;
          Nc.ds_dimensions := Nc.ds_dimensions fptr;
          Nc.ds_variables := Nc.ds_variables fptr ++ V |}) /\
    Nc.keys V = Nc.keys vars /\
    forall k vm, In (k, vm) vars ->
      exists v, In (k, v) V /\
                Nc.var_dimensions v = Utils.vm_dimensions vm /\
                Nc.var_attrs v = Utils.vm_attrs vm.
Proof.
  unfold Utils.create_vars.
  revert fptr. induction vars as [|[k vm] vars IH]; intros fptr Hnd Hnew Hdims.
  - exists []. cbn. rewrite app_nil_r. split; [now destruct fptr|].
    split; [reflexivity | contradiction].
  - cbn [Nc.keys map fst] in Hnd. apply NoDup_cons_iff in Hnd.
    destruct Hnd as [Hk Hnd].
    destruct (Hdims k vm (or_introl eq_refl)) as [lens Hl].
    cbn [Nc.for_each fst snd]. unfold Nc.bind_io at 1.
    rewrite (createVariable_new _ _ _ lens) by (auto; apply Hnew; now left).
    set (v := {| Nc.var_dimensions := Utils.vm_dimensions vm;
                 Nc.var_attrs := Utils.vm_attrs vm;
                 Nc.var_data :=
                   repeat Nc.default_fill (fold_right Nat.mul 1%nat lens) |}).
    set (fptr' := {| Nc.ds_attrs := Nc.ds_attrs fptr;
                     Nc.ds_dimensions := Nc.ds_dimensions fptr;
                     Nc.ds_variables := Nc.ds_variables fptr ++ [(k, v)] |}).
    destruct (IH fptr' Hnd) as [V [E [K P]]].
    + intros k' Hk'. unfold fptr'. cbn [Nc.ds_variables].
      rewrite get_app_fresh by (intros ->; contradiction).
      apply Hnew. now right.
    + intros k' vm' Hin. apply (Hdims k' vm'). now right.
    + exists ((k, v) :: V). rewrite E. unfold fptr'.
      cbn [Nc.ds_attrs Nc.ds_dimensions Nc.ds_variables].
      rewrite <- app_assoc. split; [reflexivity|]. split.
      * cbn [Nc.keys map fst]. f_equal. exact K.
      * intros k' vm' [Eq|Hin].
        -- injection Eq as <- <-. exists v. split; [now left|].
           split; reflexivity.
        -- destruct (P k' vm' Hin) as [v' [I' R]]. exists v'.
           split; [now right | exact R].
Qed.

Lemma bind_io_ok {A B} (m : Nc.io A) (k : A -> Nc.io B) (a : A)
    (fptr fptr' : Nc.dataset) :
  m fptr = (OK a, fptr') -> Nc.bind_io m k fptr = k a fptr'.
Proof. intros H. unfold Nc.bind_io. now rewrite H. Qed.

Lemma get_store_other (fptr : Nc.dataset) (n m : string) (vals : list Q) :
  n <> m ->
  Nc.get (Nc.ds_variables (Nc.store fptr n vals)) m
  = Nc.get (Nc.ds_variables fptr) m.
Proof.
  intros H. unfold Nc.store.
  destruct (Nc.get (Nc.ds_variables fptr) n); [|reflexivity].
  cbn [Nc.ds_variables]. now apply get_set_other.
Qed.

Lemma get_store_same (fptr : Nc.dataset) (n : string) (v : Nc.variable)
    (vals : list Q) :
  Nc.get (Nc.ds_variables fptr) n = Some v ->
  Nc.get (Nc.ds_variables (Nc.store fptr n vals)) n
  = Some (Nc.with_data v vals).
Proof.
  intros H. unfold Nc.store. rewrite H. cbn [Nc.ds_variables].
  apply get_set_same.
Qed.

Lemma attrs_store (fptr : Nc.dataset) (n : string) (vals : list Q) :
  Nc.ds_attrs (Nc.store fptr n vals) = Nc.ds_attrs fptr.
Proof.
  unfold Nc.store. now destruct (Nc.get (Nc.ds_variables fptr) n).
Qed.

Lemma mem_of_get {V} (d : Nc.dict V) (k : string) (v : V) :
  Nc.get d k = Some v -> Nc.mem d k = true.
Proof. unfold Nc.mem. now intros ->. Qed.

Lemma assign_column_declared (name : string) (col : nat) (vals : list Q)
    (fptr : Nc.dataset) :
  Nc.mem (Nc.ds_variables fptr) name = true ->
  exists data, Nc.assign_column name col vals fptr
               = (OK tt, Nc.store fptr name data).
Proof.
  unfold Nc.mem, Nc.assign_column.
  destruct (Nc.get (Nc.ds_variables fptr) name); [|discriminate].
  intros _. eexists. reflexivity.
Qed.

(** [dump_write] on a handle where the four variables of the axis are
    defined: it returns, keeps the global attributes, and leaves the
    edges in the edges variable. *)
Lemma dump_write_edges (self : SpatialAxis) (fptr : Nc.dataset)
    (v : Nc.variable) :
  Nc.mem (Nc.ds_variables fptr) (sa_axisname self) = true ->
  Nc.mem (Nc.ds_variables fptr) (dump_name_bounds self) = true ->
  Nc.get (Nc.ds_variables fptr) (dump_name_edges self) = Some v ->
  Nc.mem (Nc.ds_variables fptr) (dump_name_delta self) = true ->
  exists fptr',
    dump_write self fptr = (OK tt, fptr') /\
    Nc.ds_attrs fptr' = Nc.ds_attrs fptr /\
    Nc.get (Nc.ds_variables fptr') (dump_name_edges self)
    = Some (Nc.with_data v (sa_edges self)).
Proof.
  intros Mn Mb Ge Md.
  assert (Me := mem_of_get _ _ _ Ge).
  assert (Nne : sa_axisname self <> dump_name_edges self)
    by (intros H; symmetry in H; revert H; now apply append_neq_self).
  assert (Nbe : dump_name_bounds self <> dump_name_edges self)
    by (intros H; apply append_inj_l in H; discriminate).
  assert (Nde : dump_name_delta self <> dump_name_edges self)
    by (intros H; apply append_inj_l in H; discriminate).
  unfold dump_write.
  rewrite assign_declared by exact Mn.
  set (f1 := Nc.store fptr (sa_axisname self) (sa_mid self)).
  destruct (assign_column_declared (dump_name_bounds self) 0
              (Np.drop_last (sa_edges self)) f1) as [d0 E0];
    [unfold f1; now rewrite mem_store|].
  rewrite (bind_io_ok _ _ _ _ _ E0).
  set (f2 := Nc.store f1 (dump_name_bounds self) d0).
  destruct (assign_column_declared (dump_name_bounds self) 1
              (Np.drop_first (sa_edges self)) f2) as [d1 E1];
    [unfold f2, f1; now rewrite !mem_store|].
  rewrite (bind_io_ok _ _ _ _ _ E1).
  set (f3 := Nc.store f2 (dump_name_bounds self) d1).
  rewrite assign_declared by (unfold f3, f2, f1; now rewrite !mem_store).
  set (f4 := Nc.store f3 (dump_name_edges self) (sa_edges self)).
  rewrite assign_declared_last
    by (unfold f4, f3, f2, f1; now rewrite !mem_store).
  eexists. split; [reflexivity|]. split.
  - unfold f4, f3, f2, f1. now rewrite !attrs_store.
  - rewrite get_store_other by exact Nde.
    unfold f4. apply get_store_same.
    unfold f3, f2, f1. now rewrite !get_store_other by assumption.
Qed.

Lemma dump_dimensions_distinct (self : SpatialAxis) (n : nat) :
  SpatialAxis_len self = OK n -> sa_axisname self <> "nbnds" ->
  dump_dimensions self
  = OK [(sa_axisname self, n); ("nbnds", 2%nat);
        (dump_name_edges self, (n + 1)%nat)].
Proof.
  intros Hn Hname. unfold dump_dimensions. rewrite Hn. cbn [bind].
  assert (E1 : String.eqb (sa_axisname self) "nbnds" = false)
    by now apply String.eqb_neq.
  assert (E2 : String.eqb (sa_axisname self) (dump_name_edges self) = false).
  { apply String.eqb_neq. intros H. symmetry in H. revert H.
    now apply append_neq_self. }
  assert (E3 : String.eqb "nbnds" (dump_name_edges self) = false).
  { apply String.eqb_neq. intros H. apply (f_equal String.length) in H.
    unfold dump_name_edges in H. rewrite length_append in H. cbn in H. lia. }
  cbn [Nc.set]. rewrite E1. cbn [Nc.set]. rewrite E2, E3. reflexivity.
Qed.

Lemma dump_vars_metadata_distinct (self : SpatialAxis) :
  let name := sa_axisname self in
  dump_vars_metadata self
  = [(name,
      {| Utils.vm_dimensions := [name];
         Utils.vm_attrs := [("long_name", name +++ " layer midpoints");
                            ("units", sa_units self);
                            ("bounds", dump_name_bounds self)] |});
     (dump_name_bounds self,
      {| Utils.vm_dimensions := [name; "nbnds"];
         Utils.vm_attrs := [("long_name", name +++ " layer bounds")] |});
     (dump_name_edges self,
      {| Utils.vm_dimensions := [dump_name_edges self];
         Utils.vm_attrs := [("long_name", name +++ " layer edges");
                            ("units", sa_units self)] |});
     (dump_name_delta self,
      {| Utils.vm_dimensions := [name];
         Utils.vm_attrs := [("long_name", name +++ " layer thickness");
                            ("units", sa_units self)] |})].
Proof.
  intros name. unfold dump_vars_metadata. fold name.
  assert (S : forall sfx, sfx <> EmptyString ->
                String.eqb name (name +++ sfx) = false).
  { intros sfx Hs. apply String.eqb_neq. intros H. symmetry in H. revert H.
    now apply append_neq_self. }
  assert (D : forall s t, s <> t -> String.eqb (name +++ s) (name +++ t) = false).
  { intros s t Hst. apply String.eqb_neq. intros H. apply append_inj_l in H.
    contradiction. }
  unfold dump_name_bounds, dump_name_edges, dump_name_delta. fold name.
  repeat (cbn [Nc.set]; rewrite ?S, ?D by discriminate).
  reflexivity.
Qed.

(** X15.  An axis with at least one layer, under any name but ["nbnds"], that
    is dumped to a file and loaded from it by its name is the axis that
    was dumped, field by field; the other files stay as they were. *)
Theorem spatial_axis_dump_load
    (str_of_float : Q -> string)
    (datestamp generator caller fname : string) (fs : Nc.filesystem)
    (name unit_s : string) (e : list Q) (ddv : option string) :
  (2 <= List.length e)%nat -> name <> "nbnds" ->
  exists fs',
    SpatialAxis_dump datestamp generator (derive name unit_s e ddv)
      fname caller fs = (OK tt, fs') /\
    (forall f, f <> fname -> fs' f = fs f) /\
    SpatialAxis_init str_of_float fs' (Some name) (Some fname) None
    = OK (derive name unit_s e ddv).
Proof.
  intros He Hname.
  set (self := derive name unit_s e ddv).
  assert (Hlen : SpatialAxis_len self = OK (List.length e - 1)%nat)
    by (apply derive_len_nonempty; intros ->; cbn in He; lia).
  set (n := (List.length e - 1)%nat) in *.
  set (msg := ((datestamp +++ ": generated by ") +++ generator +++ ".dump")
              +++ " called from " +++ caller).
  set (A := match ddv with
            | Some v => [("history", msg); ("defn_dict_values", v)]
            | None => [("history", msg)]
            end).
  set (dims := [(name, n); ("nbnds", 2%nat); (dump_name_edges self, (n + 1)%nat)]).
  assert (Ddims : dump_dimensions self = OK dims)
    by (apply dump_dimensions_distinct; assumption).
  assert (Sdims : exists fptr,
            SpatialAxis_dump_body datestamp generator self caller new_dataset
            = dump_write self fptr /\
            Nc.ds_attrs fptr = A /\
            (exists v, Nc.get (Nc.ds_variables fptr) (dump_name_edges self)
                       = Some v /\
                       Nc.var_attr v "units" = OK unit_s) /\
            Nc.mem (Nc.ds_variables fptr) name = true /\
            Nc.mem (Nc.ds_variables fptr) (dump_name_bounds self) = true /\
            Nc.mem (Nc.ds_variables fptr) (dump_name_delta self) = true).
  { set (ds1 := {| Nc.ds_attrs := A; Nc.ds_dimensions := [];
                   Nc.ds_variables := [] |}).
    set (ds2 := {| Nc.ds_attrs := A; Nc.ds_dimensions := dims;
                   Nc.ds_variables := [] |}).
    assert (Hnd : NoDup (Nc.keys (dump_vars_metadata self))).
    { rewrite dump_vars_metadata_distinct. cbn [Nc.keys map fst].
      assert (S : forall sfx, sfx <> EmptyString ->
                    sa_axisname self <> sa_axisname self +++ sfx).
      { intros sfx Hs H. symmetry in H. revert H. now apply append_neq_self. }
      assert (D : forall s t, s <> t ->
                    sa_axisname self +++ s <> sa_axisname self +++ t).
      { intros s t Hst H. apply append_inj_l in H. contradiction. }
      unfold dump_name_bounds, dump_name_edges, dump_name_delta.
      assert (N1 := S "_bounds" ltac:(discriminate)).
      assert (N2 := S "_edges" ltac:(discriminate)).
      assert (N3 := S "_delta" ltac:(discriminate)).
      assert (N4 := D "_bounds" "_edges" ltac:(discriminate)).
      assert (N5 := D "_bounds" "_delta" ltac:(discriminate)).
      assert (N6 := D "_edges" "_delta" ltac:(discriminate)).
      repeat constructor; cbn [In]; intuition congruence. }
    destruct (create_vars_new (dump_vars_metadata self) ds2 Hnd)
      as [V [EV [KV PV]]].
    { intros k _. reflexivity. }
    { rewrite dump_vars_metadata_distinct. cbn [In].
      assert (E1 : String.eqb name "nbnds" = false)
        by now apply String.eqb_neq.
      assert (E2 : String.eqb name (dump_name_edges self) = false).
      { apply String.eqb_neq. intros H. symmetry in H. revert H.
        now apply (append_neq_self name). }
      assert (E3 : String.eqb "nbnds" (dump_name_edges self) = false).
      { apply String.eqb_neq. intros H. apply (f_equal String.length) in H.
        unfold dump_name_edges in H. rewrite length_append in H. cbn in H.
        lia. }
      intros k vm H.
      repeat (destruct H as [H|H]; [injection H as <- <-|]);
        try contradiction;
        eexists; unfold Nc.dim_lens, Nc.dim_len, ds2, dims;
        cbn [Utils.vm_dimensions mapM Nc.ds_dimensions Nc.get sa_axisname
             self derive];
        rewrite ?String.eqb_refl, ?E1, ?E2, ?E3; cbn; reflexivity. }
    exists {| Nc.ds_attrs := A; Nc.ds_dimensions := dims;
              Nc.ds_variables := V |}.
    split.
    { unfold SpatialAxis_dump_body. cbv zeta.
      erewrite bind_io_ok by reflexivity.
      erewrite (bind_io_ok _ _ tt _ ds1)
        by (unfold self, derive, A, ds1; cbn [sa_defn_dict_values];
            destruct ddv; reflexivity).
      erewrite (bind_io_ok _ _ dims ds1 ds1)
        by (unfold Nc.reading; now rewrite Ddims).
      erewrite (bind_io_ok _ _ tt ds1 ds2).
      2:{ rewrite create_dimensions_verify_new; [reflexivity | |].
          - cbn [Nc.keys map fst dims].
            assert (N2 : name <> dump_name_edges self).
            { intros H. symmetry in H. revert H.
              now apply (append_neq_self name). }
            assert (N3 : "nbnds" <> dump_name_edges self).
            { intros H. apply (f_equal String.length) in H.
              unfold dump_name_edges in H. rewrite length_append in H.
              cbn in H. lia. }
            repeat constructor; cbn [In]; intuition congruence.
          - intros k _. reflexivity. }
      erewrite (bind_io_ok _ _ tt ds2) by exact EV.
      reflexivity. }
    cbn [Nc.ds_attrs Nc.ds_variables]. split; [reflexivity|].
    assert (KVnd : NoDup (Nc.keys V)) by now rewrite KV.
    assert (G : forall k vm, In (k, vm) (dump_vars_metadata self) ->
                exists v, Nc.get V k = Some v /\
                          Nc.var_attrs v = Utils.vm_attrs vm).
    { intros k vm H. destruct (PV k vm H) as [v [I [_ Ha]]].
      exists v. split; [now apply get_in_nodup | exact Ha]. }
    rewrite dump_vars_metadata_distinct in G. cbn [In] in G.
    split; [|split; [|split]].
    - destruct (G _ _ (or_intror (or_intror (or_introl eq_refl))))
        as [v [Gv Ha]].
      exists v. split; [exact Gv|].
      unfold Nc.var_attr. rewrite Ha. reflexivity.
    - destruct (G _ _ (or_introl eq_refl)) as [v [Gv _]].
      now apply mem_of_get in Gv.
    - destruct (G _ _ (or_intror (or_introl eq_refl))) as [v [Gv _]].
      now apply mem_of_get in Gv.
    - destruct (G _ _ (or_intror (or_intror (or_intror (or_introl eq_refl)))))
        as [v [Gv _]].
      now apply mem_of_get in Gv. }
  destruct Sdims as [fptr [Ebody [HA [[v [Gv Hu]] [Mn [Mb Md]]]]]].
  destruct (dump_write_edges self fptr v Mn Mb Gv Md) as [fptr' [Ew [Ha Ge]]].
  unfold SpatialAxis_dump. rewrite Ebody, Ew.
  cbn [fst snd]. eexists. split; [reflexivity|]. split.
  - intros f Hf. apply String.eqb_neq in Hf. now rewrite Hf.
  - unfold SpatialAxis_init, Nc.open_read. rewrite String.eqb_refl.
    cbn [bind]. unfold Nc.lookup_var.
    change (name ++ "_edges")%string with (dump_name_edges self).
    rewrite Ge. cbn [bind].
    unfold Nc.var_attr in *. cbn [Nc.with_data Nc.var_attrs Nc.var_data].
    destruct (Nc.get (Nc.var_attrs v) "units"); [|discriminate].
    injection Hu as ->. cbn [bind]. rewrite Ha, HA.
    change (sa_edges self) with e. unfold A, self.
    destruct ddv; reflexivity.
Qed.

Lemma spatial_axis_dump_load_witness :
  exists fs',
    SpatialAxis_dump "2020-01-01 00:00:00" "SpatialAxis" axis_10_20
      "depth_axis.nc" "gen_axis" (fun _ => None) = (OK tt, fs') /\
    (forall f, f <> "depth_axis.nc" -> fs' f = None) /\
    SpatialAxis_init no_float_str fs' (Some "depth") (Some "depth_axis.nc") None
    = OK axis_10_20.
Proof.
  apply (spatial_axis_dump_load no_float_str "2020-01-01 00:00:00"
           "SpatialAxis" "gen_axis" "depth_axis.nc" (fun _ => None)
           "depth" "m" [0; 10; 30] None);
    [cbn; lia | discriminate].
Defined.

(** ** The derived arrays of an axis *)

Lemma nth_drop_first (e : list Q) (i : nat) :
  nth i (Np.drop_first e) 0 = nth (S i) e 0.
Proof. destruct e; [now destruct i | reflexivity]. Qed.

Lemma nth_drop_last (e : list Q) (i : nat) :
  (S i < List.length e)%nat -> nth i (Np.drop_last e) 0 = nth i e 0.
Proof.
  intros H. unfold Np.drop_last. rewrite removelast_firstn_len, nth_firstn.
  destruct (Nat.ltb_spec i (Nat.pred (List.length e))); [reflexivity | lia].
Qed.

Lemma length_drop_first (e : list Q) :
  List.length (Np.drop_first e) = (List.length e - 1)%nat.
Proof. destruct e; cbn; lia. Qed.

Lemma length_drop_last (e : list Q) :
  List.length (Np.drop_last e) = (List.length e - 1)%nat.
Proof.
  unfold Np.drop_last. rewrite removelast_firstn_len, length_firstn. lia.
Qed.

Lemma nth_map_default (f : Q -> Q) (l : list Q) (i : nat) :
  (i < List.length l)%nat -> nth i (map f l) 0 = f (nth i l 0).
Proof.
  intros H. rewrite (nth_indep _ 0 (f 0)) by now rewrite length_map.
  apply map_nth.
Qed.

(** X16.  In exact arithmetic, for an axis built from any edges: the
    thickness of layer [i] is the distance of its two edges, its
    midpoint lies half a thickness after its upper edge, and the distance
    between the midpoints of layers [i] and [i+1] is the mean of their
    thicknesses.  (Rounded, the last can differ in the last bit:
    [Rounding.derive_midpoints_rounded].) *)
Theorem derive_midpoints
    (name unit_s : string) (e : list Q) (ddv : option string) (i : nat) :
  let ax := derive name unit_s e ddv in
  (S i < List.length e)%nat ->
  nth i (sa_delta ax) 0 == nth (S i) e 0 - nth i e 0 /\
  nth i (sa_mid ax) 0 == nth i e 0 + (1 # 2) * nth i (sa_delta ax) 0 /\
  ((S (S i) < List.length e)%nat ->
   nth i (sa_delta_mid ax) 0
   == (1 # 2) * (nth i (sa_delta ax) 0 + nth (S i) (sa_delta ax) 0)).
Proof.
  intros ax Hi.
  assert (Ld : forall j, (S j < List.length e)%nat ->
            nth j (sa_delta ax) 0 = nth (S j) e 0 - nth j e 0).
  { intros j Hj. unfold ax, derive. cbn [sa_delta].
    rewrite nth_zip_with, nth_drop_first, nth_drop_last;
      rewrite ?length_drop_first, ?length_drop_last; (reflexivity || lia). }
  assert (Lm : forall j, (S j < List.length e)%nat ->
            nth j (sa_mid ax) 0 = (1 # 2) * (nth j e 0 + nth (S j) e 0)).
  { intros j Hj. unfold ax, derive. cbn [sa_mid].
    rewrite nth_map_default
      by (rewrite length_zip_with, length_drop_first, length_drop_last; lia).
    rewrite nth_zip_with, nth_drop_first, nth_drop_last;
      rewrite ?length_drop_first, ?length_drop_last; (reflexivity || lia). }
  assert (Lmid : List.length (sa_mid ax) = (List.length e - 1)%nat).
  { unfold ax, derive. cbn [sa_mid].
    rewrite length_map, length_zip_with, length_drop_first, length_drop_last.
    lia. }
  split; [|split].
  - now rewrite Ld.
  - rewrite Lm, Ld by exact Hi. ring.
  - intros Hi2.
    assert (E : nth i (sa_delta_mid ax) 0
                = nth (S i) (sa_mid ax) 0 - nth i (sa_mid ax) 0).
    { change (sa_delta_mid ax) with (Np.ediff1d (sa_mid ax)).
      unfold Np.ediff1d.
      rewrite nth_zip_with, nth_drop_first, nth_drop_last;
        rewrite ?length_drop_first, ?length_drop_last, ?Lmid;
        (reflexivity || lia). }
    rewrite E, !Lm, !Ld by lia. ring.
Qed.

Lemma derive_midpoints_witness :
  let ax := derive "depth" "m" [0; 10; 30] None in
  nth 0 (sa_delta ax) 0 == nth 1 [0; 10; 30] 0 - nth 0 [0; 10; 30] 0 /\
  nth 0 (sa_mid ax) 0
  == nth 0 [0; 10; 30] 0 + (1 # 2) * nth 0 (sa_delta ax) 0 /\
  ((2 < List.length [0; 10; 30])%nat ->
   nth 0 (sa_delta_mid ax) 0
   == (1 # 2) * (nth 0 (sa_delta ax) 0 + nth 1 (sa_delta ax) 0)).
Proof.
  apply (derive_midpoints "depth" "m" [0; 10; 30] None 0). cbn. lia.
Defined.

(** ** Reading tracers that are stored on the same dimensions *)

Lemma dim_lens_defined (fptr : Nc.dataset) (dims : list string) :
  dims_defined fptr dims -> Nc.dim_lens fptr dims = OK (lens_of fptr dims).
Proof.
  unfold Nc.dim_lens, lens_of, dims_defined.
  induction dims as [|k dims IH]; intros H; [reflexivity|].
  cbn [mapM map]. unfold Nc.dim_len at 1, dim_len_of at 1.
  assert (M := H k (or_introl eq_refl)). unfold Nc.mem in M.
  destruct (Nc.get (Nc.ds_dimensions fptr) k); [|discriminate].
  cbn [bind]. rewrite IH; [reflexivity|].
  intros k' Hk'. apply H. now right.
Qed.

Lemma fits_refl (s : list nat) : Nd.fits s s = true.
Proof.
  induction s as [|n s IH]; [reflexivity|].
  cbn [Nd.fits]. now rewrite Nat.eqb_refl, IH.
Qed.

Lemma flat_map_chunks (m n : nat) (l : list Q) :
  List.length l = (n * m)%nat ->
  flat_map (fun r => Nd.chunk m r l) (seq 0 n) = l.
Proof.
  revert l. induction n as [|n IH]; intros l H.
  - destruct l; [reflexivity | discriminate].
  - cbn [seq flat_map]. rewrite <- seq_shift, flat_map_concat_map, map_map,
      <- flat_map_concat_map.
    rewrite (flat_map_ext_in _ (fun r => Nd.chunk m r (skipn m l))).
    + rewrite IH by (rewrite length_skipn; lia).
      unfold Nd.chunk. cbn [Nat.mul skipn]. apply firstn_skipn.
    + intros r _. unfold Nd.chunk. rewrite skipn_skipn. f_equal. f_equal. lia.
Qed.

Lemma broadcast_data_id (s : list nat) (l : list Q) :
  List.length l = Nd.size s -> Nd.broadcast_data s s l = l.
Proof.
  revert l. induction s as [|n s IH]; intros l H; [reflexivity|].
  cbn [Nd.broadcast_data]. rewrite Nat.eqb_refl.
  cbn [Nd.size fold_right] in H. fold (Nd.size s) in H.
  rewrite (flat_map_ext_in _ (fun r => Nd.chunk (Nd.size s) r l)).
  - now apply flat_map_chunks.
  - intros r Hr. apply in_seq in Hr. apply IH. apply length_chunk. nia.
Qed.

Lemma broadcast_to_same (s : list nat) (l : list Q) :
  List.length l = Nd.size s ->
  Nd.broadcast_to {| Nd.shape := s; Nd.data := l |} s = OK l.
Proof.
  intros H. unfold Nd.broadcast_to. cbn [Nd.shape Nd.data].
  rewrite Nat.sub_diag. cbn [Nd.strip_ones].
  replace (Nd.strip_ones 0 s) with s by now destruct s.
  rewrite Nat.sub_diag. cbn [repeat app].
  now rewrite fits_refl, broadcast_data_id.
Qed.

Lemma mapM_ok_map {A B} (f : A -> result B) (g : A -> B) (xs : list A) :
  (forall x, In x xs -> f x = OK (g x)) -> mapM f xs = OK (map g xs).
Proof.
  induction xs as [|x xs IH]; intros H; [reflexivity|].
  cbn [mapM map]. rewrite (H x) by now left. cbn [bind].
  rewrite IH; [reflexivity|]. intros y Hy. apply H. now right.
Qed.

(** Reading variables that are all stored on [dims] into one array. *)
Lemma read_tracers_stored (fptr : Nc.dataset) (dims varnames : list string) :
  dims <> [] ->
  dims_defined fptr dims ->
  (forall name, In name varnames -> stored_on fptr dims name) ->
  read_tracers fptr varnames (lens_of fptr dims)
  = OK {| Nd.shape := List.length varnames :: lens_of fptr dims;
          Nd.data := List.concat (map (data_of fptr) varnames) |}.
Proof.
  intros Hne Hd Hs. unfold read_tracers.
  rewrite (mapM_ok_map _ (data_of fptr)); [reflexivity|].
  intros name Hn. destruct (Hs name Hn) as [var [G [Dv L]]].
  unfold read_var, data_of. rewrite (lookup_var_stored _ _ _ G), G.
  cbn [bind]. rewrite Dv, (dim_lens_defined _ _ Hd). cbn [bind].
  destruct (lens_of fptr dims) as [|n ls] eqn:El.
  - destruct dims; [contradiction | discriminate].
  - now apply broadcast_to_same.
Qed.

(** Variables stored on no dimension: the first one is read, and the
    assignment to [vals[0, :]] is refused. *)
Lemma read_tracers_scalars (fptr : Nc.dataset) (name0 : string)
    (varnames : list string) :
  stored_on fptr [] name0 ->
  read_tracers fptr (name0 :: varnames) []
  = Raise (IndexError (Msg "too many indices for array")).
Proof.
  intros [var [G [Dv L]]]. unfold read_tracers. cbn [mapM].
  unfold read_var. rewrite (lookup_var_stored _ _ _ G). cbn [bind].
  rewrite Dv. reflexivity.
Qed.

Lemma values_dims (fptr : Nc.dataset) (dims : list string) :
  Nc.values (map (fun n => (n, dim_len_of fptr n)) dims) = lens_of fptr dims.
Proof. unfold Nc.values, lens_of. rewrite map_map. reflexivity. Qed.

Lemma index0_concat (rows : list (list Q)) (s : list nat) (i : nat)
    (row : list Q) :
  (forall q, In q rows -> List.length q = Nd.size s) ->
  nth_error rows i = Some row ->
  Nd.index0 {| Nd.shape := List.length rows :: s; Nd.data := List.concat rows |} i
  = OK {| Nd.shape := s; Nd.data := row |}.
Proof.
  intros Hl Hi. unfold Nd.index0. cbn [Nd.shape Nd.data].
  assert (B : (i < List.length rows)%nat) by (apply nth_error_Some; congruence).
  apply Nat.ltb_lt in B. rewrite B.
  now rewrite (chunk_concat rows (Nd.size s) i row Hl Hi).
Qed.

Lemma cime_pop_rows_length (tracers : Nc.dict tracer_metadata)
    (fptr : Nc.dataset) (dims : list string) :
  (forall name, In name (CimePop.names_of tracers) ->
     stored_on fptr dims (name +++ "_CUR")) ->
  forall q,
    In q (map (fun n => data_of fptr (n +++ "_CUR")) (CimePop.names_of tracers)) ->
    List.length q = Nd.size (lens_of fptr dims).
Proof.
  intros Hst q Hq. apply in_map_iff in Hq. destruct Hq as [n [<- Hn]].
  destruct (Hst n Hn) as [var [G [_ L]]].
  unfold data_of. now rewrite G.
Qed.

Lemma cime_pop_read_vals_reads
    (tracers : Nc.dict tracer_metadata) (fs : Nc.filesystem)
    (tracer_module_name fname : string) (fptr : Nc.dataset)
    (dims : list string) :
  fs fname = Some fptr ->
  tracers <> [] ->
  NoDup dims -> (List.length dims <= 3)%nat -> dims_defined fptr dims ->
  (forall name, In name (CimePop.names_of tracers) ->
     stored_on fptr dims (name +++ "_CUR")) ->
  CimePop._read_vals tracers fs tracer_module_name fname
  = (let* vals :=
       read_tracers fptr
         (map (fun n => n +++ "_CUR") (CimePop.names_of tracers))
         (lens_of fptr dims) in
     OK (vals, map (fun n => (n, dim_len_of fptr n)) dims)).
Proof.
  intros Hfs Hne Hnd Hlen Hdef Hst.
  set (names := CimePop.names_of tracers) in *.
  set (d := map (fun n => (n, dim_len_of fptr n)) dims).
  unfold CimePop._read_vals. rewrite (open_read_one _ _ _ Hfs). cbn [bind].
  fold names. destruct names as [|n0 ns] eqn:En.
  { unfold names, CimePop.names_of, Nc.keys in En.
    destruct tracers; [contradiction | discriminate]. }
  cbn [bind].
  destruct (Hst n0 (or_introl eq_refl)) as [var0 [G0 [D0 _]]].
  unfold CimePop.suffix at 1. rewrite (lookup_var_stored _ _ _ G0).
  cbn [bind].
  assert (Ed : CimePop.dims_of fptr var0 = OK d).
  { unfold CimePop.dims_of. rewrite D0.
    apply (dims_fold fptr dims []); auto. }
  rewrite Ed. cbn [bind].
  rewrite for_each_ok.
  2:{ intros x Hx. destruct (Hst x Hx) as [var [G [Dv _]]].
      unfold CimePop.suffix. rewrite (lookup_var_stored _ _ _ G).
      cbn [bind]. rewrite Dv, D0.
      destruct (list_eq_dec string_dec dims dims); [reflexivity|].
      contradiction. }
  cbn [bind].
  assert (Ld : List.length d = List.length dims)
    by (unfold d; apply length_map).
  rewrite Ld. destruct (Nat.ltb_spec 3 (List.length dims)); [lia|].
  unfold d. rewrite values_dims. reflexivity.
Qed.

Lemma cime_pop_read_vals_rows
    (tracers : Nc.dict tracer_metadata) (fs : Nc.filesystem)
    (tracer_module_name fname : string) (fptr : Nc.dataset)
    (dims : list string) :
  fs fname = Some fptr ->
  tracers <> [] ->
  NoDup dims -> (1 <= List.length dims <= 3)%nat -> dims_defined fptr dims ->
  (forall name, In name (CimePop.names_of tracers) ->
     stored_on fptr dims (name +++ "_CUR")) ->
  CimePop._read_vals tracers fs tracer_module_name fname
  = OK ({| Nd.shape := List.length tracers :: lens_of fptr dims;
           Nd.data :=
             List.concat (map (fun n => data_of fptr (n +++ "_CUR"))
                            (CimePop.names_of tracers)) |},
        map (fun n => (n, dim_len_of fptr n)) dims).
Proof.
  intros Hfs Hne Hnd Hlen Hdef Hst.
  rewrite (cime_pop_read_vals_reads tracers fs tracer_module_name fname
             fptr dims) by (assumption || lia).
  rewrite (read_tracers_stored fptr dims); [| | exact Hdef |].
  - cbn [bind]. rewrite map_map, !length_map.
    unfold CimePop.names_of, Nc.keys. now rewrite length_map.
  - intros ->. cbn in Hlen. lia.
  - intros vn Hvn. apply in_map_iff in Hvn. destruct Hvn as [n [<- Hn]].
    now apply Hst.
Qed.

(** Tracers stored as scalars: the array for them has the tracer axis
    only, and [vals[tracer_ind, :]] is refused. *)
Lemma cime_pop_read_vals_scalars
    (tracers : Nc.dict tracer_metadata) (fs : Nc.filesystem)
    (tracer_module_name fname : string) (fptr : Nc.dataset) :
  fs fname = Some fptr ->
  tracers <> [] ->
  (forall name, In name (CimePop.names_of tracers) ->
     stored_on fptr [] (name +++ "_CUR")) ->
  CimePop._read_vals tracers fs tracer_module_name fname
  = Raise (IndexError (Msg "too many indices for array")).
Proof.
  intros Hfs Hne Hst.
  rewrite (cime_pop_read_vals_reads tracers fs tracer_module_name fname
             fptr []); try assumption.
  - destruct tracers as [|[n0 m0] ts]; [contradiction|].
    unfold CimePop.names_of, Nc.keys. cbn [map fst lens_of].
    rewrite read_tracers_scalars; [reflexivity|].
    apply Hst. now left.
  - constructor.
  - cbn. lia.
  - intros k [].
Qed.

(** X17.  The no-grid reader on a file that stores the [_CUR] variable of every
    tracer on the same distinct dimensions, one to three of them: it
    returns one row per tracer, in the order of the tracers, with the
    shape of the dimensions, row [i] holding the values of tracer [i] as
    stored; the dimensions returned are those of the variables, with the
    lengths the file gives them.  Tracers stored as scalars, on no
    dimension, are refused with an [IndexError]. *)
Theorem cime_pop_read_vals_stored
    (tracers : Nc.dict tracer_metadata) (fs : Nc.filesystem)
    (tracer_module_name fname : string) (fptr : Nc.dataset)
    (dims : list string) :
  fs fname = Some fptr ->
  tracers <> [] ->
  NoDup dims -> (List.length dims <= 3)%nat -> dims_defined fptr dims ->
  (forall name, In name (CimePop.names_of tracers) ->
     stored_on fptr dims (name +++ "_CUR")) ->
  (dims = [] ->
   CimePop._read_vals tracers fs tracer_module_name fname
   = Raise (IndexError (Msg "too many indices for array")))
  /\
  (dims <> [] ->
   exists vals,
     CimePop._read_vals tracers fs tracer_module_name fname
     = OK (vals, map (fun n => (n, dim_len_of fptr n)) dims) /\
     Nd.shape vals = List.length tracers :: lens_of fptr dims /\
     Nd.well_formed vals /\
     forall i name, nth_error (CimePop.names_of tracers) i = Some name ->
       Nd.index0 vals i
       = OK {| Nd.shape := lens_of fptr dims;
               Nd.data := data_of fptr (name +++ "_CUR") |}).
Proof.
  intros Hfs Hne Hnd Hlen Hdef Hst. split.
  { intros ->.
    now apply (cime_pop_read_vals_scalars tracers fs tracer_module_name
                 fname fptr). }
  intros Hdims.
  assert (Hlen' : (1 <= List.length dims <= 3)%nat)
    by (destruct dims; [contradiction | cbn in *; lia]).
  assert (Hrows := cime_pop_rows_length tracers fptr dims Hst).
  assert (Hcnt : List.length tracers
                 = List.length (map (fun n => data_of fptr (n +++ "_CUR"))
                                  (CimePop.names_of tracers)))
    by (unfold CimePop.names_of, Nc.keys; now rewrite !length_map).
  eexists. split; [|split; [|split]].
  - apply (cime_pop_read_vals_rows tracers fs tracer_module_name fname
             fptr dims); assumption.
  - reflexivity.
  - unfold Nd.well_formed. cbn [Nd.shape Nd.data Nd.size fold_right].
    fold (Nd.size (lens_of fptr dims)).
    now rewrite (length_concat_const _ _ Hrows), <- Hcnt.
  - intros i name Hi. rewrite Hcnt.
    apply index0_concat; [exact Hrows|].
    rewrite nth_error_map, Hi. reflexivity.
Qed.

Lemma cime_pop_read_vals_stored_witness :
  (exists vals,
     CimePop._read_vals tracers_ab (one_file "restart.nc" cur_old_file)
       "abio" "restart.nc"
     = OK (vals, map (fun n => (n, dim_len_of cur_old_file n)) ["x"; "y"]) /\
     Nd.shape vals = List.length tracers_ab :: lens_of cur_old_file ["x"; "y"] /\
     Nd.well_formed vals /\
     forall i name, nth_error (CimePop.names_of tracers_ab) i = Some name ->
       Nd.index0 vals i
       = OK {| Nd.shape := lens_of cur_old_file ["x"; "y"];
               Nd.data := data_of cur_old_file (name +++ "_CUR") |})
  /\
  CimePop._read_vals tracers_a (one_file "restart.nc" scalar_file)
    "abio" "restart.nc"
  = Raise (IndexError (Msg "too many indices for array")).
Proof.
  split.
  - apply (cime_pop_read_vals_stored tracers_ab
             (one_file "restart.nc" cur_old_file) "abio" "restart.nc"
             cur_old_file ["x"; "y"]).
    + reflexivity.
    + discriminate.
    + repeat constructor; cbn; intuition discriminate.
    + cbn. lia.
    + intros k [<-|[<-|[]]]; reflexivity.
    + intros name [<-|[<-|[]]]; eexists; repeat split; reflexivity.
    + discriminate.
  - apply (cime_pop_read_vals_stored tracers_a
             (one_file "restart.nc" scalar_file) "abio" "restart.nc"
             scalar_file []).
    + reflexivity.
    + discriminate.
    + constructor.
    + cbn. lia.
    + intros k [].
    + intros name [<-|[]]; eexists; repeat split; reflexivity.
    + reflexivity.
Defined.

Lemma test_problem_rows_length (tracers : Nc.dict tracer_metadata)
    (fptr : Nc.dataset) (dims : list string) :
  (forall name, In name (TestProblem.names_of tracers) ->
     stored_on fptr dims name) ->
  forall q,
    In q (map (data_of fptr) (TestProblem.names_of tracers)) ->
    List.length q = Nd.size (lens_of fptr dims).
Proof.
  intros Hst q Hq. apply in_map_iff in Hq. destruct Hq as [n [<- Hn]].
  destruct (Hst n Hn) as [var [G [_ L]]].
  unfold data_of. now rewrite G.
Qed.

Lemma test_problem_read_vals_reads
    (tracers : Nc.dict tracer_metadata) (depth : SpatialAxis)
    (fs : Nc.filesystem) (tracer_module_name fname : string)
    (fptr : Nc.dataset) (dims : list string) :
  fname <> "zeros" -> fname <> "gen_init_iterate" ->
  fs fname = Some fptr ->
  tracers <> [] ->
  NoDup dims -> (List.length dims <= 3)%nat -> dims_defined fptr dims ->
  (forall name, In name (TestProblem.names_of tracers) ->
     stored_on fptr dims name) ->
  TestProblem._read_vals tracers depth fs tracer_module_name fname
  = (let* vals :=
       read_tracers fptr (TestProblem.names_of tracers) (lens_of fptr dims) in
     OK (vals, map (fun n => (n, dim_len_of fptr n)) dims)).
Proof.
  intros Hz Hg Hfs Hne Hnd Hlen Hdef Hst.
  set (names := TestProblem.names_of tracers) in *.
  set (d := map (fun n => (n, dim_len_of fptr n)) dims).
  assert (Ex : forall n, In n names -> Utils.extract_dimensions fptr n = OK d).
  { intros n Hn. destruct (Hst n Hn) as [var [G [Dv _]]].
    unfold Utils.extract_dimensions. rewrite (lookup_var_stored _ _ _ G).
    cbn [bind]. rewrite Dv. apply (dims_fold fptr dims []); auto. }
  unfold TestProblem._read_vals.
  apply String.eqb_neq in Hz. apply String.eqb_neq in Hg. rewrite Hz, Hg.
  rewrite (open_read_one _ _ _ Hfs). cbn [bind].
  fold names.
  destruct names as [|n0 ns] eqn:En.
  { unfold names, TestProblem.names_of, Nc.keys in En.
    destruct tracers; [contradiction | discriminate]. }
  cbn [bind]. rewrite (Ex n0) by now left. cbn [bind].
  rewrite for_each_ok.
  2:{ intros x Hx. rewrite (Ex x Hx). cbn [bind].
      rewrite dict_eqb_refl; [reflexivity|].
      unfold d. now rewrite keys_dims. }
  cbn [bind].
  assert (Ld : List.length d = List.length dims)
    by (unfold d; apply length_map).
  rewrite Ld. destruct (Nat.ltb_spec 3 (List.length dims)); [lia|].
  unfold d. rewrite values_dims. reflexivity.
Qed.

Lemma test_problem_read_vals_rows
    (tracers : Nc.dict tracer_metadata) (depth : SpatialAxis)
    (fs : Nc.filesystem) (tracer_module_name fname : string)
    (fptr : Nc.dataset) (dims : list string) :
  fname <> "zeros" -> fname <> "gen_init_iterate" ->
  fs fname = Some fptr ->
  tracers <> [] ->
  NoDup dims -> (1 <= List.length dims <= 3)%nat -> dims_defined fptr dims ->
  (forall name, In name (TestProblem.names_of tracers) ->
     stored_on fptr dims name) ->
  TestProblem._read_vals tracers depth fs tracer_module_name fname
  = OK ({| Nd.shape := List.length tracers :: lens_of fptr dims;
           Nd.data :=
             List.concat (map (data_of fptr) (TestProblem.names_of tracers)) |},
        map (fun n => (n, dim_len_of fptr n)) dims).
Proof.
  intros Hz Hg Hfs Hne Hnd Hlen Hdef Hst.
  rewrite (test_problem_read_vals_reads tracers depth fs tracer_module_name
             fname fptr dims) by (assumption || lia).
  rewrite (read_tracers_stored fptr dims); [| | exact Hdef | exact Hst].
  - cbn [bind]. unfold TestProblem.names_of, Nc.keys.
    now rewrite length_map.
  - intros ->. cbn in Hlen. lia.
Qed.

Lemma test_problem_read_vals_scalars
    (tracers : Nc.dict tracer_metadata) (depth : SpatialAxis)
    (fs : Nc.filesystem) (tracer_module_name fname : string)
    (fptr : Nc.dataset) :
  fname <> "zeros" -> fname <> "gen_init_iterate" ->
  fs fname = Some fptr ->
  tracers <> [] ->
  (forall name, In name (TestProblem.names_of tracers) ->
     stored_on fptr [] name) ->
  TestProblem._read_vals tracers depth fs tracer_module_name fname
  = Raise (IndexError (Msg "too many indices for array")).
Proof.
  intros Hz Hg Hfs Hne Hst.
  rewrite (test_problem_read_vals_reads tracers depth fs tracer_module_name
             fname fptr []); try assumption.
  - destruct tracers as [|[n0 m0] ts]; [contradiction|].
    unfold TestProblem.names_of, Nc.keys. cbn [map fst lens_of].
    rewrite read_tracers_scalars; [reflexivity|].
    apply Hst. now left.
  - constructor.
  - cbn. lia.
  - intros k [].
Qed.

(** X18.  The grid-aware reader on a file, under a name other than the two
    generated sources, that stores every tracer on the same distinct
    dimensions, one to three of them: it returns one row per tracer, in
    the order of the tracers, row [i] holding the values of tracer [i] as
    stored, and the dimensions with the lengths the file gives them.
    Tracers stored as scalars, on no dimension, are refused with an
    [IndexError]. *)
Theorem test_problem_read_vals_stored
    (tracers : Nc.dict tracer_metadata) (depth : SpatialAxis)
    (fs : Nc.filesystem) (tracer_module_name fname : string)
    (fptr : Nc.dataset) (dims : list string) :
  fname <> "zeros" -> fname <> "gen_init_iterate" ->
  fs fname = Some fptr ->
  tracers <> [] ->
  NoDup dims -> (List.length dims <= 3)%nat -> dims_defined fptr dims ->
  (forall name, In name (TestProblem.names_of tracers) ->
     stored_on fptr dims name) ->
  (dims = [] ->
   TestProblem._read_vals tracers depth fs tracer_module_name fname
   = Raise (IndexError (Msg "too many indices for array")))
  /\
  (dims <> [] ->
   exists vals,
     TestProblem._read_vals tracers depth fs tracer_module_name fname
     = OK (vals, map (fun n => (n, dim_len_of fptr n)) dims) /\
     Nd.shape vals = List.length tracers :: lens_of fptr dims /\
     Nd.well_formed vals /\
     forall i name, nth_error (TestProblem.names_of tracers) i = Some name ->
       Nd.index0 vals i
       = OK {| Nd.shape := lens_of fptr dims; Nd.data := data_of fptr name |}).
Proof.
  intros Hz Hg Hfs Hne Hnd Hlen Hdef Hst. split.
  { intros ->.
    now apply (test_problem_read_vals_scalars tracers depth fs
                 tracer_module_name fname fptr). }
  intros Hdims.
  assert (Hlen' : (1 <= List.length dims <= 3)%nat)
    by (destruct dims; [contradiction | cbn in *; lia]).
  assert (Hrows := test_problem_rows_length tracers fptr dims Hst).
  assert (Hcnt : List.length tracers
                 = List.length (map (data_of fptr)
                                  (TestProblem.names_of tracers)))
    by (unfold TestProblem.names_of, Nc.keys; now rewrite !length_map).
  eexists. split; [|split; [|split]].
  - apply (test_problem_read_vals_rows tracers depth fs tracer_module_name
             fname fptr dims); assumption.
  - reflexivity.
  - unfold Nd.well_formed. cbn [Nd.shape Nd.data Nd.size fold_right].
    fold (Nd.size (lens_of fptr dims)).
    now rewrite (length_concat_const _ _ Hrows), <- Hcnt.
  - intros i name Hi. rewrite Hcnt.
    apply index0_concat; [exact Hrows|].
    rewrite nth_error_map, Hi. reflexivity.
Qed.

Lemma test_problem_read_vals_stored_witness :
  (exists vals,
     TestProblem._read_vals tracers_ab axis_10_20
       (one_file "iterate.nc" two_tracer_file) "abio" "iterate.nc"
     = OK (vals, map (fun n => (n, dim_len_of two_tracer_file n)) ["x"; "y"]) /\
     Nd.shape vals
     = List.length tracers_ab :: lens_of two_tracer_file ["x"; "y"] /\
     Nd.well_formed vals /\
     forall i name, nth_error (TestProblem.names_of tracers_ab) i = Some name ->
       Nd.index0 vals i
       = OK {| Nd.shape := lens_of two_tracer_file ["x"; "y"];
               Nd.data := data_of two_tracer_file name |})
  /\
  TestProblem._read_vals tracers_a axis_10_20
    (one_file "iterate.nc" scalar_file) "abio" "iterate.nc"
  = Raise (IndexError (Msg "too many indices for array")).
Proof.
  split.
  - apply (test_problem_read_vals_stored tracers_ab axis_10_20
             (one_file "iterate.nc" two_tracer_file) "abio" "iterate.nc"
             two_tracer_file ["x"; "y"]).
    + discriminate.
    + discriminate.
    + reflexivity.
    + discriminate.
    + repeat constructor; cbn; intuition discriminate.
    + cbn. lia.
    + intros k [<-|[<-|[]]]; reflexivity.
    + intros name [<-|[<-|[]]]; eexists; repeat split; reflexivity.
    + discriminate.
  - apply (test_problem_read_vals_stored tracers_a axis_10_20
             (one_file "iterate.nc" scalar_file) "abio" "iterate.nc"
             scalar_file []).
    + discriminate.
    + discriminate.
    + reflexivity.
    + discriminate.
    + constructor.
    + cbn. lia.
    + intros k [].
    + intros name [<-|[]]; eexists; repeat split; reflexivity.
    + reflexivity.
Defined.

(** ** The no-grid [dump]: define, write, and reading the file again *)

Lemma append_inj_same_length (s t a b : string) :
  String.length a = String.length b -> s +++ a = t +++ b -> s = t /\ a = b.
Proof.
  intros L. revert t. induction s as [|c s IH]; intros t H.
  - destruct t as [|c' t]; [now split|].
    apply (f_equal String.length) in H. cbn in H.
    rewrite length_append in H. lia.
  - destruct t as [|c' t].
    + apply (f_equal String.length) in H. cbn in H.
      rewrite length_append in H. lia.
    + cbn in H. injection H as -> H. destruct (IH t H) as [-> ->].
      now split.
Qed.

Lemma define_loop_as_create_vars (dimnames names : list string)
    (fptr : Nc.dataset) :
  Nc.for_each names
    (fun tracer_name =>
       Nc.for_each ["_CUR"; "_OLD"]
         (fun sfx => Nc.createVariable (tracer_name +++ sfx) dimnames []))
    fptr
  = Utils.create_vars (cur_old_vars dimnames names) fptr.
Proof.
  unfold Utils.create_vars.
  revert fptr. induction names as [|t names IH]; intros fptr; [reflexivity|].
  cbn [Nc.for_each cur_old_vars flat_map app fst snd
       Utils.vm_dimensions Utils.vm_attrs].
  fold (cur_old_vars dimnames names). unfold Nc.bind_io.
  destruct (Nc.createVariable (t +++ "_CUR") dimnames [] fptr)
    as [[[]|e] f1]; [|reflexivity].
  destruct (Nc.createVariable (t +++ "_OLD") dimnames [] f1)
    as [[[]|e] f2]; [|reflexivity].
  cbn [Nc.ret]. apply IH.
Qed.

Lemma in_cur_old_keys (dimnames names : list string) (k : string) :
  In k (Nc.keys (cur_old_vars dimnames names)) ->
  exists t, In t names /\ (k = t +++ "_CUR" \/ k = t +++ "_OLD").
Proof.
  unfold Nc.keys, cur_old_vars. rewrite in_map_iff.
  intros [[k' vm] [<- H]]. apply in_flat_map in H.
  destruct H as [t [Ht [E|[E|[]]]]]; injection E as <- _; exists t; auto.
Qed.

Lemma cur_old_distinct (t t' : string) :
  (t +++ "_CUR" = t' +++ "_CUR" -> t = t') /\
  (t +++ "_OLD" = t' +++ "_OLD" -> t = t') /\
  t +++ "_CUR" <> t' +++ "_OLD".
Proof.
  split; [|split]; intros H;
    apply append_inj_same_length in H; try reflexivity;
    destruct H as [H1 H2]; [exact H1 | exact H1 | discriminate].
Qed.

Lemma cur_old_keys_nodup (dimnames names : list string) :
  NoDup names -> NoDup (Nc.keys (cur_old_vars dimnames names)).
Proof.
  induction 1 as [|t names Ht Hnd IH]; [constructor|].
  change (Nc.keys (cur_old_vars dimnames (t :: names)))
    with ((t +++ "_CUR") :: (t +++ "_OLD")
            :: Nc.keys (cur_old_vars dimnames names)).
  destruct (cur_old_distinct t t) as [_ [_ N]].
  constructor; [|constructor; [|exact IH]].
  - intros [E|I]; [now symmetry in E|].
    apply in_cur_old_keys in I. destruct I as [t' [Ht' [E|E]]].
    + apply (proj1 (cur_old_distinct t t')) in E. congruence.
    + now apply (proj2 (proj2 (cur_old_distinct t t'))) in E.
  - intros I. apply in_cur_old_keys in I. destruct I as [t' [Ht' [E|E]]].
    + symmetry in E.
      now apply (proj2 (proj2 (cur_old_distinct t' t))) in E.
    + apply (proj1 (proj2 (cur_old_distinct t t'))) in E. congruence.
Qed.

(** The define phase on a new file. *)
Lemma cime_pop_define_new (self : CimePop.TracerModuleState) :
  NoDup (Nc.keys (CimePop._dims self)) ->
  NoDup (CimePop.tracer_names self) ->
  exists V,
    CimePop.dump self "define" new_dataset
    = (OK self,
       {| Nc.ds_attrs := []; Nc.ds_dimensions := CimePop._dims self;
          Nc.ds_variables := V |}) /\
    Nc.keys V
    = Nc.keys (cur_old_vars (Nc.keys (CimePop._dims self))
                 (CimePop.tracer_names self)) /\
    forall t sfx, In t (CimePop.tracer_names self) ->
      sfx = "_CUR" \/ sfx = "_OLD" ->
      exists v, In (t +++ sfx, v) V /\
                Nc.var_dimensions v = Nc.keys (CimePop._dims self).
Proof.
  intros Hd Hn.
  set (dimnames := Nc.keys (CimePop._dims self)).
  set (ds1 := {| Nc.ds_attrs := []; Nc.ds_dimensions := CimePop._dims self;
                 Nc.ds_variables := [] |}).
  assert (E1 : Nc.for_each (CimePop._dims self)
                 (fun kv => Utils.create_dimension_exist_okay (fst kv) (snd kv))
                 new_dataset = (OK tt, ds1)).
  { change (Utils.create_dimensions_verify (CimePop._dims self) new_dataset
            = (OK tt, ds1)).
    rewrite create_dimensions_verify_new; [reflexivity | exact Hd |].
    intros k _. reflexivity. }
  destruct (create_vars_new (cur_old_vars dimnames (CimePop.tracer_names self))
              ds1) as [V [EV [KV PV]]].
  - now apply cur_old_keys_nodup.
  - intros k _. reflexivity.
  - intros k vm Hin. exists (lens_of ds1 dimnames).
    assert (Evm : Utils.vm_dimensions vm = dimnames).
    { unfold cur_old_vars in Hin. apply in_flat_map in Hin.
      destruct Hin as [t [_ [E|[E|[]]]]]; now injection E as _ <-. }
    rewrite Evm. apply dim_lens_defined.
    intros k' Hk'. unfold ds1. cbn [Nc.ds_dimensions]. now apply mem_in_keys.
  - exists V. split; [|split].
    + unfold CimePop.dump. cbn [String.eqb Ascii.eqb Bool.eqb].
      rewrite (bind_io_ok _ _ _ _ _ E1).
      erewrite bind_io_ok; [reflexivity|].
      fold dimnames. rewrite define_loop_as_create_vars. exact EV.
    + exact KV.
    + intros t sfx Ht Hs.
      destruct (PV (t +++ sfx)
                  {| Utils.vm_dimensions := dimnames; Utils.vm_attrs := [] |})
        as [v [I [Dv _]]].
      * unfold cur_old_vars. apply in_flat_map. exists t.
        split; [exact Ht|]. destruct Hs as [-> | ->]; cbn; auto.
      * exists v. split; [exact I | exact Dv].
Qed.

Lemma get_store_all (l : list (string * list Q)) (fptr : Nc.dataset)
    (name : string) (vals : list Q) (v : Nc.variable) :
  NoDup (map fst l) -> In (name, vals) l ->
  Nc.get (Nc.ds_variables fptr) name = Some v ->
  Nc.get (Nc.ds_variables (store_all l fptr)) name
  = Some (Nc.with_data v vals).
Proof.
  unfold store_all.
  revert fptr v. induction l as [|[n x] l IH]; intros fptr v Hnd Hin G;
    [contradiction|].
  cbn [map fst] in Hnd. apply NoDup_cons_iff in Hnd. destruct Hnd as [Hn Hnd].
  cbn [fold_left fst snd]. destruct Hin as [E|Hin].
  - injection E as -> ->.
    assert (K : forall (l' : list (string * list Q)) f,
              ~ In name (map fst l') ->
              Nc.get (Nc.ds_variables
                        (fold_left (fun f e => Nc.store f (fst e) (snd e)) l' f))
                name
              = Nc.get (Nc.ds_variables f) name).
    { induction l' as [|[n' x'] l' IH']; intros f Hf; [reflexivity|].
      cbn [fold_left fst snd]. rewrite IH' by (cbn in Hf; tauto).
      apply get_store_other. cbn in Hf. tauto. }
    rewrite K by exact Hn. now apply get_store_same.
  - apply IH; [exact Hnd | exact Hin |].
    rewrite get_store_other; [exact G|].
    intros ->. apply Hn. change name with (fst (name, vals)).
    now apply in_map.
Qed.

Lemma dims_store_all (l : list (string * list Q)) (fptr : Nc.dataset) :
  Nc.ds_dimensions (store_all l fptr) = Nc.ds_dimensions fptr.
Proof.
  unfold store_all. revert fptr. induction l as [|[n x] l IH]; intros fptr;
    [reflexivity|].
  cbn [fold_left fst snd]. rewrite IH. unfold Nc.store.
  now destruct (Nc.get (Nc.ds_variables fptr) n).
Qed.

(** [vals[k, :]] on an array with an axis beyond the first. *)
Lemma index0_all_row (vals : Nd.ndarray) (cnt k : nat) (rest : list nat) :
  Nd.shape vals = cnt :: rest -> rest <> [] -> (k < cnt)%nat ->
  Nd.index0_all vals k
  = OK {| Nd.shape := rest;
          Nd.data := Nd.chunk (Nd.size rest) k (Nd.data vals) |}.
Proof.
  intros Hs Hr Hk. unfold Nd.index0_all, Nd.index0. rewrite Hs.
  destruct rest as [|d rest']; [contradiction|].
  apply Nat.ltb_lt in Hk. now rewrite Hk.
Qed.

(** [vals[k, :]] on an array with one axis only. *)
Lemma index0_all_one_axis (vals : Nd.ndarray) (cnt k : nat) :
  Nd.shape vals = [cnt] ->
  Nd.index0_all vals k = Raise (IndexError (Msg "too many indices for array")).
Proof. intros Hs. unfold Nd.index0_all. now rewrite Hs. Qed.

(** The write phase on a handle where the variables are defined. *)
Lemma cime_pop_write_loop (vals : Nd.ndarray) (cnt : nat) (rest : list nat)
    (names : list string) (k : nat) (fptr : Nc.dataset) :
  Nd.shape vals = cnt :: rest ->
  rest <> [] ->
  (k + List.length names <= cnt)%nat ->
  (forall t sfx, In t names -> sfx = "_CUR" \/ sfx = "_OLD" ->
     Nc.mem (Nc.ds_variables fptr) (t +++ sfx) = true) ->
  Nc.for_each (combine (seq k (List.length names)) names)
    (fun it =>
       Nc.for_each ["_CUR"; "_OLD"]
         (fun sfx =>
            row <- Nc.reading (fun _ => Nd.index0_all vals (fst it)) ;;
            Nc.assign (snd it +++ sfx) (Nd.data row)))
    fptr
  = (OK tt,
     store_all (cur_old_assignments vals
                  (combine (seq k (List.length names)) names)) fptr).
Proof.
  intros Hs Hr. revert k fptr. induction names as [|t names IH];
    intros k fptr Hk Hm; [reflexivity|].
  cbn [List.length seq combine Nc.for_each fst snd].
  assert (Ei : Nd.index0_all vals k
               = OK {| Nd.shape := rest;
                       Nd.data := Nd.chunk (Nd.size rest) k (Nd.data vals) |}).
  { apply (index0_all_row vals cnt k rest Hs Hr). cbn in Hk. lia. }
  set (row := Nd.chunk (Nd.size rest) k (Nd.data vals)).
  set (f1 := Nc.store fptr (t +++ "_CUR") row).
  set (f2 := Nc.store f1 (t +++ "_OLD") row).
  rewrite (bind_io_ok _ _ tt fptr f2).
  - rewrite IH.
    + unfold cur_old_assignments. cbn [flat_map fst snd app].
      rewrite Hs. cbn [tl]. fold row. unfold store_all.
      cbn [fold_left fst snd]. reflexivity.
    + cbn in Hk. lia.
    + intros t' sfx Ht' Hsfx. unfold f2, f1. rewrite !mem_store.
      apply Hm; [now right | exact Hsfx].
  - rewrite (bind_io_ok _ _ tt fptr f1).
    + rewrite (bind_io_ok _ _ tt f1 f2); [reflexivity|].
      rewrite (reading_ok _ _ _ _ Ei). cbn [Nd.data].
      apply assign_declared_last. unfold f1. rewrite mem_store.
      apply Hm; [now left | now right].
    + rewrite (reading_ok _ _ _ _ Ei). cbn [Nd.data].
      apply assign_declared_last. apply Hm; [now left | now left].
Qed.

Lemma cur_old_assignments_keys (vals : Nd.ndarray) (dimnames names : list string)
    (k : nat) :
  map fst (cur_old_assignments vals (combine (seq k (List.length names)) names))
  = Nc.keys (cur_old_vars dimnames names).
Proof.
  revert k. induction names as [|t names IH]; intros k; [reflexivity|].
  cbn [List.length seq combine]. unfold cur_old_assignments, cur_old_vars.
  cbn [flat_map app map fst snd Nc.keys]. unfold Nc.keys.
  cbn [map fst]. do 2 f_equal. apply IH.
Qed.

Lemma in_enumerate {A} (xs : list A) (k i : nat) (x : A) :
  nth_error xs i = Some x ->
  In ((k + i)%nat, x) (combine (seq k (List.length xs)) xs).
Proof.
  revert k i. induction xs as [|y xs IH]; intros k [|i] H; try discriminate.
  - injection H as ->. left. f_equal. lia.
  - cbn [nth_error] in H. cbn [List.length seq combine]. right.
    replace (k + S i)%nat with (S k + i)%nat by lia. now apply IH.
Qed.

Lemma map_by_index {A B} (f : A -> B) (g : nat -> B) (xs : list A) (k : nat) :
  (forall i x, nth_error xs i = Some x -> f x = g (k + i)%nat) ->
  map f xs = map g (seq k (List.length xs)).
Proof.
  revert k. induction xs as [|x xs IH]; intros k H; [reflexivity|].
  cbn [map List.length seq]. f_equal.
  - rewrite (H 0%nat x eq_refl). f_equal. lia.
  - apply IH. intros i y Hy. rewrite (H (S i) y Hy). f_equal. lia.
Qed.

Lemma dict_of_keys (d : Nc.dict nat) (fptr : Nc.dataset) :
  NoDup (Nc.keys d) -> Nc.ds_dimensions fptr = d ->
  map (fun n => (n, dim_len_of fptr n)) (Nc.keys d) = d
  /\ lens_of fptr (Nc.keys d) = Nc.values d.
Proof.
  intros Hnd Hd.
  assert (G : forall k v, In (k, v) d -> dim_len_of fptr k = v).
  { intros k v Hin. unfold dim_len_of. rewrite Hd.
    now rewrite (get_in_nodup d k v Hnd Hin). }
  clear Hd Hnd. unfold lens_of, Nc.keys, Nc.values.
  induction d as [|[k v] d IH]; [now split|].
  cbn [map fst snd]. rewrite (G k v) by now left.
  destruct IH as [I1 I2]; [intros k' v' H; apply G; now right|].
  split; f_equal; assumption.
Qed.

(** X19.  Round trip of the no-grid variant: a module with distinct tracer
    names, values of shape (tracers, dimensions...) on one to three
    distinct dimensions of non-zero length, that is dumped to a new file,
    define phase then write phase, is read back from that file with the
    values and the dimensions it had. *)
Theorem cime_pop_dump_read_vals
    (self : CimePop.TracerModuleState) (tracer_module_name fname : string) :
  CimePop.tracers self <> [] ->
  NoDup (CimePop.tracer_names self) ->
  NoDup (Nc.keys (CimePop._dims self)) ->
  (1 <= List.length (CimePop._dims self) <= 3)%nat ->
  Forall (fun n => (1 <= n)%nat) (Nc.values (CimePop._dims self)) ->
  Nd.shape (CimePop._vals self)
  = List.length (CimePop.tracers self) :: Nc.values (CimePop._dims self) ->
  Nd.well_formed (CimePop._vals self) ->
  exists defined written,
    CimePop.dump self "define" new_dataset = (OK self, defined) /\
    CimePop.dump self "write" defined = (OK self, written) /\
    CimePop._read_vals (CimePop.tracers self) (one_file fname written)
      tracer_module_name fname
    = OK (CimePop._vals self, CimePop._dims self).
Proof.
  intros Hne Hn Hd Hlen _ Hshape Hwf.
  set (names := CimePop.tracer_names self) in *.
  set (dimnames := Nc.keys (CimePop._dims self)) in *.
  set (vals := CimePop._vals self) in *.
  set (cnt := List.length (CimePop.tracers self)) in *.
  set (rest := Nc.values (CimePop._dims self)) in *.
  assert (Lnames : List.length names = cnt)
    by (unfold names, CimePop.tracer_names, CimePop.names_of, Nc.keys;
        apply length_map).
  assert (Hrest : rest <> []).
  { unfold rest, Nc.values. destruct (CimePop._dims self);
      [cbn in Hlen; lia | discriminate]. }
  destruct (cime_pop_define_new self Hd Hn) as [V [Edef [KV PV]]].
  fold names dimnames in KV, PV.
  set (defined := {| Nc.ds_attrs := []; Nc.ds_dimensions := CimePop._dims self;
                     Nc.ds_variables := V |}) in *.
  assert (NV : NoDup (Nc.keys V))
    by (rewrite KV; now apply cur_old_keys_nodup).
  assert (GV : forall t sfx, In t names -> sfx = "_CUR" \/ sfx = "_OLD" ->
                 exists v, Nc.get V (t +++ sfx) = Some v /\
                           Nc.var_dimensions v = dimnames).
  { intros t sfx Ht Hs. destruct (PV t sfx Ht Hs) as [v [I Dv]].
    exists v. split; [now apply get_in_nodup | exact Dv]. }
  set (its := combine (seq 0 (List.length names)) names).
  set (written := store_all (cur_old_assignments vals its) defined).
  assert (Ewr : CimePop.dump self "write" defined = (OK self, written)).
  { unfold CimePop.dump. cbn [String.eqb Ascii.eqb Bool.eqb].
    erewrite bind_io_ok; [reflexivity|].
    unfold enumerate. fold names vals.
    apply (cime_pop_write_loop vals cnt rest names 0 defined Hshape);
      [exact Hrest | lia |].
    intros t sfx Ht Hs. destruct (GV t sfx Ht Hs) as [v [G _]].
    unfold defined. cbn [Nc.ds_variables]. now apply mem_of_get in G. }
  exists defined, written. split; [exact Edef|]. split; [exact Ewr|].
  assert (Dw : Nc.ds_dimensions written = CimePop._dims self)
    by (unfold written; now rewrite dims_store_all).
  destruct (dict_of_keys (CimePop._dims self) written Hd Dw) as [Ed El].
  fold dimnames in Ed, El. fold rest in El.
  set (m := Nd.size rest).
  assert (Hdata : List.length (Nd.data vals) = (cnt * m)%nat).
  { unfold Nd.well_formed in Hwf. rewrite Hshape in Hwf. exact Hwf. }
  assert (Grow : forall i t, nth_error names i = Some t ->
            exists v,
              Nc.get (Nc.ds_variables written) (t +++ "_CUR")
              = Some (Nc.with_data v (Nd.chunk m i (Nd.data vals))) /\
              Nc.var_dimensions v = dimnames).
  { intros i t Hi.
    destruct (GV t "_CUR" (nth_error_In _ _ Hi) (or_introl eq_refl))
      as [v [G Dv]].
    exists v. split; [|exact Dv].
    unfold written. apply get_store_all.
    - unfold its. rewrite (cur_old_assignments_keys vals dimnames).
      now apply cur_old_keys_nodup.
    - unfold cur_old_assignments. apply in_flat_map.
      exists (i, t). split; [apply (in_enumerate names 0 i t Hi)|].
      cbn [fst snd]. rewrite Hshape. cbn [tl]. now left.
    - exact G. }
  rewrite (cime_pop_read_vals_rows (CimePop.tracers self)
             (one_file fname written) tracer_module_name fname written
             dimnames).
  - rewrite Ed, El. f_equal. f_equal.
    fold cnt. fold names.
    rewrite (map_by_index _ (fun i => Nd.chunk m i (Nd.data vals)) names 0).
    + rewrite Lnames, <- flat_map_concat_map, flat_map_chunks by exact Hdata.
      destruct vals as [sh dt]. cbn [Nd.shape Nd.data] in *. now rewrite Hshape.
    + intros i t Hi. destruct (Grow i t Hi) as [v [G _]].
      unfold data_of. now rewrite G.
  - unfold one_file. now rewrite String.eqb_refl.
  - exact Hne.
  - exact Hd.
  - unfold dimnames, Nc.keys. now rewrite length_map.
  - intros k Hk. rewrite Dw. now apply mem_in_keys.
  - intros t Ht. apply In_nth_error in Ht. destruct Ht as [i Hi].
    change (nth_error names i = Some t) in Hi.
    destruct (Grow i t Hi) as [v [G Dv]].
    exists (Nc.with_data v (Nd.chunk m i (Nd.data vals))).
    split; [exact G|]. split; [exact Dv|].
    cbn [Nc.with_data Nc.var_data]. rewrite El.
    apply length_chunk.
    assert (i < cnt)%nat
      by (rewrite <- Lnames; apply nth_error_Some; congruence).
    rewrite Hdata. fold m. nia.
Qed.

Lemma cime_pop_dump_read_vals_witness :
  exists defined written,
    CimePop.dump pop_module_2x2 "define" new_dataset
    = (OK pop_module_2x2, defined) /\
    CimePop.dump pop_module_2x2 "write" defined
    = (OK pop_module_2x2, written) /\
    CimePop._read_vals (CimePop.tracers pop_module_2x2)
      (one_file "restart.nc" written) "abio" "restart.nc"
    = OK (CimePop._vals pop_module_2x2, CimePop._dims pop_module_2x2).
Proof.
  apply (cime_pop_dump_read_vals pop_module_2x2 "abio" "restart.nc").
  - discriminate.
  - repeat constructor; cbn; intuition discriminate.
  - repeat constructor; cbn; intuition discriminate.
  - cbn. lia.
  - repeat constructor.
  - reflexivity.
  - reflexivity.
Defined.

(** ** Defining twice, writing before defining *)

Lemma dimension_exist_okay_step (k : string) (l : nat) (f f' : Nc.dataset) :
  Utils.create_dimension_exist_okay k l f = (OK tt, f') ->
  Nc.get (Nc.ds_dimensions f') k = Some l /\
  Nc.ds_variables f' = Nc.ds_variables f /\
  forall k' l', Nc.get (Nc.ds_dimensions f) k' = Some l' ->
                Nc.get (Nc.ds_dimensions f') k' = Some l'.
Proof.
  unfold Utils.create_dimension_exist_okay, Nc.createDimension, Nc.mem.
  destruct (Nc.get (Nc.ds_dimensions f) k) as [l0|] eqn:G.
  - destruct (Nat.eqb_spec l0 l) as [->|]; [|discriminate].
    intros H. injection H as <-. auto.
  - intros H. injection H as <-. cbn [Nc.ds_dimensions Nc.ds_variables].
    split; [apply get_set_same|]. split; [reflexivity|].
    intros k' l' G'. rewrite get_set_other; [exact G'|]. congruence.
Qed.

Lemma dimensions_loop_result (dims : Nc.dict nat) (f f' : Nc.dataset) :
  Nc.for_each dims
    (fun kv => Utils.create_dimension_exist_okay (fst kv) (snd kv)) f
  = (OK tt, f') ->
  (forall k l, In (k, l) dims -> Nc.get (Nc.ds_dimensions f') k = Some l) /\
  Nc.ds_variables f' = Nc.ds_variables f /\
  forall k l, Nc.get (Nc.ds_dimensions f) k = Some l ->
              Nc.get (Nc.ds_dimensions f') k = Some l.
Proof.
  revert f. induction dims as [|[k l] dims IH]; intros f H.
  - cbn in H. injection H as <-. split; [contradiction|]. auto.
  - cbn [Nc.for_each fst snd] in H. unfold Nc.bind_io in H.
    destruct (Utils.create_dimension_exist_okay k l f) as [[[]|e] f1] eqn:E1;
      [|discriminate].
    destruct (dimension_exist_okay_step _ _ _ _ E1) as [G1 [V1 P1]].
    destruct (IH f1 H) as [G2 [V2 P2]].
    split; [|split].
    + intros k' l' [E|I]; [injection E as <- <-; now apply P2 | now apply G2].
    + congruence.
    + intros k' l' G'. apply P2. now apply P1.
Qed.

Lemma dimensions_loop_again (dims : Nc.dict nat) (f : Nc.dataset) :
  (forall k l, In (k, l) dims -> Nc.get (Nc.ds_dimensions f) k = Some l) ->
  Nc.for_each dims
    (fun kv => Utils.create_dimension_exist_okay (fst kv) (snd kv)) f
  = (OK tt, f).
Proof.
  induction dims as [|[k l] dims IH]; intros H; [reflexivity|].
  cbn [Nc.for_each fst snd]. unfold Nc.bind_io.
  unfold Utils.create_dimension_exist_okay at 1.
  rewrite (H k l) by now left. rewrite Nat.eqb_refl.
  apply IH. intros k' l' I. apply H. now right.
Qed.

Lemma createVariable_step (name : string) (dims : list string)
    (attrs : Nc.dict string) (f f' : Nc.dataset) :
  Nc.createVariable name dims attrs f = (OK tt, f') ->
  Nc.ds_dimensions f' = Nc.ds_dimensions f /\
  Nc.mem (Nc.ds_variables f') name = true /\
  forall k, Nc.mem (Nc.ds_variables f) k = true ->
            Nc.mem (Nc.ds_variables f') k = true.
Proof.
  unfold Nc.createVariable.
  destruct (Nc.mem (Nc.ds_variables f) name) eqn:M; [discriminate|].
  destruct (Nc.dim_lens f dims); [|discriminate].
  intros H. injection H as <-. cbn [Nc.ds_dimensions Nc.ds_variables].
  split; [reflexivity|]. split.
  - unfold Nc.mem. now rewrite get_set_same.
  - intros k Hk. unfold Nc.mem in *.
    rewrite get_set_other; [exact Hk|]. intros ->.
    now rewrite M in Hk.
Qed.

Lemma create_vars_result (vars : Nc.dict Utils.var_metadata)
    (f f' : Nc.dataset) :
  Utils.create_vars vars f = (OK tt, f') ->
  Nc.ds_dimensions f' = Nc.ds_dimensions f /\
  (forall k, In k (Nc.keys vars) -> Nc.mem (Nc.ds_variables f') k = true) /\
  forall k, Nc.mem (Nc.ds_variables f) k = true ->
            Nc.mem (Nc.ds_variables f') k = true.
Proof.
  unfold Utils.create_vars.
  revert f. induction vars as [|[k vm] vars IH]; intros f H.
  - cbn in H. injection H as <-. split; [reflexivity|].
    split; [contradiction | auto].
  - cbn [Nc.for_each fst snd] in H. unfold Nc.bind_io in H.
    destruct (Nc.createVariable k (Utils.vm_dimensions vm) (Utils.vm_attrs vm) f)
      as [[[]|e] f1] eqn:E1; [|discriminate].
    destruct (createVariable_step _ _ _ _ _ E1) as [D1 [M1 P1]].
    destruct (IH f1 H) as [D2 [M2 P2]].
    split; [congruence|]. split.
    + intros k' [<-|I]; [now apply P2 | now apply M2].
    + intros k' Hk'. apply P2. now apply P1.
Qed.

(** X20.  The define phase of the no-grid [dump] cannot be run twice on one
    handle: the dimensions are created only where they are missing, the
    variables unconditionally, so after a define phase that returned a
    second one raises the [RuntimeError] of netCDF for a name in use, and
    leaves the handle as it is. *)
Theorem cime_pop_define_twice
    (self : CimePop.TracerModuleState) (fptr defined : Nc.dataset) :
  CimePop.tracers self <> [] ->
  CimePop.dump self "define" fptr = (OK self, defined) ->
  exists m,
    CimePop.dump self "define" defined = (Raise (RuntimeError m), defined).
Proof.
  intros Hne. unfold CimePop.dump. cbn [String.eqb Ascii.eqb Bool.eqb].
  set (dimnames := Nc.keys (CimePop._dims self)).
  unfold Nc.bind_io at 1 2.
  destruct (Nc.for_each (CimePop._dims self) _ fptr) as [[[]|e] f1] eqn:E1;
    [|discriminate].
  rewrite define_loop_as_create_vars.
  destruct (Utils.create_vars _ f1) as [[[]|e] f2] eqn:E2; [|discriminate].
  cbn [Nc.ret]. intros H. injection H as <-.
  destruct (dimensions_loop_result _ _ _ E1) as [G1 _].
  destruct (create_vars_result _ _ _ E2) as [D2 [M2 _]].
  rewrite (bind_io_ok _ _ tt f2 f2)
    by (apply dimensions_loop_again; intros k l I; rewrite D2; now apply G1).
  unfold CimePop.tracer_names, CimePop.names_of, Nc.keys in *.
  destruct (CimePop.tracers self) as [|[t md] ts]; [contradiction|].
  cbn [map fst Nc.for_each]. unfold Nc.bind_io, Nc.createVariable.
  rewrite M2 by (cbn; now left).
  eexists. reflexivity.
Qed.

Lemma cime_pop_define_twice_witness :
  exists m,
    CimePop.dump pop_module_2x2 "define" pop_module_2x2_defined
    = (Raise (RuntimeError m), pop_module_2x2_defined).
Proof.
  apply (cime_pop_define_twice pop_module_2x2 new_dataset
           pop_module_2x2_defined).
  - discriminate.
  - vm_compute. reflexivity.
Defined.

(** X21.  The write phase on a handle where nothing of the module is defined
    raises a [KeyError] for the first variable it assigns to, the axis
    variable in the grid-aware variant and the [_CUR] variable of the
    first tracer in the other, and leaves the handle as it is.  In the
    no-grid variant the row [self._vals[0, :]] is read before the variable
    is looked up: values with the tracer axis only are refused with an
    [IndexError] first, whatever the handle holds. *)
Theorem dump_write_undefined :
  (forall (self : TestProblem.TracerModuleState) (fptr : Nc.dataset),
     Nc.mem (Nc.ds_variables fptr) (sa_axisname (TestProblem.depth self))
     = false ->
     TestProblem.dump self "write" fptr
     = (Raise (KeyError (sa_axisname (TestProblem.depth self))), fptr))
  /\
  (forall (self : CimePop.TracerModuleState) (fptr : Nc.dataset)
          (t : string) (md : tracer_metadata)
          (ts : Nc.dict tracer_metadata) (cnt d : nat) (rest : list nat),
     CimePop.tracers self = (t, md) :: ts ->
     Nd.shape (CimePop._vals self) = S cnt :: d :: rest ->
     Nc.mem (Nc.ds_variables fptr) (t +++ "_CUR") = false ->
     CimePop.dump self "write" fptr
     = (Raise (KeyError (t +++ "_CUR")), fptr))
  /\
  (forall (self : CimePop.TracerModuleState) (fptr : Nc.dataset) (cnt : nat),
     CimePop.tracers self <> [] ->
     Nd.shape (CimePop._vals self) = [cnt] ->
     CimePop.dump self "write" fptr
     = (Raise (IndexError (Msg "too many indices for array")), fptr)).
Proof.
  split; [|split].
  - intros self fptr M. unfold TestProblem.dump.
    cbn [String.eqb Ascii.eqb Bool.eqb]. unfold dump_write.
    unfold Nc.bind_io, Nc.assign. now rewrite M.
  - intros self fptr t md ts cnt d rest Ht Hs M. unfold CimePop.dump.
    cbn [String.eqb Ascii.eqb Bool.eqb].
    unfold CimePop.tracer_names, CimePop.names_of, Nc.keys, enumerate.
    rewrite Ht. cbn [map fst List.length seq combine Nc.for_each snd].
    unfold Nc.bind_io, Nc.reading, Nc.assign.
    rewrite (index0_all_row _ (S cnt) 0 (d :: rest) Hs) by (discriminate || lia).
    rewrite M. reflexivity.
  - intros self fptr cnt Hne Hs. unfold CimePop.dump.
    cbn [String.eqb Ascii.eqb Bool.eqb].
    unfold CimePop.tracer_names, CimePop.names_of, Nc.keys, enumerate.
    destruct (CimePop.tracers self) as [|[t md] ts]; [contradiction|].
    cbn [map fst List.length seq combine Nc.for_each snd].
    unfold Nc.bind_io, Nc.reading.
    rewrite (index0_all_one_axis _ cnt 0 Hs). reflexivity.
Qed.

Lemma dump_write_undefined_witness :
  TestProblem.dump (tp_module ["a"]) "write" new_dataset
  = (Raise (KeyError "depth"), new_dataset)
  /\ CimePop.dump pop_module_2x2 "write" new_dataset
     = (Raise (KeyError "a_CUR"), new_dataset)
  /\ CimePop.dump pop_module_flat "write" pop_module_2x2_defined
     = (Raise (IndexError (Msg "too many indices for array")),
        pop_module_2x2_defined).
Proof.
  split; [|split].
  - apply (proj1 dump_write_undefined (tp_module ["a"]) new_dataset).
    reflexivity.
  - apply (proj1 (proj2 dump_write_undefined) pop_module_2x2 new_dataset "a"
             no_metadata [("b", no_metadata)] 1%nat 2%nat [2%nat]);
      reflexivity.
  - apply (proj2 (proj2 dump_write_undefined) pop_module_flat
             pop_module_2x2_defined 2%nat);
      [discriminate | reflexivity].
Defined.

(** ** The grid-aware [dump]: define, write, and reading the file again *)

Lemma create_dimensions_verify_compatible (dims : Nc.dict nat)
    (f : Nc.dataset) :
  NoDup (Nc.keys dims) ->
  dims_agree (Nc.ds_dimensions f) dims ->
  exists f',
    Utils.create_dimensions_verify dims f = (OK tt, f') /\
    Nc.ds_attrs f' = Nc.ds_attrs f /\
    Nc.ds_variables f' = Nc.ds_variables f /\
    (forall k l, In (k, l) dims -> Nc.get (Nc.ds_dimensions f') k = Some l) /\
    (forall k l, Nc.get (Nc.ds_dimensions f) k = Some l ->
                 Nc.get (Nc.ds_dimensions f') k = Some l).
Proof.
  unfold Utils.create_dimensions_verify, dims_agree.
  revert f. induction dims as [|[k l] dims IH]; intros f Hnd Hag.
  - exists f. cbn. repeat split; auto. contradiction.
  - cbn [Nc.keys map fst] in Hnd. apply NoDup_cons_iff in Hnd.
    destruct Hnd as [Hk Hnd].
    assert (S1 : exists f1,
              Utils.create_dimension_exist_okay k l f = (OK tt, f1) /\
              Nc.ds_attrs f1 = Nc.ds_attrs f).
    { unfold Utils.create_dimension_exist_okay, Nc.createDimension, Nc.mem.
      destruct (Hag k l (or_introl eq_refl)) as [G|G]; rewrite G.
      - eexists. split; reflexivity.
      - rewrite Nat.eqb_refl. eexists. split; reflexivity. }
    destruct S1 as [f1 [E1 A1]].
    destruct (dimension_exist_okay_step _ _ _ _ E1) as [G1 [V1 P1]].
    destruct (IH f1 Hnd) as [f' [E [A [V [G P]]]]].
    + intros k' l' I.
      assert (Hne : k <> k').
      { intros ->. apply Hk. change k' with (fst (k', l')). now apply in_map. }
      destruct (Hag k' l' (or_intror I)) as [N|S]; [|right; now apply P1].
      left. clear - E1 N Hne.
      unfold Utils.create_dimension_exist_okay, Nc.createDimension, Nc.mem in E1.
      destruct (Nc.get (Nc.ds_dimensions f) k).
      * destruct (n =? l)%nat; [|discriminate]. now injection E1 as <-.
      * injection E1 as <-. cbn [Nc.ds_dimensions].
        now rewrite get_set_other.
    + exists f'. cbn [Nc.for_each fst snd].
      rewrite (bind_io_ok _ _ _ _ _ E1). split; [exact E|].
      split; [congruence|]. split; [congruence|]. split.
      * intros k' l' [Eq|I]; [injection Eq as <- <-; now apply P | now apply G].
      * intros k' l' G'. apply P. now apply P1.
Qed.

Lemma tracer_vars_fold (dimnames names : list string)
    (acc : Nc.dict Utils.var_metadata) :
  NoDup names -> (forall t, In t names -> ~ In t (Nc.keys acc)) ->
  fold_left
    (fun acc tracer_name =>
       Nc.set acc tracer_name
         {| Utils.vm_dimensions := dimnames; Utils.vm_attrs := [] |})
    names acc
  = acc ++ map (fun t => (t, {| Utils.vm_dimensions := dimnames;
                                Utils.vm_attrs := [] |})) names.
Proof.
  intros Hnd. revert acc. induction Hnd as [|t names Ht Hnd IH]; intros acc Hf.
  - cbn. now rewrite app_nil_r.
  - cbn [fold_left map].
    rewrite set_fresh by (apply get_not_in; apply Hf; now left).
    rewrite IH.
    + now rewrite <- app_assoc.
    + intros t' Ht' I. unfold Nc.keys in I. rewrite map_app, in_app_iff in I.
      destruct I as [I|[E|[]]]; [apply (Hf t'); [now right | exact I]|].
      cbn in E. congruence.
Qed.

Lemma get_store_all_other (l : list (string * list Q)) (fptr : Nc.dataset)
    (name : string) :
  ~ In name (map fst l) ->
  Nc.get (Nc.ds_variables (store_all l fptr)) name
  = Nc.get (Nc.ds_variables fptr) name.
Proof.
  unfold store_all. revert fptr.
  induction l as [|[n x] l IH]; intros fptr Hf; [reflexivity|].
  cbn [fold_left fst snd]. rewrite IH by (cbn in Hf; tauto).
  apply get_store_other. cbn in Hf. tauto.
Qed.

(** [dump_write] as the assignments it makes. *)
Lemma dump_write_stores (self : SpatialAxis) (fptr : Nc.dataset) :
  Nc.mem (Nc.ds_variables fptr) (sa_axisname self) = true ->
  Nc.mem (Nc.ds_variables fptr) (dump_name_bounds self) = true ->
  Nc.mem (Nc.ds_variables fptr) (dump_name_edges self) = true ->
  Nc.mem (Nc.ds_variables fptr) (dump_name_delta self) = true ->
  exists d0 d1,
    dump_write self fptr
    = (OK tt,
       store_all [(sa_axisname self, sa_mid self);
                  (dump_name_bounds self, d0);
                  (dump_name_bounds self, d1);
                  (dump_name_edges self, sa_edges self);
                  (dump_name_delta self, sa_delta self)] fptr).
Proof.
  intros Mn Mb Me Md. unfold dump_write.
  rewrite assign_declared by exact Mn.
  set (f1 := Nc.store fptr (sa_axisname self) (sa_mid self)).
  destruct (assign_column_declared (dump_name_bounds self) 0
              (Np.drop_last (sa_edges self)) f1) as [d0 E0];
    [unfold f1; now rewrite mem_store|].
  rewrite (bind_io_ok _ _ _ _ _ E0).
  set (f2 := Nc.store f1 (dump_name_bounds self) d0).
  destruct (assign_column_declared (dump_name_bounds self) 1
              (Np.drop_first (sa_edges self)) f2) as [d1 E1];
    [unfold f2, f1; now rewrite !mem_store|].
  rewrite (bind_io_ok _ _ _ _ _ E1).
  set (f3 := Nc.store f2 (dump_name_bounds self) d1).
  rewrite assign_declared by (unfold f3, f2, f1; now rewrite !mem_store).
  set (f4 := Nc.store f3 (dump_name_edges self) (sa_edges self)).
  rewrite assign_declared_last
    by (unfold f4, f3, f2, f1; now rewrite !mem_store).
  exists d0, d1. reflexivity.
Qed.

Lemma test_problem_write_loop (vals : Nd.ndarray) (cnt : nat) (rest : list nat)
    (names : list string) (k : nat) (fptr : Nc.dataset) :
  Nd.shape vals = cnt :: rest ->
  rest <> [] ->
  (k + List.length names <= cnt)%nat ->
  (forall t, In t names -> Nc.mem (Nc.ds_variables fptr) t = true) ->
  Nc.for_each (combine (seq k (List.length names)) names)
    (fun it =>
       row <- Nc.reading (fun _ => Nd.index0_all vals (fst it)) ;;
       Nc.assign (snd it) (Nd.data row))
    fptr
  = (OK tt,
     store_all
       (map (fun it => (snd it, Nd.chunk (Nd.size rest) (fst it) (Nd.data vals)))
          (combine (seq k (List.length names)) names)) fptr).
Proof.
  intros Hs Hr. revert k fptr. induction names as [|t names IH];
    intros k fptr Hk Hm; [reflexivity|].
  cbn [List.length seq combine Nc.for_each map fst snd].
  assert (Ei : Nd.index0_all vals k
               = OK {| Nd.shape := rest;
                       Nd.data := Nd.chunk (Nd.size rest) k (Nd.data vals) |}).
  { apply (index0_all_row vals cnt k rest Hs Hr). cbn in Hk. lia. }
  set (row := Nd.chunk (Nd.size rest) k (Nd.data vals)).
  rewrite (bind_io_ok _ _ tt fptr (Nc.store fptr t row)).
  - rewrite IH.
    + reflexivity.
    + cbn in Hk. lia.
    + intros t' Ht'. rewrite mem_store. apply Hm. now right.
  - rewrite (reading_ok _ _ _ _ Ei). cbn [Nd.data].
    apply assign_declared_last. apply Hm. now left.
Qed.

Lemma dict_of_lengths (d : Nc.dict nat) (fptr : Nc.dataset) :
  (forall k l, In (k, l) d -> Nc.get (Nc.ds_dimensions fptr) k = Some l) ->
  map (fun n => (n, dim_len_of fptr n)) (Nc.keys d) = d
  /\ lens_of fptr (Nc.keys d) = Nc.values d.
Proof.
  intros H.
  assert (G : forall k v, In (k, v) d -> dim_len_of fptr k = v).
  { intros k v Hin. unfold dim_len_of. now rewrite (H k v Hin). }
  clear H. unfold lens_of, Nc.keys, Nc.values.
  induction d as [|[k v] d IH]; [now split|].
  cbn [map fst snd]. rewrite (G k v) by now left.
  destruct IH as [I1 I2]; [intros k' v' H; apply G; now right|].
  split; f_equal; assumption.
Qed.

Lemma get_app_not_in {V} (d1 d2 : Nc.dict V) (k : string) :
  ~ In k (Nc.keys d1) -> Nc.get (d1 ++ d2) k = Nc.get d2 k.
Proof.
  induction d1 as [|[k0 v0] d1 IH]; intros H; [reflexivity|].
  cbn [app Nc.get]. cbn in H.
  destruct (String.eqb_spec k0 k) as [->|]; [tauto|]. apply IH. tauto.
Qed.

Lemma dump_vars_metadata_keys (self : SpatialAxis) :
  Nc.keys (dump_vars_metadata self)
  = [sa_axisname self; dump_name_bounds self; dump_name_edges self;
     dump_name_delta self]
  /\ NoDup (Nc.keys (dump_vars_metadata self)).
Proof.
  rewrite dump_vars_metadata_distinct. cbn [Nc.keys map fst].
  split; [reflexivity|].
  assert (S : forall sfx, sfx <> EmptyString ->
                sa_axisname self <> sa_axisname self +++ sfx).
  { intros sfx Hs H. symmetry in H. revert H. now apply append_neq_self. }
  assert (D : forall s t, s <> t ->
                sa_axisname self +++ s <> sa_axisname self +++ t).
  { intros s t Hst H. apply append_inj_l in H. contradiction. }
  unfold dump_name_bounds, dump_name_edges, dump_name_delta.
  assert (N1 := S "_bounds" ltac:(discriminate)).
  assert (N2 := S "_edges" ltac:(discriminate)).
  assert (N3 := S "_delta" ltac:(discriminate)).
  assert (N4 := D "_bounds" "_edges" ltac:(discriminate)).
  assert (N5 := D "_bounds" "_delta" ltac:(discriminate)).
  assert (N6 := D "_edges" "_delta" ltac:(discriminate)).
  repeat constructor; cbn [In]; intuition congruence.
Qed.

Lemma dump_vars_metadata_dims (self : SpatialAxis) (k : string)
    (vm : Utils.var_metadata) (dname : string) :
  In (k, vm) (dump_vars_metadata self) ->
  In dname (Utils.vm_dimensions vm) ->
  In dname [sa_axisname self; "nbnds"; dump_name_edges self].
Proof.
  rewrite dump_vars_metadata_distinct. cbn [In].
  intros H. repeat (destruct H as [H|H]; [injection H as _ <-|]);
    try contradiction; cbn [Utils.vm_dimensions In]; tauto.
Qed.

(** The define phase of the grid-aware [dump] on a new file. *)
Lemma test_problem_define_new (self : TestProblem.TracerModuleState)
    (n : nat) :
  SpatialAxis_len (TestProblem.depth self) = OK n ->
  sa_axisname (TestProblem.depth self) <> "nbnds" ->
  NoDup (TestProblem.tracer_names self) ->
  (forall t, In t (TestProblem.tracer_names self) ->
     ~ In t (Nc.keys (dump_vars_metadata (TestProblem.depth self)))) ->
  NoDup (Nc.keys (TestProblem._dimensions self)) ->
  dims_agree (TestProblem._dimensions self)
    [(sa_axisname (TestProblem.depth self), n); ("nbnds", 2%nat);
     (dump_name_edges (TestProblem.depth self), (n + 1)%nat)] ->
  exists defined,
    TestProblem.dump self "define" new_dataset = (OK self, defined) /\
    (forall k l, In (k, l) (TestProblem._dimensions self) ->
       Nc.get (Nc.ds_dimensions defined) k = Some l) /\
    (forall k, In k (Nc.keys (dump_vars_metadata (TestProblem.depth self))) ->
       Nc.mem (Nc.ds_variables defined) k = true) /\
    (forall t, In t (TestProblem.tracer_names self) ->
       exists v, Nc.get (Nc.ds_variables defined) t = Some v /\
                 Nc.var_dimensions v
                 = Nc.keys (TestProblem._dimensions self)).
Proof.
  intros Hlen Hname Hn Hfresh Hd Hag.
  set (depth := TestProblem.depth self) in *.
  set (names := TestProblem.tracer_names self) in *.
  set (dimnames := Nc.keys (TestProblem._dimensions self)).
  set (ddims := [(sa_axisname depth, n); ("nbnds", 2%nat);
                 (dump_name_edges depth, (n + 1)%nat)]) in *.
  set (ds1 := {| Nc.ds_attrs := [];
                 Nc.ds_dimensions := TestProblem._dimensions self;
                 Nc.ds_variables := [] |}).
  assert (E1 : Utils.create_dimensions_verify (TestProblem._dimensions self)
                 new_dataset = (OK tt, ds1)).
  { rewrite create_dimensions_verify_new; [reflexivity | exact Hd |].
    intros k _. reflexivity. }
  assert (Eddims : dump_dimensions depth = OK ddims)
    by now apply dump_dimensions_distinct.
  assert (Nddims : NoDup (Nc.keys ddims)).
  { cbn [Nc.keys map fst ddims].
    assert (N2 : sa_axisname depth <> dump_name_edges depth).
    { intros H. symmetry in H. revert H. now apply append_neq_self. }
    assert (N3 : "nbnds" <> dump_name_edges depth).
    { intros H. apply (f_equal String.length) in H.
      unfold dump_name_edges in H. rewrite length_append in H. cbn in H. lia. }
    repeat constructor; cbn [In]; intuition congruence. }
  destruct (create_dimensions_verify_compatible ddims ds1 Nddims Hag)
    as [ds2 [E2 [A2 [V2 [G2 P2]]]]].
  cbn [Nc.ds_attrs Nc.ds_variables Nc.ds_dimensions ds1] in A2, V2, P2.
  destruct (dump_vars_metadata_keys depth) as [Kax Nax].
  destruct (create_vars_new (dump_vars_metadata depth) ds2 Nax)
    as [V3 [E3 [K3 P3]]].
  { intros k _. now rewrite V2. }
  { intros k vm Hin. exists (lens_of ds2 (Utils.vm_dimensions vm)).
    apply dim_lens_defined. intros dname Hdn.
    assert (I := dump_vars_metadata_dims depth k vm dname Hin Hdn).
    assert (I' : exists l, In (dname, l) ddims).
    { cbn [In] in I. destruct I as [<-|[<-|[<-|[]]]]; eexists; cbn [In ddims];
        eauto. }
    destruct I' as [l Il]. eapply mem_of_get. apply (G2 _ _ Il). }
  rewrite V2 in E3. cbn [app] in E3.
  set (ds3 := {| Nc.ds_attrs := Nc.ds_attrs ds2;
                 Nc.ds_dimensions := Nc.ds_dimensions ds2;
                 Nc.ds_variables := V3 |}) in *.
  set (vm := {| Utils.vm_dimensions := dimnames; Utils.vm_attrs := [] |}).
  assert (Etr : fold_left (fun acc tracer_name => Nc.set acc tracer_name vm)
                  names []
                = map (fun t => (t, vm)) names).
  { unfold vm.
    rewrite (tracer_vars_fold dimnames names []); [reflexivity | exact Hn |].
    intros t _ []. }
  assert (Ktr : Nc.keys (map (fun t => (t, vm)) names) = names).
  { unfold Nc.keys. rewrite map_map. apply map_id. }
  destruct (create_vars_new (map (fun t => (t, vm)) names) ds3)
    as [V4 [E4 [K4 P4]]].
  { now rewrite Ktr. }
  { intros k Hk. rewrite Ktr in Hk. cbn [Nc.ds_variables ds3].
    apply get_not_in. rewrite K3. now apply Hfresh. }
  { intros k vm' Hin. apply in_map_iff in Hin.
    destruct Hin as [t [Et _]]. injection Et as _ <-.
    exists (lens_of ds3 dimnames). apply dim_lens_defined.
    intros dname Hdn. unfold dimnames, Nc.keys in Hdn.
    apply in_map_iff in Hdn. destruct Hdn as [[k' l'] [<- Hkl]].
    cbn [fst ds3 Nc.ds_dimensions]. apply (mem_of_get _ _ l').
    apply P2. exact (get_in_nodup _ _ _ Hd Hkl). }
  cbn [Nc.ds_attrs Nc.ds_dimensions Nc.ds_variables ds3] in E4.
  eexists. split; [|split; [|split]].
  - unfold TestProblem.dump. cbn [String.eqb Ascii.eqb Bool.eqb].
    rewrite (bind_io_ok _ _ _ _ _ E1).
    erewrite (bind_io_ok _ _ ddims ds1 ds1)
      by (unfold Nc.reading; fold depth; now rewrite Eddims).
    rewrite (bind_io_ok _ _ _ _ _ E2).
    erewrite (bind_io_ok _ _ false ds2 ds2)
      by (unfold Nc.reading; now rewrite V2).
    cbn [negb]. fold depth. rewrite (bind_io_ok _ _ _ _ _ E3).
    fold names dimnames vm. rewrite Etr.
    rewrite (bind_io_ok _ _ _ _ _ E4). reflexivity.
  - intros k l Hkl. cbn [Nc.ds_dimensions]. apply P2.
    now apply get_in_nodup.
  - intros k Hk. cbn [Nc.ds_variables]. unfold Nc.mem.
    rewrite <- K3 in Hk. unfold Nc.keys in Hk. apply in_map_iff in Hk.
    destruct Hk as [[k' v] [<- Hv]]. cbn [fst].
    assert (G : Nc.get V3 k' = Some v)
      by (apply get_in_nodup; [now rewrite K3 | exact Hv]).
    assert (G' : Nc.get (V3 ++ V4) k' = Some v).
    { clear - G. induction V3 as [|[k0 v0] V3 IH]; [discriminate|].
      cbn [app Nc.get] in *. destruct (String.eqb k0 k'); auto. }
    now rewrite G'.
  - intros t Ht. cbn [Nc.ds_variables].
    destruct (P4 t vm) as [v [Iv [Dv _]]].
    { apply in_map_iff. now exists t. }
    exists v. split; [|exact Dv].
    rewrite get_app_not_in by (rewrite K3; now apply Hfresh).
    apply get_in_nodup; [now rewrite K4, Ktr | exact Iv].
Qed.

(** X22.  Round trip of the grid-aware variant: a module on an axis with at
    least one layer, whose tracer names are distinct and are not names
    of the axis variables, whose dimensions agree with those of the axis
    and whose values have shape (tracers, dimensions...) on one to
    three distinct dimensions of non-zero length, that is dumped to a new
    file, define phase then write phase, is read back from that file
    with the values and the dimensions it had. *)
Theorem test_problem_dump_read_vals
    (self : TestProblem.TracerModuleState)
    (tracer_module_name fname : string)
    (name unit_s : string) (e : list Q) (ddv : option string) :
  TestProblem.depth self = derive name unit_s e ddv ->
  (2 <= List.length e)%nat -> name <> "nbnds" ->
  TestProblem.tracers self <> [] ->
  NoDup (TestProblem.tracer_names self) ->
  (forall t, In t (TestProblem.tracer_names self) ->
     ~ In t (Nc.keys (dump_vars_metadata (TestProblem.depth self)))) ->
  NoDup (Nc.keys (TestProblem._dimensions self)) ->
  (1 <= List.length (TestProblem._dimensions self) <= 3)%nat ->
  Forall (fun n => (1 <= n)%nat) (Nc.values (TestProblem._dimensions self)) ->
  dims_agree (TestProblem._dimensions self)
    [(name, (List.length e - 1)%nat); ("nbnds", 2%nat);
     (name +++ "_edges", (List.length e - 1 + 1)%nat)] ->
  Nd.shape (TestProblem._vals self)
  = List.length (TestProblem.tracers self)
    :: Nc.values (TestProblem._dimensions self) ->
  Nd.well_formed (TestProblem._vals self) ->
  fname <> "zeros" -> fname <> "gen_init_iterate" ->
  exists defined written,
    TestProblem.dump self "define" new_dataset = (OK self, defined) /\
    TestProblem.dump self "write" defined = (OK self, written) /\
    TestProblem._read_vals (TestProblem.tracers self) (TestProblem.depth self)
      (one_file fname written) tracer_module_name fname
    = OK (TestProblem._vals self, TestProblem._dimensions self).
Proof.
  intros Hdepth He Hname Hne Hn Hfresh Hd Hlen _ Hag Hshape Hwf Hz Hg.
  set (depth := TestProblem.depth self) in *.
  set (names := TestProblem.tracer_names self) in *.
  set (dimnames := Nc.keys (TestProblem._dimensions self)) in *.
  set (vals := TestProblem._vals self) in *.
  set (cnt := List.length (TestProblem.tracers self)) in *.
  set (rest := Nc.values (TestProblem._dimensions self)) in *.
  assert (Lnames : List.length names = cnt)
    by (unfold names, TestProblem.tracer_names, TestProblem.names_of, Nc.keys;
        apply length_map).
  assert (Hl : SpatialAxis_len depth = OK (List.length e - 1)%nat).
  { rewrite Hdepth. apply derive_len_nonempty. intros ->. cbn in He. lia. }
  assert (Hax : sa_axisname depth = name) by now rewrite Hdepth.
  assert (Hrest : rest <> []).
  { unfold rest, Nc.values. destruct (TestProblem._dimensions self);
      [cbn in Hlen; lia | discriminate]. }
  destruct (test_problem_define_new self (List.length e - 1)%nat)
    as [defined [Edef [Gd [Max Gtr]]]]; try assumption.
  { fold depth. now rewrite Hax. }
  { fold depth. unfold dump_name_edges. now rewrite Hax. }
  fold depth names dimnames in Max, Gtr.
  destruct (dump_vars_metadata_keys depth) as [Kax _].
  destruct (dump_write_stores depth defined) as [d0 [d1 Eax]];
    try (apply Max; rewrite Kax; cbn [In]; tauto).
  set (Lax := [(sa_axisname depth, sa_mid depth);
               (dump_name_bounds depth, d0); (dump_name_bounds depth, d1);
               (dump_name_edges depth, sa_edges depth);
               (dump_name_delta depth, sa_delta depth)]) in *.
  set (f5 := store_all Lax defined) in *.
  set (m := Nd.size rest).
  set (its := combine (seq 0 (List.length names)) names).
  set (Ltr := map (fun it => (snd it, Nd.chunk m (fst it) (Nd.data vals))) its).
  set (written := store_all Ltr f5).
  assert (Hnotax : forall t, In t names -> ~ In t (map fst Lax)).
  { intros t Ht I. apply (Hfresh t Ht). rewrite Kax.
    cbn [map fst Lax In] in I. cbn [In]. tauto. }
  assert (Gf5 : forall t, In t names ->
            Nc.get (Nc.ds_variables f5) t = Nc.get (Nc.ds_variables defined) t).
  { intros t Ht. unfold f5. apply get_store_all_other. now apply Hnotax. }
  assert (Ewr : TestProblem.dump self "write" defined = (OK self, written)).
  { unfold TestProblem.dump. cbn [String.eqb Ascii.eqb Bool.eqb].
    fold depth. rewrite (bind_io_ok _ _ _ _ _ Eax).
    erewrite bind_io_ok; [reflexivity|].
    unfold enumerate. fold names vals.
    apply (test_problem_write_loop vals cnt rest names 0 f5 Hshape);
      [exact Hrest | lia |].
    intros t Ht. unfold Nc.mem. rewrite (Gf5 t Ht).
    destruct (Gtr t Ht) as [v [G _]]. now rewrite G. }
  exists defined, written. split; [exact Edef|]. split; [exact Ewr|].
  assert (Dw : Nc.ds_dimensions written = Nc.ds_dimensions defined)
    by (unfold written, f5; now rewrite !dims_store_all).
  destruct (dict_of_lengths (TestProblem._dimensions self) written)
    as [Ed El].
  { intros k l Hkl. rewrite Dw. now apply Gd. }
  fold dimnames in Ed, El. fold rest in El.
  assert (Hdata : List.length (Nd.data vals) = (cnt * m)%nat).
  { unfold Nd.well_formed in Hwf. rewrite Hshape in Hwf. exact Hwf. }
  assert (Kits : map fst Ltr = names).
  { unfold Ltr, its. rewrite map_map. cbn [fst].
    clear. generalize 0%nat. induction names as [|t ns IH]; intros k;
      [reflexivity|].
    cbn [List.length seq combine map snd]. f_equal. apply IH. }
  assert (Grow : forall i t, nth_error names i = Some t ->
            exists v,
              Nc.get (Nc.ds_variables written) t
              = Some (Nc.with_data v (Nd.chunk m i (Nd.data vals))) /\
              Nc.var_dimensions v = dimnames).
  { intros i t Hi.
    assert (Ht := nth_error_In _ _ Hi).
    destruct (Gtr t Ht) as [v [G Dv]].
    exists v. split; [|exact Dv].
    unfold written. apply get_store_all.
    - now rewrite Kits.
    - unfold Ltr. apply in_map_iff. exists (i, t).
      split; [reflexivity | apply (in_enumerate names 0 i t Hi)].
    - now rewrite Gf5. }
  rewrite (test_problem_read_vals_rows (TestProblem.tracers self) depth
             (one_file fname written) tracer_module_name fname written
             dimnames Hz Hg).
  - rewrite Ed, El. f_equal. f_equal.
    fold cnt. fold names.
    rewrite (map_by_index _ (fun i => Nd.chunk m i (Nd.data vals)) names 0).
    + rewrite Lnames, <- flat_map_concat_map, flat_map_chunks by exact Hdata.
      destruct vals as [sh dt]. cbn [Nd.shape Nd.data] in *. now rewrite Hshape.
    + intros i t Hi. destruct (Grow i t Hi) as [v [G _]].
      unfold data_of. now rewrite G.
  - unfold one_file. now rewrite String.eqb_refl.
  - exact Hne.
  - exact Hd.
  - unfold dimnames, Nc.keys. now rewrite length_map.
  - intros k Hk. unfold dimnames, Nc.keys in Hk. apply in_map_iff in Hk.
    destruct Hk as [[k' l'] [<- Hkl]]. cbn [fst].
    apply (mem_of_get _ _ l'). rewrite Dw. now apply Gd.
  - intros t Ht. apply In_nth_error in Ht. destruct Ht as [i Hi].
    change (nth_error names i = Some t) in Hi.
    destruct (Grow i t Hi) as [v [G Dv]].
    exists (Nc.with_data v (Nd.chunk m i (Nd.data vals))).
    split; [exact G|]. split; [exact Dv|].
    cbn [Nc.with_data Nc.var_data]. rewrite El.
    apply length_chunk.
    assert (i < cnt)%nat
      by (rewrite <- Lnames; apply nth_error_Some; congruence).
    rewrite Hdata. fold m. nia.
Qed.

Lemma test_problem_dump_read_vals_witness :
  exists defined written,
    TestProblem.dump tp_module_2x2 "define" new_dataset
    = (OK tp_module_2x2, defined) /\
    TestProblem.dump tp_module_2x2 "write" defined
    = (OK tp_module_2x2, written) /\
    TestProblem._read_vals (TestProblem.tracers tp_module_2x2)
      (TestProblem.depth tp_module_2x2)
      (one_file "iterate.nc" written) "abio" "iterate.nc"
    = OK (TestProblem._vals tp_module_2x2,
          TestProblem._dimensions tp_module_2x2).
Proof.
  apply (test_problem_dump_read_vals tp_module_2x2 "abio" "iterate.nc"
           "depth" "m" [0; 10; 30] None).
  - reflexivity.
  - cbn. lia.
  - discriminate.
  - discriminate.
  - repeat constructor; cbn; intuition discriminate.
  - intros t [<-|[<-|[]]]; cbn; intuition discriminate.
  - repeat constructor; cbn; tauto.
  - cbn. lia.
  - repeat constructor.
  - intros k l [E|[E|[E|[]]]]; injection E as <- <-; cbn; auto.
  - reflexivity.
  - reflexivity.
  - discriminate.
  - discriminate.
Defined.

(** ** The time mean of a series that is linear in time *)

Lemma trapezoid_weights_symmetric (T : nat) (i : nat) :
  (2 <= T)%nat -> (i < T)%nat ->
  nth (T - 1 - i) (trapezoid_weights T) 0 = nth i (trapezoid_weights T) 0.
Proof.
  intros HT Hi.
  assert (L : List.length (trapezoid_weights T) = T).
  { unfold trapezoid_weights. cbn [List.length].
    rewrite length_app, repeat_length. cbn. lia. }
  assert (R : rev (trapezoid_weights T) = trapezoid_weights T).
  { unfold trapezoid_weights. cbn [rev].
    rewrite rev_app_distr, rev_repeat. reflexivity. }
  rewrite <- R at 2. rewrite rev_nth by lia. rewrite L.
  f_equal. lia.
Qed.

Lemma weights_first_moment (fptr : Nc.dataset) (T : nat) (w : list Q) :
  Nc.dim_len fptr "time" = OK T -> (2 <= T)%nat ->
  TestProblem.hist_time_mean_weights fptr = OK w ->
  sum_upto (fun i => nth i w 0) T == 1 /\
  sum_upto (fun i => nth i w 0 * Np.of_nat i) T == Np.of_nat (T - 1) * (1 # 2).
Proof.
  intros Ht HT Hw.
  destruct (hist_time_mean_weights_sum fptr T Ht HT) as [w' [Ew [Lw [_ Sw]]]].
  assert (w' = w) by congruence. subst w'.
  assert (Et := hist_time_mean_weights_trapezoid fptr T Ht HT).
  assert (w = trapezoid_weights T) by congruence.
  assert (S0 : sum_upto (fun i => nth i w 0) T == 1).
  { unfold sum_upto. rewrite <- Lw, map_nth_seq. exact Sw. }
  split; [exact S0|].
  set (S := sum_upto (fun i => nth i w 0 * Np.of_nat i) T).
  assert (E : S == Np.of_nat (T - 1) * 1 - S).
  { unfold S at 1. rewrite sum_upto_reverse. rewrite <- S0.
    unfold S, sum_upto.
    rewrite <- sum_map_scale.
    assert (P : forall a b, a - b == a + -1 * b) by (intros; ring).
    rewrite P, <- sum_map_scale, <- sum_map_plus.
    apply sum_map_ext. intros i Hi. apply in_seq in Hi.
    subst w. rewrite trapezoid_weights_symmetric by lia.
    replace (T - 1 - i)%nat with ((T - 1) - i)%nat by lia.
    rewrite of_nat_sub by lia. ring. }
  lra.
Qed.

(** X23.  In exact arithmetic, for a stored time length T >= 2 the time
    mean of a series that is linear in time is, at every point, the
    average of its first and its last sample: the weights, halved at
    both ends, are those of the trapezoid rule. *)
Theorem time_mean_linear
    (fptr : Nc.dataset) (T : nat) (vals : Nd.ndarray) (rest : list nat)
    (A B : nat -> Q) :
  Nc.dim_len fptr "time" = OK T -> (2 <= T)%nat ->
  Nd.shape vals = T :: rest -> Nd.well_formed vals ->
  linear_in_time T (Nd.size rest) (Nd.data vals) A B ->
  exists w mean,
    TestProblem.hist_time_mean_weights fptr = OK w /\
    Nd.einsum_i w vals = OK mean /\
    Nd.shape mean = rest /\
    forall j, (j < Nd.size rest)%nat ->
      nth j (Nd.data mean) 0
      == (1 # 2) * (nth j (Nd.data vals) 0
                    + nth ((T - 1) * Nd.size rest + j) (Nd.data vals) 0).
Proof.
  intros Ht HT Hshape Hwf Hlin.
  destruct (hist_time_mean_weights_sum fptr T Ht HT) as [w [Ew [Lw _]]].
  destruct (weights_first_moment fptr T w Ht HT Ew) as [S0 S1].
  destruct vals as [sh vs]. cbn [Nd.shape Nd.data] in *. subst sh.
  set (m := Nd.size rest) in *.
  exists w. eexists. split; [exact Ew|].
  rewrite (einsum_i_same_length w T rest vs Lw).
  split; [reflexivity|]. split; [reflexivity|].
  cbn [Nd.data]. fold m. intros j Hj.
  rewrite nth_map_seq by exact Hj.
  rewrite (sum_map_ext _ (fun i => A j * nth i w 0
                                   + B j * (nth i w 0 * Np.of_nat i))).
  2:{ intros i Hi. apply in_seq in Hi. rewrite nth_chunk by exact Hj.
      rewrite (Hlin i j) by lia. ring. }
  rewrite sum_map_plus, !sum_map_scale.
  fold (sum_upto (fun i => nth i w 0) T).
  fold (sum_upto (fun i => nth i w 0 * Np.of_nat i) T).
  rewrite S0, S1.
  assert (F := Hlin 0%nat j ltac:(lia) Hj).
  assert (L := Hlin (T - 1)%nat j ltac:(lia) Hj).
  cbn [Nat.mul Nat.add] in F. rewrite F, L.
  unfold Np.of_nat at 2. cbn [Z.of_nat inject_Z]. ring.
Qed.

Lemma time_mean_linear_witness :
  exists w mean,
    TestProblem.hist_time_mean_weights (time_only 3) = OK w /\
    Nd.einsum_i w {| Nd.shape := [3%nat; 2%nat]; Nd.data := [1; 5; 2; 4; 3; 3] |}
    = OK mean /\
    Nd.shape mean = [2%nat] /\
    forall j, (j < Nd.size [2%nat])%nat ->
      nth j (Nd.data mean) 0
      == (1 # 2) * (nth j [1; 5; 2; 4; 3; 3] 0
                    + nth ((3 - 1) * Nd.size [2%nat] + j) [1; 5; 2; 4; 3; 3] 0).
Proof.
  apply (time_mean_linear (time_only 3) 3
           {| Nd.shape := [3%nat; 2%nat]; Nd.data := [1; 5; 2; 4; 3; 3] |}
           [2%nat]
           (fun j => nth j [1; 5] 0) (fun j => nth j [1; -1] 0));
    [reflexivity | lia | reflexivity | reflexivity |].
  intros i j Hi Hj. cbn in Hj.
  destruct i as [|[|[|i]]]; [| | |lia];
    (destruct j as [|[|j]]; [| |lia]); vm_compute; reflexivity.
Defined.

(** ** [hist_vars_metadata]: what it declares *)

Lemma set_all_fresh {V} (l acc : Nc.dict V) :
  NoDup (Nc.keys l) -> (forall k, In k (Nc.keys l) -> ~ In k (Nc.keys acc)) ->
  fold_left (fun r kv => Nc.set r (fst kv) (snd kv)) l acc = acc ++ l.
Proof.
  revert acc. induction l as [|[k v] l IH]; intros acc Hnd Hf.
  - cbn. now rewrite app_nil_r.
  - cbn [Nc.keys map fst] in Hnd. apply NoDup_cons_iff in Hnd.
    destruct Hnd as [Hk Hnd]. cbn [fold_left fst snd].
    rewrite set_fresh by (apply get_not_in; apply Hf; now left).
    rewrite IH; [now rewrite <- app_assoc | exact Hnd |].
    intros k' Hk' I. unfold Nc.keys in I. rewrite map_app, in_app_iff in I.
    destruct I as [I|[E|[]]]; [apply (Hf k'); [now right | exact I]|].
    cbn in E. subst k'. contradiction.
Qed.

Lemma tracer_like_explicit (self : TestProblem.TracerModuleState) :
  NoDup (TestProblem.tracer_names self) ->
  hist_vars_metadata_tracer_like self
  = map (fun kv => (fst kv, tm_attrs (snd kv))) (TestProblem.tracers self).
Proof.
  intros Hnd. unfold hist_vars_metadata_tracer_like.
  set (l := map (fun kv => (fst kv, tm_attrs (snd kv)))
              (TestProblem.tracers self)).
  assert (E : forall acc,
            fold_left (fun res kv => Nc.set res (fst kv) (tm_attrs (snd kv)))
              (TestProblem.tracers self) acc
            = fold_left (fun r kv => Nc.set r (fst kv) (snd kv)) l acc).
  { unfold l. clear. induction (TestProblem.tracers self) as [|kv t IH];
      intros acc; [reflexivity|]. cbn [map fold_left fst snd]. apply IH. }
  rewrite E, set_all_fresh; [reflexivity | |].
  - unfold l, Nc.keys. rewrite map_map. exact Hnd.
  - intros k _ [].
Qed.

Section HistMetadataFacts.

Variable units_str_format : string -> string.
Variable depth_units : string.

Lemma hist_vars_metadata_tracer_described (res : Nc.dict hist_var_metadata)
    (t : string) (attrs : Nc.dict string) :
  Nc.mem attrs "long_name" = true -> Nc.mem attrs "units" = true ->
  exists ms,
    hist_vars_metadata_tracer units_str_format depth_units res (t, attrs)
    = OK (fold_left (fun r kv => Nc.set r (fst kv) (snd kv))
            (combine (hist_names t) ms) res) /\
    map (fun m => dims_rank (hm_dimensions m)) ms = hist_ranks.
Proof.
  intros Hl Hu. unfold hist_vars_metadata_tracer, append_attr.
  cbn [fst snd]. unfold Nc.mem in Hl, Hu.
  destruct (Nc.get attrs "long_name") as [ln|] eqn:Gl; [|discriminate].
  cbn [bind].
  assert (Gu : forall sfx,
            exists u, Nc.get (Nc.set attrs "long_name" (ln +++ sfx)) "units"
                      = Some u).
  { intros sfx. rewrite get_set_other by discriminate.
    destruct (Nc.get attrs "units") as [u|]; [now exists u | discriminate]. }
  destruct (Gu ", depth integral") as [u Eu]. rewrite Eu. cbn [bind].
  eexists [_; _; _; _; _; _]. split; reflexivity.
Qed.

Lemma hist_vars_metadata_tracer_undescribed (res : Nc.dict hist_var_metadata)
    (t : string) (attrs : Nc.dict string) :
  Nc.mem attrs "long_name" = false ->
  hist_vars_metadata_tracer units_str_format depth_units res (t, attrs)
  = Raise (KeyError "long_name").
Proof.
  intros Hl. unfold hist_vars_metadata_tracer, append_attr. cbn [fst snd].
  unfold Nc.mem in Hl. now destruct (Nc.get attrs "long_name").
Qed.

Lemma hist_vars_metadata_fold (items : Nc.dict (Nc.dict string))
    (res : Nc.dict hist_var_metadata) :
  (forall t attrs, In (t, attrs) items ->
     Nc.mem attrs "long_name" = true /\ Nc.mem attrs "units" = true) ->
  exists l,
    fold_left
      (fun acc item =>
         let* r := acc in
         hist_vars_metadata_tracer units_str_format depth_units r item)
      items (OK res)
    = OK (fold_left (fun r kv => Nc.set r (fst kv) (snd kv)) l res) /\
    map fst l = flat_map hist_names (map fst items) /\
    map (fun kv => dims_rank (hm_dimensions (snd kv))) l
    = flat_map (fun _ => hist_ranks) items.
Proof.
  revert res. induction items as [|[t attrs] items IH]; intros res H.
  - exists []. repeat split.
  - destruct (H t attrs (or_introl eq_refl)) as [Hl Hu].
    destruct (hist_vars_metadata_tracer_described res t attrs Hl Hu)
      as [ms [E R]].
    cbn [fold_left bind]. rewrite E.
    destruct (IH (fold_left (fun r kv => Nc.set r (fst kv) (snd kv))
                    (combine (hist_names t) ms) res)) as [l [El [Kl Rl]]].
    { intros t' a' I. apply (H t' a'). now right. }
    exists (combine (hist_names t) ms ++ l).
    assert (Lms : List.length ms = 6%nat)
      by (apply (f_equal (@List.length nat)) in R;
          rewrite length_map in R; exact R).
    split; [|split].
    + rewrite El. now rewrite fold_left_app.
    + rewrite map_app, Kl. cbn [map fst flat_map]. f_equal.
      destruct ms as [|m0 [|m1 [|m2 [|m3 [|m4 [|m5 [|]]]]]]];
        try discriminate. reflexivity.
    + rewrite map_app, Rl. cbn [flat_map]. f_equal. rewrite <- R.
      destruct ms as [|m0 [|m1 [|m2 [|m3 [|m4 [|m5 [|]]]]]]];
        try discriminate. reflexivity.
Qed.

Lemma hist_vars_metadata_fold_raise (items : Nc.dict (Nc.dict string))
    (e : exn) :
  fold_left
    (fun acc item =>
       let* r := acc in
       hist_vars_metadata_tracer units_str_format depth_units r item)
    items (Raise e)
  = Raise e.
Proof. induction items as [|it items IH]; [reflexivity | exact IH]. Qed.

End HistMetadataFacts.

(** X24.  For a module in which no two history variables share a name and
    every tracer has a long name and units, [hist_vars_metadata] declares
    exactly the six variables per tracer that [write_hist_vars] assigns
    to, in that order, each on as many dimensions as the array assigned
    to it has axes.  A tracer without a long name, after tracers that
    have one, makes the method raise [KeyError] for ["long_name"]. *)
Theorem hist_vars_metadata_declares
    (units_str_format : string -> string)
    (self : TestProblem.TracerModuleState) :
  (NoDup (flat_map hist_names (TestProblem.tracer_names self)) ->
   (forall t md, In (t, md) (TestProblem.tracers self) -> described md) ->
   exists res,
     hist_vars_metadata units_str_format self = OK res /\
     Nc.keys res
     = flat_map hist_names (TestProblem.hist_vars_tracer_like self) /\
     map (fun kv => dims_rank (hm_dimensions (snd kv))) res
     = flat_map (fun _ => hist_ranks) (TestProblem.tracers self))
  /\
  (forall pre t md post,
     NoDup (TestProblem.tracer_names self) ->
     TestProblem.tracers self = pre ++ (t, md) :: post ->
     (forall t' md', In (t', md') pre -> described md') ->
     Nc.mem (tm_attrs md) "long_name" = false ->
     hist_vars_metadata units_str_format self = Raise (KeyError "long_name")).
Proof.
  split.
  - intros Hnd Hdesc.
    assert (Hn : NoDup (TestProblem.tracer_names self)).
    { clear - Hnd. induction (TestProblem.tracer_names self) as [|t ts IH];
        [constructor|].
      cbn [flat_map hist_names app] in Hnd.
      apply NoDup_cons_iff in Hnd. destruct Hnd as [Ht Hnd].
      constructor.
      - intros I. apply Ht. right. do 4 right. apply in_flat_map.
        exists t. split; [exact I | now left].
      - apply IH. now do 5 (apply NoDup_cons_iff in Hnd;
                            destruct Hnd as [_ Hnd]). }
    unfold hist_vars_metadata. rewrite (tracer_like_explicit self Hn).
    destruct (hist_vars_metadata_fold units_str_format
                (sa_units (TestProblem.depth self))
                (map (fun kv => (fst kv, tm_attrs (snd kv)))
                   (TestProblem.tracers self)) [])
      as [l [El [Kl Rl]]].
    { intros t attrs I. apply in_map_iff in I.
      destruct I as [[t' md] [E I]]. injection E as <- <-.
      exact (Hdesc t' md I). }
    rewrite map_map in Kl. cbn [fst] in Kl.
    change (map (fun x => fst x) (TestProblem.tracers self))
      with (TestProblem.tracer_names self) in Kl.
    rewrite set_all_fresh in El.
    + exists l. split; [exact El|]. split; [exact Kl|].
      rewrite Rl. clear. induction (TestProblem.tracers self) as [|kv t IH];
        [reflexivity|]. cbn [map flat_map]. now rewrite IH.
    + unfold Nc.keys. now rewrite Kl.
    + intros k _ [].
  - intros pre t md post Hn Et Hpre Hl.
    unfold hist_vars_metadata. rewrite (tracer_like_explicit self Hn), Et.
    rewrite map_app, fold_left_app.
    destruct (hist_vars_metadata_fold units_str_format
                (sa_units (TestProblem.depth self))
                (map (fun kv => (fst kv, tm_attrs (snd kv))) pre) [])
      as [l [El _]].
    { intros t' attrs I. apply in_map_iff in I.
      destruct I as [[t'' md'] [E I]]. injection E as <- <-.
      exact (Hpre t'' md' I). }
    match goal with
    | |- fold_left ?f ?xs _ = _ =>
        transitivity
          (fold_left f xs
             (OK (fold_left (fun r kv => Nc.set r (fst kv) (snd kv)) l [])));
          [apply f_equal; exact El|]
    end.
    cbn [map fold_left bind fst snd].
    rewrite hist_vars_metadata_tracer_undescribed by exact Hl.
    apply hist_vars_metadata_fold_raise.
Qed.

Lemma hist_vars_metadata_declares_witness :
  (exists res,
     hist_vars_metadata (fun s => s) tp_module_described = OK res /\
     Nc.keys res
     = flat_map hist_names (TestProblem.hist_vars_tracer_like tp_module_described) /\
     map (fun kv => dims_rank (hm_dimensions (snd kv))) res
     = flat_map (fun _ => hist_ranks) (TestProblem.tracers tp_module_described))
  /\ hist_vars_metadata (fun s => s) (tp_module ["a"])
     = Raise (KeyError "long_name").
Proof.
  split.
  - apply (proj1 (hist_vars_metadata_declares (fun s => s) tp_module_described)).
    + repeat constructor; cbn; intuition discriminate.
    + intros t md [E|[]]. injection E as <- <-. split; reflexivity.
  - apply (proj2 (hist_vars_metadata_declares (fun s => s) (tp_module ["a"]))
             [] "a" no_metadata []).
    + repeat constructor; cbn; tauto.
    + reflexivity.
    + intros t' md' [].
    + reflexivity.
Defined.

(** ** [write_hist_vars] on any series *)

Lemma zip_with_map_seq (op : Q -> Q -> Q) (f g : nat -> Q) (s n : nat) :
  Np.zip_with op (map f (seq s n)) (map g (seq s n))
  = map (fun d => op (f d) (g d)) (seq s n).
Proof.
  revert s. induction n as [|n IH]; intros s; [reflexivity|].
  cbn [seq map Np.zip_with]. now rewrite IH.
Qed.

Section AnySeries.

Variable np_sqrt : Q -> Q.
Variable self : TestProblem.TracerModuleState.
Variable a : Nd.array3.
Variable w : list Q.

Hypothesis weights_length : List.length w = Nd.dim2 a.
Hypothesis time_nonempty : (1 <= Nd.dim2 a)%nat.
Hypothesis depth_fits :
  List.length (sa_delta (TestProblem.depth self)) = Nd.dim1 a.

Let T : nat := Nd.dim2 a.
Let D : nat := Nd.dim1 a.
Let delta : list Q := sa_delta (TestProblem.depth self).
Let row (i t : nat) : list Q := map (fun d => at3 a i d t) (seq 0 D).
Let tv (i : nat) : Nd.ndarray :=
  {| Nd.shape := [T; D]; Nd.data := flat_map (row i) (seq 0 T) |}.
Let mean (i d : nat) : Q := sum_upto (fun t => nth t w 0 * at3 a i d t) T.
Let anom (i d t : nat) : Q := at3 a i d t - mean i d.
Let anom_row (i t : nat) : list Q := map (fun d => anom i d t) (seq 0 D).

Lemma length_row (i t : nat) : List.length (row i t) = D.
Proof. unfold row. now rewrite length_map, length_seq. Qed.

Lemma length_anom_row (i t : nat) : List.length (anom_row i t) = D.
Proof. unfold anom_row. now rewrite length_map, length_seq. Qed.

Lemma chunk_tv_series (i t : nat) :
  (t < T)%nat -> Nd.chunk D t (Nd.data (tv i)) = row i t.
Proof.
  intros Ht. cbn [tv Nd.data].
  apply (chunk_flat_map (row i)); [intros; apply length_row | exact Ht].
Qed.

Lemma slice_transposed_series (i : nat) :
  (i < Nd.dim0 a)%nat -> Nd.slice_transposed a i = OK (tv i).
Proof.
  intros Hi. unfold Nd.slice_transposed.
  destruct (Nat.ltb_spec i (Nd.dim0 a)); [|lia].
  unfold tv. f_equal. f_equal. fold T D.
  apply flat_map_ext_in. intros t Ht. apply in_seq in Ht.
  unfold row. apply map_ext_in. intros d Hd. apply in_seq in Hd.
  rewrite nth_chunk by (fold D T; nia). reflexivity.
Qed.

Lemma einsum_mean_series (i : nat) :
  Nd.einsum_i w (tv i)
  = OK {| Nd.shape := [D]; Nd.data := map (mean i) (seq 0 D) |}.
Proof.
  unfold tv. rewrite (einsum_i_same_length w T [D] _ weights_length).
  f_equal. f_equal. rewrite size_single.
  apply map_ext_in. intros d Hd. apply in_seq in Hd.
  unfold mean, sum_upto. f_equal.
  apply map_ext_in. intros t Ht. apply in_seq in Ht.
  fold (tv i). change (flat_map (row i) (seq 0 T)) with (Nd.data (tv i)).
  rewrite chunk_tv_series by lia. unfold row.
  now rewrite nth_map_seq by lia.
Qed.

Lemma sub_rows_series (i : nat) :
  TestProblem.sub_rows (tv i)
    {| Nd.shape := [D]; Nd.data := map (mean i) (seq 0 D) |}
  = {| Nd.shape := [T; D]; Nd.data := flat_map (anom_row i) (seq 0 T) |}.
Proof.
  unfold TestProblem.sub_rows. cbn [tv Nd.shape Nd.data].
  f_equal. rewrite size_single.
  apply flat_map_ext_in. intros t Ht. apply in_seq in Ht.
  change (flat_map (row i) (seq 0 T)) with (Nd.data (tv i)).
  rewrite chunk_tv_series by lia. unfold row, anom_row, anom.
  apply zip_with_map_seq.
Qed.

Lemma einsum_var_series (i : nat) :
  Nd.einsum_i w
    {| Nd.shape := [T; D];
       Nd.data := map (fun x => x * x) (flat_map (anom_row i) (seq 0 T)) |}
  = OK {| Nd.shape := [D];
          Nd.data :=
            map (fun d => sum_upto
                            (fun t => nth t w 0 * (anom i d t * anom i d t)) T)
              (seq 0 D) |}.
Proof.
  rewrite (einsum_i_same_length w T [D] _ weights_length).
  f_equal. f_equal. rewrite size_single.
  apply map_ext_in. intros d Hd. apply in_seq in Hd.
  unfold sum_upto. f_equal.
  apply map_ext_in. intros t Ht. apply in_seq in Ht.
  f_equal.
  assert (L : List.length (flat_map (anom_row i) (seq 0 T)) = (T * D)%nat).
  { rewrite (length_flat_map_const _ _ D), length_seq; [reflexivity|].
    intros; apply length_anom_row. }
  rewrite nth_chunk by lia.
  rewrite nth_map_default by (rewrite L; nia).
  rewrite <- nth_chunk by lia.
  rewrite (chunk_flat_map (anom_row i)) by
    (first [intros; apply length_anom_row | lia]).
  cbn [Nat.add]. unfold anom_row. now rewrite nth_map_seq by lia.
Qed.

Lemma last_minus_first_series (i : nat) :
  TestProblem.last_minus_first (tv i)
  = OK (map (fun d => at3 a i d (T - 1) - at3 a i d 0) (seq 0 D)).
Proof.
  unfold TestProblem.last_minus_first. cbn [tv Nd.shape].
  destruct (Nat.eqb_spec T 0); [unfold T in *; lia|].
  f_equal. rewrite size_single. fold (tv i).
  rewrite !chunk_tv_series by (unfold T in *; lia).
  unfold row. apply zip_with_map_seq.
Qed.

Lemma int_vals_mid_series (i : nat) :
  exists res,
    int_vals_mid (TestProblem.depth self) (tv i) = OK res /\
    arr_eq (Nd.data res)
      (map (fun t => sum_upto (fun d => nth d delta 0 * at3 a i d t) D)
         (seq 0 T)).
Proof.
  unfold int_vals_mid. cbn [tv Nd.shape rev app].
  rewrite depth_fits. fold D. unfold Nd.broadcastable.
  rewrite Nat.eqb_refl. cbn [orb]. eexists. split; [reflexivity|].
  cbn [Nd.data]. unfold Nd.rows. rewrite map_map, size_single.
  apply arr_eq_map. intros t Ht. apply in_seq in Ht.
  change (flat_map (row i) (seq 0 T)) with (Nd.data (tv i)).
  rewrite chunk_tv_series by lia.
  unfold Nd.broadcast_mul. fold delta.
  assert (Ld : List.length delta = D) by exact depth_fits.
  rewrite Ld, length_row, Nat.eqb_refl.
  rewrite sum_zip_mult by (now rewrite Ld, length_row).
  rewrite Ld. unfold sum_upto. apply sum_map_ext.
  intros d Hd. apply in_seq in Hd. unfold row.
  now rewrite nth_map_seq by lia.
Qed.

(** One pass of the loop. *)
Lemma write_hist_vars_tracer_series (i : nat) (name : string)
    (fptr : Nc.dataset) :
  (i < Nd.dim0 a)%nat -> declared_for fptr name ->
  exists o,
    TestProblem.write_hist_vars_tracer np_sqrt self w a (i, name) fptr
    = (OK tt, store_all (hist_assignments name o) fptr) /\
    series_hist_values np_sqrt delta w a i o.
Proof.
  intros Hi Hdecl.
  destruct (int_vals_mid_series i) as [dint [Edint Pdint]].
  exists {| hv_tracer := Nd.data (tv i);
            hv_time_mean := map (mean i) (seq 0 D);
            hv_time_anom := flat_map (anom_row i) (seq 0 T);
            hv_time_std :=
              map np_sqrt
                (map (fun d => sum_upto
                                 (fun t => nth t w 0
                                           * (anom i d t * anom i d t)) T)
                   (seq 0 D));
            hv_time_delta :=
              map (fun d => at3 a i d (T - 1) - at3 a i d 0) (seq 0 D);
            hv_depth_int := Nd.data dint |}.
  split.
  - unfold TestProblem.write_hist_vars_tracer. cbn [fst snd].
    rewrite (reading_ok _ (tv i)) by (now apply slice_transposed_series).
    rewrite assign_declared
      by (rewrite <- (append_empty name); apply Hdecl; cbn; tauto).
    rewrite (reading_ok _ _ _ _ (einsum_mean_series i)).
    rewrite assign_declared
      by (rewrite !mem_store; apply Hdecl; cbn; tauto).
    rewrite sub_rows_series. cbn [Nd.shape Nd.data].
    rewrite assign_declared
      by (rewrite !mem_store; apply Hdecl; cbn; tauto).
    rewrite (reading_ok _ _ _ _ (einsum_var_series i)). cbn [Nd.data].
    rewrite assign_declared
      by (rewrite !mem_store; apply Hdecl; cbn; tauto).
    rewrite (reading_ok _ _ _ _ (last_minus_first_series i)).
    rewrite assign_declared
      by (rewrite !mem_store; apply Hdecl; cbn; tauto).
    rewrite (reading_ok _ dint) by exact Edint.
    rewrite assign_declared_last
      by (rewrite !mem_store; apply Hdecl; cbn; tauto).
    reflexivity.
  - unfold series_hist_values.
    cbn [hv_tracer hv_time_mean hv_time_anom hv_time_std hv_time_delta
         hv_depth_int].
    split; [reflexivity|]. split; [reflexivity|]. split; [reflexivity|].
    split; [now rewrite map_map|]. split; [reflexivity | exact Pdint].
Qed.

(** The loop over the tracers, from tracer [k] on. *)
Lemma write_hist_vars_loop_series (names : list string) (k : nat)
    (fptr : Nc.dataset) :
  (k + List.length names <= Nd.dim0 a)%nat ->
  (forall name, In name names -> declared_for fptr name) ->
  exists outs,
    List.length outs = List.length names /\
    Nc.for_each (combine (seq k (List.length names)) names)
      (TestProblem.write_hist_vars_tracer np_sqrt self w a) fptr
    = (OK tt,
       store_all
         (flat_map (fun p => hist_assignments (fst p) (snd p))
            (combine names outs)) fptr) /\
    forall i o, nth_error outs i = Some o ->
                series_hist_values np_sqrt delta w a (k + i) o.
Proof.
  revert k fptr. induction names as [|name names IH]; intros k fptr Hk Hdecl.
  - exists []. split; [reflexivity|]. split; [reflexivity|].
    intros [|i] o; discriminate.
  - cbn [List.length] in Hk.
    destruct (write_hist_vars_tracer_series k name fptr) as [o [Eo Po]];
      [lia | apply Hdecl; now left |].
    destruct (IH (S k) (store_all (hist_assignments name o) fptr))
      as [outs [Louts [Eouts Pouts]]]; [lia| |].
    { intros n Hn sfx Hsfx. rewrite mem_store_all.
      apply Hdecl; [now right|exact Hsfx]. }
    exists (o :: outs). split; [cbn; now rewrite Louts|]. split.
    + cbn [List.length seq combine Nc.for_each flat_map fst snd].
      unfold Nc.bind_io at 1. rewrite Eo, Eouts, store_all_app. reflexivity.
    + intros [|i] o' Ho'.
      * injection Ho' as <-. now rewrite Nat.add_0_r.
      * cbn [nth_error] in Ho'. replace (k + S i)%nat with (S k + i)%nat by lia.
        now apply Pouts.
Qed.

End AnySeries.



(** ** The stats of a history file are its time means *)

Lemma hist_names_keys (names : list string) (outs : list hist_values) :
  List.length outs = List.length names ->
  map fst (flat_map (fun p => hist_assignments (fst p) (snd p))
             (combine names outs))
  = flat_map hist_names names.
Proof.
  revert outs. induction names as [|t names IH]; intros [|o outs] L;
    try discriminate; [reflexivity|].
  cbn [combine flat_map fst snd]. rewrite map_app, IH by (cbn in L; lia).
  reflexivity.
Qed.

Lemma weights_of_dimensions (f g : Nc.dataset) :
  Nc.ds_dimensions f = Nc.ds_dimensions g ->
  TestProblem.hist_time_mean_weights f = TestProblem.hist_time_mean_weights g.
Proof.
  intros H. unfold TestProblem.hist_time_mean_weights, Nc.dim_len.
  now rewrite H.
Qed.

Lemma dim_lens_of_dimensions (f g : Nc.dataset) (dims : list string) :
  Nc.ds_dimensions f = Nc.ds_dimensions g ->
  Nc.dim_lens f dims = Nc.dim_lens g dims.
Proof.
  intros H. unfold Nc.dim_lens. induction dims as [|k dims IH];
    [reflexivity|].
  cbn [mapM]. unfold Nc.dim_len at 1 3. now rewrite H, IH.
Qed.

Lemma stats_fold (fptr : Nc.dataset) (w : list Q) (M : string -> Nd.ndarray)
    (names : list string) (acc : Nc.dict Nd.ndarray) :
  NoDup names -> (forall t, In t names -> ~ In t (Nc.keys acc)) ->
  (forall t, In t names ->
     exists tv, read_var fptr t = OK tv /\ Nd.einsum_i w tv = OK (M t)) ->
  fold_left
    (fun acc tracer_name =>
       let* res := acc in
       let* tracer_vals := read_var fptr tracer_name in
       let* mean := Nd.einsum_i w tracer_vals in
       OK (Nc.set res tracer_name mean))
    names (OK acc)
  = OK (acc ++ map (fun t => (t, M t)) names).
Proof.
  intros Hnd. revert acc. induction Hnd as [|t names Ht Hnd IH];
    intros acc Hf Hr.
  - cbn. now rewrite app_nil_r.
  - cbn [fold_left map bind].
    destruct (Hr t (or_introl eq_refl)) as [tv [Er Em]].
    rewrite Er. cbn [bind]. rewrite Em. cbn [bind].
    rewrite set_fresh by (apply get_not_in; apply Hf; now left).
    rewrite IH.
    + now rewrite <- app_assoc.
    + intros t' Ht' I. unfold Nc.keys in I. rewrite map_app, in_app_iff in I.
      destruct I as [I|[E|[]]]; [apply (Hf t'); [now right | exact I]|].
      cbn in E. congruence.
    + intros t' Ht'. apply Hr. now right.
Qed.



(** ** Moving both end edges *)

Lemma arr_eq_cumsum_from (acc acc' : Q) (a b : list Q) :
  acc == acc' -> arr_eq a b ->
  arr_eq (Np.cumsum_from acc a) (Np.cumsum_from acc' b).
Proof.
  intros Hacc H. revert acc acc' Hacc.
  induction H as [|x y a b Hxy _ IH]; intros acc acc' Hacc; [constructor|].
  cbn [Np.cumsum_from]. constructor; [now rewrite Hacc, Hxy|].
  apply IH. now rewrite Hacc, Hxy.
Qed.

Lemma arr_eq_cumsum (a b : list Q) :
  arr_eq a b -> arr_eq (Np.cumsum a) (Np.cumsum b).
Proof.
  intros H. destruct H as [|x y a b Hxy H]; [constructor|].
  cbn [Np.cumsum]. constructor; [exact Hxy|].
  now apply arr_eq_cumsum_from.
Qed.

Lemma arr_eq_map2 (f g : Q -> Q) (a b : list Q) :
  (forall x y, x == y -> f x == g y) -> arr_eq a b ->
  arr_eq (map f a) (map g b).
Proof.
  intros Hfg H. induction H as [|x y a b Hxy _ IH]; [constructor|].
  cbn [map]. constructor; [now apply Hfg | exact IH].
Qed.

(** X27.  The thicknesses depend on the two end edges through their difference
    only: moving both by [c] changes no thickness, and every generated
    edge moves by [c]; the call fails on the moved definition exactly as
    on the original. *)
Theorem gen_edges_shifted (c : Q) (d : defn_dict) :
  match _gen_edges d, _gen_edges (shifted c d) with
  | OK edges, OK edges' => arr_eq edges' (map (fun e => e + c) edges)
  | Raise e, Raise e' => e = e'
  | _, _ => False
  end.
Proof.
  unfold _gen_edges, gen_delta, gen_delta_avg.
  cbn [shifted nlevs edge_start edge_end delta_ratio_max].
  destruct (Np.linspace (-1) 1 (nlevs d)) as [coord|e]; [|reflexivity].
  cbn [bind]. destruct (nlevs d =? 0)%Z; [reflexivity|]. cbn [bind].
  destruct (Qlt_le_dec (delta_ratio_max d) 1); [reflexivity|]. cbn [bind].
  cbn [map]. constructor; [reflexivity|].
  rewrite (map_map (fun c0 => edge_start d + c0) (fun e => e + c)).
  apply arr_eq_map2; [intros x y Hxy; cbv beta; rewrite Hxy; ring|].
  apply arr_eq_cumsum. apply arr_eq_map. intros s _.
  assert (E : edge_end d + c - (edge_start d + c) == edge_end d - edge_start d)
    by ring.
  now rewrite E.
Qed.

(** * What rounding does

    The statements above that equate numbers are statements of exact
    arithmetic.  The lemmas of this module evaluate the binary64 reading
    of the same code, [B64], at inputs where the rounded numbers differ
    from the exact ones. *)

Module Rounding.

Import PrimFloat.
Import B64Inputs.
Local Open Scope float_scope.

(** ** Lengths and exceptions do not depend on the arithmetic *)

Lemma zip_with_length_b64 (f : float -> float -> float) (a b : list float) :
  List.length (B64.zip_with f a b)
  = Nat.min (List.length a) (List.length b).
Proof.
  revert b. induction a as [|x a IH]; intros [|y b]; cbn; auto.
Qed.

(** The derived arrays have the lengths they have in exact arithmetic:
    [max(0, len(edges) - 1)] midpoints and thicknesses. *)
Lemma derive_lengths_b64 (edges : list float) :
  List.length (B64.delta (B64.derive edges))
  = (List.length edges - 1)%nat /\
  List.length (B64.mid (B64.derive edges)) = (List.length edges - 1)%nat /\
  List.length (B64.delta_r (B64.derive edges))
  = (List.length edges - 1)%nat.
Proof.
  assert (L1 : List.length (tl edges) = (List.length edges - 1)%nat)
    by (destruct edges; cbn; lia).
  assert (L2 : List.length (removelast edges) = (List.length edges - 1)%nat)
    by (destruct edges; [reflexivity|]; rewrite removelast_firstn_len,
        length_firstn; cbn; lia).
  cbn [B64.derive B64.delta B64.mid B64.delta_r].
  rewrite !length_map, !zip_with_length_b64, L1, L2. lia.
Qed.

(** A single stored time: the division raises in binary64 as well. *)
Lemma hist_time_mean_weights_single_b64 (fptr : Nc.dataset) :
  Nc.dim_len fptr "time" = OK 1%nat ->
  B64.hist_time_mean_weights fptr = Raise ZeroDivisionError.
Proof.
  intros H. unfold B64.hist_time_mean_weights. rewrite H. reflexivity.
Qed.

(** ** The time weights *)


(** ** The statistics of a series that is constant in time *)


(** ** The generated thicknesses *)

(** The running example of the spec: the edges (the third is
    [30.246913580246911]) end at [edge_end], and the largest thickness
    is three times the smallest, also in binary64. *)
Example gen_edges_defn_4 :
  B64._gen_edges defn_4
  = OK [0; 12.5; 0x1.e3f35ba781948p+4; 62.5; 100] /\
  exists delta,
    B64.gen_delta defn_4 = OK delta /\
    (nth 3 delta 0 / nth 0 delta 0 =? 3) = true.
Proof.
  split; [vm_compute; reflexivity|].
  eexists. split; vm_compute; reflexivity.
Qed.

(** With a ratio of [1e17] the first thickness, 50 less 50 in exact
    arithmetic up to one part in [1e17], is rounded to zero: the largest
    thickness over the smallest is an infinity, and the first two edges
    coincide. *)
Lemma gen_delta_ratio_lost :
  (1 <=? B64.delta_ratio_max defn_4_huge_ratio) = true /\
  exists delta edges,
    B64.gen_delta defn_4_huge_ratio = OK delta /\
    nth 0 delta 1 = 0 /\ nth 3 delta 0 = 50 /\
    nth 3 delta 0 / nth 0 delta 1 = infinity /\
    B64._gen_edges defn_4_huge_ratio = OK edges /\
    nth 0 edges 1 = nth 1 edges 0.
Proof.
  split; [vm_compute; reflexivity|].
  do 2 eexists. repeat split; vm_compute; reflexivity.
Qed.

(** On the default depth axis (30 layers from 0 to 900, ratio 5) twice
    the mean thickness is 60; four of the thirty sums of mirrored
    thicknesses are the next smaller binary64 number. *)
Lemma gen_delta_mirror_rounded :
  exists delta,
    B64.gen_delta defn_depth = OK delta /\
    List.length delta = 30%nat /\
    (2 * ((B64.edge_end defn_depth - B64.edge_start defn_depth) / 30) =? 60)
    = true /\
    (nth 0 delta 0 + nth 29 delta 0 =? 60) = true /\
    (nth 1 delta 0 + nth 28 delta 0 =? 60) = false /\
    List.length
      (filter (fun i => negb (nth i delta 0 + nth (29 - i) delta 0 =? 60))
         (seq 0 30))
    = 4%nat.
Proof.
  eexists. split; [vm_compute; reflexivity|].
  repeat split; vm_compute; reflexivity.
Qed.

(** The default depth axis itself comes out with strictly increasing
    edges that end at 900. *)
Example gen_edges_defn_depth :
  exists edges,
    B64._gen_edges defn_depth = OK edges /\
    List.length edges = 31%nat /\
    last edges 0 = 900 /\
    forallb (fun x => 0 <? x) (B64.delta (B64.derive edges)) = true.
Proof.
  eexists. split; [vm_compute; reflexivity|].
  repeat split; vm_compute; reflexivity.
Qed.

(** ** The invariant of a constructed axis *)

(** Between [1e16] and [1e16 + 2] there is one binary64 number only: the
    definition has [edge_start < edge_end], yet three of the four
    generated layers have no thickness and their reciprocals are
    infinities. *)
Lemma gen_edges_repeated_edges :
  (B64.edge_start defn_4_far <? B64.edge_end defn_4_far) = true /\
  exists edges,
    B64._gen_edges defn_4_far = OK edges /\
    nth 0 edges 0 = nth 1 edges 1 /\
    B64.delta (B64.derive edges) = [0; 0; 2; 0] /\
    B64.delta_r (B64.derive edges) = [infinity; infinity; 0.5; infinity].
Proof.
  split; [vm_compute; reflexivity|].
  eexists. repeat split; vm_compute; reflexivity.
Qed.

(** A thickness can be positive and its reciprocal still overflow: edges
    [0] and [2^-1030]. *)
Lemma derive_reciprocal_overflows :
  B64.delta (B64.derive [0; 0x1p-1030]) = [0x1p-1030] /\
  (0 <? 0x1p-1030) = true /\
  B64.delta_r (B64.derive [0; 0x1p-1030]) = [infinity].
Proof. repeat split; vm_compute; reflexivity. Qed.

(** ** A ratio that is not a number *)

(** [nan < 1.0] is false: a nan for [delta_ratio_max] passes the check,
    and every edge after the first is a nan. *)
Lemma gen_edges_nan_ratio :
  (B64.delta_ratio_max defn_4_nan_ratio <? 1) = false /\
  (1 <=? B64.delta_ratio_max defn_4_nan_ratio) = false /\
  exists edges,
    B64._gen_edges defn_4_nan_ratio = OK edges /\
    List.length edges = 5%nat /\
    forallb is_nan (tl edges) = true.
Proof.
  split; [reflexivity|]. split; [reflexivity|].
  eexists. split; [vm_compute; reflexivity|].
  split; vm_compute; reflexivity.
Qed.

(** ** The derived arrays *)

(** For the edges nearest to [0, 0.1, 0.3] the distance of the midpoints
    is not half the sum of the two thicknesses. *)
Lemma derive_midpoints_rounded :
  let ax := B64.derive [0; 0x1.999999999999ap-4; 0x1.3333333333333p-2] in
  exists d0 d1 dm,
    B64.delta ax = [d0; d1] /\ B64.delta_mid ax = [dm] /\
    (dm =? 0.5 * (d0 + d1)) = false.
Proof. do 3 eexists. repeat split; vm_compute; reflexivity. Qed.

End Rounding.
